(** * apt-dump-pgf: selection and join engine of DumpPgf.cpp

    A shallow embedding of the class [dumpPgf] (fusion_sdk/file/TsvFile/DumpPgf.cpp)
    and the properties of its selection strategies, taxonomy matcher,
    column catalogue, coordinate resolver and row assembler. *)

From Stdlib Require Import ZArith Lia String Ascii List DecimalString.
From Equations.Prop Require Import Equations Logic.
From stdpp Require Import base gmap list strings.

Open Scope Z_scope.
Open Scope string_scope.
Open Scope list_scope.

(** ** std::string primitives used by the source *)

(** [s.find (needle, pos)]: first index at or after [pos] where [needle]
    occurs; [None] is [string::npos]. *)
Definition find (s needle : string) (pos : nat) : option nat :=
  String.index pos needle s.

(** [s.substr (pos, n)]. *)
Definition substr (s : string) (pos n : nat) : string :=
  String.substring pos n s.

(** [s.substr (pos)]: everything from [pos] on. *)
Definition substr_from (s : string) (pos : nat) : string :=
  String.substring pos (String.length s - pos) s.

(** [ToStr (int)], also the text [operator<<] writes for an int. *)
Definition ToStr (z : Z) : string :=
  NilZero.string_of_int (Z.to_int z).

(** [std::find (begin, end, x) != end] over a vector of strings. *)
Fixpoint std_find (l : list string) (x : string) : bool :=
  match l with
  | [] => false
  | y :: l' => if String.eqb y x then true else std_find l' x
  end.

Lemma index_ge (needle : string) :
  forall (s : string) (pos e : nat), String.index pos needle s = Some e -> (pos <= e)%nat.
Proof.
  induction s as [|c s IH]; intros pos e H.
  - destruct pos; simpl in H.
    + destruct needle; inversion H; lia.
    + discriminate.
  - destruct pos as [|pos]; [lia|].
    simpl in H. destruct (String.index pos needle s) as [m|] eqn:E; inversion H; subst.
    apply IH in E. lia.
Qed.

Lemma substring_length_le :
  forall (s : string) (p n : nat), (String.length (String.substring p n s) <= String.length s - p)%nat.
Proof.
  induction s as [|c s IH]; intros p n.
  - destruct p, n; simpl; lia.
  - destruct p as [|p].
    + destruct n as [|n]; simpl; [lia|]. specialize (IH 0%nat n). lia.
    + simpl. apply IH.
Qed.

Lemma find_bounds (s : string) (a : ascii) (needle : string) (pos e : nat) :
  find s (String a needle) pos = Some e ->
  (pos <= e /\ e + String.length (String a needle) <= String.length s)%nat.
Proof.
  unfold find. intros H. split.
  - eapply index_ge; eauto.
  - pose proof (String.index_correct1 _ _ _ _ H) as Hs.
    pose proof (substring_length_le s e (String.length (String a needle))) as Hl.
    rewrite Hs in Hl. simpl in Hl. simpl. lia.
Qed.

(** ** Taxonomy matcher: [dumpPgf::splitTypes]

    The [for (;;)] loop of the source, from the position [substrBegin] with
    the segments pushed so far in [inputTypes].  Each turn either breaks or
    moves [substrBegin] past a delimiter, so the loop ends. *)
Equations? splitTypes_from (inputString : string) (substrBegin : nat)
  (inputTypes : list string) : list string
  by wf (S (String.length inputString) - substrBegin)%nat lt :=
  splitTypes_from inputString substrBegin inputTypes
    with inspect (find inputString "->" substrBegin) => {
    | exist _ None _ :=
        (* No more '->' - save what's left, quit. *)
        let subString := substr_from inputString substrBegin in
        if String.eqb subString "" then inputTypes
        else inputTypes ++ [subString];
    | exist _ (Some substrEnd) Hfind :=
        (* Avoid null strings from an initial '->' or '->->'. *)
        splitTypes_from inputString (substrEnd + 2)
          (if Nat.eqb substrEnd substrBegin then inputTypes
           else inputTypes ++
                [substr inputString substrBegin (substrEnd - substrBegin)]) }.
Proof.
  apply find_bounds in Hfind. simpl in Hfind. lia.
Qed.

(** [inputTypes.clear()], then the loop from position 0. *)
Definition splitTypes (inputString : string) : list string :=
  splitTypes_from inputString 0 [].

(** ** The tabular sources

    [TsvFile], [SequentialClfFile], [PgOptions], [Guid] and [Util] are
    used by DumpPgf.cpp but are not part of it; the definitions of this
    section stand for them. *)

(** Modelled from the spec: a leaf record of the design table (TsvFile
    level 2), "identifier (integer) + ordered list of named scalar fields,
    excluding the identifier". *)
Record LeafRecord := mkLeaf {
  leaf_id : Z;
  leaf_fields : list string }.

(** Modelled from the spec: a mid-level record (TsvFile level 1), "ordered
    list of named scalar fields; no identifier of its own", owning its leaf
    records. *)
Record MidRecord := mkMid {
  mid_fields : list string;
  mid_leaves : list LeafRecord }.

(** Modelled from the spec: a parent record (TsvFile level 0), "identifier
    (integer) + ordered list of named scalar fields (strings), excluding
    the identifier", owning its mid-level records. *)
Record ParentRecord := mkParent {
  parent_id : Z;
  parent_fields : list string;
  parent_mids : list MidRecord }.

(** Modelled from the spec: the primary hierarchical design table behind
    [m_PgfTsv]: its header meta tags, the column names of the three levels
    and the parent records in stored order. *)
Record PgfSource := mkPgf {
  pgf_headers : list (string * string);
  pgf_cols0 : list string;
  pgf_cols1 : list string;
  pgf_cols2 : list string;
  pgf_records : list ParentRecord }.

(** Modelled from the spec: one line of the secondary coordinate table. *)
Record ClfRecord := mkClfRec {
  clf_probe_id : Z;
  clf_x : Z;
  clf_y : Z }.

(** Modelled from the spec: the secondary coordinate table behind
    [m_ClfTsv].  [clf_sequential] is the outcome of the structural probe
    [SequentialClfFile::isSequential]: [Some f] for a regular layout, with
    [f] the closed form of [SequentialClfFile::getProbeCoordinates]. *)
Record ClfSource := mkClf {
  clf_records : list ClfRecord;
  clf_sequential : option (Z -> Z * Z) }.

(** Modelled from the spec: what the run finds outside the process.
    [fs_idlist name col] is the integer column [col] of the id-list file
    [name], [None] when [TsvFile::open] fails (no such file, or the column
    bound with [TSV_BIND_REQUIRED] is missing).  [seek_binds_parents] says
    whether [TsvFile::findNext], seeking to a level-2 line, also refreshes
    the variables bound at levels 0 and 1; the source does not decide it.
    [indeterminate] is the value of the [int] members the constructor
    leaves uninitialised. *)
Record Env := mkEnv {
  fs_pgf : string -> option PgfSource;
  fs_clf : string -> option ClfSource;
  fs_idlist : string -> string -> option (list Z);
  fs_writable : string -> bool;
  new_guid : nat -> string;
  asctime_now : string;
  seek_binds_parents : bool;
  indeterminate : Z }.

(** The command line as [PgOptions::parseOptions] hands it over: for an
    option that can be given several times, the values of all its
    occurrences in order. *)
Record Options := mkOptions {
  argv : list string;
  opt_pgf_file : string;
  opt_clf_file : string;
  opt_probeset_type : list string;
  opt_probeset_ids : list string;
  opt_probe_ids : list string;
  opt_probeset_only : bool;
  opt_or : bool;
  opt_out_file : string;
  opt_version : bool;
  opt_help : bool }.

(** ** The object [dumpPgf] *)

(** The two targets of the member-function pointer [m_GetProbeCoordinates]. *)
Inductive CoordMethod :=
| getCoordsBySequentialClf_ptr
| getCoordsByIndex_ptr.

(** Members fixed by the constructor. *)
Record Members := mkMembers {
  m_Version : string;
  m_CvsId : string;
  m_PgfFileName : string;
  m_ClfFileName : string;
  m_ProbesetTypes : list string;
  m_ProbesetIdFileNames : list string;
  m_ProbeIdFileNames : list string;
  m_DumpProbesetsOnly : bool;
  m_DumpUnion : bool;
  m_Outfile : string;
  m_CommandLine : string }.

(** Members fixed by [openInputFiles].  [m_GetProbeCoordinates = None] is
    the null pointer.  [binds0], [binds1], [binds2] record the calls
    [m_PgfTsv.bind (level, i, &vec[k])] as pairs (i, k);
    [pgf_index], [clf_index] record the calls of [defineIndex]. *)
Record Layout := mkLayout {
  m_PgfTsv : option PgfSource;
  m_ClfTsv : option ClfSource;
  m_GetProbeCoordinates : option CoordMethod;
  m_ProbesetDataCount : Z;
  m_AtomDataCount : Z;
  m_ProbeDataCount : Z;
  m_ProbesetTypeCol : nat;
  m_OutputColNames : list string;
  binds0 : list (nat * nat);
  binds1 : list (nat * nat);
  binds2 : list (nat * nat);
  pgf_index : list (nat * string);
  clf_index : list (nat * string) }.

(** Variables bound to columns, and the read cursor of [m_PgfTsv]:
    [cur_mids] holds the level-1 records below the level-0 line the cursor
    is on. *)
Record Vars := mkVars {
  m_PgfProbesetId : Z;
  m_ProbesetData : list string;
  m_AtomProbeData : list string;
  m_PgfProbeId : Z;
  m_ClfX : Z;
  m_ClfY : Z;
  cur_mids : list MidRecord }.

(** One indexed lookup, [findBegin (level, column, TSV_OP_EQ, id)]. *)
Inductive Source := PgfFile | ClfFile.

Record Lookup := mkLookup {
  lk_source : Source;
  lk_level : nat;
  lk_column : string;
  lk_id : Z }.

(** The streams and the trace of what the run touched: the lines written
    to [*m_Out] (without their newline), the messages on [cerr], the files
    opened for reading or writing, and the indexed lookups made.
    [m_OutLine] is the text written to [*m_Out] since the last newline. *)
Record Streams := mkStreams {
  m_Out : list string;
  m_OutLine : string;
  cerr : list string;
  opened : list string;
  lookups : list Lookup }.

Record dumpPgf := mkDumpPgf {
  members : Members;
  m_ProbesetIds : list Z;
  m_ProbeIds : list Z;
  m_ExecGuid : string;
  layout : Layout;
  vars : Vars;
  io : Streams }.

(** The same configuration with --probeset-only switched on or off. *)
Definition with_DumpProbesetsOnly (b : bool) (mb : Members) : Members :=
  mkMembers (m_Version mb) (m_CvsId mb) (m_PgfFileName mb) (m_ClfFileName mb)
    (m_ProbesetTypes mb) (m_ProbesetIdFileNames mb) (m_ProbeIdFileNames mb)
    b (m_DumpUnion mb) (m_Outfile mb) (m_CommandLine mb).

Definition set_members (v : Members) (s : dumpPgf) : dumpPgf :=
  mkDumpPgf v (m_ProbesetIds s) (m_ProbeIds s) (m_ExecGuid s) (layout s) (vars s) (io s).
Definition set_ProbesetIds (v : list Z) (s : dumpPgf) : dumpPgf :=
  mkDumpPgf (members s) v (m_ProbeIds s) (m_ExecGuid s) (layout s) (vars s) (io s).
Definition set_ProbeIds (v : list Z) (s : dumpPgf) : dumpPgf :=
  mkDumpPgf (members s) (m_ProbesetIds s) v (m_ExecGuid s) (layout s) (vars s) (io s).
Definition set_ExecGuid (v : string) (s : dumpPgf) : dumpPgf :=
  mkDumpPgf (members s) (m_ProbesetIds s) (m_ProbeIds s) v (layout s) (vars s) (io s).
Definition set_layout (v : Layout) (s : dumpPgf) : dumpPgf :=
  mkDumpPgf (members s) (m_ProbesetIds s) (m_ProbeIds s) (m_ExecGuid s) v (vars s) (io s).
Definition set_vars (v : Vars) (s : dumpPgf) : dumpPgf :=
  mkDumpPgf (members s) (m_ProbesetIds s) (m_ProbeIds s) (m_ExecGuid s) (layout s) v (io s).
Definition set_io (v : Streams) (s : dumpPgf) : dumpPgf :=
  mkDumpPgf (members s) (m_ProbesetIds s) (m_ProbeIds s) (m_ExecGuid s) (layout s) (vars s) v.

Definition put_text (t : string) (o : Streams) : Streams :=
  mkStreams (m_Out o) (m_OutLine o +:+ t) (cerr o) (opened o) (lookups o).
Definition put_endl (o : Streams) : Streams :=
  mkStreams (m_Out o ++ [m_OutLine o]) "" (cerr o) (opened o) (lookups o).
Definition put_cerr (l : string) (o : Streams) : Streams :=
  mkStreams (m_Out o) (m_OutLine o) (cerr o ++ [l]) (opened o) (lookups o).
Definition put_opened (f : string) (o : Streams) : Streams :=
  mkStreams (m_Out o) (m_OutLine o) (cerr o) (opened o ++ [f]) (lookups o).
Definition put_lookup (l : Lookup) (o : Streams) : Streams :=
  mkStreams (m_Out o) (m_OutLine o) (cerr o) (opened o) (lookups o ++ [l]).

(** ** Fatal errors and the monad of member functions

    [Err::errAbort] throws (the constructor calls
    [Err::setThrowStatus (true)]); a failed [assert] aborts: the program
    is taken with its assertions compiled in ([NDEBUG], further down, has
    [openInputFiles] as compiled without them).  What was written before
    the failure stays written, so the state survives it. *)
Inductive Error :=
| ErrAbort (msg : string)
| AssertFailed (expr : string).

Definition M (A : Type) : Type := dumpPgf -> (Error + A) * dumpPgf.

Definition ret {A : Type} (a : A) : M A := fun s => (inr a, s).

Definition bind {A B : Type} (m : M A) (f : A -> M B) : M B :=
  fun s => match m s with
           | (inl e, s') => (inl e, s')
           | (inr a, s') => f a s'
           end.

Declare Scope dump_scope.
Delimit Scope dump_scope with dump.
Notation "x <- m ;; k" := (bind m (fun x => k))
  (at level 100, m at next level, right associativity) : dump_scope.
Notation "m ;; k" := (bind m (fun _ => k))
  (at level 100, right associativity) : dump_scope.
Open Scope dump_scope.

Definition errAbort {A : Type} (msg : string) : M A :=
  fun s => (inl (ErrAbort msg), s).

Definition assert_ (cond : bool) (expr : string) : M unit :=
  fun s => if cond then (inr tt, s) else (inl (AssertFailed expr), s).

Definition gets {A : Type} (f : dumpPgf -> A) : M A := fun s => (inr (f s), s).

Definition modify (f : dumpPgf -> dumpPgf) : M unit := fun s => (inr tt, f s).

Definition when (c : bool) (m : M unit) : M unit := if c then m else ret tt.

(** A [for] loop over a vector, or a [while] loop over the records one
    level of a source yields; it stops at the first failure. *)
Fixpoint forM_ {A : Type} (l : list A) (body : A -> M unit) : M unit :=
  match l with
  | [] => ret tt
  | x :: l' => body x ;; forM_ l' body
  end.

(** [*m_Out << t], [*m_Out << "\n"], [cerr << ... << "\n"]. *)
Definition out_text (t : string) : M unit := modify (fun s => set_io (put_text t (io s)) s).
Definition out_endl : M unit := modify (fun s => set_io (put_endl (io s)) s).
Definition cerr_line (l : string) : M unit := modify (fun s => set_io (put_cerr l (io s)) s).
Definition log_open (f : string) : M unit := modify (fun s => set_io (put_opened f (io s)) s).
Definition log_lookup (l : Lookup) : M unit := modify (fun s => set_io (put_lookup l (io s)) s).

Definition nl : string := String (ascii_of_nat 10) "".
Definition tab : string := String (ascii_of_nat 9) "".

Definition str_empty (s : string) : bool := String.eqb s "".
Definition vec_empty {A : Type} (l : list A) : bool :=
  match l with [] => true | _ => false end.

(** The object before the constructor body runs: vectors empty, strings
    empty, [m_GetProbeCoordinates (0)], the [int] and [unsigned int]
    members indeterminate. *)
Definition blank (u : Z) : dumpPgf :=
  mkDumpPgf
    (mkMembers "" "" "" "" [] [] [] false false "" "")
    [] [] ""
    (mkLayout None None None u u u (Z.to_nat u) [] [] [] [] [] [])
    (mkVars u [] [] u u u [])
    (mkStreams [] "" [] [] []).

Section Engine.

Variable env : Env.

(** ** Constructor [dumpPgf::dumpPgf] *)

Definition usage : string :=
  "apt-dump-pgf - Dump information from a pgf file.".

(** [Util::mustOpenToWrite]: abort unless the file can be opened. *)
Definition mustOpenToWrite (name : string) : M unit :=
  if fs_writable env name then log_open name
  else errAbort ("Couldn't open file: " +:+ name +:+ " to write.").

(** The loops over [typeOpt->next]: keep the values that are not empty. *)
Definition nonempty_values (values : list string) : list string :=
  List.filter (fun v => negb (Nat.eqb (String.length v) 0)) values.

(** [m_CommandLine = argv[0]; for (i = 1; i < argc; ++i) m_CommandLine += " " + argv[i]]. *)
Definition commandLine (args : list string) : string :=
  match args with
  | [] => ""
  | a0 :: rest => fold_left (fun acc a => acc +:+ (" " +:+ a)) rest a0
  end.

Definition dumpPgf_ctor (version cvsId : string) (o : Options) : M unit :=
  let argc := List.length (argv o) in
  (* Optionally display usage message. *)
  when (opt_help o || Nat.eqb argc 1)
    (cerr_line usage ;;
     errAbort ("version:" +:+ nl +:+ "   " +:+ version +:+ nl +:+ "   " +:+ cvsId)) ;;
  (* Optionally display version. *)
  when (opt_version o)
    (errAbort ("version: " +:+ version +:+ "   " +:+ cvsId)) ;;
  (* Require pgf file. *)
  let pgfFileName := opt_pgf_file o in
  when (str_empty pgfFileName) (errAbort "FATAL: Must provide pgf file.") ;;
  let clfFileName := opt_clf_file o in
  let probesetTypes := nonempty_values (opt_probeset_type o) in
  let probesetIdFileNames := nonempty_values (opt_probeset_ids o) in
  let probeIdFileNames := nonempty_values (opt_probe_ids o) in
  (* Allow only one of probeset-type, probeset-ids, or probe-ids options. *)
  let optionsChosen : Z :=
    ((if vec_empty probesetTypes then 0 else 1)
     + (if vec_empty probesetIdFileNames then 0 else 1)
     + (if vec_empty probeIdFileNames then 0 else 1))%Z in
  when (optionsChosen >? 1)%Z
    (errAbort "FATAL: Cannot mix use of --probeset-ids, --probe-ids, and --probeset-type.") ;;
  let dumpProbesetsOnly := opt_probeset_only o in
  let dumpUnion := opt_or o in
  (* Probeset-only is incompatible with a probe-ids list. *)
  when (dumpProbesetsOnly && negb (vec_empty probeIdFileNames))
    (errAbort "FATAL: Cannot use --probeset-only with --probe-ids.") ;;
  let outfile := opt_out_file o in
  (if str_empty outfile
   then errAbort "FATAL: Must provide an output file, --out-file option."
   else mustOpenToWrite outfile) ;;
  assert_ (0 <? argc)%nat "argc > 0" ;;
  modify (set_members
    (mkMembers version cvsId pgfFileName clfFileName probesetTypes
       probesetIdFileNames probeIdFileNames dumpProbesetsOnly dumpUnion
       outfile (commandLine (argv o)))).

(** ** [dumpPgf::readIdFiles] *)

(** The [while (tsv.nextLevel (0) == TSV_OK)] loop over one id file:
    [probesetIdsMap.insert (...).second] holds when the key was absent. *)
Fixpoint insertIds (rows : list Z) (idsMap : gmap Z bool) (ids : list Z)
  : gmap Z bool * list Z :=
  match rows with
  | [] => (idsMap, ids)
  | id :: rows' =>
      match idsMap !! id with
      | None => insertIds rows' (<[id := true]> idsMap) (ids ++ [id])
      | Some _ => insertIds rows' idsMap ids
      end
  end.

(** The loop over the file names of one option; [column] is the column
    bound with [TSV_BIND_REQUIRED]. *)
Fixpoint readIdFileList (column what : string) (names : list string)
  (idsMap : gmap Z bool) (ids : list Z) : M (list Z) :=
  match names with
  | [] => ret ids
  | name :: names' =>
      match fs_idlist env name column with
      | None => errAbort ("Problem opening " +:+ what +:+ " id file " +:+ name)
      | Some rows =>
          log_open name ;;
          let r := insertIds rows idsMap ids in
          readIdFileList column what names' (fst r) (snd r)
      end
  end.

Definition readIdFiles : M unit :=
  mb <- gets members ;;
  (* Probeset id file(s). *)
  ids0 <- gets m_ProbesetIds ;;
  probesetIds <- readIdFileList "probeset_id" "probeset" (m_ProbesetIdFileNames mb) ∅ ids0 ;;
  modify (set_ProbesetIds probesetIds) ;;
  cerr_line ("Found " +:+ ToStr (Z.of_nat (List.length probesetIds))
             +:+ " probesets in probeset list files.") ;;
  (* Probe id file(s). *)
  ids2 <- gets m_ProbeIds ;;
  probeIds <- readIdFileList "probe_id" "probe" (m_ProbeIdFileNames mb) ∅ ids2 ;;
  modify (set_ProbeIds probeIds) ;;
  cerr_line ("Found " +:+ ToStr (Z.of_nat (List.length probeIds))
             +:+ " probes in probe list files.").

(** ** [dumpPgf::beginOutput] *)
Definition beginOutput : M unit :=
  mb <- gets members ;;
  cerr_line ("MODULE: " +:+ m_Version mb +:+ " " +:+ m_CvsId mb) ;;
  cerr_line ("CMD: " +:+ m_CommandLine mb) ;;
  modify (set_ExecGuid (new_guid env 0)) ;;
  cerr_line ("exec_guid " +:+ new_guid env 0).


(** ** [dumpPgf::openInputFiles] *)

Definition lift_err {A : Type} (r : Error + A) : M A :=
  fun s => (r, s).

(** [unsigned int] subtraction of one. *)
Definition usub1 (n : Z) : Z := (n - 1) mod 2 ^ 32.

(** Modelled from the spec: [TsvFile::open] fails when the file is
    missing or a column bound with [TSV_BIND_REQUIRED] is: "probeset_id"
    at level 0 always, "probe_id" at level 2 unless [m_DumpProbesetsOnly]. *)
Definition tsv_open_pgf (name : string) (probesetsOnly : bool) : option PgfSource :=
  match fs_pgf env name with
  | None => None
  | Some src =>
      if std_find (pgf_cols0 src) "probeset_id" &&
         (probesetsOnly || std_find (pgf_cols2 src) "probe_id")
      then Some src else None
  end.

(** The level-0 column loop: local [k], local [foundType],
    [m_ProbesetTypeCol], [m_OutputColNames] and the bindings made. *)
Definition Cols : Type := (nat * bool * nat * list string * list (nat * nat))%type.

(** The loop with its assertion compiled in: a first column other than
    "probeset_id" aborts.  [NDEBUG.bindProbesetColumns] is the loop
    without it. *)
Fixpoint bindProbesetColumns (i : nat) (cols : list string) (a : Cols)
  : Error + Cols :=
  match cols with
  | [] => inr a
  | colName :: cols' =>
      let '(k, foundType, typeCol, names, binds) := a in
      let names := names ++ [colName] in
      (* To make generating output simpler, require that the first
         column is the probeset_id. *)
      if Nat.eqb i 0 && negb (String.eqb colName "probeset_id")
      then inl (AssertFailed "! ((i == 0) && (colName != 'probeset_id')) ")
      else if negb (String.eqb colName "probeset_id") then
        let '(typeCol, foundType) :=
          if String.eqb colName "type" then (k, true) else (typeCol, foundType) in
        bindProbesetColumns (S i) cols' (S k, foundType, typeCol, names, binds ++ [(i, k)])
      else bindProbesetColumns (S i) cols' (k, foundType, typeCol, names, binds)
  end.

(** The level-1 column loop: [k], [m_OutputColNames], bindings. *)
Fixpoint bindAtomColumns (i : nat) (cols : list string)
  (a : nat * list string * list (nat * nat)) : nat * list string * list (nat * nat) :=
  match cols with
  | [] => a
  | colName :: cols' =>
      let '(k, names, binds) := a in
      bindAtomColumns (S i) cols' (S k, names ++ [colName], binds ++ [(i, k)])
  end.

(** The level-2 column loop, with its assertion compiled in: a first
    column other than "probe_id" aborts.  [NDEBUG.bindProbeColumns] is the
    loop without it. *)
Fixpoint bindProbeColumns (i : nat) (cols : list string)
  (a : nat * list string * list (nat * nat))
  : Error + (nat * list string * list (nat * nat)) :=
  match cols with
  | [] => inr a
  | colName :: cols' =>
      let '(k, names, binds) := a in
      let names := names ++ [colName] in
      (* Again, require that the first probe level column is the probe_id. *)
      if Nat.eqb i 0 && negb (String.eqb colName "probe_id")
      then inl (AssertFailed "! ((i == 0) && (colName != 'probe_id')) ")
      else if negb (String.eqb colName "probe_id")
      then bindProbeColumns (S i) cols' (S k, names, binds ++ [(i, k)])
      else bindProbeColumns (S i) cols' (k, names, binds)
  end.

(** What the second half of [openInputFiles] ("Set up output header, bind
    pgf file data") fixes: the three counts, [m_ProbesetTypeCol],
    [m_OutputColNames] and the bindings of the three levels. *)
Record Catalog := mkCatalog {
  cat_ProbesetDataCount : Z;
  cat_AtomDataCount : Z;
  cat_ProbeDataCount : Z;
  cat_ProbesetTypeCol : nat;
  cat_OutputColNames : list string;
  cat_binds0 : list (nat * nat);
  cat_binds1 : list (nat * nat);
  cat_binds2 : list (nat * nat) }.

Definition bindColumns (mb : Members) (lay : Layout) (pgf : PgfSource)
  : Error + Catalog :=
  let probesetDataCount := Z.of_nat (List.length (pgf_cols0 pgf)) in
  match bindProbesetColumns 0 (pgf_cols0 pgf)
          (0%nat, false, m_ProbesetTypeCol lay, m_OutputColNames lay, binds0 lay) with
  | inl e => inl e
  | inr (_, foundType, typeCol, names0, b0) =>
      (* Subtract probeset_id column from data count. *)
      let probesetDataCount := usub1 probesetDataCount in
      (* Require type column if user requested -probeset-type. *)
      if negb (vec_empty (m_ProbesetTypes mb)) && negb foundType
      then inl (ErrAbort "No type column in pgf file")
      (* Bind atom, probe level data unless -probeset-only selected. *)
      else if m_DumpProbesetsOnly mb then
        inr (mkCatalog probesetDataCount 0 0 typeCol names0 b0 (binds1 lay) (binds2 lay))
      else
        let atomDataCount := Z.of_nat (List.length (pgf_cols1 pgf)) in
        let probeDataCount := Z.of_nat (List.length (pgf_cols2 pgf)) in
        let '(k1, names1, b1) :=
          bindAtomColumns 0 (pgf_cols1 pgf) (0%nat, names0, binds1 lay) in
        match bindProbeColumns 0 (pgf_cols2 pgf) (k1, names1, binds2 lay) with
        | inl e => inl e
        | inr (_, names2, b2) =>
            (* Subtract probe_id column from data count. *)
            let probeDataCount := usub1 probeDataCount in
            (* If using a clf file, will write x and y columns. *)
            let names3 :=
              if negb (str_empty (m_ClfFileName mb))
              then (names2 ++ ["x"]) ++ ["y"] else names2 in
            inr (mkCatalog probesetDataCount atomDataCount probeDataCount
                   typeCol names3 b0 b1 b2)
        end
  end.

(** Open pgf file. *)
Definition openPgfFile : M PgfSource :=
  mb <- gets members ;;
  match tsv_open_pgf (m_PgfFileName mb) (m_DumpProbesetsOnly mb) with
  | None => errAbort ("Problem opening file " +:+ m_PgfFileName mb +:+ ".")
  | Some src => log_open (m_PgfFileName mb) ;; ret src
  end.

(** If a clf file name was provided, open it, and choose the way to
    obtain coordinates: [m_ClfTsv], [m_GetProbeCoordinates] and the
    indexes defined on the clf file.  The columns "probe_id", "x" and "y"
    the source binds as required are the fields of [ClfRecord]. *)
Definition openClfFile
  : M (option ClfSource * option CoordMethod * list (nat * string)) :=
  mb <- gets members ;;
  lay <- gets layout ;;
  if negb (str_empty (m_ClfFileName mb)) then
    match fs_clf env (m_ClfFileName mb) with
    | None => errAbort ("Problem opening file " +:+ m_ClfFileName mb +:+ ".")
    | Some clf =>
        log_open (m_ClfFileName mb) ;;
        match clf_sequential clf with
        | Some _ =>
            (* If sequential, calculate coordinates by simple arithmetic. *)
            ret (Some clf, Some getCoordsBySequentialClf_ptr, clf_index lay)
        | None =>
            (* Not sequential, use index to find coordinates. *)
            ret (Some clf, Some getCoordsByIndex_ptr,
                 clf_index lay ++ [(0%nat, "probe_id")])
        end
    end
  else ret (m_ClfTsv lay, m_GetProbeCoordinates lay, clf_index lay).

Definition openInputFiles : M unit :=
  cerr_line "Reading meta data from PGF and CLF files" ;;
  mb <- gets members ;;
  lay <- gets layout ;;
  vs <- gets vars ;;
  pgf <- openPgfFile ;;
  c <- openClfFile ;;
  (* If probeset-ids file(s) were provided, index over probeset_id;
     likewise for probe ids. *)
  let pgfIndex :=
    pgf_index lay
    ++ (if negb (vec_empty (m_ProbesetIdFileNames mb)) then [(0%nat, "probeset_id")] else [])
    ++ (if negb (vec_empty (m_ProbeIdFileNames mb)) then [(2%nat, "probe_id")] else []) in
  (* Set up output header, bind pgf file data. *)
  cat <- lift_err (bindColumns mb lay pgf) ;;
  modify (set_layout
    (mkLayout (Some pgf) (fst (fst c)) (snd (fst c))
       (cat_ProbesetDataCount cat) (cat_AtomDataCount cat) (cat_ProbeDataCount cat)
       (cat_ProbesetTypeCol cat) (cat_OutputColNames cat)
       (cat_binds0 cat) (cat_binds1 cat) (cat_binds2 cat) pgfIndex (snd c))) ;;
  (* m_ProbesetData.resize (m_ProbesetDataCount - 1), and
     m_AtomProbeData.resize (m_AtomDataCount + m_ProbeDataCount - 1)
     unless -probeset-only. *)
  modify (set_vars
    (mkVars (m_PgfProbesetId vs)
       (resize (Z.to_nat (usub1 (Z.of_nat (List.length (pgf_cols0 pgf))))) ""
          (m_ProbesetData vs))
       (if m_DumpProbesetsOnly mb then m_AtomProbeData vs
        else resize (Z.to_nat (usub1 ((Z.of_nat (List.length (pgf_cols1 pgf))
                                       + Z.of_nat (List.length (pgf_cols2 pgf)))
                                      mod 2 ^ 32))) ""
               (m_AtomProbeData vs))
       (m_PgfProbeId vs) (m_ClfX vs) (m_ClfY vs) (cur_mids vs))).

(** ** [dumpPgf::writeOutputHeader] *)

(** Propagate only chip_type, lib_set_version, and lib_set_name. *)
Definition propagated (key : string) : bool :=
  String.eqb key "chip_type" || String.eqb key "lib_set_version"
  || String.eqb key "lib_set_name".

(** The header line: the first name, then a tab and a name for each of
    the others. *)
Definition headerLine (names : list string) : string :=
  match names with
  | [] => ""
  | n0 :: rest => fold_left (fun acc n => acc +:+ tab +:+ n) rest n0
  end.

Definition writeOutputHeader : M unit :=
  mb <- gets members ;;
  lay <- gets layout ;;
  execGuid <- gets m_ExecGuid ;;
  (* Generic apt meta tags. *)
  out_text ("#%guid=" +:+ new_guid env 1) ;; out_endl ;;
  out_text ("#%exec_guid=" +:+ execGuid) ;; out_endl ;;
  out_text ("#%exec_version=" +:+ m_Version mb +:+ " " +:+ m_CvsId mb) ;; out_endl ;;
  out_text ("#%create_date=" +:+ asctime_now env) ;; out_endl ;;
  out_text ("#%cmd=" +:+ m_CommandLine mb) ;; out_endl ;;
  (* Copy genome position file header meta tags to output. *)
  forM_ (match m_PgfTsv lay with Some pgf => pgf_headers pgf | None => [] end)
    (fun kv => when (propagated (fst kv))
                 (out_text ("#%" +:+ fst kv +:+ "=" +:+ snd kv) ;; out_endl)) ;;
  (* Write header line. *)
  assert_ (0 <? List.length (m_OutputColNames lay))%nat "colNameCount > 0" ;;
  out_text (headerLine (m_OutputColNames lay)) ;; out_endl.

(** ** Reading the sources through [TsvFile] *)

(** Text of column [i] of a line, at each level; the identifier is the
    first column. *)
Definition parent_cell (p : ParentRecord) (i : nat) : string :=
  match i with
  | O => ToStr (parent_id p)
  | S j => nth j (parent_fields p) ""
  end.

Definition mid_cell (m : MidRecord) (i : nat) : string :=
  nth i (mid_fields m) "".

Definition leaf_cell (l : LeafRecord) (i : nat) : string :=
  match i with
  | O => ToStr (leaf_id l)
  | S j => nth j (leaf_fields l) ""
  end.

(** Modelled from the spec: reading a line stores, for each binding
    (i, k) of its level, column i in slot k of the bound vector. *)
Definition populate (binds : list (nat * nat)) (cell : nat -> string)
  (data : list string) : list string :=
  fold_left (fun d b => <[snd b := cell (fst b)]> d) binds data.

(** The cursor comes to a level-0 line. *)
Definition read0 (p : ParentRecord) : M unit :=
  modify (fun s =>
    let vs := vars s in
    set_vars (mkVars (parent_id p)
                (populate (binds0 (layout s)) (parent_cell p) (m_ProbesetData vs))
                (m_AtomProbeData vs) (m_PgfProbeId vs) (m_ClfX vs) (m_ClfY vs)
                (parent_mids p)) s).

(** The cursor comes to a level-1 line. *)
Definition read1 (m : MidRecord) : M unit :=
  modify (fun s =>
    let vs := vars s in
    set_vars (mkVars (m_PgfProbesetId vs) (m_ProbesetData vs)
                (populate (binds1 (layout s)) (mid_cell m) (m_AtomProbeData vs))
                (m_PgfProbeId vs) (m_ClfX vs) (m_ClfY vs) (cur_mids vs)) s).

(** The cursor comes to a level-2 line; "probe_id" is bound to
    [m_PgfProbeId] unless [m_DumpProbesetsOnly]. *)
Definition read2 (l : LeafRecord) : M unit :=
  modify (fun s =>
    let vs := vars s in
    set_vars (mkVars (m_PgfProbesetId vs) (m_ProbesetData vs)
                (populate (binds2 (layout s)) (leaf_cell l) (m_AtomProbeData vs))
                (if m_DumpProbesetsOnly (members s) then m_PgfProbeId vs else leaf_id l)
                (m_ClfX vs) (m_ClfY vs) (cur_mids vs)) s).

(** The cursor comes to a line of the clf file: "x" and "y" are bound to
    [m_ClfX] and [m_ClfY]. *)
Definition readClf (r : ClfRecord) : M unit :=
  modify (fun s =>
    let vs := vars s in
    set_vars (mkVars (m_PgfProbesetId vs) (m_ProbesetData vs) (m_AtomProbeData vs)
                (m_PgfProbeId vs) (clf_x r) (clf_y r) (cur_mids vs)) s).

Definition set_ClfXY (x y : Z) : M unit :=
  modify (fun s =>
    let vs := vars s in
    set_vars (mkVars (m_PgfProbesetId vs) (m_ProbesetData vs) (m_AtomProbeData vs)
                (m_PgfProbeId vs) x y (cur_mids vs)) s).

Definition index_defined (ix : list (nat * string)) (level : nat) (col : string) : bool :=
  existsb (fun e => Nat.eqb (fst e) level && String.eqb (snd e) col) ix.

Definition pgf_of (s : dumpPgf) : list ParentRecord :=
  match m_PgfTsv (layout s) with Some pgf => pgf_records pgf | None => [] end.

Definition clf_of (s : dumpPgf) : list ClfRecord :=
  match m_ClfTsv (layout s) with Some clf => clf_records clf | None => [] end.

(** Modelled from the spec: the level-0 lines an indexed lookup on
    "probeset_id" returns, in stored order. *)
Definition findProbesets (records : list ParentRecord) (id : Z) : list ParentRecord :=
  List.filter (fun p => Z.eqb (parent_id p) id) records.

(** Modelled from the spec: the level-2 lines an indexed lookup on
    "probe_id" returns, each with the lines it lies under. *)
Definition findProbes (records : list ParentRecord) (id : Z)
  : list (ParentRecord * MidRecord * LeafRecord) :=
  flat_map (fun p =>
    flat_map (fun m =>
      flat_map (fun l => if Z.eqb (leaf_id l) id then [(p, m, l)] else [])
        (mid_leaves m))
      (parent_mids p))
    records.

(** Modelled from the spec: the clf lines an indexed lookup on "probe_id"
    returns. *)
Definition findCoords (records : list ClfRecord) (id : Z) : list ClfRecord :=
  List.filter (fun r => Z.eqb (clf_probe_id r) id) records.

(** [findBegin (level, column, TSV_OP_EQ, id) == TSV_OK]: the lookup needs
    the index [defineIndex] declared. *)
Definition findBegin (src : Source) (level : nat) (col : string) (id : Z) : M bool :=
  log_lookup (mkLookup src level col id) ;;
  s <- gets (fun s => s) ;;
  ret (index_defined
         (match src with
          | PgfFile => pgf_index (layout s)
          | ClfFile => clf_index (layout s)
          end) level col).

(** [m_PgfTsv.findNext ()] after a level-2 lookup. *)
Definition seekProbe (r : ParentRecord * MidRecord * LeafRecord) : M unit :=
  let '(p, m, l) := r in
  if seek_binds_parents env then read0 p ;; read1 m ;; read2 l
  else read2 l.

(** ** Coordinate resolver *)

(** [dumpPgf::getCoordsBySequentialClf]. *)
Definition getCoordsBySequentialClf (probeId : Z) : M unit :=
  lay <- gets layout ;;
  match m_ClfTsv lay with
  | Some clf =>
      match clf_sequential clf with
      | Some getProbeCoordinates =>
          set_ClfXY (fst (getProbeCoordinates probeId)) (snd (getProbeCoordinates probeId))
      | None => ret tt
      end
  | None => ret tt
  end.

(** [dumpPgf::getCoordsByIndex]; it looks [m_PgfProbeId] up, not its
    argument. *)
Definition getCoordsByIndex (probeId : Z) : M unit :=
  mb <- gets members ;;
  vs <- gets vars ;;
  ok <- findBegin ClfFile 0 "probe_id" (m_PgfProbeId vs) ;;
  when (negb ok) (errAbort ("Problem reading clf file " +:+ m_ClfFileName mb)) ;;
  results <- gets (fun s => findCoords (clf_of s) (m_PgfProbeId vs)) ;;
  let resultCount := Z.of_nat (List.length results) in
  (* Fatal error if more than one match was found. *)
  if (resultCount >? 1)%Z then
    errAbort ("FATAL: probe_id '" +:+ ToStr (m_PgfProbeId vs)
              +:+ "' is not a unique index. Duplicate probe_id found, ["
              +:+ ToStr (m_PgfProbeId vs) +:+ "] for clf file " +:+ m_ClfFileName mb)
  else if (resultCount =? 1)%Z then
    (* Found one match - read x, y. *)
    match results with
    | r :: _ => readClf r
    | [] => errAbort ("Problem reading clf file " +:+ m_ClfFileName mb)
    end
  (* Write null x, y coordinates if no match found. *)
  else set_ClfXY (-1) (-1).

(** ** Output row assembler *)

(** [for (j = 0; j < count; ++j) *m_Out << "\t" << data[from + j]]. *)
Definition tabbed (data : list string) (from : nat) (count : Z) : string :=
  fold_left (fun acc j => acc +:+ tab +:+ nth (from + j) data "")
    (seq 0 (Z.to_nat count)) "".

(** [(this->*m_GetProbeCoordinates) (probeId)]; [writeMatches] asserts
    that the pointer is set. *)
Definition callGetProbeCoordinates (probeId : Z) : M unit :=
  lay <- gets layout ;;
  match m_GetProbeCoordinates lay with
  | Some getCoordsBySequentialClf_ptr => getCoordsBySequentialClf probeId
  | Some getCoordsByIndex_ptr => getCoordsByIndex probeId
  | None => lift_err (inl (AssertFailed "m_GetProbeCoordinates"))
  end.

(** The x and y fields of a line: each is left empty when the
    coordinate is negative. *)
Definition dumpCoords : M unit :=
  vs <- gets vars ;;
  out_text tab ;;
  (* Write null coordinates if not defined. *)
  when (m_ClfX vs >=? 0)%Z (out_text (ToStr (m_ClfX vs))) ;;
  out_text tab ;;
  when (m_ClfY vs >=? 0)%Z (out_text (ToStr (m_ClfY vs))).

(** [dumpPgf::dumpProbeData]. *)
Definition dumpProbeData : M unit :=
  mb <- gets members ;;
  lay <- gets layout ;;
  vs <- gets vars ;;
  out_text (ToStr (m_PgfProbesetId vs)) ;;
  out_text (tabbed (m_ProbesetData vs) 0 (m_ProbesetDataCount lay)) ;;
  (* Keeping atom, probe level data, excluding probe_id, in the
     m_AtomProbeData vector. *)
  out_text (tabbed (m_AtomProbeData vs) 0 (m_AtomDataCount lay)) ;;
  out_text (tab +:+ ToStr (m_PgfProbeId vs)) ;;
  out_text (tabbed (m_AtomProbeData vs) (Z.to_nat (m_AtomDataCount lay))
              (m_ProbeDataCount lay)) ;;
  (* Dump x, y columns if a clf file is in use. *)
  when (negb (str_empty (m_ClfFileName mb)))
    (callGetProbeCoordinates (m_PgfProbeId vs) ;; dumpCoords) ;;
  out_endl.

(** [dumpPgf::dumpProbesetData]. *)
Definition dumpProbesetData : M unit :=
  mb <- gets members ;;
  lay <- gets layout ;;
  vs <- gets vars ;;
  (* If dumping probesets only, write out data. *)
  if m_DumpProbesetsOnly mb then
    out_text (ToStr (m_PgfProbesetId vs)) ;;
    out_text (tabbed (m_ProbesetData vs) 0 (m_ProbesetDataCount lay)) ;;
    out_endl
  else
    (* Read, dump atom, probe level data. *)
    forM_ (cur_mids vs) (fun m =>
      read1 m ;;
      forM_ (mid_leaves m) (fun l => read2 l ;; dumpProbeData)).

(** ** [dumpPgf::writeMatches] *)

(** Body of the loop over [m_ProbesetIds]. *)
Definition dumpProbesetById (probesetId : Z) : M unit :=
  mb <- gets members ;;
  ok <- findBegin PgfFile 0 "probeset_id" probesetId ;;
  when (negb ok) (errAbort ("Problem reading pgf file " +:+ m_PgfFileName mb)) ;;
  results <- gets (fun s => findProbesets (pgf_of s) probesetId) ;;
  let resultCount := Z.of_nat (List.length results) in
  (* Skip if no match. *)
  if (resultCount =? 0)%Z then ret tt
  else
    (* Fatal error if more than one match was found. *)
    when (resultCount >? 1)%Z
      (errAbort ("FATAL: probeset_id '" +:+ ToStr probesetId
                 +:+ "' is not a unique index. Duplicate probeset_id found, ["
                 +:+ ToStr probesetId +:+ "] for pgf file " +:+ m_PgfFileName mb)) ;;
    (* Found one match - read, write data. *)
    match results with
    | p :: _ => read0 p
    | [] => errAbort ("Problem reading pgf file " +:+ m_PgfFileName mb)
    end ;;
    dumpProbesetData.

(** Body of the loop over [m_ProbeIds]. *)
Definition dumpProbeById (probeId : Z) : M unit :=
  mb <- gets members ;;
  ok <- findBegin PgfFile 2 "probe_id" probeId ;;
  when (negb ok) (errAbort ("Problem reading pgf file " +:+ m_PgfFileName mb)) ;;
  results <- gets (fun s => findProbes (pgf_of s) probeId) ;;
  let resultCount := Z.of_nat (List.length results) in
  (* Skip if no match. *)
  if (resultCount =? 0)%Z then ret tt
  else
    (* Fatal error if more than one match was found. *)
    when (resultCount >? 1)%Z
      (errAbort ("FATAL: probe_id '" +:+ ToStr probeId
                 +:+ "' is not a unique index. Duplicate probe_id found, ["
                 +:+ ToStr probeId +:+ "] for pgf file " +:+ m_PgfFileName mb)) ;;
    (* Found one match - read, write data. *)
    match results with
    | r :: _ => seekProbe r
    | [] => errAbort ("Problem reading pgf file " +:+ m_PgfFileName mb)
    end ;;
    dumpProbeData.

(** [-or]: the loop over [pgfFileTypes] that dumps the probeset at the
    first type found among the user's, then breaks. *)
Fixpoint dumpIfAnyRequested (userTypes pgfFileTypes : list string) : M unit :=
  match pgfFileTypes with
  | [] => ret tt
  | t :: pgfFileTypes' =>
      if std_find userTypes t then dumpProbesetData
      else dumpIfAnyRequested userTypes pgfFileTypes'
  end.

(** Default 'and': the loop over the user's types that clears
    [noMismatchFound] at the first one absent from [pgfFileTypes]. *)
Fixpoint noMismatchFound (userTypes pgfFileTypes : list string) : bool :=
  match userTypes with
  | [] => true
  | u :: userTypes' =>
      if negb (std_find pgfFileTypes u) then false
      else noMismatchFound userTypes' pgfFileTypes
  end.

(** [splitTypes (m_ProbesetData[m_ProbesetTypeCol], pgfFileTypes)]. *)
Definition currentTypes : M (list string) :=
  gets (fun s =>
    splitTypes (nth (m_ProbesetTypeCol (layout s)) (m_ProbesetData (vars s)) "")).

(** Bodies of the three [while (m_PgfTsv.nextLevel (0) == TSV_OK)] loops. *)
Definition scanOr (userTypes : list string) (p : ParentRecord) : M unit :=
  read0 p ;;
  (* Split type by '->'. *)
  pgfFileTypes <- currentTypes ;;
  (* Dump this probeset_id if pgf file type matches any of those
     specified by the user. *)
  dumpIfAnyRequested userTypes pgfFileTypes.

Definition scanAnd (userTypes : list string) (p : ParentRecord) : M unit :=
  read0 p ;;
  pgfFileTypes <- currentTypes ;;
  (* Dump this probeset_id if type matches all of those specified by
     the user. *)
  when (noMismatchFound userTypes pgfFileTypes) dumpProbesetData.

Definition dumpEvery (p : ParentRecord) : M unit :=
  read0 p ;; dumpProbesetData.

(** The body [writeMatches] runs on every level-0 line when no id list
    was given: by type when types were requested, else every line. *)
Definition scanBody (userTypes : list string) (dumpUnion : bool)
  : ParentRecord -> M unit :=
  if negb (vec_empty userTypes) then
    if dumpUnion then scanOr userTypes else scanAnd userTypes
  else dumpEvery.

(** A record is accepted when the body does what dumping it does. *)
Definition accepted (userTypes : list string) (dumpUnion : bool)
  (p : ParentRecord) (s : dumpPgf) : Prop :=
  scanBody userTypes dumpUnion p s = dumpEvery p s.

Definition writeMatches : M unit :=
  mb <- gets members ;;
  lay <- gets layout ;;
  (* If using a clf file, need a method for obtaining probe coordinates. *)
  when (negb (str_empty (m_ClfFileName mb)))
    (assert_ (match m_GetProbeCoordinates lay with Some _ => true | None => false end)
       "m_GetProbeCoordinates") ;;
  (* Indexing probesets. *)
  if negb (vec_empty (m_ProbesetIdFileNames mb)) then
    cerr_line "Indexing probesets in PGF file" ;;
    cerr_line "Dumping probeset info" ;;
    ids <- gets m_ProbesetIds ;;
    forM_ ids dumpProbesetById
  (* Indexing probes. *)
  else if negb (vec_empty (m_ProbeIdFileNames mb)) then
    cerr_line "Indexing probes in PGF file" ;;
    cerr_line "Dumping probe info" ;;
    ids <- gets m_ProbeIds ;;
    forM_ ids dumpProbeById
  (* Dumping by probeset type. *)
  else if negb (vec_empty (m_ProbesetTypes mb)) then
    cerr_line "Scanning PGF file probe for requested type(s)" ;;
    records <- gets pgf_of ;;
    (* User entered -or. *)
    if m_DumpUnion mb then forM_ records (scanOr (m_ProbesetTypes mb))
    (* Default 'and' - require pgf file types to include all of those
       specified by the user. *)
    else forM_ records (scanAnd (m_ProbesetTypes mb))
  (* None of the above - dump the entire pgf file. *)
  else
    cerr_line "Dumping entire PGF file" ;;
    records <- gets pgf_of ;;
    forM_ records dumpEvery.

(** ** [dumpPgf::run], and the program: construct, then run *)
Definition run : M unit :=
  beginOutput ;;
  readIdFiles ;;
  openInputFiles ;;
  writeOutputHeader ;;
  writeMatches.

Definition main (version cvsId : string) (o : Options) : (Error + unit) * dumpPgf :=
  (dumpPgf_ctor version cvsId o ;; run) (blank (indeterminate env)).

End Engine.

(** ** [openInputFiles] compiled with NDEBUG

    [assert] is a macro: compiled with NDEBUG defined it expands to
    nothing.  The definitions of the section above are the program with
    its assertions compiled in, where a failed assertion aborts.  The two
    assertions of [openInputFiles], on the place of "probeset_id" and of
    "probe_id", are the only check of that place; without them the column
    loops bind the columns as they come.  The definitions of this module
    are the second half of [openInputFiles], and [openInputFiles], as
    compiled with NDEBUG. *)
Module NDEBUG.

(** The level-0 column loop, its assertion expanded to nothing. *)
Fixpoint bindProbesetColumns (i : nat) (cols : list string) (a : Cols) : Cols :=
  match cols with
  | [] => a
  | colName :: cols' =>
      let '(k, foundType, typeCol, names, binds) := a in
      let names := names ++ [colName] in
      if negb (String.eqb colName "probeset_id") then
        let '(typeCol, foundType) :=
          if String.eqb colName "type" then (k, true) else (typeCol, foundType) in
        bindProbesetColumns (S i) cols' (S k, foundType, typeCol, names, binds ++ [(i, k)])
      else bindProbesetColumns (S i) cols' (k, foundType, typeCol, names, binds)
  end.

(** The level-2 column loop, its assertion expanded to nothing. *)
Fixpoint bindProbeColumns (i : nat) (cols : list string)
  (a : nat * list string * list (nat * nat)) : nat * list string * list (nat * nat) :=
  match cols with
  | [] => a
  | colName :: cols' =>
      let '(k, names, binds) := a in
      let names := names ++ [colName] in
      if negb (String.eqb colName "probe_id")
      then bindProbeColumns (S i) cols' (S k, names, binds ++ [(i, k)])
      else bindProbeColumns (S i) cols' (k, names, binds)
  end.

Definition bindColumns (mb : Members) (lay : Layout) (pgf : PgfSource)
  : Error + Catalog :=
  let probesetDataCount := Z.of_nat (List.length (pgf_cols0 pgf)) in
  let '(_, foundType, typeCol, names0, b0) :=
    bindProbesetColumns 0 (pgf_cols0 pgf)
      (0%nat, false, m_ProbesetTypeCol lay, m_OutputColNames lay, binds0 lay) in
  (* Subtract probeset_id column from data count. *)
  let probesetDataCount := usub1 probesetDataCount in
  (* Require type column if user requested -probeset-type. *)
  if negb (vec_empty (m_ProbesetTypes mb)) && negb foundType
  then inl (ErrAbort "No type column in pgf file")
  (* Bind atom, probe level data unless -probeset-only selected. *)
  else if m_DumpProbesetsOnly mb then
    inr (mkCatalog probesetDataCount 0 0 typeCol names0 b0 (binds1 lay) (binds2 lay))
  else
    let atomDataCount := Z.of_nat (List.length (pgf_cols1 pgf)) in
    let probeDataCount := Z.of_nat (List.length (pgf_cols2 pgf)) in
    let '(k1, names1, b1) :=
      bindAtomColumns 0 (pgf_cols1 pgf) (0%nat, names0, binds1 lay) in
    let '(_, names2, b2) :=
      bindProbeColumns 0 (pgf_cols2 pgf) (k1, names1, binds2 lay) in
    (* Subtract probe_id column from data count. *)
    let probeDataCount := usub1 probeDataCount in
    (* If using a clf file, will write x and y columns. *)
    let names3 :=
      if negb (str_empty (m_ClfFileName mb))
      then (names2 ++ ["x"]) ++ ["y"] else names2 in
    inr (mkCatalog probesetDataCount atomDataCount probeDataCount
           typeCol names3 b0 b1 b2).

Definition openInputFiles (env : Env) : M unit :=
  cerr_line "Reading meta data from PGF and CLF files" ;;
  mb <- gets members ;;
  lay <- gets layout ;;
  vs <- gets vars ;;
  pgf <- openPgfFile env ;;
  c <- openClfFile env ;;
  let pgfIndex :=
    pgf_index lay
    ++ (if negb (vec_empty (m_ProbesetIdFileNames mb)) then [(0%nat, "probeset_id")] else [])
    ++ (if negb (vec_empty (m_ProbeIdFileNames mb)) then [(2%nat, "probe_id")] else []) in
  (* Set up output header, bind pgf file data. *)
  cat <- lift_err (bindColumns mb lay pgf) ;;
  modify (set_layout
    (mkLayout (Some pgf) (fst (fst c)) (snd (fst c))
       (cat_ProbesetDataCount cat) (cat_AtomDataCount cat) (cat_ProbeDataCount cat)
       (cat_ProbesetTypeCol cat) (cat_OutputColNames cat)
       (cat_binds0 cat) (cat_binds1 cat) (cat_binds2 cat) pgfIndex (snd c))) ;;
  modify (set_vars
    (mkVars (m_PgfProbesetId vs)
       (resize (Z.to_nat (usub1 (Z.of_nat (List.length (pgf_cols0 pgf))))) ""
          (m_ProbesetData vs))
       (if m_DumpProbesetsOnly mb then m_AtomProbeData vs
        else resize (Z.to_nat (usub1 ((Z.of_nat (List.length (pgf_cols1 pgf))
                                       + Z.of_nat (List.length (pgf_cols2 pgf)))
                                      mod 2 ^ 32))) ""
               (m_AtomProbeData vs))
       (m_PgfProbeId vs) (m_ClfX vs) (m_ClfY vs) (cur_mids vs))).

End NDEBUG.

(** * A worked example *)

(** A design table with four probesets, the id 9 occurring twice. *)
Definition sample_pgf : PgfSource :=
  mkPgf [("chip_type", "HuEx"); ("foo", "bar")]
    ["probeset_id"; "type"; "probeset_name"] ["atom_id"] ["probe_id"; "seq"]
    [ mkParent 5 ["main->rescue->v1"; "ps5"]
        [ mkMid ["a1"] [mkLeaf 101 ["ACGT"]; mkLeaf 102 ["TTTT"]];
          mkMid ["a2"] [mkLeaf 103 ["GG"]] ];
      mkParent 9 ["main->v1"; "ps9"] [mkMid ["a3"] [mkLeaf 104 ["CC"]]];
      mkParent 9 ["control"; "ps9b"] [mkMid ["a4"] [mkLeaf 105 ["AA"]]];
      mkParent 7 ["->rescue"; "ps7"] [] ].

(** A design table whose identifier is not the first column. *)
Definition misplaced_pgf : PgfSource :=
  mkPgf [] ["type"; "probeset_id"] ["atom_id"] ["probe_id"] [].

(** An irregular coordinate table: probe 102 has a negative x, probe 103
    is absent, probe 104 occurs twice. *)
Definition sample_clf : ClfSource :=
  mkClf [mkClfRec 101 3 4; mkClfRec 102 (-2) 7; mkClfRec 104 1 1; mkClfRec 104 2 2] None.

Definition sample_env : Env :=
  mkEnv
    (fun n => if String.eqb n "a.pgf" then Some sample_pgf
              else if String.eqb n "bad.pgf" then Some misplaced_pgf else None)
    (fun n => if String.eqb n "a.clf" then Some sample_clf else None)
    (fun n c => if String.eqb n "ids.txt" && String.eqb c "probeset_id"
                then Some [5; 5; 9; 42]
                else if String.eqb n "pids.txt" && String.eqb c "probe_id"
                then Some [103; 999; 101] else None)
    (fun _ => true) (fun _ => "0000") "Thu Jan  1 00:00:00 1970" false 77.

Definition sample_options (pgf clf : string) (types ids pids : list string)
  (only union : bool) : Options :=
  mkOptions ["apt-dump-pgf"; "-p"; pgf] pgf clf types ids pids only union
    "out.txt" false false.

(** The object once constructed, and once [run] has come to
    [openInputFiles], and to [writeMatches]. *)
Definition constructed (o : Options) : dumpPgf :=
  snd (dumpPgf_ctor sample_env "1.0" "id" o (blank (indeterminate sample_env))).

Definition prepared (o : Options) : dumpPgf :=
  snd ((beginOutput sample_env ;; readIdFiles sample_env) (constructed o)).

Definition configured (o : Options) : dumpPgf :=
  snd ((openInputFiles sample_env ;; writeOutputHeader sample_env) (prepared o)).

Definition full_dump : Options := sample_options "a.pgf" "" [""] [""] [""] false false.
Definition with_coordinates : Options := sample_options "a.pgf" "a.clf" [""] [""] [""] false false.
Definition by_probeset_ids : Options :=
  sample_options "a.pgf" "" [""] ["ids.txt"] [""] false false.
Definition by_types : Options :=
  sample_options "a.pgf" "" ["main"; "rescue"] [""] [""] false false.

(** The state under the indexed coordinate strategy with the cursor on
    the leaf [l]. *)
Definition at_leaf (l : LeafRecord) : dumpPgf := snd (read2 l (configured with_coordinates)).

(** * Vocabulary of the properties *)

(** A tab and a name for each name of the list. *)
Definition tabJoin (names : list string) : string :=
  fold_left (fun acc n => acc +:+ tab +:+ n) names "".

(** The state once the cursor is on the level-0 line [p]. *)
Definition at_record (p : ParentRecord) (s : dumpPgf) : dumpPgf := snd (read0 p s).

(** The taxonomy path of the line the cursor is on. *)
Definition record_path (s : dumpPgf) : list string :=
  splitTypes (nth (m_ProbesetTypeCol (layout s)) (m_ProbesetData (vars s)) "").

(** The state after a lookup was logged, and after text was written to
    the current output line. *)
Definition looked_up (l : Lookup) (s : dumpPgf) : dumpPgf := set_io (put_lookup l (io s)) s.

Definition wrote (t : string) (s : dumpPgf) : dumpPgf := set_io (put_text t (io s)) s.

Definition ended (s : dumpPgf) : dumpPgf := set_io (put_endl (io s)) s.

(** The fatal error of a lookup that returned more than one line. *)
Definition not_unique (column : string) (id : Z) (kind name : string) : Error :=
  ErrAbort ("FATAL: " +:+ column +:+ " '" +:+ ToStr id
            +:+ "' is not a unique index. Duplicate " +:+ column +:+ " found, ["
            +:+ ToStr id +:+ "] for " +:+ kind +:+ " file " +:+ name).

(** The fields of a full-dump line before the coordinates. *)
Definition rowText (s : dumpPgf) : string :=
  ToStr (m_PgfProbesetId (vars s))
  +:+ tabbed (m_ProbesetData (vars s)) 0 (m_ProbesetDataCount (layout s))
  +:+ tabbed (m_AtomProbeData (vars s)) 0 (m_AtomDataCount (layout s))
  +:+ tab +:+ ToStr (m_PgfProbeId (vars s))
  +:+ tabbed (m_AtomProbeData (vars s)) (Z.to_nat (m_AtomDataCount (layout s)))
        (m_ProbeDataCount (layout s)).

(** A coordinate field: the numeral, or nothing for a negative value. *)
Definition coordText (z : Z) : string := if (z >=? 0)%Z then ToStr z else "".

(** The coordinate join cannot abort: there is no clf file, or the
    coordinates are computed, or every id has at most one line in the
    indexed clf file. *)
Definition join_safe (s : dumpPgf) : Prop :=
  m_ClfFileName (members s) = ""
  \/ m_GetProbeCoordinates (layout s) = Some getCoordsBySequentialClf_ptr
  \/ (m_GetProbeCoordinates (layout s) = Some getCoordsByIndex_ptr
      /\ index_defined (clf_index (layout s)) 0 "probe_id" = true
      /\ forall id, (List.length (findCoords (clf_of s) id) <= 1)%nat).

(** [s'] differs from [s] at most in [m_ClfX], [m_ClfY] and the trace of
    lookups. *)
Definition coords_only (s s' : dumpPgf) : Prop :=
  members s' = members s /\ layout s' = layout s
  /\ m_Out (io s') = m_Out (io s) /\ m_OutLine (io s') = m_OutLine (io s)
  /\ m_PgfProbesetId (vars s') = m_PgfProbesetId (vars s)
  /\ m_ProbesetData (vars s') = m_ProbesetData (vars s)
  /\ m_AtomProbeData (vars s') = m_AtomProbeData (vars s)
  /\ m_PgfProbeId (vars s') = m_PgfProbeId (vars s)
  /\ cur_mids (vars s') = cur_mids (vars s).

(** A full-dump line of the leaf [l] below a parent with id [pid]. *)
Definition leaf_line (pid : Z) (l : LeafRecord) (line : string) : Prop :=
  exists mid rest, line = ToStr pid +:+ mid +:+ tab +:+ ToStr (leaf_id l) +:+ rest.

(** A parent-only line of the parent [p]. *)
Definition parent_line (p : ParentRecord) (line : string) : Prop :=
  exists rest, line = ToStr (parent_id p) +:+ rest.

(** The leaf records of a source in stored order, each with its parent. *)
Definition leaves_of (records : list ParentRecord) : list (ParentRecord * LeafRecord) :=
  flat_map (fun p => map (fun l => (p, l)) (flat_map mid_leaves (parent_mids p))) records.

(** The indexed lookups made on the pgf file. *)
Definition pgf_lookups (s : dumpPgf) : list Lookup :=
  List.filter (fun l => match lk_source l with PgfFile => true | ClfFile => false end)
    (lookups (io s)).

(** [s'] has the members, the layout and the pgf lookups of [s]. *)
Definition stable (s s' : dumpPgf) : Prop :=
  members s' = members s /\ layout s' = layout s /\ pgf_lookups s' = pgf_lookups s.

(** An action that, however it ends, keeps the members, the layout and
    the pgf lookups. *)
Definition preserves {A : Type} (m : M A) : Prop :=
  forall s r s', m s = (r, s') -> stable s s'.

(** The ids of a list with duplicates removed, first occurrence kept:
    the head stays, and is struck from what follows. *)
Fixpoint keep_first (l : list Z) : list Z :=
  match l with
  | [] => []
  | x :: l' => x :: List.filter (fun y => negb (Z.eqb y x)) (keep_first l')
  end.

(** [y] is not among the ids pushed so far. *)
Definition unseen (ids : list Z) (y : Z) : bool := negb (existsb (Z.eqb y) ids).


(** ** Vocabulary of the further properties *)

(** A string in which the delimiter "->" does not occur. *)
Definition delimiter_free (seg : string) : Prop := find seg "->" 0 = None.

(** The members the constructor stores for a command line. *)
Definition chosen (version cvsId : string) (o : Options) : Members :=
  mkMembers version cvsId (opt_pgf_file o) (opt_clf_file o)
    (nonempty_values (opt_probeset_type o)) (nonempty_values (opt_probeset_ids o))
    (nonempty_values (opt_probe_ids o)) (opt_probeset_only o) (opt_or o)
    (opt_out_file o) (commandLine (argv o)).

(** At most one of the three ways to select records is in use. *)
Definition one_selection (mb : Members) : Prop :=
  (m_ProbesetTypes mb = [] /\ m_ProbesetIdFileNames mb = [])
  \/ (m_ProbesetTypes mb = [] /\ m_ProbeIdFileNames mb = [])
  \/ (m_ProbesetIdFileNames mb = [] /\ m_ProbeIdFileNames mb = []).

(** A command line the constructor accepts. *)
Definition acceptable (env : Env) (o : Options) : Prop :=
  opt_help o = false /\ (2 <= List.length (argv o))%nat /\ opt_version o = false
  /\ opt_pgf_file o <> ""
  /\ one_selection (chosen "" "" o)
  /\ (opt_probeset_only o = true -> nonempty_values (opt_probe_ids o) = [])
  /\ opt_out_file o <> "" /\ fs_writable env (opt_out_file o) = true.

(** The state after files were opened. *)
Definition having_opened (names : list string) (s : dumpPgf) : dumpPgf :=
  fold_left (fun s0 n => set_io (put_opened n (io s0)) s0) names s.

(** A command line that selects both by type and by probeset ids. *)
Definition mixed_selection : Options :=
  sample_options "a.pgf" "" ["main"] ["ids.txt"] [""] false false.

(** A command line that lists a probeset id file, one that does not
    exist, and the first one again. *)
Definition two_id_files : Options :=
  sample_options "a.pgf" "" [""] ["ids.txt"; "nowhere.txt"; "ids.txt"] [""] false false.

(** The bindings of [count] consecutive columns, from column [col] on,
    to consecutive slots of a vector, from slot [slot] on. *)
Definition slots (col slot count : nat) : list (nat * nat) :=
  map (fun j => (col + j, slot + j)%nat) (seq 0 count).

(** The [count] entries of a vector from index [from] on. *)
Definition window (data : list string) (from count : nat) : list string :=
  map (fun j => nth (from + j) data "") (seq 0 count).

(** The first [n] fields of a record; a field the line lacks reads as
    empty. *)
Definition fit (n : nat) (fields : list string) : list string := window fields 0 n.

(** The slot [m_ProbesetTypeCol] is left with by the level-0 column loop:
    that of the last column named "type", if any. *)
Fixpoint typeColFrom (k : nat) (cols : list string) (typeCol : nat) : nat :=
  match cols with
  | [] => typeCol
  | c :: cols' => typeColFrom (S k) cols' (if String.eqb c "type" then k else typeCol)
  end.

(** The layout [openInputFiles] leaves on a design table with [n0]
    level-0 columns besides "probeset_id", [n1] level-1 columns and [n2]
    level-2 columns besides "probe_id": each data column is bound to its
    slot, and the vectors are long enough. *)
Definition arranged (n0 n1 n2 : nat) (s : dumpPgf) : Prop :=
  binds0 (layout s) = slots 1 0 n0
  /\ m_ProbesetDataCount (layout s) = Z.of_nat n0
  /\ (n0 <= List.length (m_ProbesetData (vars s)))%nat
  /\ (m_DumpProbesetsOnly (members s) = false ->
      binds1 (layout s) = slots 0 0 n1 /\ binds2 (layout s) = slots 1 n1 n2
      /\ m_AtomDataCount (layout s) = Z.of_nat n1
      /\ m_ProbeDataCount (layout s) = Z.of_nat n2
      /\ (n1 + n2 <= List.length (m_AtomProbeData (vars s)))%nat).

(** The coordinate table a configuration uses, if any. *)
Definition the_clf (env : Env) (mb : Members) : option ClfSource :=
  if str_empty (m_ClfFileName mb) then None else fs_clf env (m_ClfFileName mb).

(** The coordinate strategy [openInputFiles] leaves for the coordinate
    table [clf]: none without a table, arithmetic for a sequential table,
    else the index on "probe_id". *)
Definition joined (clf : option ClfSource) (s : dumpPgf) : Prop :=
  match clf with
  | None => m_ClfFileName (members s) = ""
  | Some c =>
      m_ClfFileName (members s) <> "" /\ m_ClfTsv (layout s) = Some c
      /\ match clf_sequential c with
         | Some _ => m_GetProbeCoordinates (layout s) = Some getCoordsBySequentialClf_ptr
         | None => m_GetProbeCoordinates (layout s) = Some getCoordsByIndex_ptr
                   /\ index_defined (clf_index (layout s)) 0 "probe_id" = true
         end
  end.

(** No member set by [openInputFiles] has been touched yet. *)
Definition unopened (s : dumpPgf) : Prop :=
  m_OutputColNames (layout s) = [] /\ binds0 (layout s) = [] /\ binds1 (layout s) = []
  /\ binds2 (layout s) = [] /\ pgf_index (layout s) = [] /\ clf_index (layout s) = [].

(** The indexes a configuration asks for on the pgf file. *)
Definition requested_index (mb : Members) : list (nat * string) :=
  (if negb (vec_empty (m_ProbesetIdFileNames mb)) then [(0%nat, "probeset_id")] else [])
  ++ (if negb (vec_empty (m_ProbeIdFileNames mb)) then [(2%nat, "probe_id")] else []).

(** The output column names of a design table. *)
Definition column_names (mb : Members) (pgf : PgfSource) : list string :=
  pgf_cols0 pgf
  ++ (if m_DumpProbesetsOnly mb then []
      else pgf_cols1 pgf ++ pgf_cols2 pgf
           ++ (if negb (str_empty (m_ClfFileName mb)) then ["x"; "y"] else [])).

(** The state after complete lines were written to the output. *)
Definition emitted (lines : list string) (s : dumpPgf) : dumpPgf :=
  set_io (mkStreams (m_Out (io s) ++ lines) (m_OutLine (io s)) (cerr (io s))
            (opened (io s)) (lookups (io s))) s.

(** The five generic meta tags at the head of the output. *)
Definition preamble (env : Env) (s : dumpPgf) : list string :=
  [ "#%guid=" +:+ new_guid env 1;
    "#%exec_guid=" +:+ m_ExecGuid s;
    "#%exec_version=" +:+ m_Version (members s) +:+ " " +:+ m_CvsId (members s);
    "#%create_date=" +:+ asctime_now env;
    "#%cmd=" +:+ m_CommandLine (members s) ].

(** The meta tags copied from the pgf file, in its order. *)
Definition copied_tags (kvs : list (string * string)) : list string :=
  map (fun kv => "#%" +:+ fst kv +:+ "=" +:+ snd kv)
    (List.filter (fun kv => propagated (fst kv)) kvs).

(** The x and y fields of a probe's line: none without a coordinate
    table, the computed pair for a sequential table, else the pair of the
    line found for the probe id, both empty when there is none. *)
Definition coordFields (clf : option ClfSource) (probeId : Z) : list string :=
  match clf with
  | None => []
  | Some c =>
      match clf_sequential c with
      | Some getProbeCoordinates =>
          [coordText (fst (getProbeCoordinates probeId));
           coordText (snd (getProbeCoordinates probeId))]
      | None =>
          match findCoords (clf_records c) probeId with
          | r :: _ => [coordText (clf_x r); coordText (clf_y r)]
          | [] => [""; ""]
          end
      end
  end.

(** No probe id has two lines in a coordinate table that is looked up by
    index. *)
Definition unique_coords (clf : option ClfSource) : Prop :=
  match clf with
  | Some c =>
      clf_sequential c = None ->
      forall id, (List.length (findCoords (clf_records c) id) <= 1)%nat
  | None => True
  end.

(** The fields of the line of a parent record, and of the line of a leaf
    record under its mid-level and parent records. *)
Definition parentRow (n0 : nat) (p : ParentRecord) : list string :=
  ToStr (parent_id p) :: fit n0 (parent_fields p).

Definition leafRow (n0 n1 n2 : nat) (clf : option ClfSource)
  (p : ParentRecord) (m : MidRecord) (l : LeafRecord) : list string :=
  parentRow n0 p ++ fit n1 (mid_fields m)
  ++ ToStr (leaf_id l) :: fit n2 (leaf_fields l) ++ coordFields clf (leaf_id l).

(** The lines a parent record is dumped as. *)
Definition rows (only : bool) (n0 n1 n2 : nat) (clf : option ClfSource)
  (p : ParentRecord) : list (list string) :=
  if only then [parentRow n0 p]
  else flat_map (fun m => map (leafRow n0 n1 n2 clf p m) (mid_leaves m)) (parent_mids p).

(** Whether a record with type path [path] is dumped when no id list is
    given. *)
Definition wanted (types : list string) (union : bool) (path : list string) : bool :=
  if vec_empty types then true
  else if union then existsb (std_find types) path
  else noMismatchFound types path.

(** The object is set up for the design table and the coordinate table,
    and no line is under way. *)
Definition ready (n0 n1 n2 : nat) (clf : option ClfSource) (s : dumpPgf) : Prop :=
  arranged n0 n1 n2 s /\ joined clf s /\ m_OutLine (io s) = "".

(** The taxonomy path of a record: its field in the type column, split. *)
Definition path_of (typeCol : nat) (p : ParentRecord) : list string :=
  splitTypes (nth typeCol (parent_fields p) "").

(** The records a scan dumps, in stored order. *)
Definition selected (types : list string) (union : bool) (typeCol : nat)
  (records : list ParentRecord) : list ParentRecord :=
  List.filter (fun p => wanted types union (path_of typeCol p)) records.

(** An action whose every run, however it ends, relates the state it
    starts from to the state it leaves by [R]. *)
Definition keeps (R : dumpPgf -> dumpPgf -> Prop) {A : Type} (m : M A) : Prop :=
  forall s r s', m s = (r, s') -> R s s'.

(** [s'] has the output and the lookups of [s]: nothing was written, and
    no index was used. *)
Definition silent (s s' : dumpPgf) : Prop :=
  m_Out (io s') = m_Out (io s) /\ m_OutLine (io s') = m_OutLine (io s)
  /\ lookups (io s') = lookups (io s).

(** [s'] differs from [s] at most in the id lists, the messages and the
    files opened. *)
Definition quiet (s s' : dumpPgf) : Prop :=
  members s' = members s /\ layout s' = layout s /\ vars s' = vars s
  /\ m_ExecGuid s' = m_ExecGuid s /\ silent s s'.

(** The steps of [run] that come before anything is written. *)
Definition setup (env : Env) : M unit :=
  beginOutput env ;; readIdFiles env ;; openInputFiles env.

(** A regular coordinate table: the coordinates are computed from the id. *)
Definition sequential_clf : ClfSource :=
  mkClf [] (Some (fun id => (id mod 10, id / 10)%Z)).

(** The files of [sample_env] and, besides, a regular coordinate table
    and id lists whose ids have one record at most; a seek to a leaf line
    reads the lines above it. *)
Definition listing_env : Env :=
  mkEnv (fs_pgf sample_env)
    (fun n => if String.eqb n "seq.clf" then Some sequential_clf else fs_clf sample_env n)
    (fun n c => if String.eqb n "few.txt" && String.eqb c "probeset_id"
                then Some [7; 5; 7; 42]
                else if String.eqb n "probes.txt" && String.eqb c "probe_id"
                then Some [104; 0; 101]
                else fs_idlist sample_env n c)
    (fs_writable sample_env) (new_guid sample_env) (asctime_now sample_env) true
    (indeterminate sample_env).



(** A design table without a type column. *)
Definition untyped_pgf : PgfSource :=
  mkPgf [] ["probeset_id"; "probeset_name"] ["atom_id"] ["probe_id"] [].

(** The object set up on the sample design table with the regular
    coordinate table, the cursor on probe 101. *)
Definition at_probe_101 : dumpPgf :=
  snd ((read0 (mkParent 5 ["main->rescue->v1"; "ps5"] []) ;; read1 (mkMid ["a1"] []) ;;
        read2 (mkLeaf 101 ["ACGT"]))
         (snd (openInputFiles listing_env
                 (set_members
                    (chosen "1.0" "id"
                       (sample_options "a.pgf" "seq.clf" [""] [""] [""] false false))
                    (blank 77))))).

(** An environment whose only design table has no type column. *)
Definition untyped_env : Env :=
  mkEnv (fun n => if String.eqb n "u.pgf" then Some untyped_pgf else None)
    (fs_clf sample_env) (fs_idlist sample_env) (fs_writable sample_env)
    (new_guid sample_env) (asctime_now sample_env) false (indeterminate sample_env).

(** A type path written out: its segments with "->" between them. *)
Fixpoint joinTypes (segs : list string) : string :=
  match segs with
  | [] => ""
  | [seg] => seg
  | seg :: segs' => seg +:+ "->" +:+ joinTypes segs'
  end.

(** [s'] has the members and the layout of [s]. *)
Definition same_config (s s' : dumpPgf) : Prop :=
  members s' = members s /\ layout s' = layout s.

(** What [writeMatches] asserts: a way to obtain coordinates is chosen
    whenever a clf file is named. *)
Definition coordinates_chosen (s : dumpPgf) : Prop :=
  m_ClfFileName (members s) = "" \/ m_GetProbeCoordinates (layout s) <> None.

(** An action that keeps the members and the layout and, run where the
    coordinates are chosen, never ends on a failed assertion. *)
Definition asserts_nothing {A : Type} (m : M A) : Prop :=
  keeps same_config m
  /\ forall s r s', coordinates_chosen s -> m s = (r, s') ->
       forall expr, r <> inl (AssertFailed expr).

(** ** Vocabulary of the runs *)

(** The run of a command line up to the call of [writeMatches]: the
    constructor, [beginOutput], [readIdFiles], [openInputFiles] and
    [writeOutputHeader]. *)
Definition upto_writeMatches (env : Env) (version cvsId : string) (o : Options)
  : (Error + unit) * dumpPgf :=
  (dumpPgf_ctor env version cvsId o ;; setup env ;; writeOutputHeader env)
    (blank (indeterminate env)).

(** The probe id has more than one line in a coordinate table that is
    looked up by index: the lookup that aborts the run. *)
Definition clashes (clf : option ClfSource) (id : Z) : bool :=
  match clf with
  | Some c =>
      match clf_sequential c with
      | Some _ => false
      | None => (1 <? List.length (findCoords (clf_records c) id))%nat
      end
  | None => false
  end.

(** The part of a list before its first element that satisfies [f]. *)
Fixpoint before_first {A : Type} (f : A -> bool) (l : list A) : list A :=
  match l with
  | [] => []
  | x :: l' => if f x then [] else x :: before_first f l'
  end.

(** How a dump of leaves ends: on the first leaf whose id clashes, with
    the not-a-unique-index error of the clf file, else normally. *)
Definition join_result {A : Type} (clf : option ClfSource) (name : string)
  (id_of : A -> Z) (leaves : list A) : Error + unit :=
  match List.find (fun x => clashes clf (id_of x)) leaves with
  | Some x => inl (not_unique "probe_id" (id_of x) "clf" name)
  | None => inr tt
  end.

(** The lines and the result of dumping the parent records [kept]: with
    --probeset-only one line per record; in a full dump one line per leaf
    record, in stored order, up to the first leaf whose id clashes in the
    clf file, where the dump ends. *)
Definition dump_of (only : bool) (clf : option ClfSource) (name : string)
  (kept : list ParentRecord) (r : Error + unit) (lines : list string) : Prop :=
  if only then r = inr tt /\ Forall2 parent_line kept lines
  else r = join_result clf name (fun pl => leaf_id (snd pl)) (leaves_of kept)
       /\ Forall2 (fun pl line => leaf_line (parent_id (fst pl)) (snd pl) line)
            (before_first (fun pl => clashes clf (leaf_id (snd pl))) (leaves_of kept))
            lines.

(** [s'] has the members, the layout and the fields bound from the pgf
    file that [s] has. *)
Definition cursor_kept (s s' : dumpPgf) : Prop :=
  members s' = members s /\ layout s' = layout s
  /\ m_PgfProbesetId (vars s') = m_PgfProbesetId (vars s)
  /\ m_ProbesetData (vars s') = m_ProbesetData (vars s)
  /\ m_AtomProbeData (vars s') = m_AtomProbeData (vars s)
  /\ m_PgfProbeId (vars s') = m_PgfProbeId (vars s)
  /\ cur_mids (vars s') = cur_mids (vars s).

(** The index of the last column named [name] among [cols], the first
    of which is column [i]. *)
Fixpoint last_named (name : string) (i : nat) (cols : list string) : option nat :=
  match cols with
  | [] => None
  | c :: cols' =>
      match last_named name (S i) cols' with
      | Some j => Some j
      | None => if String.eqb c name then Some i else None
      end
  end.

(** Column [j] of a level-0 line is bound to the slot [m_ProbesetTypeCol]
    of [m_ProbesetData], the slot exists, and no other column is bound to
    it. *)
Definition type_bound (j : nat) (s : dumpPgf) : Prop :=
  In (j, m_ProbesetTypeCol (layout s)) (binds0 (layout s))
  /\ List.NoDup (map snd (binds0 (layout s)))
  /\ (m_ProbesetTypeCol (layout s) < List.length (m_ProbesetData (vars s)))%nat.

(** Whether a record with taxonomy path [path] is selected by the
    requested types: with --or, when some requested type is a segment of
    the path; by default, when every requested type is. *)
Definition selects (requested : list string) (union : bool) (path : list string) : Prop :=
  if union then exists t, In t requested /\ In t path
  else forall t, In t requested -> In t path.

(** No tab occurs in the string. *)
Fixpoint tab_free (t : string) : bool :=
  match t with
  | EmptyString => true
  | String c t' => negb (Ascii.eqb c (ascii_of_nat 9)) && tab_free t'
  end.

(** The fields of a line: what stands between its tabs. *)
Fixpoint fields (line : string) : list string :=
  match line with
  | EmptyString => [""]
  | String c line' =>
      if Ascii.eqb c (ascii_of_nat 9) then "" :: fields line'
      else match fields line' with
           | f :: fs => String c f :: fs
           | [] => [String c ""]
           end
  end.

(** No field of the parent record, of its mid-level records and of its
    leaf records holds a tab. *)
Definition tabless (p : ParentRecord) : Prop :=
  Forall (fun f => tab_free f = true) (parent_fields p)
  /\ Forall (fun m =>
       Forall (fun f => tab_free f = true) (mid_fields m)
       /\ Forall (fun l => Forall (fun f => tab_free f = true) (leaf_fields l))
            (mid_leaves m))
     (parent_mids p).

(** Two command lines that ask for the same dump, the first by default
    ('and') and the second with -or: the same input files, requested
    types and --probeset-only; the other arguments may differ. *)
Definition same_query_but_or (o_and o_or : Options) : Prop :=
  opt_or o_and = false /\ opt_or o_or = true
  /\ opt_pgf_file o_or = opt_pgf_file o_and
  /\ opt_clf_file o_or = opt_clf_file o_and
  /\ opt_probeset_type o_or = opt_probeset_type o_and
  /\ opt_probeset_only o_or = opt_probeset_only o_and.

(** The sample environment at another time: other guids, another clock. *)
Definition later_env : Env :=
  mkEnv (fs_pgf sample_env) (fs_clf sample_env) (fs_idlist sample_env)
    (fs_writable sample_env) (fun _ => "0001") "Fri Jan  2 00:00:00 1970"
    (seek_binds_parents sample_env) (indeterminate sample_env).

(** The command line of [by_types] with -or added. *)
Definition by_types_or : Options :=
  mkOptions ["apt-dump-pgf"; "-p"; "a.pgf"; "--or"] "a.pgf" "" ["main"; "rescue"] [""] [""]
    false true "out.txt" false false.


(** * Properties *)

(** ** Running the monad *)

Lemma bind_inr {A B : Type} (m : M A) (k : A -> M B) (s s' : dumpPgf) (a : A) :
  m s = (inr a, s') -> bind m k s = k a s'.
Proof. intros H. unfold bind. rewrite H. reflexivity. Qed.

Lemma bind_inl {A B : Type} (m : M A) (k : A -> M B) (s s' : dumpPgf) (e : Error) :
  m s = (inl e, s') -> bind m k s = (inl e, s').
Proof. intros H. unfold bind. rewrite H. reflexivity. Qed.


(** ** Taxonomy matcher *)

Lemma substring_length_exact :
  forall (s : string) (p n : nat),
    (p + n <= String.length s)%nat -> String.length (String.substring p n s) = n.
Proof.
  induction s as [|c s IH]; intros p n H; simpl in H.
  - assert (p = 0%nat) by lia. assert (n = 0%nat) by lia. subst. reflexivity.
  - destruct p as [|p].
    + destruct n as [|n]; simpl; [reflexivity|]. rewrite IH; [reflexivity|lia].
    + simpl. apply IH. lia.
Qed.

Lemma eqb_empty_false (t : string) : String.eqb t "" = false -> t <> "".
Proof. intros H. apply String.eqb_neq. exact H. Qed.

Lemma splitTypes_from_nonempty (inputString : string) (substrBegin : nat)
  (inputTypes : list string) :
  Forall (fun seg => seg <> "") inputTypes ->
  Forall (fun seg => seg <> "") (splitTypes_from inputString substrBegin inputTypes).
Proof.
  funelim (splitTypes_from inputString substrBegin inputTypes); intros Hacc.
  - apply H. destruct (Nat.eqb substrEnd substrBegin) eqn:E; [exact Hacc|].
    apply Forall_app. split; [exact Hacc|]. constructor; [|constructor].
    apply Nat.eqb_neq in E.
    pose proof (find_bounds _ _ _ _ _ Hfind) as [Hge Hle]. simpl in Hle.
    intros Hempty.
    assert (Hlen : String.length (substr inputString substrBegin (substrEnd - substrBegin))
                   = (substrEnd - substrBegin)%nat).
    { unfold substr. apply substring_length_exact. lia. }
    rewrite Hempty in Hlen. simpl in Hlen. lia.
  - simpl. destruct (String.eqb (substr_from inputString substrBegin) "") eqn:E; [exact Hacc|].
    apply Forall_app. split; [exact Hacc|]. constructor; [|constructor].
    apply eqb_empty_false. exact E.
Qed.

(** C2: [splitTypes] never returns an empty segment, wherever and however
    often the delimiter "->" occurs; "A->->B", "->A->B" and "A->B->" all
    split to ["A"; "B"], and the empty string splits to the empty list. *)
Theorem splitTypes_no_empty_segment :
  (forall inputString : string,
      Forall (fun seg => seg <> "") (splitTypes inputString))
  /\ splitTypes "A->->B" = ["A"; "B"]
  /\ splitTypes "->A->B" = ["A"; "B"]
  /\ splitTypes "A->B->" = ["A"; "B"]
  /\ splitTypes "" = [].
Proof.
  split.
  - intros inputString. unfold splitTypes. apply splitTypes_from_nonempty. constructor.
  - repeat split; reflexivity.
Qed.

(** ** Constructor: option combinations *)

Lemma nonempty_values_In (values : list string) (f : string) :
  In f values -> f <> "" -> In f (nonempty_values values).
Proof.
  intros Hin Hne. unfold nonempty_values. apply filter_In. split; [exact Hin|].
  destruct f; [congruence|reflexivity].
Qed.

Lemma vec_empty_false_In {A : Type} (l : list A) (x : A) : In x l -> vec_empty l = false.
Proof. destruct l; [intros []|reflexivity]. Qed.

Lemma str_empty_true (t : string) : str_empty t = true <-> t = "".
Proof. unfold str_empty. apply String.eqb_eq. Qed.

(** C9: a configuration with both --probeset-only and a probe-ids list
    file is rejected by the constructor: the program fails fatally with no
    file opened, no lookup made and nothing written to the output. *)
Theorem probeset_only_with_probe_ids_rejected
  (env : Env) (version cvsId : string) (o : Options) :
  opt_probeset_only o = true ->
  (exists f, In f (opt_probe_ids o) /\ f <> "") ->
  exists msg s',
    main env version cvsId o = (inl (ErrAbort msg), s')
    /\ opened (io s') = [] /\ lookups (io s') = []
    /\ m_Out (io s') = [] /\ m_OutLine (io s') = ""
    /\ (opt_help o = false -> List.length (argv o) <> 1%nat ->
        opt_version o = false -> opt_pgf_file o <> "" ->
        nonempty_values (opt_probeset_type o) = [] ->
        nonempty_values (opt_probeset_ids o) = [] ->
        msg = "FATAL: Cannot use --probeset-only with --probe-ids.").
Proof.
  intros Honly [f [Hin Hne]].
  pose proof (vec_empty_false_In _ _ (nonempty_values_In _ _ Hin Hne)) as Hv.
  unfold main, dumpPgf_ctor, bind, when. rewrite Honly, Hv. simpl.
  destruct (opt_help o) eqn:Hhelp; simpl.
  { do 2 eexists. split; [reflexivity|]. simpl. repeat split; try reflexivity. discriminate. }
  destruct (Nat.eqb (List.length (argv o)) 1) eqn:Hargc; simpl.
  { do 2 eexists. split; [reflexivity|]. simpl. repeat split; try reflexivity.
    intros _ Hn. apply Nat.eqb_eq in Hargc. contradiction. }
  destruct (opt_version o) eqn:Hver; simpl.
  { do 2 eexists. split; [reflexivity|]. simpl. repeat split; try reflexivity. discriminate. }
  destruct (str_empty (opt_pgf_file o)) eqn:Hpgf; simpl.
  { do 2 eexists. split; [reflexivity|]. simpl. repeat split; try reflexivity.
    intros _ _ _ Hn. apply str_empty_true in Hpgf. contradiction. }
  destruct (vec_empty (nonempty_values (opt_probeset_type o))) eqn:Ht;
    destruct (vec_empty (nonempty_values (opt_probeset_ids o))) eqn:Hi; simpl;
    do 2 eexists; (split; [reflexivity|]); simpl; repeat split; try reflexivity;
    intros _ _ _ _ Ht' Hi'; try rewrite Ht' in Ht; try rewrite Hi' in Hi;
    try discriminate.
Qed.

(** ** Column catalogue: [openInputFiles] *)

Lemma bindProbesetColumns_later (cols : list string) :
  forall (i : nat) (a : Cols), i <> 0%nat ->
    exists k typeCol binds,
      bindProbesetColumns i cols a
      = inr (k, snd (fst (fst (fst a))) || std_find cols "type", typeCol,
             snd (fst a) ++ cols, binds).
Proof.
  induction cols as [|c cols IH]; intros i a Hi.
  - destruct a as [[[[k ft] tc] names] binds]. simpl.
    exists k, tc, binds. rewrite orb_false_r, app_nil_r. reflexivity.
  - destruct a as [[[[k ft] tc] names] binds]. simpl.
    destruct i as [|i]; [congruence|]. simpl.
    destruct (String.eqb c "probeset_id") eqn:Eid; simpl.
    + destruct (IH (S (S i)) (k, ft, tc, names ++ [c], binds)) as (k' & tc' & b' & E);
        [lia|].
      rewrite E. simpl. exists k', tc', b'.
      apply String.eqb_eq in Eid. subst c. simpl.
      rewrite <- app_assoc. reflexivity.
    + destruct (String.eqb c "type") eqn:Et.
      * destruct (IH (S (S i)) (S k, true, k, names ++ [c], binds ++ [(S i, k)]))
          as (k' & tc' & b' & E); [lia|].
        rewrite E. simpl. exists k', tc', b'.
        rewrite orb_true_r. rewrite <- app_assoc. reflexivity.
      * destruct (IH (S (S i)) (S k, ft, tc, names ++ [c], binds ++ [(S i, k)]))
          as (k' & tc' & b' & E); [lia|].
        rewrite E. simpl. exists k', tc', b'.
        rewrite <- app_assoc. reflexivity.
Qed.

Lemma bindProbesetColumns_first (cols : list string) (a : Cols) :
  hd_error cols = Some "probeset_id" ->
  exists k typeCol binds,
    bindProbesetColumns 0 cols a
    = inr (k, snd (fst (fst (fst a))) || std_find cols "type", typeCol,
           snd (fst a) ++ cols, binds).
Proof.
  intros H. destruct cols as [|c cols]; [discriminate|].
  simpl in H. inversion H; subst c.
  destruct a as [[[[k ft] tc] names] binds]. simpl.
  destruct (bindProbesetColumns_later cols 1 (k, ft, tc, names ++ ["probeset_id"], binds))
    as (k' & tc' & b' & E); [lia|].
  rewrite E. simpl. exists k', tc', b'. rewrite <- app_assoc. reflexivity.
Qed.


Lemma bindAtomColumns_names (cols : list string) :
  forall (i k : nat) (names : list string) (binds : list (nat * nat)),
    exists k' binds',
      bindAtomColumns i cols (k, names, binds) = (k', names ++ cols, binds').
Proof.
  induction cols as [|c cols IH]; intros i k names binds; simpl.
  - exists k, binds. rewrite app_nil_r. reflexivity.
  - destruct (IH (S i) (S k) (names ++ [c]) (binds ++ [(i, k)])) as (k' & b' & E).
    rewrite E. exists k', b'. rewrite <- app_assoc. reflexivity.
Qed.

Lemma bindProbeColumns_later (cols : list string) :
  forall (i k : nat) (names : list string) (binds : list (nat * nat)), i <> 0%nat ->
    exists k' binds',
      bindProbeColumns i cols (k, names, binds) = inr (k', names ++ cols, binds').
Proof.
  induction cols as [|c cols IH]; intros i k names binds Hi; simpl.
  - exists k, binds. rewrite app_nil_r. reflexivity.
  - destruct i as [|i]; [congruence|]. simpl.
    destruct (String.eqb c "probe_id"); simpl.
    + destruct (IH (S (S i)) k (names ++ [c]) binds) as (k' & b' & E); [lia|].
      rewrite E. exists k', b'. rewrite <- app_assoc. reflexivity.
    + destruct (IH (S (S i)) (S k) (names ++ [c]) (binds ++ [(S i, k)]))
        as (k' & b' & E); [lia|].
      rewrite E. exists k', b'. rewrite <- app_assoc. reflexivity.
Qed.

Lemma bindProbeColumns_first (cols : list string) (k : nat) (names : list string)
  (binds : list (nat * nat)) :
  hd_error cols = Some "probe_id" ->
  exists k' binds',
    bindProbeColumns 0 cols (k, names, binds) = inr (k', names ++ cols, binds').
Proof.
  intros H. destruct cols as [|c cols]; [discriminate|].
  simpl in H. inversion H; subst c. simpl.
  destruct (bindProbeColumns_later cols 1 k (names ++ ["probe_id"]) binds)
    as (k' & b' & E); [lia|].
  rewrite E. exists k', b'. rewrite <- app_assoc. reflexivity.
Qed.


Lemma std_find_In (l : list string) (x : string) : std_find l x = true <-> In x l.
Proof.
  induction l as [|y l IH]; simpl.
  - split; [discriminate|intros []].
  - destruct (String.eqb y x) eqn:E.
    + apply String.eqb_eq in E. split; auto.
    + apply String.eqb_neq in E. rewrite IH. split; [auto|intros [H|H]; [congruence|auto]].
Qed.

Lemma std_find_nonempty (l : list string) (x : string) : std_find l x = true -> l <> [].
Proof. destruct l; [discriminate|congruence]. Qed.


Lemma bindColumns_ok (mb : Members) (lay : Layout) (pgf : PgfSource) :
  hd_error (pgf_cols0 pgf) = Some "probeset_id" ->
  (m_DumpProbesetsOnly mb = true \/ hd_error (pgf_cols2 pgf) = Some "probe_id") ->
  (m_ProbesetTypes mb = [] \/ std_find (pgf_cols0 pgf) "type" = true) ->
  exists cat,
    bindColumns mb lay pgf = inr cat
    /\ cat_OutputColNames cat
       = m_OutputColNames lay ++ pgf_cols0 pgf
         ++ (if m_DumpProbesetsOnly mb then []
             else pgf_cols1 pgf ++ pgf_cols2 pgf
                  ++ (if negb (str_empty (m_ClfFileName mb)) then ["x"; "y"] else [])).
Proof.
  intros H0 H2 Hty. unfold bindColumns.
  destruct (bindProbesetColumns_first (pgf_cols0 pgf)
              (0%nat, false, m_ProbesetTypeCol lay, m_OutputColNames lay, binds0 lay) H0)
    as (k & tc & b & E).
  rewrite E. simpl.
  assert (Ety : negb (vec_empty (m_ProbesetTypes mb)) &&
                negb (std_find (pgf_cols0 pgf) "type") = false).
  { destruct Hty as [Hc|Hc]; rewrite Hc; [reflexivity|apply andb_false_r]. }
  rewrite Ety.
  destruct (m_DumpProbesetsOnly mb) eqn:Honly.
  - eexists. split; [reflexivity|]. simpl. rewrite app_nil_r. reflexivity.
  - destruct H2 as [H2|H2]; [discriminate|].
    destruct (bindAtomColumns_names (pgf_cols1 pgf) 0 0
                (m_OutputColNames lay ++ pgf_cols0 pgf) (binds1 lay)) as (k1 & b1 & E1).
    rewrite E1.
    destruct (bindProbeColumns_first (pgf_cols2 pgf) k1
                ((m_OutputColNames lay ++ pgf_cols0 pgf) ++ pgf_cols1 pgf) (binds2 lay) H2)
      as (k2 & b2 & E2).
    rewrite E2. eexists. split; [reflexivity|]. simpl.
    destruct (negb (str_empty (m_ClfFileName mb))); simpl;
      repeat rewrite <- app_assoc; try rewrite app_nil_r; reflexivity.
Qed.


Lemma tsv_open_pgf_ok (env : Env) (name : string) (only : bool) (pgf : PgfSource) :
  fs_pgf env name = Some pgf ->
  hd_error (pgf_cols0 pgf) = Some "probeset_id" ->
  (only = true \/ hd_error (pgf_cols2 pgf) = Some "probe_id") ->
  tsv_open_pgf env name only = Some pgf.
Proof.
  intros Hfs H0 H2. unfold tsv_open_pgf. rewrite Hfs.
  destruct (pgf_cols0 pgf) as [|c0 cols0]; [discriminate|].
  simpl in H0. inversion H0; subst c0. simpl.
  destruct H2 as [->|H2]; [reflexivity|].
  destruct (pgf_cols2 pgf) as [|c2 cols2]; [discriminate|].
  simpl in H2. inversion H2; subst c2. simpl. rewrite orb_true_r. reflexivity.
Qed.

(** Setup succeeds on a well-formed schema, and the catalogue of output
    column names is the level-0 names, followed in a full dump by the
    level-1 names, the level-2 names and, with a clf file, "x" and "y". *)
Lemma openInputFiles_ok (env : Env) (s : dumpPgf) (pgf : PgfSource) :
  fs_pgf env (m_PgfFileName (members s)) = Some pgf ->
  hd_error (pgf_cols0 pgf) = Some "probeset_id" ->
  (m_DumpProbesetsOnly (members s) = true \/ hd_error (pgf_cols2 pgf) = Some "probe_id") ->
  (m_ClfFileName (members s) = "" \/ fs_clf env (m_ClfFileName (members s)) <> None) ->
  (m_ProbesetTypes (members s) = [] \/ std_find (pgf_cols0 pgf) "type" = true) ->
  exists s',
    openInputFiles env s = (inr tt, s')
    /\ members s' = members s
    /\ m_Out (io s') = m_Out (io s) /\ m_OutLine (io s') = m_OutLine (io s)
    /\ m_OutputColNames (layout s')
       = m_OutputColNames (layout s) ++ pgf_cols0 pgf
         ++ (if m_DumpProbesetsOnly (members s) then []
             else pgf_cols1 pgf ++ pgf_cols2 pgf
                  ++ (if negb (str_empty (m_ClfFileName (members s)))
                      then ["x"; "y"] else [])).
Proof.
  intros Hfs H0 H2 Hclf Hty.
  unfold openInputFiles, openPgfFile, bind. simpl.
  rewrite (tsv_open_pgf_ok env _ _ pgf Hfs H0 H2). simpl.
  destruct (bindColumns_ok (members s) (layout s) pgf H0 H2 Hty) as (cat & Ecat & Hnames).
  unfold openClfFile, bind. simpl.
  destruct (negb (str_empty (m_ClfFileName (members s)))) eqn:Ec; simpl.
  - destruct Hclf as [Hc|Hc]; [rewrite Hc in Ec; discriminate|].
    destruct (fs_clf env (m_ClfFileName (members s))) as [clf|]; [|congruence]. simpl.
    destruct (clf_sequential clf); simpl; unfold lift_err; rewrite Ecat;
      (eexists; split; [reflexivity|]); simpl;
      (split; [reflexivity|]); (split; [reflexivity|]); (split; [reflexivity|]);
      rewrite Hnames; try rewrite Ec; reflexivity.
  - unfold lift_err; rewrite Ecat.
    eexists. split; [reflexivity|]. simpl.
    split; [reflexivity|]. split; [reflexivity|]. split; [reflexivity|].
    rewrite Hnames; try rewrite Ec; reflexivity.
Qed.

Lemma index_defined_app (ix more : list (nat * string)) (level : nat) (col : string) :
  index_defined (ix ++ more) level col
  = index_defined ix level col || index_defined more level col.
Proof. unfold index_defined. apply existsb_app. Qed.

Lemma openPgfFile_outcome (env : Env) (s : dumpPgf) (r : Error + PgfSource) (s' : dumpPgf) :
  openPgfFile env s = (r, s') ->
  members s' = members s /\ layout s' = layout s /\ vars s' = vars s
  /\ m_OutLine (io s') = m_OutLine (io s).
Proof.
  unfold openPgfFile. intros H. erewrite bind_inr in H by reflexivity.
  destruct (tsv_open_pgf env (m_PgfFileName (members s)) (m_DumpProbesetsOnly (members s))).
  - erewrite bind_inr in H by reflexivity. inversion H. repeat split; reflexivity.
  - inversion H. repeat split; reflexivity.
Qed.

Lemma openClfFile_outcome (env : Env) (s : dumpPgf)
  (r : Error + (option ClfSource * option CoordMethod * list (nat * string)))
  (s' : dumpPgf) :
  openClfFile env s = (r, s') ->
  members s' = members s /\ layout s' = layout s /\ vars s' = vars s
  /\ m_OutLine (io s') = m_OutLine (io s)
  /\ forall c, r = inr c ->
       m_ClfFileName (members s) <> "" ->
       snd (fst c) <> None
       /\ (snd (fst c) = Some getCoordsByIndex_ptr ->
           index_defined (snd c) 0 "probe_id" = true).
Proof.
  unfold openClfFile. intros H. do 2 (erewrite bind_inr in H by reflexivity).
  destruct (negb (str_empty (m_ClfFileName (members s)))) eqn:Eclf.
  - destruct (fs_clf env (m_ClfFileName (members s))) as [clf|].
    + erewrite bind_inr in H by reflexivity.
      destruct (clf_sequential clf); inversion H; subst;
        (split; [reflexivity|]); (split; [reflexivity|]); (split; [reflexivity|]);
        (split; [reflexivity|]); intros c Hc _; inversion Hc; subst; simpl;
        (split; [discriminate|]); intros Hm; [discriminate|].
      rewrite index_defined_app. simpl. apply orb_true_r.
    + inversion H; subst. repeat split; try reflexivity; discriminate.
  - inversion H; subst.
    split; [reflexivity|]. split; [reflexivity|]. split; [reflexivity|].
    split; [reflexivity|]. intros c _ Hne. exfalso.
    apply negb_false_iff in Eclf. apply str_empty_true in Eclf. contradiction.
Qed.

(** What a successful setup hands to [writeMatches]: the pgf file is
    open, a way to obtain coordinates is chosen whenever a clf file is
    named, and every index a later lookup relies on is defined. *)
Lemma openInputFiles_establishes (env : Env) (s s' : dumpPgf) :
  openInputFiles env s = (inr tt, s') ->
  members s' = members s
  /\ m_OutLine (io s') = m_OutLine (io s)
  /\ (exists pgf, m_PgfTsv (layout s') = Some pgf)
  /\ (m_ClfFileName (members s) <> "" ->
      m_GetProbeCoordinates (layout s') <> None
      /\ (m_GetProbeCoordinates (layout s') = Some getCoordsByIndex_ptr ->
          index_defined (clf_index (layout s')) 0 "probe_id" = true))
  /\ (m_ProbesetIdFileNames (members s) <> [] ->
      index_defined (pgf_index (layout s')) 0 "probeset_id" = true)
  /\ (m_ProbeIdFileNames (members s) <> [] ->
      index_defined (pgf_index (layout s')) 2 "probe_id" = true).
Proof.
  intros H. unfold openInputFiles in H.
  repeat (erewrite bind_inr in H by reflexivity).
  match type of H with
  | bind (openPgfFile env) _ ?s0 = _ =>
      destruct (openPgfFile env s0) as [[e|pgf] s1] eqn:E1;
      [erewrite bind_inl in H by exact E1; inversion H|];
      erewrite bind_inr in H by exact E1;
      destruct (openPgfFile_outcome env s0 _ s1 E1) as (Hm1 & Hl1 & Hv1 & Ho1)
  end.
  destruct (openClfFile env s1) as [[e|c] s2] eqn:E2;
    [erewrite bind_inl in H by exact E2; inversion H|].
  erewrite bind_inr in H by exact E2.
  destruct (openClfFile_outcome env s1 _ s2 E2) as (Hm2 & Hl2 & Hv2 & Ho2 & Hc2).
  specialize (Hc2 c eq_refl).
  match type of H with
  | bind (lift_err ?x) _ _ = _ =>
      destruct x as [e|cat];
      [unfold bind, lift_err in H; inversion H|]
  end.
  do 2 (erewrite bind_inr in H by reflexivity).
  unfold modify in H. inversion H; subst. clear H. simpl.
  rewrite Hm2, Hm1, Ho2, Ho1. simpl.
  split; [reflexivity|]. split; [reflexivity|]. split; [eexists; reflexivity|].
  split.
  - intros Hne. apply Hc2. rewrite Hm1. exact Hne.
  - rewrite !index_defined_app. split; intros Hne.
    + destruct (m_ProbesetIdFileNames (members s)); [congruence|]. simpl.
      apply orb_true_r.
    + destruct (m_ProbeIdFileNames (members s)); [congruence|]. simpl.
      rewrite !orb_true_r. reflexivity.
Qed.

(** ** The column loops compiled with NDEBUG *)





(** Where the assertions hold, they change nothing: a column loop that
    gets through with its assertion does the same without it. *)
Lemma NDEBUG_bindProbesetColumns_same (cols : list string) :
  forall (i : nat) (a c : Cols),
    bindProbesetColumns i cols a = inr c -> NDEBUG.bindProbesetColumns i cols a = c.
Proof.
  induction cols as [|col cols IH]; intros i a c H.
  - cbn in H. inversion H. reflexivity.
  - destruct a as [[[[k ft] tc] names] binds].
    cbn [bindProbesetColumns NDEBUG.bindProbesetColumns] in *.
    destruct (Nat.eqb i 0 && negb (String.eqb col "probeset_id")); [discriminate|].
    destruct (negb (String.eqb col "probeset_id")); [|apply IH; exact H].
    destruct (String.eqb col "type"); apply IH; exact H.
Qed.

Lemma NDEBUG_bindProbeColumns_same (cols : list string) :
  forall (i : nat) (a c : nat * list string * list (nat * nat)),
    bindProbeColumns i cols a = inr c -> NDEBUG.bindProbeColumns i cols a = c.
Proof.
  induction cols as [|col cols IH]; intros i a c H.
  - cbn in H. inversion H. reflexivity.
  - destruct a as [[k names] binds].
    cbn [bindProbeColumns NDEBUG.bindProbeColumns] in *.
    destruct (Nat.eqb i 0 && negb (String.eqb col "probe_id")); [discriminate|].
    destruct (negb (String.eqb col "probe_id")); apply IH; exact H.
Qed.

Lemma NDEBUG_bindColumns_same (mb : Members) (lay : Layout) (pgf : PgfSource)
  (cat : Catalog) :
  bindColumns mb lay pgf = inr cat -> NDEBUG.bindColumns mb lay pgf = inr cat.
Proof.
  unfold bindColumns, NDEBUG.bindColumns. intros H.
  destruct (bindProbesetColumns 0 (pgf_cols0 pgf) _) as [e|c0] eqn:E0; [discriminate|].
  rewrite (NDEBUG_bindProbesetColumns_same _ _ _ _ E0).
  destruct c0 as [[[[k ft] tc] names] b0].
  destruct (negb (vec_empty (m_ProbesetTypes mb)) && negb ft); [discriminate|].
  destruct (m_DumpProbesetsOnly mb); [exact H|].
  destruct (bindAtomColumns 0 (pgf_cols1 pgf) (0%nat, names, binds1 lay)) as [[k1 names1] b1].
  destruct (bindProbeColumns 0 (pgf_cols2 pgf) (k1, names1, binds2 lay)) as [e|c2] eqn:E2;
    [discriminate|].
  rewrite (NDEBUG_bindProbeColumns_same _ _ _ _ E2).
  destruct c2 as [[k2 names2] b2]. exact H.
Qed.

(** A setup that succeeds with the assertions compiled in succeeds the
    same way with NDEBUG. *)
Lemma NDEBUG_openInputFiles_same (env : Env) (s s' : dumpPgf) :
  openInputFiles env s = (inr tt, s') -> NDEBUG.openInputFiles env s = (inr tt, s').
Proof.
  unfold openInputFiles, NDEBUG.openInputFiles. intros H.
  repeat (erewrite bind_inr in H by reflexivity). repeat (erewrite bind_inr by reflexivity).
  match type of H with
  | bind (openPgfFile env) _ ?s0 = _ =>
      destruct (openPgfFile env s0) as [[e|pgf] s1] eqn:E1;
      [erewrite bind_inl in H by exact E1; discriminate|];
      erewrite bind_inr in H by exact E1; erewrite bind_inr by exact E1
  end.
  destruct (openClfFile env s1) as [[e|c] s2] eqn:E2;
    [erewrite bind_inl in H by exact E2; discriminate|].
  erewrite bind_inr in H by exact E2. erewrite bind_inr by exact E2.
  change (members (set_io (put_cerr "Reading meta data from PGF and CLF files" (io s)) s))
    with (members s) in *.
  change (layout (set_io (put_cerr "Reading meta data from PGF and CLF files" (io s)) s))
    with (layout s) in *.
  destruct (bindColumns (members s) (layout s) pgf) as [e|cat] eqn:Ecat.
  - erewrite bind_inl in H by reflexivity. discriminate.
  - rewrite (NDEBUG_bindColumns_same _ _ _ _ Ecat). exact H.
Qed.




(** ** String append *)

Lemma sapp_nil_l (a : string) : "" +:+ a = a.
Proof. reflexivity. Qed.

Lemma sapp_cons (c : ascii) (a b : string) : String c a +:+ b = String c (a +:+ b).
Proof. reflexivity. Qed.

Lemma sapp_nil_r (a : string) : a +:+ "" = a.
Proof. induction a as [|c a IH]; [reflexivity|]. rewrite sapp_cons, IH. reflexivity. Qed.

Lemma sapp_assoc (a b c : string) : (a +:+ b) +:+ c = a +:+ (b +:+ c).
Proof.
  induction a as [|x a IH]; [reflexivity|]. rewrite !sapp_cons, IH. reflexivity.
Qed.

(** ** Header line *)

Lemma fold_tab_from (names : list string) :
  forall acc : string,
    fold_left (fun acc n => acc +:+ tab +:+ n) names acc = acc +:+ tabJoin names.
Proof.
  unfold tabJoin. induction names as [|n names IH]; intros acc; simpl.
  - rewrite sapp_nil_r. reflexivity.
  - rewrite IH. symmetry. rewrite IH.
    rewrite ?sapp_nil_l, !sapp_assoc. reflexivity.
Qed.

Lemma headerLine_app (names more : list string) :
  names <> [] -> headerLine (names ++ more) = headerLine names +:+ tabJoin more.
Proof.
  intros Hne. destruct names as [|n0 rest]; [congruence|]. simpl.
  rewrite fold_left_app. apply fold_tab_from.
Qed.

Lemma tabJoin_nonempty (names : list string) : names <> [] -> tabJoin names <> "".
Proof.
  destruct names as [|n names]; [congruence|]. intros _. unfold tabJoin. simpl.
  rewrite fold_tab_from. rewrite sapp_nil_l. unfold tab. rewrite !sapp_cons. discriminate.
Qed.

(** Copying the propagated meta tags changes nothing but the output
    lines, and leaves no unfinished line behind. *)
Lemma copy_headers_frame (kvs : list (string * string)) :
  forall s : dumpPgf,
    m_OutLine (io s) = "" ->
    exists s',
      forM_ kvs (fun kv => when (propagated (fst kv))
                   (out_text ("#%" +:+ fst kv +:+ "=" +:+ snd kv) ;; out_endl)) s
      = (inr tt, s')
      /\ members s' = members s /\ layout s' = layout s /\ m_OutLine (io s') = "".
Proof.
  induction kvs as [|kv kvs IH]; intros s Hline.
  - exists s. auto.
  - destruct (propagated (fst kv)) eqn:Hp.
    + destruct (IH (set_io (put_endl (put_text ("#%" +:+ fst kv +:+ "=" +:+ snd kv) (io s))) s))
        as (s' & E & Hm & Hl & Ho); [reflexivity|].
      exists s'. split; [|auto].
      cbn [forM_]. unfold bind at 1. unfold when at 1. rewrite Hp. exact E.
    + destruct (IH s Hline) as (s' & E & Hm & Hl & Ho).
      exists s'. split; [|auto].
      cbn [forM_]. unfold bind at 1. unfold when at 1. rewrite Hp. exact E.
Qed.

(** [writeOutputHeader] ends the output with the header line. *)
Lemma writeOutputHeader_outcome (env : Env) (s : dumpPgf) (r : Error + unit) (s' : dumpPgf) :
  m_OutputColNames (layout s) <> [] ->
  writeOutputHeader env s = (r, s') ->
  r = inr tt
  /\ List.last (m_Out (io s')) "" = headerLine (m_OutputColNames (layout s))
  /\ m_OutLine (io s') = "".
Proof.
  intros Hne H. unfold writeOutputHeader in H.
  repeat (erewrite bind_inr in H by reflexivity).
  match type of H with
  | context [forM_ ?kvs _] =>
      match type of H with
      | bind _ _ ?s0 = _ =>
          destruct (copy_headers_frame kvs s0) as (s1 & E & Hm & Hl & Ho); [reflexivity|]
      end
  end.
  erewrite bind_inr in H by exact E.
  destruct (m_OutputColNames (layout s)) as [|n0 rest] eqn:En; [congruence|].
  repeat (erewrite bind_inr in H by reflexivity).
  unfold out_endl, modify in H. inversion H; subst. simpl. rewrite Ho.
  split; [reflexivity|]. split; [|reflexivity]. rewrite last_last. reflexivity.
Qed.

Lemma writeOutputHeader_line (env : Env) (s : dumpPgf) :
  m_OutputColNames (layout s) <> [] ->
  exists s',
    writeOutputHeader env s = (inr tt, s')
    /\ List.last (m_Out (io s')) "" = headerLine (m_OutputColNames (layout s))
    /\ m_OutLine (io s') = "".
Proof.
  intros Hne. destruct (writeOutputHeader env s) as [r s'] eqn:E.
  destruct (writeOutputHeader_outcome env s r s' Hne E) as (-> & Hl & Ho).
  exists s'. auto.
Qed.

(** C6: for the same primary source, setup succeeds with and without
    --probeset-only; the parent-only header is the level-0 column names,
    and the full-dump header is that header followed by the mid-level
    columns, the leaf identifier, the remaining leaf columns and, only
    with a clf file, "x" and "y".  The added part is never empty, and the
    header line [writeOutputHeader] writes for the full dump starts with
    the parent-only header line. *)
Theorem parent_only_header_is_strict_prefix (env : Env) (s : dumpPgf) (pgf : PgfSource) :
  fs_pgf env (m_PgfFileName (members s)) = Some pgf ->
  hd_error (pgf_cols0 pgf) = Some "probeset_id" ->
  hd_error (pgf_cols2 pgf) = Some "probe_id" ->
  (m_ClfFileName (members s) = "" \/ fs_clf env (m_ClfFileName (members s)) <> None) ->
  (m_ProbesetTypes (members s) = [] \/ std_find (pgf_cols0 pgf) "type" = true) ->
  m_OutputColNames (layout s) = [] ->
  exists s_only s_full,
    openInputFiles env (set_members (with_DumpProbesetsOnly true (members s)) s)
    = (inr tt, s_only)
    /\ openInputFiles env (set_members (with_DumpProbesetsOnly false (members s)) s)
       = (inr tt, s_full)
    /\ m_OutputColNames (layout s_only) = pgf_cols0 pgf
    /\ (let added :=
          pgf_cols1 pgf ++ ("probe_id" :: tl (pgf_cols2 pgf))
          ++ (if negb (str_empty (m_ClfFileName (members s))) then ["x"; "y"] else []) in
        m_OutputColNames (layout s_full) = m_OutputColNames (layout s_only) ++ added
        /\ added <> []
        /\ exists h_only h_full,
             writeOutputHeader env s_only = (inr tt, h_only)
             /\ writeOutputHeader env s_full = (inr tt, h_full)
             /\ List.last (m_Out (io h_full)) ""
                = List.last (m_Out (io h_only)) "" +:+ tabJoin added
             /\ tabJoin added <> "").
Proof.
  intros Hfs H0 H2 Hclf Hty Hnames.
  destruct (openInputFiles_ok env (set_members (with_DumpProbesetsOnly true (members s)) s)
              pgf Hfs H0 (or_introl eq_refl) Hclf Hty)
    as (s_only & E1 & Hm1 & _ & _ & N1).
  destruct (openInputFiles_ok env (set_members (with_DumpProbesetsOnly false (members s)) s)
              pgf Hfs H0 (or_intror H2) Hclf Hty)
    as (s_full & E2 & Hm2 & _ & _ & N2).
  simpl in N1, N2. rewrite Hnames in N1, N2. simpl in N1, N2. rewrite app_nil_r in N1.
  assert (Hc2 : pgf_cols2 pgf = "probe_id" :: tl (pgf_cols2 pgf)).
  { destruct (pgf_cols2 pgf) as [|c cols]; [discriminate|].
    simpl in H2. inversion H2. reflexivity. }
  assert (Hc0 : pgf_cols0 pgf <> []).
  { destruct (pgf_cols0 pgf); [discriminate|congruence]. }
  exists s_only, s_full.
  split; [exact E1|]. split; [exact E2|]. split; [exact N1|].
  cbv zeta.
  assert (Hadd : pgf_cols1 pgf ++ ("probe_id" :: tl (pgf_cols2 pgf))
                 ++ (if negb (str_empty (m_ClfFileName (members s)))
                     then ["x"; "y"] else []) <> []).
  { intros Habs. apply app_eq_nil in Habs. destruct Habs as [_ Habs]. discriminate. }
  split; [rewrite N2, N1, <- Hc2; reflexivity|].
  split; [exact Hadd|].
  destruct (writeOutputHeader_line env s_only) as (h1 & W1 & L1 & _);
    [rewrite N1; exact Hc0|].
  destruct (writeOutputHeader_line env s_full) as (h2 & W2 & L2 & _).
  { rewrite N2. intros Habs. apply app_eq_nil in Habs. destruct Habs as [Habs _].
    contradiction. }
  exists h1, h2. split; [exact W1|]. split; [exact W2|].
  split; [|apply tabJoin_nonempty; exact Hadd].
  rewrite L1, L2, N1, N2. rewrite <- Hc2. apply headerLine_app. exact Hc0.
Qed.

(** ** Selection by type *)

Lemma dumpIfAnyRequested_some (userTypes pgfFileTypes : list string) :
  (exists t, In t userTypes /\ In t pgfFileTypes) ->
  dumpIfAnyRequested userTypes pgfFileTypes = dumpProbesetData.
Proof.
  induction pgfFileTypes as [|t0 types IH]; intros (t & Hu & Hp); [destruct Hp|].
  simpl. destruct (std_find userTypes t0) eqn:E; [reflexivity|].
  apply IH. exists t. split; [exact Hu|].
  destruct Hp as [->|Hp]; [|exact Hp].
  apply std_find_In in Hu. congruence.
Qed.

Lemma dumpIfAnyRequested_none (userTypes pgfFileTypes : list string) :
  ~ (exists t, In t userTypes /\ In t pgfFileTypes) ->
  dumpIfAnyRequested userTypes pgfFileTypes = ret tt.
Proof.
  induction pgfFileTypes as [|t0 types IH]; intros Hno; [reflexivity|].
  simpl. destruct (std_find userTypes t0) eqn:E.
  - exfalso. apply Hno. exists t0. split; [apply std_find_In; exact E|left; reflexivity].
  - apply IH. intros (t & Hu & Hp). apply Hno. exists t. split; [exact Hu|right; exact Hp].
Qed.

Lemma noMismatchFound_all (userTypes pgfFileTypes : list string) :
  noMismatchFound userTypes pgfFileTypes = true
  <-> (forall t, In t userTypes -> In t pgfFileTypes).
Proof.
  induction userTypes as [|u users IH]; simpl.
  - split; [intros _ t []|reflexivity].
  - destruct (std_find pgfFileTypes u) eqn:E; simpl.
    + rewrite IH. split.
      * intros H t [->|Ht]; [apply std_find_In; exact E|auto].
      * intros H t Ht. apply H. right. exact Ht.
    + split; [discriminate|]. intros H.
      assert (Hin : In u pgfFileTypes) by (apply H; left; reflexivity).
      apply std_find_In in Hin. congruence.
Qed.

(** With no id list, [writeMatches] is the loop of [scanBody] over the
    level-0 records in stored order, after one message on [cerr]. *)
Lemma writeMatches_scanBody (env : Env) (s : dumpPgf) :
  m_ProbesetIdFileNames (members s) = [] ->
  m_ProbeIdFileNames (members s) = [] ->
  (m_ClfFileName (members s) = "" \/ m_GetProbeCoordinates (layout s) <> None) ->
  exists msg,
    writeMatches env s
    = forM_ (pgf_of s)
        (scanBody (m_ProbesetTypes (members s)) (m_DumpUnion (members s)))
        (set_io (put_cerr msg (io s)) s).
Proof.
  intros Hi Hp Hc. unfold writeMatches.
  repeat (erewrite bind_inr by reflexivity).
  erewrite bind_inr.
  2:{ unfold when, assert_. destruct Hc as [Hc|Hc].
      - rewrite Hc. reflexivity.
      - destruct (m_GetProbeCoordinates (layout s)); [|congruence].
        destruct (negb (str_empty (m_ClfFileName (members s)))); reflexivity. }
  rewrite Hi, Hp. simpl. unfold scanBody.
  destruct (m_ProbesetTypes (members s)) as [|t0 types] eqn:Ety; simpl.
  - eexists. reflexivity.
  - destruct (m_DumpUnion (members s)); eexists; reflexivity.
Qed.

(** With a non-empty list of requested types, a type list that passes
    the 'and' test passes the 'or' test. *)
Lemma noMismatch_implies_any (userTypes pgfFileTypes : list string) :
  userTypes <> [] ->
  noMismatchFound userTypes pgfFileTypes = true ->
  dumpIfAnyRequested userTypes pgfFileTypes = dumpProbesetData.
Proof.
  intros Hne H. apply dumpIfAnyRequested_some.
  destruct userTypes as [|t0 types]; [congruence|].
  exists t0. split; [left; reflexivity|].
  apply noMismatchFound_all with (t := t0) in H; [exact H|left; reflexivity].
Qed.

Lemma dumpIfAnyRequested_cases (userTypes pgfFileTypes : list string) :
  dumpIfAnyRequested userTypes pgfFileTypes = dumpProbesetData
  \/ dumpIfAnyRequested userTypes pgfFileTypes = ret tt.
Proof.
  induction pgfFileTypes as [|t types IH]; simpl; [right; reflexivity|].
  destruct (std_find userTypes t); [left; reflexivity|exact IH].
Qed.

(** C4: for any list of requested types and any record, a record
    accepted by default ('and') is accepted with --or. *)
Theorem and_accepted_implies_or_accepted
  (requested : list string) (p : ParentRecord) (s : dumpPgf) :
  accepted requested false p s -> accepted requested true p s.
Proof.
  unfold accepted, scanBody.
  destruct requested as [|t0 types]; [auto|]. simpl.
  assert (Edump : dumpEvery p s = dumpProbesetData (at_record p s)) by reflexivity.
  assert (Eor : scanOr (t0 :: types) p s
                = dumpIfAnyRequested (t0 :: types) (record_path (at_record p s))
                    (at_record p s)) by reflexivity.
  assert (Eand : scanAnd (t0 :: types) p s
                 = when (noMismatchFound (t0 :: types) (record_path (at_record p s)))
                     dumpProbesetData (at_record p s)) by reflexivity.
  rewrite Eor, Eand, Edump. clear Eor Eand Edump.
  destruct (noMismatchFound (t0 :: types) (record_path (at_record p s))) eqn:E.
  - intros _. rewrite noMismatch_implies_any; [reflexivity|congruence|exact E].
  - unfold when. intros Hacc.
    destruct (dumpIfAnyRequested_cases (t0 :: types) (record_path (at_record p s)))
      as [Hc|Hc]; rewrite Hc; [reflexivity|exact Hacc].
Qed.

(** ** Row assembler and coordinate resolver *)

Lemma bind_assoc {A B C : Type} (m : M A) (k1 : A -> M B) (k2 : B -> M C) (s : dumpPgf) :
  bind (bind m k1) k2 s = bind m (fun a => bind (k1 a) k2) s.
Proof. unfold bind. destruct (m s) as [[e|a] s1]; reflexivity. Qed.

Lemma wrote_fold (a : string) (s : dumpPgf) : set_io (put_text a (io s)) s = wrote a s.
Proof. reflexivity. Qed.

Lemma wrote_merge (a b : string) (s : dumpPgf) : wrote b (wrote a s) = wrote (a +:+ b) s.
Proof. unfold wrote, set_io, put_text. simpl. rewrite sapp_assoc. reflexivity. Qed.

Lemma dumpCoords_run (s : dumpPgf) :
  dumpCoords s
  = (inr tt, wrote (tab +:+ coordText (m_ClfX (vars s))
                    +:+ tab +:+ coordText (m_ClfY (vars s))) s).
Proof.
  unfold dumpCoords, coordText, bind, gets, out_text, when, modify, ret.
  destruct (m_ClfX (vars s) >=? 0)%Z; destruct (m_ClfY (vars s) >=? 0)%Z;
    unfold wrote, set_io, put_text; simpl;
    rewrite ?sapp_assoc, ?sapp_nil_r; reflexivity.
Qed.

Lemma dumpProbeData_eq (s : dumpPgf) :
  dumpProbeData s
  = (when (negb (str_empty (m_ClfFileName (members s))))
       (callGetProbeCoordinates (m_PgfProbeId (vars s)) ;; dumpCoords) ;;
     out_endl) (wrote (rowText s) s).
Proof.
  unfold dumpProbeData.
  do 8 (erewrite bind_inr by reflexivity).
  rewrite !wrote_fold, !wrote_merge, !sapp_assoc. reflexivity.
Qed.

Lemma getCoordsByIndex_outcome (probeId : Z) (s : dumpPgf) (r : Error + unit) (s' : dumpPgf) :
  index_defined (clf_index (layout s)) 0 "probe_id" = true ->
  getCoordsByIndex probeId s = (r, s') ->
  let s0 := looked_up (mkLookup ClfFile 0 "probe_id" (m_PgfProbeId (vars s))) s in
  match findCoords (clf_of s) (m_PgfProbeId (vars s)) with
  | [] => r = inr tt /\ s' = snd (set_ClfXY (-1) (-1) s0)
  | [c] => r = inr tt /\ s' = snd (readClf c s0)
  | _ => r = inl (not_unique "probe_id" (m_PgfProbeId (vars s)) "clf"
                    (m_ClfFileName (members s)))
         /\ s' = s0
  end.
Proof.
  intros Hidx H. cbv zeta. unfold getCoordsByIndex, findBegin in H.
  repeat (erewrite bind_inr in H by reflexivity).
  simpl in H. rewrite Hidx in H.
  repeat (erewrite bind_inr in H by reflexivity).
  change (clf_of (set_io _ s)) with (clf_of s) in H.
  destruct (findCoords (clf_of s) (m_PgfProbeId (vars s))) as [|c [|c' rest]].
  - simpl in H. inversion H. split; reflexivity.
  - simpl in H. inversion H. split; reflexivity.
  - change (Z.of_nat (List.length (c :: c' :: rest)) >? 1)%Z
      with (Z.of_nat (S (S (List.length rest))) >? 1)%Z in H.
    assert (Hgt : (Z.of_nat (S (S (List.length rest))) >? 1)%Z = true).
    { apply Z.gtb_lt. lia. }
    rewrite Hgt in H. inversion H. split; reflexivity.
Qed.

(** A full-dump line under the indexed coordinate strategy. *)
Lemma dumpProbeData_by_index (s : dumpPgf) (r : Error + unit) (s' : dumpPgf) :
  m_ClfFileName (members s) <> "" ->
  m_GetProbeCoordinates (layout s) = Some getCoordsByIndex_ptr ->
  index_defined (clf_index (layout s)) 0 "probe_id" = true ->
  dumpProbeData s = (r, s') ->
  match findCoords (clf_of s) (m_PgfProbeId (vars s)) with
  | [] =>
      r = inr tt
      /\ m_Out (io s') = m_Out (io s) ++ [m_OutLine (io s) +:+ rowText s +:+ tab +:+ tab]
      /\ m_OutLine (io s') = ""
      /\ m_ClfX (vars s') = -1 /\ m_ClfY (vars s') = -1
  | [c] =>
      r = inr tt
      /\ m_Out (io s') = m_Out (io s)
           ++ [m_OutLine (io s) +:+ rowText s +:+ tab +:+ coordText (clf_x c)
               +:+ tab +:+ coordText (clf_y c)]
      /\ m_OutLine (io s') = ""
      /\ m_ClfX (vars s') = clf_x c /\ m_ClfY (vars s') = clf_y c
  | _ =>
      r = inl (not_unique "probe_id" (m_PgfProbeId (vars s)) "clf"
                 (m_ClfFileName (members s)))
      /\ m_Out (io s') = m_Out (io s)
      /\ m_OutLine (io s') = m_OutLine (io s) +:+ rowText s
  end.
Proof.
  intros Hclf Hm Hidx H. rewrite dumpProbeData_eq in H.
  assert (Hne : negb (str_empty (m_ClfFileName (members s))) = true).
  { destruct (str_empty (m_ClfFileName (members s))) eqn:E; [|reflexivity].
    apply str_empty_true in E. contradiction. }
  rewrite Hne in H. unfold when, callGetProbeCoordinates in H.
  rewrite !bind_assoc in H.
  erewrite bind_inr in H by reflexivity.
  change (layout (wrote (rowText s) s)) with (layout s) in H. rewrite Hm in H.
  match type of H with
  | bind (getCoordsByIndex ?i) _ ?s5 = _ =>
      destruct (getCoordsByIndex i s5) as [r1 s6] eqn:E;
      pose proof (getCoordsByIndex_outcome i s5 r1 s6 Hidx E) as Hout
  end.
  cbv zeta in Hout.
  change (clf_of (wrote _ s)) with (clf_of s) in Hout.
  change (m_PgfProbeId (vars (wrote _ s))) with (m_PgfProbeId (vars s)) in Hout.
  destruct (findCoords (clf_of s) (m_PgfProbeId (vars s))) as [|c [|c' rest]].
  - destruct Hout as [-> ->]. erewrite bind_inr in H by exact E.
    erewrite bind_inr in H by apply dumpCoords_run.
    unfold out_endl, modify in H. inversion H; subst. simpl.
    rewrite !sapp_assoc. repeat split; reflexivity.
  - destruct Hout as [-> ->]. erewrite bind_inr in H by exact E.
    erewrite bind_inr in H by apply dumpCoords_run.
    unfold out_endl, modify in H. inversion H; subst. simpl.
    rewrite !sapp_assoc. repeat split; reflexivity.
  - destruct Hout as (-> & ->). erewrite bind_inl in H by exact E.
    inversion H; subst. simpl. repeat split; reflexivity.
Qed.

(** C7: under the indexed coordinate strategy, a leaf id with no line in
    the clf file resolves to the undefined coordinates (-1, -1) and its
    row ends with two empty fields; a leaf id with exactly one line takes
    that line's x and y; a leaf id with more than one line aborts the run
    with the not-a-unique-index error, and the row is never completed. *)
Theorem indexed_coordinates_contract (s : dumpPgf) (probeId : Z) :
  index_defined (clf_index (layout s)) 0 "probe_id" = true ->
  m_ClfFileName (members s) <> "" ->
  m_GetProbeCoordinates (layout s) = Some getCoordsByIndex_ptr ->
  let found := findCoords (clf_of s) (m_PgfProbeId (vars s)) in
  (found = [] ->
     (exists s1, getCoordsByIndex probeId s = (inr tt, s1)
                 /\ m_ClfX (vars s1) = -1 /\ m_ClfY (vars s1) = -1)
     /\ (exists s', dumpProbeData s = (inr tt, s')
                    /\ m_Out (io s')
                       = m_Out (io s)
                         ++ [m_OutLine (io s) +:+ rowText s +:+ tab +:+ "" +:+ tab +:+ ""]))
  /\ (forall c, found = [c] ->
        exists s1, getCoordsByIndex probeId s = (inr tt, s1)
                   /\ m_ClfX (vars s1) = clf_x c /\ m_ClfY (vars s1) = clf_y c)
  /\ ((List.length found > 1)%nat ->
        let e := not_unique "probe_id" (m_PgfProbeId (vars s)) "clf"
                   (m_ClfFileName (members s)) in
        (exists s1, getCoordsByIndex probeId s = (inl e, s1))
        /\ (exists s', dumpProbeData s = (inl e, s') /\ m_Out (io s') = m_Out (io s))).
Proof.
  intros Hidx Hclf Hm. cbv zeta.
  destruct (getCoordsByIndex probeId s) as [r1 s1] eqn:E1.
  pose proof (getCoordsByIndex_outcome probeId s r1 s1 Hidx E1) as H1. cbv zeta in H1.
  destruct (dumpProbeData s) as [r2 s2] eqn:E2.
  pose proof (dumpProbeData_by_index s r2 s2 Hclf Hm Hidx E2) as H2.
  split; [|split].
  - intros Hf. rewrite Hf in H1, H2.
    destruct H1 as [-> ->]. destruct H2 as (-> & Hout & _). split.
    + eexists. split; [reflexivity|]. split; reflexivity.
    + exists s2. split; [reflexivity|]. rewrite Hout, sapp_nil_l. reflexivity.
  - intros c Hf. rewrite Hf in H1. destruct H1 as [-> ->].
    eexists. split; [reflexivity|]. split; reflexivity.
  - intros Hlen.
    destruct (findCoords (clf_of s) (m_PgfProbeId (vars s))) as [|c [|c' rest]];
      simpl in Hlen; try lia.
    destruct H1 as [-> ->]. destruct H2 as (-> & Hout & _). split.
    + eexists. reflexivity.
    + exists s2. split; [reflexivity|exact Hout].
Qed.

(** C10: the undefined coordinates are the negative pair (-1, -1), and
    the row writer leaves the x field and the y field empty, each on its
    own, whenever the value is negative: a leaf id with exactly one line
    in the clf file whose stored x (or y) is negative gets an empty x (or
    y) field although the line was found. *)
Theorem negative_stored_coordinate_is_blank (s : dumpPgf) (c : ClfRecord) :
  index_defined (clf_index (layout s)) 0 "probe_id" = true ->
  m_ClfFileName (members s) <> "" ->
  m_GetProbeCoordinates (layout s) = Some getCoordsByIndex_ptr ->
  findCoords (clf_of s) (m_PgfProbeId (vars s)) = [c] ->
  exists s',
    dumpProbeData s = (inr tt, s')
    /\ m_ClfX (vars s') = clf_x c /\ m_ClfY (vars s') = clf_y c
    /\ m_Out (io s')
       = m_Out (io s)
         ++ [m_OutLine (io s) +:+ rowText s
             +:+ tab +:+ (if (clf_x c >=? 0)%Z then ToStr (clf_x c) else "")
             +:+ tab +:+ (if (clf_y c >=? 0)%Z then ToStr (clf_y c) else "")]
    /\ (clf_x c < 0 ->
        m_Out (io s')
        = m_Out (io s)
          ++ [m_OutLine (io s) +:+ rowText s +:+ tab +:+ ""
              +:+ tab +:+ (if (clf_y c >=? 0)%Z then ToStr (clf_y c) else "")])
    /\ (clf_y c < 0 ->
        m_Out (io s')
        = m_Out (io s)
          ++ [m_OutLine (io s) +:+ rowText s
              +:+ tab +:+ (if (clf_x c >=? 0)%Z then ToStr (clf_x c) else "")
              +:+ tab +:+ ""]).
Proof.
  intros Hidx Hclf Hm Hf.
  destruct (dumpProbeData s) as [r2 s2] eqn:E2.
  pose proof (dumpProbeData_by_index s r2 s2 Hclf Hm Hidx E2) as H2.
  rewrite Hf in H2. destruct H2 as (-> & Hout & _ & Hx & Hy).
  unfold coordText in Hout.
  exists s2. split; [reflexivity|]. split; [exact Hx|]. split; [exact Hy|].
  split; [exact Hout|]. split; intros Hneg; rewrite Hout.
  - destruct (clf_x c >=? 0)%Z eqn:Hb; [apply Z.geb_le in Hb; lia|reflexivity].
  - destruct (clf_y c >=? 0)%Z eqn:Hb; [apply Z.geb_le in Hb; lia|reflexivity].
Qed.

(** ** Unfiltered dump *)

Lemma join_safe_frame (s s' : dumpPgf) :
  members s' = members s -> layout s' = layout s -> join_safe s -> join_safe s'.
Proof.
  intros Hm Hl. unfold join_safe, clf_of. rewrite Hm, Hl. auto.
Qed.

Lemma coords_only_refl (s : dumpPgf) : coords_only s s.
Proof. unfold coords_only. repeat split; reflexivity. Qed.

Lemma callGetProbeCoordinates_safe (s : dumpPgf) (probeId : Z) :
  join_safe s -> m_ClfFileName (members s) <> "" ->
  exists s1, callGetProbeCoordinates probeId s = (inr tt, s1) /\ coords_only s s1.
Proof.
  intros [Hs|[Hs|(Hs & Hidx & Huniq)]] Hclf; [contradiction| |].
  - unfold callGetProbeCoordinates. erewrite bind_inr by reflexivity. rewrite Hs.
    unfold getCoordsBySequentialClf. erewrite bind_inr by reflexivity.
    destruct (m_ClfTsv (layout s)) as [clf|]; [|exists s; split; [reflexivity|apply coords_only_refl]].
    destruct (clf_sequential clf) as [f|]; [|exists s; split; [reflexivity|apply coords_only_refl]].
    eexists. split; [reflexivity|]. unfold coords_only. simpl. repeat split; reflexivity.
  - unfold callGetProbeCoordinates. erewrite bind_inr by reflexivity. rewrite Hs.
    destruct (getCoordsByIndex probeId s) as [r1 s1] eqn:E.
    pose proof (getCoordsByIndex_outcome probeId s r1 s1 Hidx E) as H1. cbv zeta in H1.
    specialize (Huniq (m_PgfProbeId (vars s))).
    destruct (findCoords (clf_of s) (m_PgfProbeId (vars s))) as [|c [|c' rest]];
      simpl in Huniq; try lia; destruct H1 as [-> ->];
      (eexists; split; [reflexivity|]); unfold coords_only; simpl; repeat split; reflexivity.
Qed.

(** When the join cannot abort, [dumpProbeData] completes exactly one
    line, which begins with the fields bound from the pgf file. *)
Lemma dumpProbeData_safe (s : dumpPgf) :
  join_safe s ->
  exists s' suffix,
    dumpProbeData s = (inr tt, s')
    /\ m_Out (io s') = m_Out (io s) ++ [m_OutLine (io s) +:+ rowText s +:+ suffix]
    /\ m_OutLine (io s') = ""
    /\ members s' = members s /\ layout s' = layout s
    /\ m_PgfProbesetId (vars s') = m_PgfProbesetId (vars s)
    /\ m_ProbesetData (vars s') = m_ProbesetData (vars s)
    /\ m_AtomProbeData (vars s') = m_AtomProbeData (vars s)
    /\ cur_mids (vars s') = cur_mids (vars s).
Proof.
  intros Hsafe. rewrite dumpProbeData_eq.
  destruct (str_empty (m_ClfFileName (members s))) eqn:Eclf; simpl.
  - exists (ended (wrote (rowText s) s)), "". split; [reflexivity|]. simpl.
    rewrite sapp_nil_r. repeat split; reflexivity.
  - assert (Hclf : m_ClfFileName (members s) <> "").
    { intros Habs. apply str_empty_true in Habs. congruence. }
    destruct (callGetProbeCoordinates_safe (wrote (rowText s) s) (m_PgfProbeId (vars s)))
      as (s1 & E1 & Hm & Hl & Ho & Hline & Hps & Hpd & Had & Hpi & Hcm);
      [eapply join_safe_frame; [| |exact Hsafe]; reflexivity|exact Hclf|].
    unfold when. rewrite !bind_assoc.
    erewrite bind_inr by exact E1.
    erewrite bind_inr by apply dumpCoords_run.
    eexists. eexists. split; [reflexivity|]. simpl.
    rewrite Ho, Hline, Hm, Hl, Hps, Hpd, Had, Hcm. simpl.
    rewrite !sapp_assoc. repeat split; reflexivity.
Qed.

Lemma dumpProbesetData_full (s : dumpPgf) :
  m_DumpProbesetsOnly (members s) = false ->
  dumpProbesetData s
  = forM_ (cur_mids (vars s))
      (fun m => read1 m ;; forM_ (mid_leaves m) (fun l => read2 l ;; dumpProbeData)) s.
Proof.
  intros H. unfold dumpProbesetData. do 3 (erewrite bind_inr by reflexivity).
  rewrite H. reflexivity.
Qed.

Lemma dumpProbesetData_only (s : dumpPgf) :
  m_DumpProbesetsOnly (members s) = true ->
  dumpProbesetData s
  = (inr tt,
     ended (wrote (ToStr (m_PgfProbesetId (vars s))
                   +:+ tabbed (m_ProbesetData (vars s)) 0 (m_ProbesetDataCount (layout s)))
              s)).
Proof.
  intros H. unfold dumpProbesetData. do 3 (erewrite bind_inr by reflexivity).
  rewrite H. do 2 (erewrite bind_inr by reflexivity).
  rewrite !wrote_fold, wrote_merge. reflexivity.
Qed.

(** A record is dumped alone: one line. *)
Lemma dumpEvery_only (p : ParentRecord) (s : dumpPgf) :
  m_DumpProbesetsOnly (members s) = true -> m_OutLine (io s) = "" ->
  exists s' line,
    dumpEvery p s = (inr tt, s')
    /\ m_Out (io s') = m_Out (io s) ++ [line]
    /\ parent_line p line
    /\ m_OutLine (io s') = ""
    /\ members s' = members s /\ layout s' = layout s.
Proof.
  intros Honly Hline.
  eexists. eexists. split.
  { unfold dumpEvery. erewrite bind_inr by reflexivity.
    rewrite dumpProbesetData_only by exact Honly. reflexivity. }
  simpl. rewrite Hline, sapp_nil_l.
  split; [reflexivity|]. split; [eexists; reflexivity|].
  repeat split; reflexivity.
Qed.

(** ** Selection by id list *)

Lemma stable_refl (s : dumpPgf) : stable s s.
Proof. unfold stable. auto. Qed.

Lemma stable_trans (s1 s2 s3 : dumpPgf) : stable s1 s2 -> stable s2 s3 -> stable s1 s3.
Proof.
  unfold stable. intros (A1 & B1 & C1) (A2 & B2 & C2).
  rewrite A2, B2, C2. auto.
Qed.

Lemma preserves_ret {A : Type} (a : A) : preserves (ret a).
Proof. intros s r s' H. inversion H. apply stable_refl. Qed.

Lemma preserves_errAbort {A : Type} (msg : string) : preserves (@errAbort A msg).
Proof. intros s r s' H. inversion H. apply stable_refl. Qed.

Lemma preserves_lift_err {A : Type} (x : Error + A) : preserves (lift_err x).
Proof. intros s r s' H. inversion H. apply stable_refl. Qed.

Lemma preserves_gets {A : Type} (f : dumpPgf -> A) : preserves (gets f).
Proof. intros s r s' H. inversion H. apply stable_refl. Qed.

Lemma preserves_modify (f : dumpPgf -> dumpPgf) :
  (forall s, stable s (f s)) -> preserves (modify f).
Proof. intros Hf s r s' H. inversion H. apply Hf. Qed.

Lemma preserves_bind {A B : Type} (m : M A) (k : A -> M B) :
  preserves m -> (forall a, preserves (k a)) -> preserves (bind m k).
Proof.
  intros Hm Hk s r s' H. unfold bind in H.
  destruct (m s) as [[e|a] s1] eqn:E.
  - inversion H; subst. eapply Hm. exact E.
  - eapply stable_trans; [eapply Hm; exact E|eapply Hk; exact H].
Qed.

Lemma preserves_when (c : bool) (m : M unit) : preserves m -> preserves (when c m).
Proof. intros Hm. destruct c; [exact Hm|apply preserves_ret]. Qed.

Lemma preserves_forM_ {A : Type} (l : list A) (body : A -> M unit) :
  (forall x, preserves (body x)) -> preserves (forM_ l body).
Proof.
  intros Hb. induction l as [|x l IH]; simpl; [apply preserves_ret|].
  apply preserves_bind; [apply Hb|intros _; exact IH].
Qed.

Lemma filter_app_drop (l : list Lookup) (x : Lookup) :
  lk_source x = ClfFile ->
  List.filter (fun l => match lk_source l with PgfFile => true | ClfFile => false end)
    (l ++ [x])
  = List.filter (fun l => match lk_source l with PgfFile => true | ClfFile => false end) l.
Proof.
  intros H. rewrite List.filter_app. simpl. rewrite H. apply app_nil_r.
Qed.

Create HintDb pres.

Ltac preserve :=
  repeat first
    [ solve [auto with pres nocore]
    | progress cbv zeta
    | apply preserves_ret | apply preserves_errAbort | apply preserves_gets
    | apply preserves_lift_err
    | apply preserves_when
    | apply preserves_forM_; intros
    | apply preserves_modify; intros; unfold stable, pgf_lookups; simpl;
      repeat split; try reflexivity; try (apply filter_app_drop; reflexivity)
    | apply preserves_bind; [|intros]
    | match goal with
      | |- preserves (if ?c then _ else _) => destruct c
      | |- preserves (match ?x with _ => _ end) => destruct x
      end ].

Lemma preserves_out_text (t : string) : preserves (out_text t).
Proof. unfold out_text. preserve. Qed.
#[local] Hint Resolve preserves_out_text : pres.

Lemma preserves_out_endl : preserves out_endl.
Proof. unfold out_endl. preserve. Qed.
#[local] Hint Resolve preserves_out_endl : pres.

Lemma preserves_read0 (p : ParentRecord) : preserves (read0 p).
Proof. unfold read0. preserve. Qed.
#[local] Hint Resolve preserves_read0 : pres.

Lemma preserves_read1 (m : MidRecord) : preserves (read1 m).
Proof. unfold read1. preserve. Qed.
#[local] Hint Resolve preserves_read1 : pres.

Lemma preserves_read2 (l : LeafRecord) : preserves (read2 l).
Proof. unfold read2. preserve. Qed.
#[local] Hint Resolve preserves_read2 : pres.

Lemma preserves_dumpCoords : preserves dumpCoords.
Proof.
  unfold dumpCoords. preserve.
Qed.
#[local] Hint Resolve preserves_dumpCoords : pres.

Lemma preserves_getCoordsByIndex (probeId : Z) : preserves (getCoordsByIndex probeId).
Proof.
  unfold getCoordsByIndex, findBegin, log_lookup, readClf, set_ClfXY. preserve.
Qed.
#[local] Hint Resolve preserves_getCoordsByIndex : pres.

Lemma preserves_getCoordsBySequentialClf (probeId : Z) :
  preserves (getCoordsBySequentialClf probeId).
Proof. unfold getCoordsBySequentialClf, set_ClfXY. preserve. Qed.
#[local] Hint Resolve preserves_getCoordsBySequentialClf : pres.

Lemma preserves_dumpProbeData : preserves dumpProbeData.
Proof.
  unfold dumpProbeData, callGetProbeCoordinates. preserve.
Qed.
#[local] Hint Resolve preserves_dumpProbeData : pres.

Lemma preserves_dumpProbesetData : preserves dumpProbesetData.
Proof.
  unfold dumpProbesetData. preserve.
Qed.
#[local] Hint Resolve preserves_dumpProbesetData : pres.

Lemma preserves_dumpEvery (p : ParentRecord) : preserves (dumpEvery p).
Proof.
  unfold dumpEvery. preserve.
Qed.
#[local] Hint Resolve preserves_dumpEvery : pres.

Lemma preserves_seekProbe (env : Env) (r : ParentRecord * MidRecord * LeafRecord) :
  preserves (seekProbe env r).
Proof.
  unfold seekProbe. destruct r as [[p m] l].
  preserve.
Qed.
#[local] Hint Resolve preserves_seekProbe : pres.





Lemma filter_filter_weaker {A : Type} (f g : A -> bool) (l : list A) :
  (forall y, f y = true -> g y = true) ->
  List.filter f (List.filter g l) = List.filter f l.
Proof.
  intros H. induction l as [|a l IH]; simpl; [reflexivity|].
  destruct (g a) eqn:Eg; simpl.
  - rewrite IH. reflexivity.
  - destruct (f a) eqn:Ef; [apply H in Ef; congruence|exact IH].
Qed.

Lemma filter_filter_and {A : Type} (f g : A -> bool) (l : list A) :
  List.filter f (List.filter g l) = List.filter (fun y => g y && f y) l.
Proof.
  induction l as [|a l IH]; simpl; [reflexivity|].
  destruct (g a); simpl; [destruct (f a); simpl; rewrite IH; reflexivity|exact IH].
Qed.

Lemma unseen_In (ids : list Z) (y : Z) : unseen ids y = false <-> In y ids.
Proof.
  unfold unseen. rewrite negb_false_iff, existsb_exists. split.
  - intros (x & Hx & E). apply Z.eqb_eq in E. subst. exact Hx.
  - intros H. exists y. split; [exact H|apply Z.eqb_refl].
Qed.

(** The loop over one id file pushes the ids not seen before, in the
    order of their first occurrence. *)
Lemma insertIds_spec (rows : list Z) :
  forall (idsMap : gmap Z bool) (ids : list Z),
    (forall x, idsMap !! x <> None <-> In x ids) ->
    snd (insertIds rows idsMap ids)
    = ids ++ List.filter (unseen ids) (keep_first rows).
Proof.
  induction rows as [|id rows IH]; intros idsMap ids Hinv; simpl.
  - rewrite app_nil_r. reflexivity.
  - destruct (idsMap !! id) as [b|] eqn:E.
    + assert (Hin : In id ids) by (apply Hinv; congruence).
      rewrite (IH idsMap ids Hinv).
      assert (Hu : unseen ids id = false) by (apply unseen_In; exact Hin).
      rewrite Hu. rewrite filter_filter_weaker; [reflexivity|].
      intros y Hy. apply negb_true_iff. apply Z.eqb_neq. intros ->. congruence.
    + assert (Hnin : ~ In id ids) by (intros H; apply Hinv in H; congruence).
      rewrite (IH (<[id := true]> idsMap) (ids ++ [id])).
      * assert (Hu : unseen ids id = true).
        { destruct (unseen ids id) eqn:Eu; [reflexivity|].
          apply unseen_In in Eu. contradiction. }
        rewrite Hu. rewrite <- app_assoc. simpl. f_equal. f_equal.
        rewrite filter_filter_and. apply filter_ext. intros y.
        unfold unseen. rewrite existsb_app. simpl. rewrite orb_false_r.
        rewrite negb_orb. apply andb_comm.
      * intros x. rewrite in_app_iff. simpl.
        destruct (Z.eq_dec id x) as [->|Hne].
        -- rewrite lookup_insert_eq. split; [auto|congruence].
        -- rewrite lookup_insert_ne by exact Hne. rewrite Hinv. tauto.
Qed.

Lemma insertIds_app (rows1 rows2 : list Z) :
  forall (idsMap : gmap Z bool) (ids : list Z),
    insertIds (rows1 ++ rows2) idsMap ids
    = insertIds rows2 (fst (insertIds rows1 idsMap ids)) (snd (insertIds rows1 idsMap ids)).
Proof.
  induction rows1 as [|id rows1 IH]; intros idsMap ids; simpl; [reflexivity|].
  destruct (idsMap !! id); apply IH.
Qed.

(** The loop over the id files of one option, when they all open. *)
Lemma readIdFileList_run (env : Env) (column what : string)
  (names : list string) (contents : list (list Z)) :
  Forall2 (fun n rows => fs_idlist env n column = Some rows) names contents ->
  forall (idsMap : gmap Z bool) (ids : list Z) (s : dumpPgf),
    exists s',
      readIdFileList env column what names idsMap ids s
      = (inr (snd (insertIds (concat contents) idsMap ids)), s')
      /\ members s' = members s /\ layout s' = layout s
      /\ m_ProbesetIds s' = m_ProbesetIds s /\ m_ProbeIds s' = m_ProbeIds s
      /\ m_Out (io s') = m_Out (io s) /\ lookups (io s') = lookups (io s).
Proof.
  induction 1 as [|name rows names contents Hopen Hrest IH]; intros idsMap ids s.
  - exists s. simpl. repeat split; reflexivity.
  - simpl. rewrite Hopen. rewrite insertIds_app.
    destruct (IH (fst (insertIds rows idsMap ids)) (snd (insertIds rows idsMap ids))
                (set_io (put_opened name (io s)) s))
      as (s' & E & Hm & Hl & Hi & Hp & Ho & Hk).
    exists s'. split; [|repeat split; assumption].
    erewrite bind_inr by reflexivity. exact E.
Qed.

(** [readIdFiles] leaves in [m_ProbesetIds] and [m_ProbeIds] the ids of
    the list files, duplicates removed, first occurrence kept. *)
Lemma readIdFiles_run (env : Env) (s : dumpPgf)
  (probesets probes : list (list Z)) :
  m_ProbesetIds s = [] -> m_ProbeIds s = [] ->
  Forall2 (fun n rows => fs_idlist env n "probeset_id" = Some rows)
    (m_ProbesetIdFileNames (members s)) probesets ->
  Forall2 (fun n rows => fs_idlist env n "probe_id" = Some rows)
    (m_ProbeIdFileNames (members s)) probes ->
  exists s',
    readIdFiles env s = (inr tt, s')
    /\ m_ProbesetIds s' = keep_first (concat probesets)
    /\ m_ProbeIds s' = keep_first (concat probes)
    /\ members s' = members s /\ layout s' = layout s
    /\ m_Out (io s') = m_Out (io s) /\ lookups (io s') = lookups (io s).
Proof.
  intros H1 H2 F1 F2.
  assert (Hnil : forall rows, snd (insertIds rows ∅ []) = keep_first rows).
  { intros rows. rewrite insertIds_spec.
    - simpl. apply forallb_filter_id. apply forallb_forall. reflexivity.
    - intros x. rewrite lookup_empty. simpl. tauto. }
  unfold readIdFiles.
  do 2 (erewrite bind_inr by reflexivity). rewrite H1.
  destruct (readIdFileList_run env "probeset_id" "probeset" _ _ F1 ∅ [] s)
    as (s1 & E1 & Hm1 & Hl1 & _ & Hp1 & Ho1 & Hk1).
  erewrite bind_inr by exact E1.
  do 3 (erewrite bind_inr by reflexivity).
  match goal with
  | |- context [bind (readIdFileList _ _ _ _ _ _) _ ?s2] =>
      destruct (readIdFileList_run env "probe_id" "probe" _ _ F2 ∅ [] s2)
        as (s3 & E3 & Hm3 & Hl3 & Hi3 & _ & Ho3 & Hk3)
  end.
  simpl. rewrite Hp1, H2.
  erewrite bind_inr by exact E3.
  do 1 (erewrite bind_inr by reflexivity).
  eexists. split; [reflexivity|]. simpl.
  rewrite Hi3, !Hnil, Hm3, Hl3, Ho3, Hk3. simpl.
  rewrite Hm1, Hl1, Ho1, Hk1. repeat split; reflexivity.
Qed.








(** ** The properties on the worked example *)

Lemma probeset_only_with_probe_ids_rejected_witness :
  exists msg s',
    main sample_env "1.0" "id"
      (sample_options "a.pgf" "" [""] [""] ["pids.txt"] true false)
    = (inl (ErrAbort msg), s')
    /\ opened (io s') = [] /\ lookups (io s') = []
    /\ m_Out (io s') = [] /\ m_OutLine (io s') = ""
    /\ (false = false -> 3%nat <> 1%nat -> false = false -> "a.pgf" <> "" ->
        @nil string = [] -> @nil string = [] ->
        msg = "FATAL: Cannot use --probeset-only with --probe-ids.").
Proof.
  apply (probeset_only_with_probe_ids_rejected sample_env "1.0" "id"
           (sample_options "a.pgf" "" [""] [""] ["pids.txt"] true false)).
  - vm_compute; reflexivity.
  - exists "pids.txt". split; [simpl; auto|discriminate].
Defined.

Lemma parent_only_header_is_strict_prefix_witness :
  exists s_only s_full,
    m_OutputColNames (layout s_only) = ["probeset_id"; "type"; "probeset_name"]
    /\ m_OutputColNames (layout s_full)
       = m_OutputColNames (layout s_only) ++ ["atom_id"; "probe_id"; "seq"; "x"; "y"].
Proof.
  destruct (parent_only_header_is_strict_prefix sample_env (prepared with_coordinates)
              sample_pgf)
    as (s_only & s_full & _ & _ & N1 & N2 & _).
  - vm_compute; reflexivity.
  - vm_compute; reflexivity.
  - vm_compute; reflexivity.
  - right. vm_compute. discriminate.
  - left. vm_compute; reflexivity.
  - vm_compute; reflexivity.
  - exists s_only, s_full. split; [exact N1|].
    rewrite N2. apply (f_equal (app (m_OutputColNames (layout s_only)))).
    vm_compute; reflexivity.
Defined.

Lemma and_accepted_implies_or_accepted_witness :
  accepted ["main"; "rescue"] true
    (mkParent 5 ["main->rescue->v1"; "ps5"] []) (configured by_types).
Proof.
  apply (and_accepted_implies_or_accepted ["main"; "rescue"]
           (mkParent 5 ["main->rescue->v1"; "ps5"] []) (configured by_types)).
  vm_compute. reflexivity.
Defined.

Lemma indexed_coordinates_contract_witness :
  (exists s', dumpProbeData (at_leaf (mkLeaf 103 ["GG"])) = (inr tt, s')
              /\ m_Out (io s')
                 = m_Out (io (at_leaf (mkLeaf 103 ["GG"])))
                   ++ [m_OutLine (io (at_leaf (mkLeaf 103 ["GG"])))
                       +:+ rowText (at_leaf (mkLeaf 103 ["GG"]))
                       +:+ tab +:+ "" +:+ tab +:+ ""])
  /\ (exists s1, getCoordsByIndex 101 (at_leaf (mkLeaf 101 ["ACGT"])) = (inr tt, s1)
                 /\ m_ClfX (vars s1) = 3 /\ m_ClfY (vars s1) = 4)
  /\ (exists s1, getCoordsByIndex 104 (at_leaf (mkLeaf 104 ["CC"]))
                 = (inl (not_unique "probe_id" 104 "clf" "a.clf"), s1)).
Proof.
  split; [|split].
  - destruct (indexed_coordinates_contract (at_leaf (mkLeaf 103 ["GG"])) 103)
      as (Hzero & _ & _); [vm_compute; reflexivity|vm_compute; discriminate|vm_compute; reflexivity|].
    apply Hzero. vm_compute; reflexivity.
  - destruct (indexed_coordinates_contract (at_leaf (mkLeaf 101 ["ACGT"])) 101)
      as (_ & Hone & _); [vm_compute; reflexivity|vm_compute; discriminate|vm_compute; reflexivity|].
    apply (Hone (mkClfRec 101 3 4)). vm_compute; reflexivity.
  - destruct (indexed_coordinates_contract (at_leaf (mkLeaf 104 ["CC"])) 104)
      as (_ & _ & Hmany); [vm_compute; reflexivity|vm_compute; discriminate|vm_compute; reflexivity|].
    apply Hmany. vm_compute. lia.
Defined.

Lemma negative_stored_coordinate_is_blank_witness :
  exists s',
    dumpProbeData (at_leaf (mkLeaf 102 ["TTTT"])) = (inr tt, s')
    /\ m_ClfX (vars s') = -2
    /\ m_Out (io s')
       = m_Out (io (at_leaf (mkLeaf 102 ["TTTT"])))
         ++ [m_OutLine (io (at_leaf (mkLeaf 102 ["TTTT"])))
             +:+ rowText (at_leaf (mkLeaf 102 ["TTTT"]))
             +:+ tab +:+ "" +:+ tab +:+ "7"].
Proof.
  destruct (negative_stored_coordinate_is_blank (at_leaf (mkLeaf 102 ["TTTT"]))
              (mkClfRec 102 (-2) 7))
    as (s' & E & Hx & _ & _ & Hblank & _).
  - vm_compute; reflexivity.
  - vm_compute. discriminate.
  - vm_compute; reflexivity.
  - vm_compute; reflexivity.
  - exists s'. split; [exact E|]. split; [exact Hx|]. apply Hblank. simpl. lia.
Defined.

(** Scenario 1 as a whole run: the row group of 5 is written, then the
    run ends on 9; 42 is never looked up. *)
Example scenario_id_list_run :
  let r := main sample_env "1.0" "id" by_probeset_ids in
  fst r = inl (not_unique "probeset_id" 9 "pgf" "a.pgf")
  /\ List.map lk_id (lookups (io (snd r))) = [5; 9]
  /\ List.length (m_Out (io (snd r))) = 10%nat.
Proof. vm_compute. repeat split; reflexivity. Qed.

(** Scenarios 2 and 3: "main->rescue->v1" passes the 'and' test for
    main and rescue, "main->v1" fails it and passes the 'or' test. *)
Example scenario_type_query :
  noMismatchFound ["main"; "rescue"] (splitTypes "main->rescue->v1") = true
  /\ noMismatchFound ["main"; "rescue"] (splitTypes "main->v1") = false
  /\ dumpIfAnyRequested ["main"; "rescue"] (splitTypes "main->v1") = dumpProbesetData.
Proof. repeat split; reflexivity. Qed.

(** Scenario 5: with the indexed strategy, a leaf absent from the clf
    file gets two empty trailing fields. *)
Example scenario_absent_coordinates :
  let r := main sample_env "1.0" "id" with_coordinates in
  nth 9 (m_Out (io (snd r))) ""
  = "5" +:+ tab +:+ "main->rescue->v1" +:+ tab +:+ "ps5" +:+ tab +:+ "a2"
    +:+ tab +:+ "103" +:+ tab +:+ "GG" +:+ tab +:+ "" +:+ tab +:+ "".
Proof. vm_compute. reflexivity. Qed.

(** * Further properties *)

(** ** More on the taxonomy matcher *)

Lemma substring_zero_prefix :
  forall (s : string) (p n m : nat),
    (p + n <= m)%nat ->
    String.substring p n (String.substring 0 m s) = String.substring p n s.
Proof.
  induction s as [|c s IH]; intros p n m H.
  - destruct m; reflexivity.
  - destruct m as [|m].
    + assert (p = 0%nat) by lia. assert (n = 0%nat) by lia. subst. reflexivity.
    + cbn [String.substring]. destruct p as [|p].
      * destruct n as [|n]; [reflexivity|]. cbn [String.substring].
        rewrite IH by lia. reflexivity.
      * cbn [String.substring]. apply IH. lia.
Qed.

Lemma substring_substring :
  forall (s : string) (b m p n : nat),
    (p + n <= m)%nat ->
    String.substring p n (String.substring b m s) = String.substring (b + p) n s.
Proof.
  induction s as [|c s IH]; intros b m p n H.
  - destruct b, m, p, n; reflexivity.
  - destruct b as [|b].
    + apply substring_zero_prefix. exact H.
    + cbn [String.substring Nat.add]. apply IH. exact H.
Qed.

Lemma substring_all (s : string) : String.substring 0 (String.length s) s = s.
Proof. induction s as [|c s IH]; [reflexivity|]. simpl. rewrite IH. reflexivity. Qed.

Lemma piece_delimiter_free (s : string) (b m : nat) :
  (forall q, (b <= q)%nat -> (q + 2 <= b + m)%nat -> String.substring q 2 s <> "->") ->
  delimiter_free (String.substring b m s).
Proof.
  intros Hno. unfold delimiter_free.
  destruct (find (String.substring b m s) "->" 0) as [p|] eqn:E; [|reflexivity].
  exfalso.
  pose proof (find_bounds _ _ _ _ _ E) as [_ Hle]. simpl in Hle.
  pose proof (substring_length_le s b m) as Hlen.
  unfold find in E. apply String.index_correct1 in E. simpl in E.
  assert (Hm : (p + 2 <= m)%nat).
  { destruct (le_lt_dec (p + 2) m) as [H|H]; [exact H|].
    exfalso. clear Hno Hlen.
    assert (Hlen' : (String.length (String.substring b m s) <= m)%nat).
    { clear. revert b m. induction s as [|c s IH]; intros b m.
      - destruct b, m; simpl; lia.
      - destruct b as [|b]; [|simpl; apply IH].
        destruct m as [|m]; simpl; [lia|]. specialize (IH 0%nat m). lia. }
    lia. }
  rewrite substring_substring in E by exact Hm.
  apply (Hno (b + p)%nat); [lia|lia|exact E].
Qed.

Lemma splitTypes_from_delimiter_free (inputString : string) (substrBegin : nat)
  (inputTypes : list string) :
  Forall delimiter_free inputTypes ->
  Forall delimiter_free (splitTypes_from inputString substrBegin inputTypes).
Proof.
  funelim (splitTypes_from inputString substrBegin inputTypes); intros Hacc.
  - apply H. destruct (Nat.eqb substrEnd substrBegin) eqn:E; [exact Hacc|].
    apply Forall_app. split; [exact Hacc|]. constructor; [|constructor].
    pose proof (find_bounds _ _ _ _ _ Hfind) as [Hge _].
    unfold substr. apply piece_delimiter_free. intros q Hq1 Hq2.
    unfold find in Hfind.
    apply (String.index_correct2 _ _ _ _ Hfind q); lia.
  - simpl. destruct (String.eqb (substr_from inputString substrBegin) "") eqn:E; [exact Hacc|].
    apply Forall_app. split; [exact Hacc|]. constructor; [|constructor].
    unfold substr_from. apply piece_delimiter_free. intros q Hq1 Hq2.
    apply (String.index_correct3 substrBegin q "->" inputString); [assumption|discriminate|lia].
Qed.

(** X1: no segment [splitTypes] returns contains the delimiter "->". *)
Theorem splitTypes_segments_delimiter_free (inputString : string) :
  Forall (fun seg => find seg "->" 0 = None) (splitTypes inputString).
Proof.
  unfold splitTypes. apply (splitTypes_from_delimiter_free inputString 0 []). constructor.
Qed.

Lemma splitTypes_from_last (inputString : string) (substrBegin : nat)
  (inputTypes : list string) :
  find inputString "->" substrBegin = None ->
  splitTypes_from inputString substrBegin inputTypes
  = if String.eqb (substr_from inputString substrBegin) "" then inputTypes
    else inputTypes ++ [substr_from inputString substrBegin].
Proof.
  funelim (splitTypes_from inputString substrBegin inputTypes); intros Hnone.
  - congruence.
  - reflexivity.
Qed.

(** X2: a string in which "->" does not occur is its own single segment,
    and the empty string has none. *)
Theorem splitTypes_without_delimiter (inputString : string) :
  find inputString "->" 0 = None ->
  splitTypes inputString = if String.eqb inputString "" then [] else [inputString].
Proof.
  intros H. unfold splitTypes. rewrite splitTypes_from_last by exact H.
  unfold substr_from. rewrite Nat.sub_0_r, substring_all. reflexivity.
Qed.

Lemma splitTypes_without_delimiter_witness : splitTypes "control" = ["control"].
Proof. apply (splitTypes_without_delimiter "control"). reflexivity. Defined.

(** ** More on the constructor *)

Lemma vec_empty_true {A : Type} (l : list A) : vec_empty l = true <-> l = [].
Proof. destruct l; simpl; split; congruence. Qed.

Lemma vec_empty_false {A : Type} (l : list A) : vec_empty l = false <-> l <> [].
Proof. destruct l; simpl; split; congruence. Qed.

Lemma str_empty_false (t : string) : str_empty t = false <-> t <> "".
Proof.
  split; intros H.
  - intros E. apply str_empty_true in E. congruence.
  - destruct (str_empty t) eqn:E; [|reflexivity]. apply str_empty_true in E. contradiction.
Qed.

Lemma dumpPgf_ctor_accepts
  (env : Env) (version cvsId : string) (o : Options) (s s' : dumpPgf) :
  dumpPgf_ctor env version cvsId o s = (inr tt, s')
  <-> acceptable env o
      /\ s' = set_members (chosen version cvsId o)
                (set_io (put_opened (opt_out_file o) (io s)) s).
Proof.
  unfold acceptable, one_selection, chosen. cbn [m_ProbesetTypes m_ProbesetIdFileNames
    m_ProbeIdFileNames].
  split.
  - intros H. unfold dumpPgf_ctor, bind, when, mustOpenToWrite in H.
    destruct (opt_help o) eqn:Hhelp; [discriminate H|].
    destruct (Nat.eqb (List.length (argv o)) 1) eqn:Hargc; [discriminate H|].
    cbn [orb ret] in H.
    destruct (opt_version o) eqn:Hver; [discriminate H|]. cbn [ret] in H.
    destruct (str_empty (opt_pgf_file o)) eqn:Hpgf; [discriminate H|]. cbn [ret] in H.
    assert (Hone :
      ((if vec_empty (nonempty_values (opt_probeset_type o)) then 0 else 1)
       + (if vec_empty (nonempty_values (opt_probeset_ids o)) then 0 else 1)
       + (if vec_empty (nonempty_values (opt_probe_ids o)) then 0 else 1) >? 1)%Z = false).
    { match type of H with
      | context [if ?c then errAbort _ else _] => destruct c; [discriminate H|reflexivity]
      end. }
    rewrite Hone in H. cbn [ret] in H.
    assert (Hmix : opt_probeset_only o && negb (vec_empty (nonempty_values (opt_probe_ids o)))
                   = false).
    { match type of H with
      | context [if ?c then errAbort _ else _] => destruct c; [discriminate H|reflexivity]
      end. }
    rewrite Hmix in H. cbn [ret] in H.
    destruct (str_empty (opt_out_file o)) eqn:Hout; [discriminate H|].
    destruct (fs_writable env (opt_out_file o)) eqn:Hw; [|discriminate H].
    unfold log_open, modify, assert_ in H.
    destruct (0 <? List.length (argv o))%nat eqn:Hpos; [|discriminate H].
    inversion H; subst s'. clear H.
    apply Nat.eqb_neq in Hargc. apply Nat.ltb_lt in Hpos.
    apply str_empty_false in Hpgf. apply str_empty_false in Hout.
    split; [|reflexivity].
    split; [reflexivity|]. split; [lia|]. split; [reflexivity|]. split; [exact Hpgf|].
    split.
    { destruct (nonempty_values (opt_probeset_type o));
        destruct (nonempty_values (opt_probeset_ids o));
        destruct (nonempty_values (opt_probe_ids o)); simpl in Hone;
        try discriminate Hone; auto. }
    split.
    { intros Honly. rewrite Honly in Hmix.
      destruct (nonempty_values (opt_probe_ids o)); [reflexivity|discriminate Hmix]. }
    split; [exact Hout|reflexivity].
  - intros [(Hhelp & Hargc & Hver & Hpgf & Hone & Hmix & Hout & Hw) ->].
    unfold dumpPgf_ctor, bind, when, mustOpenToWrite.
    rewrite Hhelp, Hver, Hw.
    assert (E1 : Nat.eqb (List.length (argv o)) 1 = false) by (apply Nat.eqb_neq; lia).
    assert (E2 : (0 <? List.length (argv o))%nat = true) by (apply Nat.ltb_lt; lia).
    apply str_empty_false in Hpgf. apply str_empty_false in Hout.
    rewrite E1, Hpgf, Hout. cbn [orb ret].
    assert (E3 :
      ((if vec_empty (nonempty_values (opt_probeset_type o)) then 0 else 1)
       + (if vec_empty (nonempty_values (opt_probeset_ids o)) then 0 else 1)
       + (if vec_empty (nonempty_values (opt_probe_ids o)) then 0 else 1) >? 1)%Z = false).
    { destruct Hone as [[-> ->]|[[-> ->]|[-> ->]]]; simpl;
        repeat match goal with |- context [vec_empty ?l] => destruct (vec_empty l) end;
        reflexivity. }
    rewrite E3. cbn [ret].
    assert (E4 : opt_probeset_only o && negb (vec_empty (nonempty_values (opt_probe_ids o)))
                 = false).
    { destruct (opt_probeset_only o); [|reflexivity]. rewrite (Hmix eq_refl). reflexivity. }
    rewrite E4. cbn [ret]. unfold log_open, modify, assert_. rewrite E2. reflexivity.
Qed.

(** X3: the constructor returns normally exactly for the command lines
    that ask for neither help nor the version, name a pgf file and a
    writable output file, use at most one of --probeset-type,
    --probeset-ids and --probe-ids (empty values not counted) and do not
    combine --probeset-only with --probe-ids; the object then holds the
    options, and the output file is the one file opened. *)
Theorem constructor_accepts_iff
  (env : Env) (version cvsId : string) (o : Options) (s s' : dumpPgf) :
  dumpPgf_ctor env version cvsId o s = (inr tt, s')
  <-> acceptable env o
      /\ s' = set_members (chosen version cvsId o)
                (set_io (put_opened (opt_out_file o) (io s)) s).
Proof. apply dumpPgf_ctor_accepts. Qed.

Lemma constructor_accepts_iff_witness : acceptable sample_env by_types.
Proof.
  apply (proj1 (constructor_accepts_iff sample_env "1.0" "id" by_types
                  (blank 77) (constructed by_types))).
  vm_compute. reflexivity.
Defined.

(** X4: every fatal error the constructor reports with [Err::errAbort]
    comes before the output file is opened: no file is opened and nothing
    is written.  Only the assertion on [argc] can fail later, and only for
    an empty argument vector. *)
Theorem constructor_failure_opens_nothing
  (env : Env) (version cvsId : string) (o : Options) (s s' : dumpPgf) (e : Error) :
  dumpPgf_ctor env version cvsId o s = (inl e, s') ->
  m_Out (io s') = m_Out (io s) /\ m_OutLine (io s') = m_OutLine (io s)
  /\ lookups (io s') = lookups (io s)
  /\ ((exists msg, e = ErrAbort msg) /\ opened (io s') = opened (io s)
      \/ e = AssertFailed "argc > 0" /\ argv o = []
         /\ opened (io s') = opened (io s) ++ [opt_out_file o]).
Proof.
  intros H. unfold dumpPgf_ctor, bind, when, mustOpenToWrite in H.
  destruct (opt_help o || Nat.eqb (List.length (argv o)) 1).
  { inversion H; subst. simpl. repeat split; try reflexivity. left. split; [eexists|]; reflexivity. }
  cbn [ret] in H.
  destruct (opt_version o).
  { inversion H; subst. simpl. repeat split; try reflexivity. left. split; [eexists|]; reflexivity. }
  cbn [ret] in H.
  destruct (str_empty (opt_pgf_file o)).
  { inversion H; subst. simpl. repeat split; try reflexivity. left. split; [eexists|]; reflexivity. }
  cbn [ret] in H.
  match type of H with
  | context [if ?c then errAbort _ else ret tt] => destruct c
  end.
  { inversion H; subst. simpl. repeat split; try reflexivity. left. split; [eexists|]; reflexivity. }
  cbn [ret] in H.
  match type of H with
  | context [if ?c then errAbort _ else ret tt] => destruct c
  end.
  { inversion H; subst. simpl. repeat split; try reflexivity. left. split; [eexists|]; reflexivity. }
  cbn [ret] in H.
  destruct (str_empty (opt_out_file o)).
  { inversion H; subst. simpl. repeat split; try reflexivity. left. split; [eexists|]; reflexivity. }
  destruct (fs_writable env (opt_out_file o)).
  2:{ inversion H; subst. simpl. repeat split; try reflexivity. left. split; [eexists|]; reflexivity. }
  unfold log_open, modify, assert_ in H.
  destruct (0 <? List.length (argv o))%nat eqn:Hpos; [discriminate H|].
  inversion H; subst. simpl. repeat split; try reflexivity. right.
  split; [reflexivity|]. split; [|reflexivity].
  apply Nat.ltb_ge in Hpos. destruct (argv o); [reflexivity|simpl in Hpos; lia].
Qed.

Lemma constructor_failure_opens_nothing_witness :
  opened (io (constructed mixed_selection)) = [].
Proof.
  assert (Hrun : dumpPgf_ctor sample_env "1.0" "id" mixed_selection (blank 77)
                 = (inl (ErrAbort
                      "FATAL: Cannot mix use of --probeset-ids, --probe-ids, and --probeset-type."),
                    constructed mixed_selection))
    by (vm_compute; reflexivity).
  destruct (constructor_failure_opens_nothing _ _ _ _ _ _ _ Hrun)
    as (_ & _ & _ & [[_ H]|[H _]]).
  - exact H.
  - discriminate H.
Defined.

(** ** More on the id lists *)

Lemma having_opened_frame (names : list string) (s : dumpPgf) :
  members (having_opened names s) = members s
  /\ layout (having_opened names s) = layout s
  /\ vars (having_opened names s) = vars s
  /\ m_ProbesetIds (having_opened names s) = m_ProbesetIds s
  /\ m_ProbeIds (having_opened names s) = m_ProbeIds s
  /\ m_ExecGuid (having_opened names s) = m_ExecGuid s
  /\ m_Out (io (having_opened names s)) = m_Out (io s)
  /\ m_OutLine (io (having_opened names s)) = m_OutLine (io s)
  /\ cerr (io (having_opened names s)) = cerr (io s)
  /\ lookups (io (having_opened names s)) = lookups (io s)
  /\ opened (io (having_opened names s)) = opened (io s) ++ names.
Proof.
  revert s. induction names as [|n names IH]; intros s.
  - simpl. rewrite app_nil_r. repeat split; reflexivity.
  - unfold having_opened. cbn [fold_left]. fold (having_opened names (set_io (put_opened n (io s)) s)).
    destruct (IH (set_io (put_opened n (io s)) s))
      as (H1 & H2 & H3 & H4 & H5 & H6 & H7 & H8 & H9 & H10 & H11).
    rewrite H1, H2, H3, H4, H5, H6, H7, H8, H9, H10, H11. simpl.
    rewrite <- app_assoc. repeat split; reflexivity.
Qed.

(** The loop over the id files of one option: the files that open are
    read, the first that does not ends the loop. *)
Lemma readIdFileList_opens (env : Env) (column what : string)
  (names : list string) (contents : list (list Z)) :
  Forall2 (fun n rows => fs_idlist env n column = Some rows) names contents ->
  forall (more : list string) (idsMap : gmap Z bool) (ids : list Z) (s : dumpPgf),
    readIdFileList env column what (names ++ more) idsMap ids s
    = readIdFileList env column what more
        (fst (insertIds (concat contents) idsMap ids))
        (snd (insertIds (concat contents) idsMap ids))
        (having_opened names s).
Proof.
  induction 1 as [|name rows names contents Hopen Hrest IH]; intros more idsMap ids s.
  - reflexivity.
  - cbn [app readIdFileList concat]. rewrite Hopen. rewrite insertIds_app.
    erewrite bind_inr by reflexivity.
    rewrite IH. reflexivity.
Qed.

(** X5: [readIdFiles] stops at the first id file that does not open,
    with the message that names it; the files listed before it were
    opened, those after it and, for a probeset id file, all probe id
    files are never opened, and nothing is written to the output. *)
Theorem readIdFiles_stops_at_unreadable_file (env : Env) (s : dumpPgf)
  (pre : list string) (contents : list (list Z)) (bad : string) (post : list string) :
  Forall2 (fun n rows => fs_idlist env n "probeset_id" = Some rows) pre contents ->
  m_ProbesetIdFileNames (members s) = pre ++ bad :: post ->
  fs_idlist env bad "probeset_id" = None ->
  exists s',
    readIdFiles env s
    = (inl (ErrAbort ("Problem opening probeset id file " +:+ bad)), s')
    /\ opened (io s') = opened (io s) ++ pre
    /\ m_Out (io s') = m_Out (io s) /\ m_OutLine (io s') = m_OutLine (io s)
    /\ lookups (io s') = lookups (io s).
Proof.
  intros Hpre Hnames Hbad. unfold readIdFiles.
  do 2 (erewrite bind_inr by reflexivity). rewrite Hnames.
  exists (having_opened pre s).
  destruct (having_opened_frame pre s) as (_ & _ & _ & _ & _ & _ & H7 & H8 & _ & H10 & H11).
  split; [|auto].
  erewrite bind_inl; [reflexivity|].
  rewrite (readIdFileList_opens env "probeset_id" "probeset" pre contents Hpre).
  cbn [readIdFileList]. rewrite Hbad. reflexivity.
Qed.

Lemma readIdFiles_stops_at_unreadable_file_witness :
  exists s',
    readIdFiles sample_env (constructed two_id_files)
    = (inl (ErrAbort "Problem opening probeset id file nowhere.txt"), s')
    /\ opened (io s') = ["out.txt"; "ids.txt"].
Proof.
  destruct (readIdFiles_stops_at_unreadable_file sample_env (constructed two_id_files)
              ["ids.txt"] [[5; 5; 9; 42]] "nowhere.txt" ["ids.txt"])
    as (s' & E & Ho & _).
  - repeat constructor.
  - reflexivity.
  - reflexivity.
  - exists s'. split; [exact E|exact Ho].
Defined.

Lemma insertIds_keeps_keys (rows : list Z) :
  forall (idsMap : gmap Z bool) (ids : list Z) (x : Z),
    idsMap !! x <> None -> fst (insertIds rows idsMap ids) !! x <> None.
Proof.
  induction rows as [|id rows IH]; intros idsMap ids x Hx; [exact Hx|].
  cbn [insertIds]. destruct (idsMap !! id) eqn:E.
  - apply IH. exact Hx.
  - apply IH. destruct (Z.eq_dec id x) as [->|Hne].
    + rewrite lookup_insert_eq. discriminate.
    + rewrite lookup_insert_ne by exact Hne. exact Hx.
Qed.

Lemma insertIds_learns (rows : list Z) :
  forall (idsMap : gmap Z bool) (ids : list Z) (x : Z),
    In x rows -> fst (insertIds rows idsMap ids) !! x <> None.
Proof.
  induction rows as [|id rows IH]; intros idsMap ids x Hx; [destruct Hx|].
  cbn [insertIds]. destruct Hx as [->|Hx].
  - destruct (idsMap !! x) eqn:E.
    + apply insertIds_keeps_keys. congruence.
    + apply insertIds_keeps_keys. rewrite lookup_insert_eq. discriminate.
  - destruct (idsMap !! id); apply IH; exact Hx.
Qed.

Lemma insertIds_known (rows : list Z) (idsMap : gmap Z bool) (ids : list Z) :
  (forall x, In x rows -> idsMap !! x <> None) ->
  insertIds rows idsMap ids = (idsMap, ids).
Proof.
  induction rows as [|id rows IH]; intros H; [reflexivity|].
  cbn [insertIds]. destruct (idsMap !! id) eqn:E.
  - apply IH. intros x Hx. apply H. right. exact Hx.
  - exfalso. apply (H id); [left; reflexivity|exact E].
Qed.

(** X6: rows whose ids all occurred before, in the same id file or an
    earlier one, change neither the map nor the vector of ids: an id file
    listed twice counts once. *)
Theorem insertIds_seen_rows_add_nothing
  (rows1 rows2 : list Z) (idsMap : gmap Z bool) (ids : list Z) :
  (forall x, In x rows2 -> In x rows1) ->
  insertIds (rows1 ++ rows2) idsMap ids = insertIds rows1 idsMap ids.
Proof.
  intros H. rewrite insertIds_app. rewrite insertIds_known.
  - destruct (insertIds rows1 idsMap ids); reflexivity.
  - intros x Hx. apply insertIds_learns. apply H. exact Hx.
Qed.

Lemma insertIds_seen_rows_add_nothing_witness :
  insertIds ([5; 5; 9; 42] ++ [9; 5]) ∅ [] = insertIds [5; 5; 9; 42] ∅ [].
Proof.
  apply (insertIds_seen_rows_add_nothing [5; 5; 9; 42] [9; 5] ∅ []).
  intros x Hx. simpl in Hx. simpl. intuition.
Defined.

(** ** Column bindings *)

Lemma slots_S (col slot count : nat) :
  slots col slot (S count) = (col, slot) :: slots (S col) (S slot) count.
Proof.
  unfold slots. cbn [seq map]. rewrite !Nat.add_0_r. f_equal.
  rewrite <- seq_shift, map_map. apply map_ext. intros j. f_equal; lia.
Qed.

Lemma bindProbesetColumns_slots (cols : list string) :
  forall (i k : nat) (foundType : bool) (typeCol : nat) (names : list string)
         (binds : list (nat * nat)),
    i <> 0%nat -> ~ In "probeset_id" cols ->
    bindProbesetColumns i cols (k, foundType, typeCol, names, binds)
    = inr ((k + List.length cols)%nat, foundType || std_find cols "type",
           typeColFrom k cols typeCol, names ++ cols,
           binds ++ slots i k (List.length cols)).
Proof.
  induction cols as [|c cols IH]; intros i k ft tc names binds Hi Hno.
  - cbn. rewrite orb_false_r, !app_nil_r, Nat.add_0_r. reflexivity.
  - destruct i as [|i]; [congruence|].
    assert (Hc : String.eqb c "probeset_id" = false).
    { apply String.eqb_neq. intros ->. apply Hno. left. reflexivity. }
    cbn [bindProbesetColumns]. rewrite Hc. cbn [Nat.eqb andb negb].
    assert (Hno' : ~ In "probeset_id" cols) by (intros H; apply Hno; right; exact H).
    cbn [List.length]. rewrite slots_S. cbn [std_find typeColFrom].
    destruct (String.eqb c "type") eqn:Et.
    + rewrite IH by (try lia; exact Hno').
      rewrite orb_true_r, orb_true_l, <- !app_assoc, Nat.add_succ_comm. reflexivity.
    + rewrite IH by (try lia; exact Hno').
      rewrite <- !app_assoc, Nat.add_succ_comm. reflexivity.
Qed.

Lemma bindProbesetColumns_exact (rest : list string) (typeCol : nat)
  (names : list string) (binds : list (nat * nat)) :
  ~ In "probeset_id" rest ->
  bindProbesetColumns 0 ("probeset_id" :: rest) (0%nat, false, typeCol, names, binds)
  = inr (List.length rest, std_find rest "type", typeColFrom 0 rest typeCol,
         names ++ "probeset_id" :: rest, binds ++ slots 1 0 (List.length rest)).
Proof.
  intros Hno. cbn [bindProbesetColumns]. cbn.
  rewrite bindProbesetColumns_slots by (try lia; exact Hno).
  rewrite <- app_assoc. reflexivity.
Qed.

Lemma bindAtomColumns_slots (cols : list string) :
  forall (i k : nat) (names : list string) (binds : list (nat * nat)),
    bindAtomColumns i cols (k, names, binds)
    = ((k + List.length cols)%nat, names ++ cols, binds ++ slots i k (List.length cols)).
Proof.
  induction cols as [|c cols IH]; intros i k names binds.
  - cbn. rewrite !app_nil_r, Nat.add_0_r. reflexivity.
  - cbn [bindAtomColumns List.length]. rewrite IH, slots_S, <- !app_assoc, Nat.add_succ_comm.
    reflexivity.
Qed.

Lemma bindProbeColumns_slots (cols : list string) :
  forall (i k : nat) (names : list string) (binds : list (nat * nat)),
    i <> 0%nat -> ~ In "probe_id" cols ->
    bindProbeColumns i cols (k, names, binds)
    = inr ((k + List.length cols)%nat, names ++ cols,
           binds ++ slots i k (List.length cols)).
Proof.
  induction cols as [|c cols IH]; intros i k names binds Hi Hno.
  - cbn. rewrite !app_nil_r, Nat.add_0_r. reflexivity.
  - destruct i as [|i]; [congruence|].
    assert (Hc : String.eqb c "probe_id" = false).
    { apply String.eqb_neq. intros ->. apply Hno. left. reflexivity. }
    cbn [bindProbeColumns]. rewrite Hc. cbn [Nat.eqb andb negb].
    rewrite IH by (try lia; intros H; apply Hno; right; exact H).
    cbn [List.length]. rewrite slots_S, <- !app_assoc, Nat.add_succ_comm. reflexivity.
Qed.

Lemma bindProbeColumns_exact (rest : list string) (k : nat) (names : list string)
  (binds : list (nat * nat)) :
  ~ In "probe_id" rest ->
  bindProbeColumns 0 ("probe_id" :: rest) (k, names, binds)
  = inr ((k + List.length rest)%nat, names ++ "probe_id" :: rest,
         binds ++ slots 1 k (List.length rest)).
Proof.
  intros Hno. cbn [bindProbeColumns]. cbn.
  rewrite bindProbeColumns_slots by (try lia; exact Hno).
  rewrite <- app_assoc. reflexivity.
Qed.

(** ** Bound vectors *)

Lemma populate_cons (b : nat * nat) (binds : list (nat * nat)) (cell : nat -> string)
  (data : list string) :
  populate (b :: binds) cell data = populate binds cell (<[snd b := cell (fst b)]> data).
Proof. reflexivity. Qed.

Lemma populate_length (binds : list (nat * nat)) (cell : nat -> string) :
  forall data : list string, List.length (populate binds cell data) = List.length data.
Proof.
  induction binds as [|b binds IH]; intros data; [reflexivity|].
  rewrite populate_cons, IH. apply length_insert.
Qed.

Lemma nth_insert_eq (data : list string) (k : nat) (x : string) :
  (k < List.length data)%nat -> nth k (<[k := x]> data) "" = x.
Proof. intros H. rewrite nth_lookup, list_lookup_insert_eq by exact H. reflexivity. Qed.

Lemma nth_insert_ne (data : list string) (k i : nat) (x : string) :
  k <> i -> nth i (<[k := x]> data) "" = nth i data "".
Proof. intros H. rewrite !nth_lookup, list_lookup_insert_ne by exact H. reflexivity. Qed.

Lemma nth_populate_slots_out (count : nat) :
  forall (col slot i : nat) (cell : nat -> string) (data : list string),
    (i < slot \/ slot + count <= i)%nat ->
    nth i (populate (slots col slot count) cell data) "" = nth i data "".
Proof.
  induction count as [|count IH]; intros col slot i cell data Hi; [reflexivity|].
  rewrite slots_S, populate_cons. cbn [fst snd].
  rewrite IH by lia. apply nth_insert_ne. lia.
Qed.

Lemma nth_populate_slots_in (count : nat) :
  forall (col slot j : nat) (cell : nat -> string) (data : list string),
    (j < count)%nat -> (slot + count <= List.length data)%nat ->
    nth (slot + j) (populate (slots col slot count) cell data) "" = cell (col + j)%nat.
Proof.
  induction count as [|count IH]; intros col slot j cell data Hj Hlen; [lia|].
  rewrite slots_S, populate_cons. cbn [fst snd].
  destruct j as [|j].
  - rewrite !Nat.add_0_r. rewrite nth_populate_slots_out by lia.
    apply nth_insert_eq. lia.
  - replace (slot + S j)%nat with (S slot + j)%nat by lia.
    replace (col + S j)%nat with (S col + j)%nat by lia.
    apply IH; [lia|]. rewrite length_insert. lia.
Qed.

(** Reading a line fills the window of its level with the line's
    columns, and leaves the rest of the vector as it was. *)
Lemma window_populate_in (col slot count : nat) (cell : nat -> string) (data : list string) :
  (slot + count <= List.length data)%nat ->
  window (populate (slots col slot count) cell data) slot count
  = map (fun j => cell (col + j)%nat) (seq 0 count).
Proof.
  intros Hlen. unfold window. apply map_ext_in. intros j Hj. apply in_seq in Hj.
  apply nth_populate_slots_in; [lia|exact Hlen].
Qed.

Lemma window_populate_out (col slot count from n : nat) (cell : nat -> string)
  (data : list string) :
  (from + n <= slot \/ slot + count <= from)%nat ->
  window (populate (slots col slot count) cell data) from n = window data from n.
Proof.
  intros H. unfold window. apply map_ext_in. intros j Hj. apply in_seq in Hj.
  apply nth_populate_slots_out. lia.
Qed.

Lemma nth_window (data : list string) (from count j : nat) :
  (j < count)%nat -> nth j (window data from count) "" = nth (from + j) data "".
Proof.
  intros Hj. unfold window.
  rewrite (nth_indep _ "" ((fun j => nth (from + j) data "") 0%nat))
    by (rewrite length_map, length_seq; exact Hj).
  rewrite (map_nth (fun j => nth (from + j) data "")).
  rewrite seq_nth by exact Hj. reflexivity.
Qed.

Lemma fit_exact (fields : list string) : fit (List.length fields) fields = fields.
Proof.
  unfold fit, window. apply nth_ext with (d := "") (d' := "").
  - rewrite length_map, length_seq. reflexivity.
  - intros j Hj. rewrite length_map, length_seq in Hj.
    apply (nth_window fields 0 (List.length fields) j Hj).
Qed.

(** ** Fields of a line *)

Lemma tabJoin_app (a b : list string) : tabJoin (a ++ b) = tabJoin a +:+ tabJoin b.
Proof. unfold tabJoin at 1. rewrite fold_left_app. apply fold_tab_from. Qed.

Lemma tabJoin_cons (x : string) (l : list string) : tabJoin (x :: l) = tab +:+ x +:+ tabJoin l.
Proof.
  change (x :: l) with ([x] ++ l). rewrite tabJoin_app. unfold tabJoin at 1. cbn [fold_left].
  rewrite sapp_nil_l, sapp_assoc. reflexivity.
Qed.

Lemma headerLine_cons (x : string) (l : list string) : headerLine (x :: l) = x +:+ tabJoin l.
Proof. cbn [headerLine]. apply fold_tab_from. Qed.

Lemma tabbed_window (data : list string) (from count : nat) :
  tabbed data from (Z.of_nat count) = tabJoin (window data from count).
Proof.
  unfold tabbed, tabJoin, window. rewrite Nat2Z.id.
  assert (H : forall (l : list nat) (acc : string),
             fold_left (fun acc j => acc +:+ tab +:+ nth (from + j) data "") l acc
             = fold_left (fun acc n => acc +:+ tab +:+ n)
                 (map (fun j => nth (from + j) data "") l) acc).
  { induction l as [|j l IH]; intros acc; [reflexivity|]. cbn [fold_left map]. apply IH. }
  apply H.
Qed.

(** ** Setup on a well-formed design table *)

Lemma usub1_succ (n : nat) : (Z.of_nat (S n) < 2 ^ 32)%Z -> usub1 (Z.of_nat (S n)) = Z.of_nat n.
Proof.
  intros H. unfold usub1. rewrite Nat2Z.inj_succ in *.
  replace (Z.succ (Z.of_nat n) - 1)%Z with (Z.of_nat n) by lia.
  apply Z.mod_small. lia.
Qed.

Lemma bindColumns_only (mb : Members) (lay : Layout) (pgf : PgfSource) (rest0 : list string) :
  m_DumpProbesetsOnly mb = true ->
  pgf_cols0 pgf = "probeset_id" :: rest0 -> ~ In "probeset_id" rest0 ->
  (Z.of_nat (List.length (pgf_cols0 pgf)) < 2 ^ 32)%Z ->
  (m_ProbesetTypes mb = [] \/ std_find rest0 "type" = true) ->
  bindColumns mb lay pgf
  = inr (mkCatalog (Z.of_nat (List.length rest0)) 0 0
           (typeColFrom 0 rest0 (m_ProbesetTypeCol lay))
           (m_OutputColNames lay ++ pgf_cols0 pgf)
           (binds0 lay ++ slots 1 0 (List.length rest0)) (binds1 lay) (binds2 lay)).
Proof.
  intros Honly H0 Hno Hsize Hty. unfold bindColumns. rewrite H0 in *.
  rewrite bindProbesetColumns_exact by exact Hno.
  assert (Ety : negb (vec_empty (m_ProbesetTypes mb)) && negb (std_find rest0 "type") = false).
  { destruct Hty as [Hc|Hc]; rewrite Hc; [reflexivity|apply andb_false_r]. }
  rewrite Ety, Honly. cbn [List.length] in *. rewrite usub1_succ by exact Hsize. reflexivity.
Qed.

Lemma bindColumns_full (mb : Members) (lay : Layout) (pgf : PgfSource)
  (rest0 rest2 : list string) :
  m_DumpProbesetsOnly mb = false ->
  pgf_cols0 pgf = "probeset_id" :: rest0 -> ~ In "probeset_id" rest0 ->
  pgf_cols2 pgf = "probe_id" :: rest2 -> ~ In "probe_id" rest2 ->
  (Z.of_nat (List.length (pgf_cols0 pgf)) < 2 ^ 32)%Z ->
  (Z.of_nat (List.length (pgf_cols2 pgf)) < 2 ^ 32)%Z ->
  (m_ProbesetTypes mb = [] \/ std_find rest0 "type" = true) ->
  bindColumns mb lay pgf
  = inr (mkCatalog (Z.of_nat (List.length rest0)) (Z.of_nat (List.length (pgf_cols1 pgf)))
           (Z.of_nat (List.length rest2))
           (typeColFrom 0 rest0 (m_ProbesetTypeCol lay))
           (((m_OutputColNames lay ++ pgf_cols0 pgf) ++ pgf_cols1 pgf) ++ pgf_cols2 pgf
            ++ (if negb (str_empty (m_ClfFileName mb)) then ["x"; "y"] else []))
           (binds0 lay ++ slots 1 0 (List.length rest0))
           (binds1 lay ++ slots 0 0 (List.length (pgf_cols1 pgf)))
           (binds2 lay ++ slots 1 (List.length (pgf_cols1 pgf)) (List.length rest2))).
Proof.
  intros Honly H0 Hno0 H2 Hno2 Hsize0 Hsize2 Hty. unfold bindColumns. rewrite H0, H2 in *.
  rewrite bindProbesetColumns_exact by exact Hno0.
  assert (Ety : negb (vec_empty (m_ProbesetTypes mb)) && negb (std_find rest0 "type") = false).
  { destruct Hty as [Hc|Hc]; rewrite Hc; [reflexivity|apply andb_false_r]. }
  rewrite Ety, Honly. rewrite bindAtomColumns_slots.
  rewrite bindProbeColumns_exact by exact Hno2.
  cbn [List.length] in *. rewrite !usub1_succ by assumption.
  cbn [Nat.add].
  destruct (negb (str_empty (m_ClfFileName mb))); rewrite <- ?app_assoc; cbn [app];
    rewrite ?app_nil_r; reflexivity.
Qed.

Lemma openInputFiles_arranges (env : Env) (s : dumpPgf) (pgf : PgfSource)
  (rest0 rest2 : list string) :
  unopened s ->
  fs_pgf env (m_PgfFileName (members s)) = Some pgf ->
  pgf_cols0 pgf = "probeset_id" :: rest0 -> ~ In "probeset_id" rest0 ->
  (Z.of_nat (List.length (pgf_cols0 pgf)) < 2 ^ 32)%Z ->
  (m_DumpProbesetsOnly (members s) = false ->
   pgf_cols2 pgf = "probe_id" :: rest2 /\ ~ In "probe_id" rest2
   /\ (Z.of_nat (List.length (pgf_cols1 pgf)) + Z.of_nat (List.length (pgf_cols2 pgf))
       < 2 ^ 32)%Z) ->
  (m_ProbesetTypes (members s) = [] \/ std_find rest0 "type" = true) ->
  (m_ClfFileName (members s) <> "" -> fs_clf env (m_ClfFileName (members s)) <> None) ->
  exists s',
    openInputFiles env s = (inr tt, s')
    /\ members s' = members s
    /\ m_ProbesetIds s' = m_ProbesetIds s /\ m_ProbeIds s' = m_ProbeIds s
    /\ m_ExecGuid s' = m_ExecGuid s
    /\ m_Out (io s') = m_Out (io s) /\ m_OutLine (io s') = m_OutLine (io s)
    /\ lookups (io s') = lookups (io s)
    /\ m_PgfTsv (layout s') = Some pgf
    /\ m_OutputColNames (layout s') = column_names (members s) pgf
    /\ m_ProbesetTypeCol (layout s') = typeColFrom 0 rest0 (m_ProbesetTypeCol (layout s))
    /\ pgf_index (layout s') = requested_index (members s)
    /\ arranged (List.length rest0) (List.length (pgf_cols1 pgf)) (List.length rest2) s'
    /\ joined (the_clf env (members s)) s'.
Proof.
  intros (Hn & Hb0 & Hb1 & Hb2 & Hpi & Hci) Hfs H0 Hno0 Hsize0 Hfull Hty Hclf.
  assert (Hopen : tsv_open_pgf env (m_PgfFileName (members s))
                    (m_DumpProbesetsOnly (members s)) = Some pgf).
  { apply tsv_open_pgf_ok; [exact Hfs|rewrite H0; reflexivity|].
    destruct (m_DumpProbesetsOnly (members s)); [left; reflexivity|right].
    destruct (Hfull eq_refl) as (H2 & _). rewrite H2. reflexivity. }
  assert (Ecat : exists cat,
             bindColumns (members s) (layout s) pgf = inr cat
             /\ cat_ProbesetDataCount cat = Z.of_nat (List.length rest0)
             /\ cat_ProbesetTypeCol cat = typeColFrom 0 rest0 (m_ProbesetTypeCol (layout s))
             /\ cat_OutputColNames cat = column_names (members s) pgf
             /\ cat_binds0 cat = slots 1 0 (List.length rest0)
             /\ (m_DumpProbesetsOnly (members s) = false ->
                 cat_binds1 cat = slots 0 0 (List.length (pgf_cols1 pgf))
                 /\ cat_binds2 cat = slots 1 (List.length (pgf_cols1 pgf)) (List.length rest2)
                 /\ cat_AtomDataCount cat = Z.of_nat (List.length (pgf_cols1 pgf))
                 /\ cat_ProbeDataCount cat = Z.of_nat (List.length rest2))).
  { destruct (m_DumpProbesetsOnly (members s)) eqn:Honly.
    - eexists. split; [apply (bindColumns_only _ _ _ rest0); assumption|].
      cbn. rewrite Hn, Hb0. unfold column_names. rewrite Honly, app_nil_r.
      repeat split; try reflexivity; discriminate.
    - destruct (Hfull eq_refl) as (H2 & Hno2 & Hsize2).
      eexists. split; [apply (bindColumns_full _ _ _ rest0 rest2); try assumption; lia|].
      cbn. rewrite Hn, Hb0, Hb1, Hb2. unfold column_names. rewrite Honly.
      cbn [app]. rewrite <- !app_assoc. repeat split; reflexivity. }
  destruct Ecat as (cat & Ecat & Hc0 & Hctc & Hcn & Hcb0 & Hcfull).
  unfold openInputFiles, openPgfFile, bind. simpl.
  rewrite Hopen. simpl. unfold openClfFile, bind. simpl.
  assert (Hlen0 : Z.to_nat (usub1 (Z.of_nat (List.length (pgf_cols0 pgf))))
                  = List.length rest0).
  { rewrite H0 in *. cbn [List.length] in *. rewrite usub1_succ by exact Hsize0.
    apply Nat2Z.id. }
  assert (Hlen12 : m_DumpProbesetsOnly (members s) = false ->
            Z.to_nat (usub1 ((Z.of_nat (List.length (pgf_cols1 pgf))
                              + Z.of_nat (List.length (pgf_cols2 pgf))) mod 2 ^ 32))
            = (List.length (pgf_cols1 pgf) + List.length rest2)%nat).
  { intros Honly. destruct (Hfull Honly) as (H2 & _ & Hsize2).
    rewrite H2 in *. cbn [List.length] in *.
    rewrite Z.mod_small by lia.
    replace (Z.of_nat (List.length (pgf_cols1 pgf)) + Z.of_nat (S (List.length rest2)))%Z
      with (Z.of_nat (S (List.length (pgf_cols1 pgf) + List.length rest2))) by lia.
    rewrite usub1_succ by lia. apply Nat2Z.id. }
  unfold the_clf, joined, arranged.
  destruct (str_empty (m_ClfFileName (members s))) eqn:Ec; simpl.
  - unfold lift_err. rewrite Ecat. eexists. split; [reflexivity|]. simpl.
    rewrite Hlen0, length_resize, Hpi.
    repeat (split; [first [reflexivity|assumption|lia]|]).
    split.
    { split; [exact Hcb0|]. split; [exact Hc0|]. split; [lia|].
      intros Honly. rewrite Honly. rewrite (Hlen12 Honly), length_resize.
      destruct (Hcfull Honly) as (A & B & C & D). repeat split; try assumption. lia. }
    apply str_empty_true. exact Ec.
  - assert (Hne : m_ClfFileName (members s) <> "") by (apply str_empty_false; exact Ec).
    specialize (Hclf Hne).
    destruct (fs_clf env (m_ClfFileName (members s))) as [clf|]; [|congruence]. simpl.
    destruct (clf_sequential clf) eqn:Eseq; simpl; unfold lift_err; rewrite Ecat;
      (eexists; split; [reflexivity|]); simpl;
      rewrite Hlen0, length_resize, Hpi, ?Eseq;
      repeat (split; [first [reflexivity|assumption|lia]|]).
    + split.
      { split; [exact Hcb0|]. split; [exact Hc0|]. split; [lia|].
        intros Honly. rewrite Honly. rewrite (Hlen12 Honly), length_resize.
        destruct (Hcfull Honly) as (A & B & C & D). repeat split; try assumption. lia. }
      repeat split; try assumption; reflexivity.
    + split.
      { split; [exact Hcb0|]. split; [exact Hc0|]. split; [lia|].
        intros Honly. rewrite Honly. rewrite (Hlen12 Honly), length_resize.
        destruct (Hcfull Honly) as (A & B & C & D). repeat split; try assumption. lia. }
      split; [exact Hne|]. split; [reflexivity|]. split; [reflexivity|].
      rewrite index_defined_app. simpl. apply orb_true_r.
Qed.

(** ** The head of the output *)

Lemma emitted_nil (s : dumpPgf) : emitted [] s = s.
Proof.
  destruct s as [mb i1 i2 g lay vs [o l c op lk]]. unfold emitted, set_io. simpl.
  rewrite app_nil_r. reflexivity.
Qed.

Lemma emitted_app (a b : list string) (s : dumpPgf) :
  emitted b (emitted a s) = emitted (a ++ b) s.
Proof. unfold emitted, set_io. simpl. rewrite <- app_assoc. reflexivity. Qed.

Lemma emit_line (t : string) (s : dumpPgf) :
  m_OutLine (io s) = "" -> (out_text t ;; out_endl) s = (inr tt, emitted [t] s).
Proof.
  intros H. unfold bind, out_text, out_endl, modify, emitted, set_io, put_endl, put_text.
  simpl. rewrite H. reflexivity.
Qed.

Lemma emit_line_bind {B : Type} (t : string) (k : unit -> M B) (s : dumpPgf) :
  m_OutLine (io s) = "" ->
  bind (out_text t) (fun _ => bind out_endl k) s = k tt (emitted [t] s).
Proof.
  intros H. unfold bind, out_text, out_endl, modify, emitted, set_io, put_endl, put_text.
  simpl. rewrite H. reflexivity.
Qed.

Lemma copy_headers_emitted (kvs : list (string * string)) :
  forall s : dumpPgf,
    m_OutLine (io s) = "" ->
    forM_ kvs (fun kv => when (propagated (fst kv))
                 (out_text ("#%" +:+ fst kv +:+ "=" +:+ snd kv) ;; out_endl)) s
    = (inr tt, emitted (copied_tags kvs) s).
Proof.
  induction kvs as [|kv kvs IH]; intros s Hline.
  - cbn [forM_]. unfold copied_tags. cbn. rewrite emitted_nil. reflexivity.
  - cbn [forM_]. unfold copied_tags. cbn [List.filter].
    destruct (propagated (fst kv)) eqn:Hp.
    + erewrite bind_inr by (unfold when; apply emit_line; exact Hline).
      rewrite IH by exact Hline. cbn [map]. rewrite emitted_app. reflexivity.
    + erewrite bind_inr by reflexivity. apply IH. exact Hline.
Qed.

Lemma writeOutputHeader_emitted (env : Env) (s : dumpPgf) :
  m_OutLine (io s) = "" -> m_OutputColNames (layout s) <> [] ->
  writeOutputHeader env s
  = (inr tt,
     emitted (preamble env s
              ++ copied_tags (match m_PgfTsv (layout s) with
                              | Some pgf => pgf_headers pgf
                              | None => []
                              end)
              ++ [headerLine (m_OutputColNames (layout s))]) s).
Proof.
  intros Hline Hne. unfold writeOutputHeader.
  do 3 (erewrite bind_inr by reflexivity).
  do 5 (rewrite emit_line_bind by exact Hline).
  erewrite bind_inr by (apply copy_headers_emitted; exact Hline).
  erewrite bind_inr.
  2:{ unfold assert_. destruct (m_OutputColNames (layout s)); [congruence|reflexivity]. }
  rewrite emit_line by exact Hline.
  rewrite !emitted_app. reflexivity.
Qed.

(** ** Lines of the dump *)

Lemma ended_wrote (t : string) (s : dumpPgf) :
  m_OutLine (io s) = "" -> ended (wrote t s) = emitted [t] s.
Proof.
  intros H. unfold ended, wrote, emitted, set_io, put_endl, put_text. simpl.
  rewrite H. reflexivity.
Qed.

Lemma fit_cells (n : nat) (fields : list string) :
  map (fun j => nth j fields "") (seq 0 n) = fit n fields.
Proof. reflexivity. Qed.

Lemma arranged_frame (n0 n1 n2 : nat) (s s' : dumpPgf) :
  members s' = members s -> layout s' = layout s ->
  List.length (m_ProbesetData (vars s')) = List.length (m_ProbesetData (vars s)) ->
  List.length (m_AtomProbeData (vars s')) = List.length (m_AtomProbeData (vars s)) ->
  arranged n0 n1 n2 s -> arranged n0 n1 n2 s'.
Proof. intros Hm Hl H0 H1. unfold arranged. rewrite Hm, Hl, H0, H1. auto. Qed.

Lemma joined_frame (clf : option ClfSource) (s s' : dumpPgf) :
  members s' = members s -> layout s' = layout s -> joined clf s -> joined clf s'.
Proof. intros Hm Hl. unfold joined. rewrite Hm, Hl. auto. Qed.

Lemma joined_join_safe (clf : option ClfSource) (s : dumpPgf) :
  joined clf s -> unique_coords clf -> join_safe s.
Proof.
  unfold joined, unique_coords, join_safe. destruct clf as [c|]; [|auto].
  intros (Hne & Htsv & Hm) Hu. right.
  destruct (clf_sequential c) as [f|]; [left; exact Hm|right].
  destruct Hm as [Hm Hidx]. split; [exact Hm|]. split; [exact Hidx|].
  unfold clf_of. rewrite Htsv. apply Hu. reflexivity.
Qed.

(** The cursor comes to a parent record: its fields fill the level-0
    vector. *)
Lemma read0_window (n0 n1 n2 : nat) (p : ParentRecord) (s : dumpPgf) :
  arranged n0 n1 n2 s ->
  window (m_ProbesetData (vars (snd (read0 p s)))) 0 n0 = fit n0 (parent_fields p)
  /\ arranged n0 n1 n2 (snd (read0 p s)).
Proof.
  intros (Hb0 & Hc0 & Hlen0 & Hfull). simpl. rewrite Hb0. split.
  - rewrite window_populate_in by (simpl; exact Hlen0). reflexivity.
  - unfold arranged. simpl. rewrite populate_length. auto.
Qed.

Lemma dumpEvery_at (p : ParentRecord) (s : dumpPgf) :
  dumpEvery p s = dumpProbesetData (snd (read0 p s)).
Proof. reflexivity. Qed.

(** A parent-only line: the identifier and the level-0 fields. *)
Lemma dumpEvery_parent_row (n0 n1 n2 : nat) (p : ParentRecord) (s : dumpPgf) :
  arranged n0 n1 n2 s -> m_DumpProbesetsOnly (members s) = true -> m_OutLine (io s) = "" ->
  dumpEvery p s = (inr tt, emitted [headerLine (parentRow n0 p)] (snd (read0 p s))).
Proof.
  intros Harr Honly Hline.
  destruct (read0_window n0 n1 n2 p s Harr) as (Hw & (_ & Hc0 & _)).
  rewrite dumpEvery_at.
  rewrite dumpProbesetData_only by exact Honly.
  rewrite ended_wrote by exact Hline.
  rewrite Hc0, tabbed_window, Hw. unfold parentRow. rewrite headerLine_cons. reflexivity.
Qed.

Lemma tabJoin_pair (a b : string) : tabJoin [a; b] = tab +:+ a +:+ tab +:+ b.
Proof. rewrite !tabJoin_cons. unfold tabJoin. cbn [fold_left]. rewrite sapp_nil_r. reflexivity. Qed.

Lemma coordText_undefined : coordText (-1) = "".
Proof. reflexivity. Qed.

(** A full-dump line under a chosen coordinate strategy: the fields
    bound from the pgf file, then the coordinate fields of the probe. *)
Lemma dumpProbeData_joined (clf : option ClfSource) (s : dumpPgf) :
  joined clf s -> unique_coords clf ->
  exists s',
    dumpProbeData s = (inr tt, s')
    /\ m_Out (io s') = m_Out (io s)
         ++ [m_OutLine (io s) +:+ rowText s
             +:+ tabJoin (coordFields clf (m_PgfProbeId (vars s)))]
    /\ m_OutLine (io s') = ""
    /\ members s' = members s /\ layout s' = layout s
    /\ pgf_lookups s' = pgf_lookups s
    /\ m_PgfProbesetId (vars s') = m_PgfProbesetId (vars s)
    /\ m_ProbesetData (vars s') = m_ProbesetData (vars s)
    /\ m_AtomProbeData (vars s') = m_AtomProbeData (vars s)
    /\ cur_mids (vars s') = cur_mids (vars s).
Proof.
  intros Hj Hu.
  destruct (dumpProbeData_safe s (joined_join_safe clf s Hj Hu))
    as (s' & suffix & E & Hout & Hline & Hm & Hl & Hps & Hpd & Had & Hcm).
  exists s'. split; [exact E|].
  assert (Hk : pgf_lookups s' = pgf_lookups s) by (apply (preserves_dumpProbeData s _ s' E)).
  split; [|repeat split; assumption].
  unfold joined in Hj. destruct clf as [c|].
  - destruct Hj as (Hne & Htsv & Hmeth).
    destruct (clf_sequential c) as [f|] eqn:Eseq.
    + (* computed coordinates *)
      rewrite dumpProbeData_eq in E.
      apply str_empty_false in Hne. rewrite Hne in E. unfold when in E. cbn [negb] in E.
      rewrite !bind_assoc in E.
      assert (Ecall : callGetProbeCoordinates (m_PgfProbeId (vars s)) (wrote (rowText s) s)
                      = set_ClfXY (fst (f (m_PgfProbeId (vars s))))
                          (snd (f (m_PgfProbeId (vars s)))) (wrote (rowText s) s)).
      { unfold callGetProbeCoordinates. erewrite bind_inr by reflexivity.
        change (layout (wrote (rowText s) s)) with (layout s). rewrite Hmeth.
        unfold getCoordsBySequentialClf. erewrite bind_inr by reflexivity.
        change (layout (wrote (rowText s) s)) with (layout s). rewrite Htsv, Eseq.
        reflexivity. }
      erewrite bind_inr in E by (rewrite Ecall; reflexivity).
      erewrite bind_inr in E by apply dumpCoords_run.
      cbn [coordFields]. rewrite Eseq, tabJoin_pair.
      unfold out_endl, modify in E. inversion E; subst s'. simpl.
      rewrite !sapp_assoc. reflexivity.
    + (* indexed coordinates *)
      destruct Hmeth as [Hmeth Hidx].
      pose proof (dumpProbeData_by_index s (inr tt) s' Hne Hmeth Hidx E) as Hix.
      unfold clf_of in Hix. rewrite Htsv in Hix.
      specialize (Hu Eseq (m_PgfProbeId (vars s))).
      cbn [coordFields]. rewrite Eseq.
      destruct (findCoords (clf_records c) (m_PgfProbeId (vars s))) as [|r [|r' rest]].
      * destruct Hix as (_ & Ho & _). rewrite Ho, tabJoin_pair. reflexivity.
      * destruct Hix as (_ & Ho & _). rewrite Ho, tabJoin_pair. reflexivity.
      * simpl in Hu. lia.
  - (* no coordinate table *)
    rewrite dumpProbeData_eq in E. rewrite Hj in E. cbn in E.
    inversion E; subst s'. simpl. rewrite sapp_nil_r. reflexivity.
Qed.

Lemma headerLine_fields (pid : string) (w0 w1 : list string) (lid : string)
  (f2 coords : list string) :
  headerLine ((pid :: w0) ++ w1 ++ lid :: f2 ++ coords)
  = pid +:+ tabJoin w0 +:+ tabJoin w1 +:+ tab +:+ lid +:+ tabJoin f2 +:+ tabJoin coords.
Proof.
  cbn [app]. rewrite headerLine_cons, !tabJoin_app, tabJoin_cons, tabJoin_app.
  rewrite ?sapp_assoc. reflexivity.
Qed.

(** One turn of the loop over the leaves of a mid-level record. *)
Lemma leaf_step (n0 n1 n2 : nat) (clf : option ClfSource) (l : LeafRecord) (s : dumpPgf) :
  arranged n0 n1 n2 s -> m_DumpProbesetsOnly (members s) = false ->
  joined clf s -> unique_coords clf -> m_OutLine (io s) = "" ->
  exists s',
    (read2 l ;; dumpProbeData) s = (inr tt, s')
    /\ m_Out (io s') = m_Out (io s)
         ++ [headerLine ((ToStr (m_PgfProbesetId (vars s))
                            :: window (m_ProbesetData (vars s)) 0 n0)
                         ++ window (m_AtomProbeData (vars s)) 0 n1
                         ++ ToStr (leaf_id l) :: fit n2 (leaf_fields l)
                         ++ coordFields clf (leaf_id l))]
    /\ m_OutLine (io s') = ""
    /\ members s' = members s /\ layout s' = layout s
    /\ pgf_lookups s' = pgf_lookups s
    /\ m_PgfProbesetId (vars s') = m_PgfProbesetId (vars s)
    /\ m_ProbesetData (vars s') = m_ProbesetData (vars s)
    /\ window (m_AtomProbeData (vars s')) 0 n1 = window (m_AtomProbeData (vars s)) 0 n1
    /\ List.length (m_AtomProbeData (vars s')) = List.length (m_AtomProbeData (vars s))
    /\ cur_mids (vars s') = cur_mids (vars s).
Proof.
  intros Harr Honly Hj Hu Hline.
  destruct Harr as (Hb0 & Hc0 & Hlen0 & Hfull).
  destruct (Hfull Honly) as (Hb1 & Hb2 & Hc1 & Hc2 & Hlen12).
  set (s1 := snd (read2 l s)).
  assert (Hpid : m_PgfProbeId (vars s1) = leaf_id l).
  { unfold s1. simpl. rewrite Honly. reflexivity. }
  assert (Had1 : m_AtomProbeData (vars s1)
                 = populate (slots 1 n1 n2) (leaf_cell l) (m_AtomProbeData (vars s))).
  { unfold s1. simpl. rewrite Hb2. reflexivity. }
  assert (Hrow : rowText s1
                 = ToStr (m_PgfProbesetId (vars s))
                   +:+ tabJoin (window (m_ProbesetData (vars s)) 0 n0)
                   +:+ tabJoin (window (m_AtomProbeData (vars s)) 0 n1)
                   +:+ tab +:+ ToStr (leaf_id l)
                   +:+ tabJoin (fit n2 (leaf_fields l))).
  { unfold rowText. rewrite Hpid, Had1.
    change (layout s1) with (layout s).
    change (m_PgfProbesetId (vars s1)) with (m_PgfProbesetId (vars s)).
    change (m_ProbesetData (vars s1)) with (m_ProbesetData (vars s)).
    rewrite Hc0, Hc1, Hc2, Nat2Z.id, !tabbed_window.
    rewrite window_populate_out by lia.
    rewrite window_populate_in by lia.
    reflexivity. }
  destruct (dumpProbeData_joined clf s1) as
    (s' & E & Hout & Hline' & Hm & Hl & Hk & Hps & Hpd & Had & Hcm).
  { eapply joined_frame; [| |exact Hj]; reflexivity. }
  { exact Hu. }
  exists s'. split.
  { change ((read2 l ;; dumpProbeData) s) with (dumpProbeData s1). exact E. }
  split.
  { rewrite Hout, Hrow, Hpid, headerLine_fields.
    change (m_OutLine (io s1)) with (m_OutLine (io s)).
    change (m_Out (io s1)) with (m_Out (io s)).
    rewrite Hline, sapp_nil_l, !sapp_assoc. reflexivity. }
  split; [exact Hline'|].
  split; [rewrite Hm; reflexivity|]. split; [rewrite Hl; reflexivity|].
  split; [rewrite Hk; reflexivity|].
  split; [rewrite Hps; reflexivity|]. split; [rewrite Hpd; reflexivity|].
  split.
  { rewrite Had, Had1. apply window_populate_out. lia. }
  split; [rewrite Had, Had1; apply populate_length|].
  rewrite Hcm. reflexivity.
Qed.

Lemma leaves_rows (n0 n1 n2 : nat) (clf : option ClfSource) (leaves : list LeafRecord) :
  forall s : dumpPgf,
    arranged n0 n1 n2 s -> m_DumpProbesetsOnly (members s) = false ->
    joined clf s -> unique_coords clf -> m_OutLine (io s) = "" ->
    exists s',
      forM_ leaves (fun l => read2 l ;; dumpProbeData) s = (inr tt, s')
      /\ m_Out (io s') = m_Out (io s)
           ++ map (fun l =>
                     headerLine ((ToStr (m_PgfProbesetId (vars s))
                                    :: window (m_ProbesetData (vars s)) 0 n0)
                                 ++ window (m_AtomProbeData (vars s)) 0 n1
                                 ++ ToStr (leaf_id l) :: fit n2 (leaf_fields l)
                                 ++ coordFields clf (leaf_id l))) leaves
      /\ m_OutLine (io s') = ""
      /\ members s' = members s /\ layout s' = layout s
      /\ pgf_lookups s' = pgf_lookups s
      /\ m_PgfProbesetId (vars s') = m_PgfProbesetId (vars s)
      /\ m_ProbesetData (vars s') = m_ProbesetData (vars s)
      /\ List.length (m_AtomProbeData (vars s')) = List.length (m_AtomProbeData (vars s))
      /\ cur_mids (vars s') = cur_mids (vars s).
Proof.
  induction leaves as [|l leaves IH]; intros s Harr Honly Hj Hu Hline.
  - exists s. cbn [forM_ map]. rewrite app_nil_r. repeat split; try reflexivity. exact Hline.
  - destruct (leaf_step n0 n1 n2 clf l s Harr Honly Hj Hu Hline)
      as (s1 & E1 & Hout1 & Hline1 & Hm1 & Hl1 & Hk1 & Hps1 & Hpd1 & Hw1 & Hlen1 & Hcm1).
    destruct (IH s1) as (s' & E' & Hout' & Hline' & Hm' & Hl' & Hk' & Hps' & Hpd' & Hlen' & Hcm').
    { eapply arranged_frame; [exact Hm1|exact Hl1|rewrite Hpd1; reflexivity|exact Hlen1|exact Harr]. }
    { rewrite Hm1. exact Honly. }
    { eapply joined_frame; [exact Hm1|exact Hl1|exact Hj]. }
    { exact Hu. }
    { exact Hline1. }
    exists s'. split.
    { cbn [forM_]. erewrite bind_inr by exact E1. exact E'. }
    split.
    { rewrite Hout', Hout1, Hps1, Hpd1, Hw1, <- app_assoc. reflexivity. }
    split; [exact Hline'|].
    split; [rewrite Hm', Hm1; reflexivity|]. split; [rewrite Hl', Hl1; reflexivity|].
    split; [rewrite Hk', Hk1; reflexivity|].
    split; [rewrite Hps', Hps1; reflexivity|]. split; [rewrite Hpd', Hpd1; reflexivity|].
    split; [rewrite Hlen', Hlen1; reflexivity|].
    rewrite Hcm', Hcm1. reflexivity.
Qed.

Lemma mids_rows (n0 n1 n2 : nat) (clf : option ClfSource) (mids : list MidRecord) :
  forall s : dumpPgf,
    arranged n0 n1 n2 s -> m_DumpProbesetsOnly (members s) = false ->
    joined clf s -> unique_coords clf -> m_OutLine (io s) = "" ->
    exists s',
      forM_ mids (fun m => read1 m ;;
                           forM_ (mid_leaves m) (fun l => read2 l ;; dumpProbeData)) s
      = (inr tt, s')
      /\ m_Out (io s') = m_Out (io s)
           ++ map headerLine
                (flat_map (fun m =>
                   map (fun l =>
                          (ToStr (m_PgfProbesetId (vars s))
                             :: window (m_ProbesetData (vars s)) 0 n0)
                          ++ fit n1 (mid_fields m)
                          ++ ToStr (leaf_id l) :: fit n2 (leaf_fields l)
                          ++ coordFields clf (leaf_id l)) (mid_leaves m)) mids)
      /\ m_OutLine (io s') = ""
      /\ members s' = members s /\ layout s' = layout s
      /\ pgf_lookups s' = pgf_lookups s
      /\ m_PgfProbesetId (vars s') = m_PgfProbesetId (vars s)
      /\ m_ProbesetData (vars s') = m_ProbesetData (vars s)
      /\ List.length (m_AtomProbeData (vars s')) = List.length (m_AtomProbeData (vars s)).
Proof.
  induction mids as [|m mids IH]; intros s Harr Honly Hj Hu Hline.
  - exists s. cbn [forM_ flat_map map]. rewrite app_nil_r. repeat split; try reflexivity.
    exact Hline.
  - set (s_r := snd (read1 m s)).
    destruct Harr as (Hb0 & Hc0 & Hlen0 & Hfull).
    destruct (Hfull Honly) as (Hb1 & Hb2 & Hc1 & Hc2 & Hlen12).
    assert (Had : m_AtomProbeData (vars s_r)
                  = populate (slots 0 0 n1) (mid_cell m) (m_AtomProbeData (vars s))).
    { unfold s_r. simpl. rewrite Hb1. reflexivity. }
    assert (Hw : window (m_AtomProbeData (vars s_r)) 0 n1 = fit n1 (mid_fields m)).
    { rewrite Had. rewrite window_populate_in by lia. reflexivity. }
    assert (Harr_r : arranged n0 n1 n2 s_r).
    { unfold arranged. rewrite Had, populate_length.
      change (members s_r) with (members s). change (layout s_r) with (layout s).
      change (m_ProbesetData (vars s_r)) with (m_ProbesetData (vars s)). auto. }
    destruct (leaves_rows n0 n1 n2 clf (mid_leaves m) s_r Harr_r Honly)
      as (s1 & E1 & Hout1 & Hline1 & Hm1 & Hl1 & Hk1 & Hps1 & Hpd1 & Hlen1 & Hcm1).
    { eapply joined_frame; [| |exact Hj]; reflexivity. }
    { exact Hu. }
    { exact Hline. }
    destruct (IH s1) as (s' & E' & Hout' & Hline' & Hm' & Hl' & Hk' & Hps' & Hpd' & Hlen').
    { eapply arranged_frame; [exact Hm1|exact Hl1|rewrite Hpd1; reflexivity|exact Hlen1|
                              exact Harr_r]. }
    { rewrite Hm1. exact Honly. }
    { eapply joined_frame; [exact Hm1|exact Hl1|]. eapply joined_frame; [| |exact Hj]; reflexivity. }
    { exact Hu. }
    { exact Hline1. }
    exists s'. split.
    { cbn [forM_]. rewrite bind_assoc. erewrite bind_inr by reflexivity.
      erewrite bind_inr by exact E1. exact E'. }
    split.
    { rewrite Hout', Hout1, Hps1, Hpd1, Hw. cbn [flat_map]. rewrite map_app, map_map.
      rewrite <- app_assoc. reflexivity. }
    split; [exact Hline'|].
    split; [rewrite Hm', Hm1; reflexivity|]. split; [rewrite Hl', Hl1; reflexivity|].
    split; [rewrite Hk', Hk1; reflexivity|].
    split; [rewrite Hps', Hps1; reflexivity|]. split; [rewrite Hpd', Hpd1; reflexivity|].
    rewrite Hlen', Hlen1, Had. apply populate_length.
Qed.

Lemma ready_frame (n0 n1 n2 : nat) (clf : option ClfSource) (s s' : dumpPgf) :
  members s' = members s -> layout s' = layout s ->
  List.length (m_ProbesetData (vars s')) = List.length (m_ProbesetData (vars s)) ->
  List.length (m_AtomProbeData (vars s')) = List.length (m_AtomProbeData (vars s)) ->
  m_OutLine (io s') = m_OutLine (io s) ->
  ready n0 n1 n2 clf s -> ready n0 n1 n2 clf s'.
Proof.
  intros Hm Hl H0 H1 Ho (Ha & Hj & Hline).
  split; [eapply arranged_frame; eassumption|].
  split; [eapply joined_frame; eassumption|]. rewrite Ho. exact Hline.
Qed.

(** A parent record is dumped as its lines: one line in a parent-only
    dump, one line for each of its leaves in a full dump. *)
Lemma dumpEvery_rows (n0 n1 n2 : nat) (clf : option ClfSource) (p : ParentRecord)
  (s : dumpPgf) :
  ready n0 n1 n2 clf s -> unique_coords clf ->
  exists s',
    dumpEvery p s = (inr tt, s')
    /\ m_Out (io s') = m_Out (io s)
         ++ map headerLine (rows (m_DumpProbesetsOnly (members s)) n0 n1 n2 clf p)
    /\ ready n0 n1 n2 clf s'
    /\ members s' = members s /\ layout s' = layout s
    /\ pgf_lookups s' = pgf_lookups s.
Proof.
  intros (Harr & Hj & Hline) Hu.
  destruct (read0_window n0 n1 n2 p s Harr) as (Hw & Harr0).
  destruct (m_DumpProbesetsOnly (members s)) eqn:Honly.
  - exists (emitted [headerLine (parentRow n0 p)] (snd (read0 p s))).
    split; [apply (dumpEvery_parent_row n0 n1 n2); assumption|].
    split; [reflexivity|].
    split; [|repeat split; reflexivity].
    eapply ready_frame; [| | | | |split; [exact Harr0|split; [|exact Hline]]];
      try reflexivity.
    eapply joined_frame; [| |exact Hj]; reflexivity.
  - destruct (mids_rows n0 n1 n2 clf (parent_mids p) (snd (read0 p s)))
      as (s' & E & Hout & Hline' & Hm & Hl & Hk & Hps & Hpd & Hlen).
    { exact Harr0. }
    { exact Honly. }
    { eapply joined_frame; [| |exact Hj]; reflexivity. }
    { exact Hu. }
    { exact Hline. }
    exists s'. split.
    { rewrite dumpEvery_at, dumpProbesetData_full by exact Honly. exact E. }
    split.
    { rewrite Hout, Hw. reflexivity. }
    split.
    { split; [|split; [|exact Hline']].
      - eapply arranged_frame; [exact Hm|exact Hl|rewrite Hpd; reflexivity|exact Hlen|
                                exact Harr0].
      - eapply joined_frame; [exact Hm|exact Hl|].
        eapply joined_frame; [| |exact Hj]; reflexivity. }
    split; [rewrite Hm; reflexivity|]. split; [rewrite Hl; reflexivity|].
    rewrite Hk. reflexivity.
Qed.

Lemma dumpIfAnyRequested_existsb (userTypes pgfFileTypes : list string) :
  dumpIfAnyRequested userTypes pgfFileTypes
  = if existsb (std_find userTypes) pgfFileTypes then dumpProbesetData else ret tt.
Proof.
  induction pgfFileTypes as [|t types IH]; [reflexivity|].
  cbn [dumpIfAnyRequested existsb]. destruct (std_find userTypes t); [reflexivity|exact IH].
Qed.

(** The body of a scan reads the record, then dumps it or not by its
    type path. *)
Lemma scanBody_at (types : list string) (union : bool) (p : ParentRecord) (s : dumpPgf) :
  scanBody types union p s
  = if wanted types union (record_path (snd (read0 p s)))
    then dumpEvery p s else (inr tt, snd (read0 p s)).
Proof.
  unfold scanBody, wanted. destruct (vec_empty types); cbn [negb]; [reflexivity|].
  destruct union.
  - assert (E : scanOr types p s
                = dumpIfAnyRequested types (record_path (snd (read0 p s))) (snd (read0 p s)))
      by reflexivity.
    rewrite E, dumpIfAnyRequested_existsb.
    destruct (existsb (std_find types) (record_path (snd (read0 p s)))); reflexivity.
  - assert (E : scanAnd types p s
                = when (noMismatchFound types (record_path (snd (read0 p s))))
                    dumpProbesetData (snd (read0 p s)))
      by reflexivity.
    rewrite E.
    destruct (noMismatchFound types (record_path (snd (read0 p s)))); reflexivity.
Qed.

Lemma record_path_read0 (n0 n1 n2 : nat) (p : ParentRecord) (s : dumpPgf) :
  arranged n0 n1 n2 s -> (m_ProbesetTypeCol (layout s) < n0)%nat ->
  record_path (snd (read0 p s)) = path_of (m_ProbesetTypeCol (layout s)) p.
Proof.
  intros Harr Htc. destruct (read0_window n0 n1 n2 p s Harr) as (Hw & _).
  unfold record_path, path_of. f_equal.
  change (m_ProbesetTypeCol (layout (snd (read0 p s)))) with (m_ProbesetTypeCol (layout s)).
  pose proof (nth_window (m_ProbesetData (vars (snd (read0 p s)))) 0 n0 _ Htc) as H1.
  pose proof (nth_window (parent_fields p) 0 n0 _ Htc) as H2.
  cbn [Nat.add] in H1, H2. rewrite <- H1, <- H2. rewrite Hw. reflexivity.
Qed.

Lemma wanted_all (union : bool) (path : list string) : wanted [] union path = true.
Proof. reflexivity. Qed.

Lemma scanBody_rows (n0 n1 n2 : nat) (clf : option ClfSource) (types : list string)
  (union : bool) (p : ParentRecord) (s : dumpPgf) :
  ready n0 n1 n2 clf s -> unique_coords clf ->
  (types = [] \/ (m_ProbesetTypeCol (layout s) < n0)%nat) ->
  exists s',
    scanBody types union p s = (inr tt, s')
    /\ m_Out (io s') = m_Out (io s)
         ++ map headerLine
              (flat_map (rows (m_DumpProbesetsOnly (members s)) n0 n1 n2 clf)
                 (selected types union (m_ProbesetTypeCol (layout s)) [p]))
    /\ ready n0 n1 n2 clf s'
    /\ members s' = members s /\ layout s' = layout s
    /\ pgf_lookups s' = pgf_lookups s.
Proof.
  intros Hr Hu Hty. rewrite scanBody_at.
  assert (Hw : wanted types union (record_path (snd (read0 p s)))
               = wanted types union (path_of (m_ProbesetTypeCol (layout s)) p)).
  { destruct Hty as [->|Htc]; [reflexivity|].
    destruct Hr as (Harr & _). rewrite (record_path_read0 n0 n1 n2) by assumption.
    reflexivity. }
  rewrite Hw. unfold selected. cbn [List.filter].
  destruct (wanted types union (path_of (m_ProbesetTypeCol (layout s)) p)).
  - cbn [flat_map]. rewrite app_nil_r. apply dumpEvery_rows; assumption.
  - exists (snd (read0 p s)). split; [reflexivity|].
    cbn [flat_map map]. rewrite app_nil_r. split; [reflexivity|].
    split; [|repeat split; reflexivity].
    destruct Hr as (Harr & Hj & Hline).
    destruct (read0_window n0 n1 n2 p s Harr) as (_ & Harr0).
    split; [exact Harr0|]. split; [|exact Hline].
    eapply joined_frame; [| |exact Hj]; reflexivity.
Qed.

Lemma scan_rows (n0 n1 n2 : nat) (clf : option ClfSource) (types : list string)
  (union : bool) (records : list ParentRecord) :
  forall s : dumpPgf,
    ready n0 n1 n2 clf s -> unique_coords clf ->
    (types = [] \/ (m_ProbesetTypeCol (layout s) < n0)%nat) ->
    exists s',
      forM_ records (scanBody types union) s = (inr tt, s')
      /\ m_Out (io s') = m_Out (io s)
           ++ map headerLine
                (flat_map (rows (m_DumpProbesetsOnly (members s)) n0 n1 n2 clf)
                   (selected types union (m_ProbesetTypeCol (layout s)) records))
      /\ ready n0 n1 n2 clf s'
      /\ members s' = members s /\ layout s' = layout s
      /\ pgf_lookups s' = pgf_lookups s.
Proof.
  induction records as [|p records IH]; intros s Hr Hu Hty.
  - exists s. cbn [forM_ selected List.filter flat_map map]. rewrite app_nil_r.
    split; [reflexivity|]. split; [reflexivity|]. split; [exact Hr|].
    repeat split; reflexivity.
  - destruct (scanBody_rows n0 n1 n2 clf types union p s Hr Hu Hty)
      as (s1 & E1 & Hout1 & Hr1 & Hm1 & Hl1 & Hk1).
    destruct (IH s1 Hr1 Hu) as (s' & E' & Hout' & Hr' & Hm' & Hl' & Hk').
    { rewrite Hl1. exact Hty. }
    exists s'. split.
    { cbn [forM_]. erewrite bind_inr by exact E1. exact E'. }
    split.
    { rewrite Hout', Hout1, Hm1, Hl1, <- app_assoc, <- map_app, <- flat_map_app.
      unfold selected. rewrite <- List.filter_app. reflexivity. }
    split; [exact Hr'|].
    split; [rewrite Hm', Hm1; reflexivity|]. split; [rewrite Hl', Hl1; reflexivity|].
    rewrite Hk', Hk1. reflexivity.
Qed.

(** ** Frames *)

Section Frames.

Variable R : dumpPgf -> dumpPgf -> Prop.
Hypothesis R_refl : forall s, R s s.
Hypothesis R_trans : forall s1 s2 s3, R s1 s2 -> R s2 s3 -> R s1 s3.

Lemma keeps_ret {A : Type} (a : A) : keeps R (ret a).
Proof. intros s r s' H. inversion H. apply R_refl. Qed.

Lemma keeps_errAbort {A : Type} (msg : string) : keeps R (@errAbort A msg).
Proof. intros s r s' H. inversion H. apply R_refl. Qed.

Lemma keeps_lift_err {A : Type} (x : Error + A) : keeps R (lift_err x).
Proof. intros s r s' H. inversion H. apply R_refl. Qed.

Lemma keeps_assert (c : bool) (expr : string) : keeps R (assert_ c expr).
Proof. intros s r s' H. unfold assert_ in H. destruct c; inversion H; apply R_refl. Qed.

Lemma keeps_gets {A : Type} (f : dumpPgf -> A) : keeps R (gets f).
Proof. intros s r s' H. inversion H. apply R_refl. Qed.

Lemma keeps_modify (f : dumpPgf -> dumpPgf) : (forall s, R s (f s)) -> keeps R (modify f).
Proof. intros Hf s r s' H. inversion H. apply Hf. Qed.

Lemma keeps_bind {A B : Type} (m : M A) (k : A -> M B) :
  keeps R m -> (forall a, keeps R (k a)) -> keeps R (bind m k).
Proof.
  intros Hm Hk s r s' H. unfold bind in H.
  destruct (m s) as [[e|a] s1] eqn:E.
  - inversion H; subst. eapply Hm. exact E.
  - eapply R_trans; [eapply Hm; exact E|eapply Hk; exact H].
Qed.

Lemma keeps_when (c : bool) (m : M unit) : keeps R m -> keeps R (when c m).
Proof. intros Hm. destruct c; [exact Hm|apply keeps_ret]. Qed.

Lemma keeps_forM_ {A : Type} (l : list A) (body : A -> M unit) :
  (forall x, keeps R (body x)) -> keeps R (forM_ l body).
Proof.
  intros Hb. induction l as [|x l IH]; cbn [forM_]; [apply keeps_ret|].
  apply keeps_bind; [apply Hb|intros _; exact IH].
Qed.

End Frames.

Lemma silent_refl (s : dumpPgf) : silent s s.
Proof. unfold silent. auto. Qed.

Lemma silent_trans (s1 s2 s3 : dumpPgf) : silent s1 s2 -> silent s2 s3 -> silent s1 s3.
Proof. unfold silent. intros (A1 & B1 & C1) (A2 & B2 & C2). rewrite A2, B2, C2. auto. Qed.

Lemma quiet_refl (s : dumpPgf) : quiet s s.
Proof. unfold quiet. repeat split; reflexivity. Qed.

Lemma quiet_trans (s1 s2 s3 : dumpPgf) : quiet s1 s2 -> quiet s2 s3 -> quiet s1 s3.
Proof.
  unfold quiet. intros (A1 & B1 & C1 & D1 & E1) (A2 & B2 & C2 & D2 & E2).
  split; [congruence|]. split; [congruence|]. split; [congruence|]. split; [congruence|].
  eapply silent_trans; eassumption.
Qed.

Ltac keep_with refl trans :=
  repeat first
    [ assumption
    | progress cbv zeta
    | apply (keeps_ret _ refl) | apply (keeps_errAbort _ refl) | apply (keeps_gets _ refl)
    | apply (keeps_lift_err _ refl) | apply (keeps_assert _ refl)
    | apply (keeps_when _ refl)
    | apply (keeps_forM_ _ refl trans); intros
    | apply keeps_modify; intros; unfold quiet, silent; simpl; repeat split; reflexivity
    | apply (keeps_bind _ trans); [|intros]
    | match goal with
      | |- keeps _ (if ?c then _ else _) => destruct c
      | |- keeps _ (match ?x with _ => _ end) => destruct x
      end ].

Lemma readIdFileList_quiet (env : Env) (column what : string) (names : list string) :
  forall (idsMap : gmap Z bool) (ids : list Z),
    keeps quiet (readIdFileList env column what names idsMap ids).
Proof.
  induction names as [|n names IH]; intros idsMap ids; cbn [readIdFileList].
  - apply (keeps_ret _ quiet_refl).
  - destruct (fs_idlist env n column); [|apply (keeps_errAbort _ quiet_refl)].
    apply (keeps_bind _ quiet_trans); [|intros; apply IH].
    unfold log_open. keep_with quiet_refl quiet_trans.
Qed.

Lemma readIdFiles_quiet (env : Env) : keeps quiet (readIdFiles env).
Proof.
  pose proof (readIdFileList_quiet env) as Hl.
  unfold readIdFiles, cerr_line.
  repeat first
    [ apply Hl
    | apply (keeps_gets _ quiet_refl)
    | apply keeps_modify; intros; unfold quiet, silent; simpl; repeat split; reflexivity
    | apply (keeps_bind _ quiet_trans); [|intros] ].
Qed.

Lemma beginOutput_silent (env : Env) : keeps silent (beginOutput env).
Proof. unfold beginOutput, cerr_line. keep_with silent_refl silent_trans. Qed.

Lemma readIdFiles_silent (env : Env) : keeps silent (readIdFiles env).
Proof. intros s r s' H. apply (readIdFiles_quiet env) in H. apply H. Qed.

Lemma openInputFiles_silent (env : Env) : keeps silent (openInputFiles env).
Proof.
  unfold openInputFiles, openPgfFile, openClfFile, cerr_line, log_open.
  keep_with silent_refl silent_trans.
Qed.

(** ** The run up to [writeMatches] *)

Lemma run_setup (env : Env) (s : dumpPgf) :
  run env s = (setup env ;; writeOutputHeader env ;; writeMatches env) s.
Proof.
  unfold run, setup, bind.
  destruct (beginOutput env s) as [[e|[]] s1]; [reflexivity|].
  destruct (readIdFiles env s1) as [[e|[]] s2]; reflexivity.
Qed.

Lemma column_names_nonempty (mb : Members) (pgf : PgfSource) :
  pgf_cols0 pgf <> [] -> column_names mb pgf <> [].
Proof.
  unfold column_names. destruct (pgf_cols0 pgf); [congruence|]. intros _. discriminate.
Qed.

Lemma run_reaches_matches (env : Env) (s : dumpPgf) (pgf : PgfSource)
  (rest0 rest2 : list string) (probesets probes : list (list Z)) :
  unopened s -> m_OutLine (io s) = "" ->
  m_ProbesetIds s = [] -> m_ProbeIds s = [] ->
  Forall2 (fun n rows => fs_idlist env n "probeset_id" = Some rows)
    (m_ProbesetIdFileNames (members s)) probesets ->
  Forall2 (fun n rows => fs_idlist env n "probe_id" = Some rows)
    (m_ProbeIdFileNames (members s)) probes ->
  fs_pgf env (m_PgfFileName (members s)) = Some pgf ->
  pgf_cols0 pgf = "probeset_id" :: rest0 -> ~ In "probeset_id" rest0 ->
  (Z.of_nat (List.length (pgf_cols0 pgf)) < 2 ^ 32)%Z ->
  (m_DumpProbesetsOnly (members s) = false ->
   pgf_cols2 pgf = "probe_id" :: rest2 /\ ~ In "probe_id" rest2
   /\ (Z.of_nat (List.length (pgf_cols1 pgf)) + Z.of_nat (List.length (pgf_cols2 pgf))
       < 2 ^ 32)%Z) ->
  (m_ProbesetTypes (members s) = [] \/ std_find rest0 "type" = true) ->
  (m_ClfFileName (members s) <> "" -> fs_clf env (m_ClfFileName (members s)) <> None) ->
  exists s4,
    run env s = writeMatches env s4
    /\ members s4 = members s
    /\ m_ProbesetIds s4 = keep_first (concat probesets)
    /\ m_ProbeIds s4 = keep_first (concat probes)
    /\ m_Out (io s4)
       = m_Out (io s)
         ++ preamble env (set_ExecGuid (new_guid env 0) s)
         ++ copied_tags (pgf_headers pgf)
         ++ [headerLine (column_names (members s) pgf)]
    /\ lookups (io s4) = lookups (io s)
    /\ pgf_of s4 = pgf_records pgf
    /\ m_ProbesetTypeCol (layout s4) = typeColFrom 0 rest0 (m_ProbesetTypeCol (layout s))
    /\ pgf_index (layout s4) = requested_index (members s)
    /\ ready (List.length rest0) (List.length (pgf_cols1 pgf)) (List.length rest2)
         (the_clf env (members s)) s4.
Proof.
  intros Hun Hline Hi Hp F1 F2 Hfs H0 Hno0 Hsize0 Hfull Hty Hclf.
  (* beginOutput *)
  set (s1 := snd (beginOutput env s)).
  assert (E1 : beginOutput env s = (inr tt, s1)) by reflexivity.
  (* readIdFiles *)
  destruct (readIdFiles_run env s1 probesets probes Hi Hp F1 F2)
    as (s2 & E2 & Hids2 & Hpids2 & Hm2 & Hl2 & Ho2 & Hk2).
  destruct (readIdFiles_quiet env s1 _ s2 E2) as (_ & _ & Hv2 & Hg2 & _ & Hline2 & _).
  change (members s1) with (members s) in Hm2.
  change (layout s1) with (layout s) in Hl2.
  change (m_Out (io s1)) with (m_Out (io s)) in Ho2.
  change (lookups (io s1)) with (lookups (io s)) in Hk2.
  change (m_OutLine (io s1)) with (m_OutLine (io s)) in Hline2.
  change (m_ExecGuid s1) with (new_guid env 0) in Hg2.
  (* openInputFiles *)
  assert (Hun2 : unopened s2) by (unfold unopened; rewrite Hl2; exact Hun).
  rewrite <- Hm2 in Hfs, Hfull, Hty, Hclf.
  destruct (openInputFiles_arranges env s2 pgf rest0 rest2 Hun2 Hfs H0 Hno0 Hsize0 Hfull
              Hty Hclf)
    as (s3 & E3 & Hm3 & Hids3 & Hpids3 & Hg3 & Ho3 & Hline3 & Hk3 & Hpgf3 & Hn3 & Htc3
        & Hpi3 & Harr3 & Hj3).
  rewrite Hm2 in Hm3, Hn3, Hpi3, Hj3. rewrite Hl2 in Htc3.
  (* writeOutputHeader *)
  assert (Hne : m_OutputColNames (layout s3) <> []).
  { rewrite Hn3. apply column_names_nonempty. rewrite H0. discriminate. }
  assert (Hl3 : m_OutLine (io s3) = "").
  { rewrite Hline3, Hline2. exact Hline. }
  pose proof (writeOutputHeader_emitted env s3 Hl3 Hne) as E4.
  rewrite Hpgf3, Hn3 in E4.
  eexists. split.
  { unfold run. erewrite bind_inr by exact E1. erewrite bind_inr by exact E2.
    erewrite bind_inr by exact E3. erewrite bind_inr by exact E4. reflexivity. }
  cbn [emitted set_io members m_ProbesetIds m_ProbeIds io m_Out lookups layout].
  rewrite Hm3, Hids3, Hids2, Hpids3, Hpids2, Ho3, Ho2, Hk3, Hk2, Htc3, Hpi3.
  split; [reflexivity|]. split; [reflexivity|]. split; [reflexivity|].
  split.
  { unfold preamble. rewrite Hg3, Hg2, Hm3. reflexivity. }
  split; [reflexivity|].
  split; [unfold pgf_of; cbn [emitted set_io layout]; rewrite Hpgf3; reflexivity|].
  split; [reflexivity|]. split; [reflexivity|].
  eapply ready_frame; [| | | | |split; [exact Harr3|split; [exact Hj3|exact Hl3]]];
    reflexivity.
Qed.

(** ** The type column *)

Lemma typeColFrom_none (cols : list string) :
  forall (k typeCol : nat),
    std_find cols "type" = false -> typeColFrom k cols typeCol = typeCol.
Proof.
  induction cols as [|c cols IH]; intros k tc H; [reflexivity|].
  cbn [std_find typeColFrom] in *.
  destruct (String.eqb c "type"); [discriminate|]. apply IH. exact H.
Qed.

Lemma typeColFrom_last (pre post : list string) :
  forall (k typeCol : nat),
    ~ In "type" post ->
    typeColFrom k (pre ++ "type" :: post) typeCol = (k + List.length pre)%nat.
Proof.
  induction pre as [|c pre IH]; intros k tc Hno.
  - cbn [app typeColFrom List.length]. rewrite String.eqb_refl.
    rewrite typeColFrom_none; [lia|].
    destruct (std_find post "type") eqn:E; [|reflexivity].
    apply std_find_In in E. contradiction.
  - cbn [app typeColFrom List.length]. rewrite IH by exact Hno. lia.
Qed.

Lemma std_find_middle (pre post : list string) (x : string) :
  std_find (pre ++ x :: post) x = true.
Proof. apply std_find_In. apply in_or_app. right. left. reflexivity. Qed.

Lemma selected_all (union : bool) (typeCol : nat) (records : list ParentRecord) :
  selected [] union typeCol records = records.
Proof.
  unfold selected. apply forallb_filter_id. apply forallb_forall. reflexivity.
Qed.

(** ** A scan from the first line to the last *)

Lemma run_scan_output (env : Env) (s : dumpPgf) (pgf : PgfSource)
  (rest0 rest2 pre post : list string) :
  unopened s -> m_OutLine (io s) = "" ->
  m_ProbesetIds s = [] -> m_ProbeIds s = [] ->
  m_ProbesetIdFileNames (members s) = [] -> m_ProbeIdFileNames (members s) = [] ->
  fs_pgf env (m_PgfFileName (members s)) = Some pgf ->
  pgf_cols0 pgf = "probeset_id" :: rest0 -> ~ In "probeset_id" rest0 ->
  (Z.of_nat (List.length (pgf_cols0 pgf)) < 2 ^ 32)%Z ->
  (m_DumpProbesetsOnly (members s) = false ->
   pgf_cols2 pgf = "probe_id" :: rest2 /\ ~ In "probe_id" rest2
   /\ (Z.of_nat (List.length (pgf_cols1 pgf)) + Z.of_nat (List.length (pgf_cols2 pgf))
       < 2 ^ 32)%Z) ->
  (m_ProbesetTypes (members s) = []
   \/ (rest0 = pre ++ "type" :: post /\ ~ In "type" post)) ->
  (m_ClfFileName (members s) <> "" -> fs_clf env (m_ClfFileName (members s)) <> None) ->
  unique_coords (the_clf env (members s)) ->
  exists s',
    run env s = (inr tt, s')
    /\ m_Out (io s')
       = m_Out (io s)
         ++ preamble env (set_ExecGuid (new_guid env 0) s)
         ++ copied_tags (pgf_headers pgf)
         ++ [headerLine (column_names (members s) pgf)]
         ++ map headerLine
              (flat_map (rows (m_DumpProbesetsOnly (members s)) (List.length rest0)
                           (List.length (pgf_cols1 pgf)) (List.length rest2)
                           (the_clf env (members s)))
                 (selected (m_ProbesetTypes (members s)) (m_DumpUnion (members s))
                    (List.length pre) (pgf_records pgf)))
    /\ pgf_lookups s' = pgf_lookups s.
Proof.
  intros Hun Hline Hi Hp Hin Hpn Hfs H0 Hno0 Hsize0 Hfull Hty Hclf Hu.
  assert (Hty' : m_ProbesetTypes (members s) = [] \/ std_find rest0 "type" = true).
  { destruct Hty as [Hty|[-> _]]; [left; exact Hty|right; apply std_find_middle]. }
  destruct (run_reaches_matches env s pgf rest0 rest2 [] [])
    as (s4 & Erun & Hm4 & _ & _ & Ho4 & Hk4 & Hrec4 & Htc4 & _ & Hr4); try assumption.
  { rewrite Hin. constructor. }
  { rewrite Hpn. constructor. }
  destruct (writeMatches_scanBody env s4) as (msg & Ew).
  { rewrite Hm4. exact Hin. }
  { rewrite Hm4. exact Hpn. }
  { destruct Hr4 as (_ & Hj & _). unfold joined, the_clf in Hj. rewrite Hm4 in Hj |- *.
    destruct (str_empty (m_ClfFileName (members s))) eqn:Ec.
    - left. apply str_empty_true. exact Ec.
    - right. destruct (fs_clf env (m_ClfFileName (members s))) as [c|].
      + destruct Hj as (_ & _ & Hj). destruct (clf_sequential c).
        * rewrite Hj. discriminate.
        * destruct Hj as [Hj _]. rewrite Hj. discriminate.
      + apply str_empty_false in Ec. contradiction. }
  set (s5 := set_io (put_cerr msg (io s4)) s4) in Ew.
  destruct (scan_rows (List.length rest0) (List.length (pgf_cols1 pgf)) (List.length rest2)
              (the_clf env (members s)) (m_ProbesetTypes (members s4))
              (m_DumpUnion (members s4)) (pgf_of s4) s5)
    as (s' & E' & Hout' & _ & _ & _ & Hk').
  { eapply ready_frame; [| | | | |exact Hr4]; reflexivity. }
  { exact Hu. }
  { rewrite Hm4. destruct Hty as [Hty|[-> Hnt]]; [left; exact Hty|right].
    change (layout s5) with (layout s4). rewrite Htc4, typeColFrom_last by exact Hnt.
    rewrite length_app. cbn [List.length Nat.add]. lia. }
  exists s'. split; [rewrite Erun, Ew; exact E'|].
  split.
  - rewrite Hout'. change (m_Out (io s5)) with (m_Out (io s4)).
    change (members s5) with (members s4). change (layout s5) with (layout s4).
    rewrite Ho4, Hm4, Hrec4, <- !app_assoc. do 4 f_equal.
    destruct Hty as [Hty|[-> Hnt]].
    + rewrite Hty, !selected_all. reflexivity.
    + rewrite Htc4, typeColFrom_last by exact Hnt. reflexivity.
  - rewrite Hk'. unfold pgf_lookups. change (lookups (io s5)) with (lookups (io s4)).
    rewrite Hk4. reflexivity.
Qed.

Lemma main_constructed (env : Env) (version cvsId : string) (o : Options) :
  acceptable env o ->
  main env version cvsId o
  = run env (set_members (chosen version cvsId o)
               (set_io (put_opened (opt_out_file o) (io (blank (indeterminate env))))
                  (blank (indeterminate env)))).
Proof.
  intros Hacc. unfold main. erewrite bind_inr; [reflexivity|].
  apply dumpPgf_ctor_accepts. split; [exact Hacc|reflexivity].
Qed.


Lemma sample_acceptable (o : Options) :
  fst (dumpPgf_ctor sample_env "1.0" "id" o (blank 77)) = inr tt ->
  acceptable sample_env o.
Proof.
  intros H.
  apply (proj1 (dumpPgf_ctor_accepts sample_env "1.0" "id" o (blank 77) (constructed o))).
  unfold constructed. change (indeterminate sample_env) with 77%Z.
  destruct (dumpPgf_ctor sample_env "1.0" "id" o (blank 77)) as [r s1].
  simpl in H. subst r. reflexivity.
Qed.


(** ** Selection by probeset id, from the first line to the last *)











(** ** Selection by probe id, from the first line to the last *)

Lemma read1_window (n0 n1 n2 : nat) (m : MidRecord) (s : dumpPgf) :
  arranged n0 n1 n2 s -> m_DumpProbesetsOnly (members s) = false ->
  window (m_AtomProbeData (vars (snd (read1 m s)))) 0 n1 = fit n1 (mid_fields m)
  /\ arranged n0 n1 n2 (snd (read1 m s)).
Proof.
  intros (Hb0 & Hc0 & Hlen0 & Hfull) Honly.
  destruct (Hfull Honly) as (Hb1 & Hb2 & Hc1 & Hc2 & Hlen12).
  simpl. rewrite Hb1. split.
  - rewrite window_populate_in by lia. reflexivity.
  - unfold arranged. simpl. rewrite populate_length. auto.
Qed.






Lemma listing_acceptable (o : Options) :
  fst (dumpPgf_ctor listing_env "1.0" "id" o (blank 77)) = inr tt ->
  acceptable listing_env o.
Proof.
  intros H.
  destruct (dumpPgf_ctor listing_env "1.0" "id" o (blank 77)) as [r s1] eqn:E.
  simpl in H. subst r.
  apply (proj1 (dumpPgf_ctor_accepts listing_env "1.0" "id" o (blank 77) s1) E).
Qed.




(** ** The stages of a run, one by one *)

(** X7: [writeOutputHeader] writes, in this order, the five generic meta
    tags, the meta tags of the pgf file whose key is chip_type,
    lib_set_version or lib_set_name (no other key is copied), and the
    header line.  With an empty catalogue of column names the assertion
    fails after the meta tags were written, and no header line is. *)
Theorem output_head (env : Env) (s : dumpPgf) :
  m_OutLine (io s) = "" ->
  let tags := copied_tags (match m_PgfTsv (layout s) with
                           | Some pgf => pgf_headers pgf
                           | None => []
                           end) in
  (m_OutputColNames (layout s) <> [] ->
   writeOutputHeader env s
   = (inr tt,
      emitted (preamble env s ++ tags ++ [headerLine (m_OutputColNames (layout s))]) s))
  /\ (m_OutputColNames (layout s) = [] ->
      writeOutputHeader env s
      = (inl (AssertFailed "colNameCount > 0"), emitted (preamble env s ++ tags) s)).
Proof.
  intros Hline tags. split.
  - intros Hne. apply writeOutputHeader_emitted; assumption.
  - intros Hnil. unfold writeOutputHeader.
    do 3 (erewrite bind_inr by reflexivity).
    do 5 (rewrite emit_line_bind by exact Hline).
    erewrite bind_inr by (apply copy_headers_emitted; exact Hline).
    erewrite bind_inl; [reflexivity|].
    unfold assert_. rewrite Hnil. cbn [List.length Nat.ltb Nat.leb].
    rewrite !emitted_app. reflexivity.
Qed.

Lemma output_head_witness :
  exists s',
    writeOutputHeader sample_env
      (snd (openInputFiles sample_env (prepared (sample_options "a.pgf" "" [""] [""] [""]
                                                  true false))))
    = (inr tt, s')
    /\ skipn 5 (m_Out (io s'))
       = ["#%chip_type=HuEx"; headerLine ["probeset_id"; "type"; "probeset_name"]].
Proof.
  eexists. split.
  - apply (output_head sample_env
             (snd (openInputFiles sample_env
                     (prepared (sample_options "a.pgf" "" [""] [""] [""] true false))))).
    + reflexivity.
    + discriminate.
  - vm_compute. reflexivity.
Defined.

(** X8: [dumpProbeData] under each coordinate strategy.  When no probe id
    has two lines in an indexed clf file, the call completes exactly one
    output line and cannot fail: the text already written on the line, the
    fields bound from the pgf file, then no coordinate field without a clf
    file, the pair computed from the probe id for a sequential clf file,
    and else the pair of the clf line found for the probe id, a negative
    value or a missing line giving an empty field. *)
Theorem row_under_every_strategy (clf : option ClfSource) (s : dumpPgf) :
  joined clf s -> unique_coords clf ->
  exists s',
    dumpProbeData s = (inr tt, s')
    /\ m_Out (io s') = m_Out (io s)
         ++ [m_OutLine (io s) +:+ rowText s
             +:+ tabJoin (coordFields clf (m_PgfProbeId (vars s)))]
    /\ m_OutLine (io s') = ""
    /\ members s' = members s /\ layout s' = layout s
    /\ pgf_lookups s' = pgf_lookups s.
Proof.
  intros Hj Hu.
  destruct (dumpProbeData_joined clf s Hj Hu)
    as (s' & E & Hout & Hline & Hm & Hl & Hk & _).
  exists s'. auto 10.
Qed.

Lemma row_under_every_strategy_witness :
  exists s',
    dumpProbeData at_probe_101 = (inr tt, s')
    /\ m_Out (io s')
       = [headerLine ["5"; "main->rescue->v1"; "ps5"; "a1"; "101"; "ACGT"; "1"; "10"]].
Proof.
  destruct (row_under_every_strategy (Some sequential_clf) at_probe_101)
    as (s' & E & Hout & _).
  - unfold joined. split; [discriminate|]. split; reflexivity.
  - intros H. discriminate H.
  - exists s'. split; [exact E|]. rewrite Hout. vm_compute. reflexivity.
Defined.

Lemma read2_window (n0 n1 n2 : nat) (l : LeafRecord) (s : dumpPgf) :
  arranged n0 n1 n2 s -> m_DumpProbesetsOnly (members s) = false ->
  window (m_AtomProbeData (vars (snd (read2 l s)))) n1 n2 = fit n2 (leaf_fields l)
  /\ window (m_AtomProbeData (vars (snd (read2 l s)))) 0 n1
     = window (m_AtomProbeData (vars s)) 0 n1
  /\ m_PgfProbeId (vars (snd (read2 l s))) = leaf_id l
  /\ arranged n0 n1 n2 (snd (read2 l s)).
Proof.
  intros (Hb0 & Hc0 & Hlen0 & Hfull) Honly.
  destruct (Hfull Honly) as (Hb1 & Hb2 & Hc1 & Hc2 & Hlen12).
  simpl. rewrite Hb2, Honly. split; [|split; [|split]].
  - rewrite window_populate_in by lia. reflexivity.
  - apply window_populate_out. lia.
  - reflexivity.
  - unfold arranged. simpl. rewrite populate_length. rewrite Honly. auto 10.
Qed.

(** X9: what [openInputFiles] binds.  On a design table whose identifier
    columns come first and occur once, setup succeeds, and from then on
    reading a line leaves each of its data columns, in column order and
    without the identifier, in the slots the row is printed from: the
    level-0 fields fill [m_ProbesetData], the level-1 fields the first part
    of [m_AtomProbeData] and the level-2 fields the part after it, no level
    overwriting another; the identifiers go to [m_PgfProbesetId] and
    [m_PgfProbeId]. *)
Theorem columns_reach_their_slots (env : Env) (s : dumpPgf) (pgf : PgfSource)
  (rest0 rest2 : list string) :
  unopened s ->
  fs_pgf env (m_PgfFileName (members s)) = Some pgf ->
  pgf_cols0 pgf = "probeset_id" :: rest0 -> ~ In "probeset_id" rest0 ->
  (Z.of_nat (List.length (pgf_cols0 pgf)) < 2 ^ 32)%Z ->
  (m_DumpProbesetsOnly (members s) = false ->
   pgf_cols2 pgf = "probe_id" :: rest2 /\ ~ In "probe_id" rest2
   /\ (Z.of_nat (List.length (pgf_cols1 pgf)) + Z.of_nat (List.length (pgf_cols2 pgf))
       < 2 ^ 32)%Z) ->
  (m_ProbesetTypes (members s) = [] \/ std_find rest0 "type" = true) ->
  (m_ClfFileName (members s) <> "" -> fs_clf env (m_ClfFileName (members s)) <> None) ->
  let n0 := List.length rest0 in
  let n1 := List.length (pgf_cols1 pgf) in
  let n2 := List.length rest2 in
  exists s',
    openInputFiles env s = (inr tt, s')
    /\ m_ProbesetDataCount (layout s') = Z.of_nat n0
    /\ (forall p : ParentRecord,
          m_PgfProbesetId (vars (at_record p s')) = parent_id p
          /\ window (m_ProbesetData (vars (at_record p s'))) 0 n0
             = fit n0 (parent_fields p))
    /\ (m_DumpProbesetsOnly (members s) = false ->
        m_AtomDataCount (layout s') = Z.of_nat n1
        /\ m_ProbeDataCount (layout s') = Z.of_nat n2
        /\ forall (p : ParentRecord) (m : MidRecord) (l : LeafRecord),
             let s2 := snd (read2 l (snd (read1 m (at_record p s')))) in
             m_PgfProbesetId (vars s2) = parent_id p
             /\ m_PgfProbeId (vars s2) = leaf_id l
             /\ window (m_ProbesetData (vars s2)) 0 n0 = fit n0 (parent_fields p)
             /\ window (m_AtomProbeData (vars s2)) 0 n1 = fit n1 (mid_fields m)
             /\ window (m_AtomProbeData (vars s2)) n1 n2 = fit n2 (leaf_fields l)).
Proof.
  intros Hun Hfs H0 Hno0 Hsize0 Hfull Hty Hclf n0 n1 n2.
  destruct (openInputFiles_arranges env s pgf rest0 rest2 Hun Hfs H0 Hno0 Hsize0 Hfull
              Hty Hclf)
    as (s' & E & Hm & _ & _ & _ & _ & _ & _ & _ & _ & _ & _ & Harr & _).
  exists s'. split; [exact E|].
  split; [apply Harr|].
  split.
  - intros p. destruct (read0_window n0 n1 n2 p s' Harr) as (Hw & _).
    split; [reflexivity|exact Hw].
  - intros Honly. rewrite <- Hm in Honly.
    destruct Harr as (Hb0 & Hc0 & Hlen0 & Hfull').
    destruct (Hfull' Honly) as (_ & _ & Hc1 & Hc2 & _).
    split; [exact Hc1|]. split; [exact Hc2|].
    intros p m l s2.
    assert (Harr : arranged n0 n1 n2 s') by (split; [exact Hb0|split; [exact Hc0|auto]]).
    destruct (read0_window n0 n1 n2 p s' Harr) as (Hw0 & Harr0).
    destruct (read1_window n0 n1 n2 m (at_record p s') Harr0 Honly) as (Hw1 & Harr1).
    destruct (read2_window n0 n1 n2 l (snd (read1 m (at_record p s'))) Harr1 Honly)
      as (Hw2 & Hw1' & Hpid & _).
    split; [reflexivity|]. split; [exact Hpid|].
    split; [exact Hw0|]. split; [|exact Hw2].
    unfold s2. rewrite Hw1'. exact Hw1.
Qed.

Lemma columns_reach_their_slots_witness :
  exists s',
    openInputFiles sample_env (prepared full_dump) = (inr tt, s')
    /\ let s2 := snd (read2 (mkLeaf 101 ["ACGT"])
                       (snd (read1 (mkMid ["a1"] [])
                               (at_record (mkParent 5 ["main"; "ps5"] []) s')))) in
       window (m_ProbesetData (vars s2)) 0 2 = ["main"; "ps5"]
       /\ window (m_AtomProbeData (vars s2)) 0 1 = ["a1"]
       /\ window (m_AtomProbeData (vars s2)) 1 1 = ["ACGT"].
Proof.
  destruct (columns_reach_their_slots sample_env (prepared full_dump) sample_pgf
              ["type"; "probeset_name"] ["seq"])
    as (s' & E & _ & _ & Hfull).
  - repeat split; reflexivity.
  - reflexivity.
  - reflexivity.
  - simpl. intuition discriminate.
  - simpl. lia.
  - intros _. split; [reflexivity|]. split; [simpl; intuition discriminate|simpl; lia].
  - left. reflexivity.
  - intros H. exfalso. apply H. reflexivity.
  - exists s'. split; [exact E|].
    destruct (Hfull eq_refl) as (_ & _ & Hrows).
    destruct (Hrows (mkParent 5 ["main"; "ps5"] []) (mkMid ["a1"] []) (mkLeaf 101 ["ACGT"]))
      as (_ & _ & Hw0 & Hw1 & Hw2).
    split; [exact Hw0|]. split; [exact Hw1|exact Hw2].
Defined.

(** X10: when types are requested and the pgf file, though it opens with
    "probeset_id" as its first column, has no column named "type",
    [openInputFiles] ends with the fatal error "No type column in pgf
    file".  The error comes before the level-1 and level-2 columns are
    looked at; the pgf file and the clf file, if one is named, have been
    opened, and nothing is written to the output. *)
Theorem missing_type_column_is_fatal (env : Env) (s : dumpPgf) (pgf : PgfSource) :
  m_ProbesetTypes (members s) <> [] ->
  tsv_open_pgf env (m_PgfFileName (members s)) (m_DumpProbesetsOnly (members s)) = Some pgf ->
  hd_error (pgf_cols0 pgf) = Some "probeset_id" ->
  std_find (pgf_cols0 pgf) "type" = false ->
  (m_ClfFileName (members s) <> "" -> fs_clf env (m_ClfFileName (members s)) <> None) ->
  exists s',
    openInputFiles env s = (inl (ErrAbort "No type column in pgf file"), s')
    /\ opened (io s')
       = opened (io s) ++ m_PgfFileName (members s)
           :: (if str_empty (m_ClfFileName (members s)) then []
               else [m_ClfFileName (members s)])
    /\ m_Out (io s') = m_Out (io s) /\ m_OutLine (io s') = m_OutLine (io s)
    /\ lookups (io s') = lookups (io s).
Proof.
  intros Hty Hopen H0 Hnt Hclf.
  assert (Ecat : bindColumns (members s) (layout s) pgf
                 = inl (ErrAbort "No type column in pgf file")).
  { unfold bindColumns.
    destruct (bindProbesetColumns_first (pgf_cols0 pgf)
                (0%nat, false, m_ProbesetTypeCol (layout s), m_OutputColNames (layout s),
                 binds0 (layout s)) H0) as (k & tc & b & E).
    rewrite E. cbn [fst snd orb]. rewrite Hnt.
    destruct (m_ProbesetTypes (members s)); [congruence|reflexivity]. }
  unfold openInputFiles, openPgfFile, bind. simpl. rewrite Hopen. simpl.
  unfold openClfFile, bind. simpl.
  destruct (str_empty (m_ClfFileName (members s))) eqn:Ec; simpl.
  - unfold lift_err. rewrite Ecat. eexists. split; [reflexivity|]. simpl.
    rewrite <- ?app_assoc. repeat split; reflexivity.
  - apply str_empty_false in Ec. specialize (Hclf Ec).
    destruct (fs_clf env (m_ClfFileName (members s))) as [clf|]; [|congruence]. simpl.
    destruct (clf_sequential clf); simpl; unfold lift_err; rewrite Ecat;
      (eexists; split; [reflexivity|]); simpl; rewrite <- ?app_assoc;
      repeat split; reflexivity.
Qed.

Lemma missing_type_column_is_fatal_witness :
  exists s',
    openInputFiles untyped_env (prepared (sample_options "u.pgf" "" ["main"] [""] [""]
                                            false false))
    = (inl (ErrAbort "No type column in pgf file"), s')
    /\ m_Out (io s') = [].
Proof.
  destruct (missing_type_column_is_fatal untyped_env
              (prepared (sample_options "u.pgf" "" ["main"] [""] [""] false false))
              untyped_pgf)
    as (s' & E & _ & Hout & _).
  - discriminate.
  - reflexivity.
  - reflexivity.
  - reflexivity.
  - intros H. exfalso. apply H. reflexivity.
  - exists s'. split; [exact E|exact Hout].
Defined.

(** X11: a run that fails before the header, in [beginOutput],
    [readIdFiles] or [openInputFiles], fails as a whole with the same
    error, and has written nothing to the output and looked nothing up. *)
Theorem setup_failure_writes_nothing (env : Env) (s s1 : dumpPgf) (e : Error) :
  setup env s = (inl e, s1) ->
  run env s = (inl e, s1)
  /\ m_Out (io s1) = m_Out (io s) /\ m_OutLine (io s1) = m_OutLine (io s)
  /\ lookups (io s1) = lookups (io s).
Proof.
  intros H. split.
  - rewrite run_setup. erewrite bind_inl by exact H. reflexivity.
  - assert (P : keeps silent (setup env)).
    { unfold setup.
      apply (keeps_bind _ silent_trans); [apply beginOutput_silent|intros _].
      apply (keeps_bind _ silent_trans); [apply readIdFiles_silent|intros _].
      apply openInputFiles_silent. }
    apply (P s _ s1 H).
Qed.

Lemma setup_failure_writes_nothing_witness :
  exists s1,
    run sample_env (constructed two_id_files)
    = (inl (ErrAbort "Problem opening probeset id file nowhere.txt"), s1)
    /\ m_Out (io s1) = [].
Proof.
  assert (E : setup sample_env (constructed two_id_files)
              = (inl (ErrAbort "Problem opening probeset id file nowhere.txt"),
                 snd (setup sample_env (constructed two_id_files))))
    by (vm_compute; reflexivity).
  destruct (setup_failure_writes_nothing sample_env _ _ _ E) as (Hrun & Hout & _).
  eexists. split; [exact Hrun|exact Hout].
Defined.

(** ** 'and' against 'or', over a whole run *)

Lemma wanted_and_or (types path : list string) :
  wanted types false path = true -> wanted types true path = true.
Proof.
  unfold wanted. destruct types as [|t0 types]; [reflexivity|]. cbn [vec_empty].
  intros H. apply existsb_exists. exists t0. split.
  - apply (proj1 (noMismatchFound_all (t0 :: types) path) H). left. reflexivity.
  - cbn [std_find]. rewrite String.eqb_refl. reflexivity.
Qed.

Lemma rows_sublist {A B : Type} (f : A -> list B) (P Q : A -> bool) (l : list A) :
  (forall x, P x = true -> Q x = true) ->
  sublist (flat_map f (List.filter P l)) (flat_map f (List.filter Q l)).
Proof.
  intros HPQ. induction l as [|x l IH]; [constructor|].
  cbn [List.filter]. destruct (P x) eqn:EP.
  - rewrite (HPQ x EP). cbn [flat_map]. apply sublist_app; [reflexivity|exact IH].
  - destruct (Q x); [|exact IH]. cbn [flat_map]. apply sublist_inserts_l. exact IH.
Qed.

Lemma map_sublist {A B : Type} (f : A -> B) (l1 l2 : list A) :
  sublist l1 l2 -> sublist (map f l1) (map f l2).
Proof. induction 1; cbn [map]; constructor; assumption. Qed.

(** X16: two runs of the same query without id lists, one by default
    ('and') and one with -or, at any two times and with any other
    arguments.  Both runs end normally; each writes its own five generic
    meta tags (guid, date and command line differ from run to run), then
    the same copied meta tags and the same header line, and the data lines
    of the default run are a subsequence of the data lines of the -or
    run: -or only ever adds records, and never reorders them. *)
Theorem default_run_is_part_of_or_run (env_and env_or : Env) (version cvsId : string)
  (o_and o_or : Options) (pgf : PgfSource) (rest0 rest2 pre post : list string) :
  let mb_and := chosen version cvsId o_and in
  let mb_or := chosen version cvsId o_or in
  same_query_but_or o_and o_or ->
  acceptable env_and o_and -> acceptable env_or o_or ->
  m_ProbesetIdFileNames mb_and = [] -> m_ProbeIdFileNames mb_and = [] ->
  m_ProbesetIdFileNames mb_or = [] -> m_ProbeIdFileNames mb_or = [] ->
  fs_pgf env_and (opt_pgf_file o_and) = Some pgf ->
  fs_pgf env_or (opt_pgf_file o_and) = Some pgf ->
  fs_clf env_or (opt_clf_file o_and) = fs_clf env_and (opt_clf_file o_and) ->
  pgf_cols0 pgf = "probeset_id" :: rest0 -> ~ In "probeset_id" rest0 ->
  (Z.of_nat (List.length (pgf_cols0 pgf)) < 2 ^ 32)%Z ->
  (opt_probeset_only o_and = false ->
   pgf_cols2 pgf = "probe_id" :: rest2 /\ ~ In "probe_id" rest2
   /\ (Z.of_nat (List.length (pgf_cols1 pgf)) + Z.of_nat (List.length (pgf_cols2 pgf))
       < 2 ^ 32)%Z) ->
  (m_ProbesetTypes mb_and = [] \/ (rest0 = pre ++ "type" :: post /\ ~ In "type" post)) ->
  (opt_clf_file o_and <> "" -> fs_clf env_and (opt_clf_file o_and) <> None) ->
  unique_coords (the_clf env_and mb_and) ->
  exists (s_and s_or : dumpPgf) (lines_and lines_or : list string),
    main env_and version cvsId o_and = (inr tt, s_and)
    /\ main env_or version cvsId o_or = (inr tt, s_or)
    /\ m_Out (io s_and)
       = preamble env_and (set_ExecGuid (new_guid env_and 0)
                             (set_members mb_and (blank (indeterminate env_and))))
         ++ copied_tags (pgf_headers pgf)
         ++ [headerLine (column_names mb_and pgf)] ++ lines_and
    /\ m_Out (io s_or)
       = preamble env_or (set_ExecGuid (new_guid env_or 0)
                            (set_members mb_or (blank (indeterminate env_or))))
         ++ copied_tags (pgf_headers pgf)
         ++ [headerLine (column_names mb_and pgf)] ++ lines_or
    /\ sublist lines_and lines_or.
Proof.
  intros mb_and mb_or (Hand & Hor & Epgf & Eclf & Ety & Eonly) Hacc_and Hacc_or
    Hin Hpn Hin' Hpn' Hfs Hfs' Hfc H0 Hno0 Hsize0 Hfull Hty Hclf Hu.
  assert (Hclf_eq : the_clf env_or mb_or = the_clf env_and mb_and).
  { unfold the_clf, mb_or, mb_and. cbn [chosen m_ClfFileName]. rewrite Eclf, Hfc. reflexivity. }
  assert (Hnames : column_names mb_or pgf = column_names mb_and pgf).
  { unfold column_names, mb_or, mb_and. cbn [chosen m_DumpProbesetsOnly m_ClfFileName].
    rewrite Eonly, Eclf. reflexivity. }
  assert (Htypes : m_ProbesetTypes mb_or = m_ProbesetTypes mb_and).
  { unfold mb_or, mb_and. cbn [chosen m_ProbesetTypes]. rewrite Ety. reflexivity. }
  destruct (run_scan_output env_and
              (set_members mb_and
                 (set_io (put_opened (opt_out_file o_and)
                            (io (blank (indeterminate env_and))))
                    (blank (indeterminate env_and))))
              pgf rest0 rest2 pre post
              ltac:(repeat split; reflexivity) eq_refl eq_refl eq_refl
              Hin Hpn Hfs H0 Hno0 Hsize0 Hfull Hty Hclf Hu)
    as (s_and & Eand & Hout_and & _).
  destruct (run_scan_output env_or
              (set_members mb_or
                 (set_io (put_opened (opt_out_file o_or)
                            (io (blank (indeterminate env_or))))
                    (blank (indeterminate env_or))))
              pgf rest0 rest2 pre post
              ltac:(repeat split; reflexivity) eq_refl eq_refl eq_refl
              Hin' Hpn')
    as (s_or & Eor & Hout_or & _).
  { unfold mb_or. cbn [set_members members chosen m_PgfFileName]. rewrite Epgf. exact Hfs'. }
  { exact H0. }
  { exact Hno0. }
  { exact Hsize0. }
  { unfold mb_or. cbn [set_members members chosen m_DumpProbesetsOnly]. rewrite Eonly.
    exact Hfull. }
  { cbn [set_members members]. rewrite Htypes. exact Hty. }
  { unfold mb_or. cbn [set_members members chosen m_ClfFileName]. rewrite Eclf, Hfc.
    exact Hclf. }
  { cbn [set_members members]. rewrite Hclf_eq. exact Hu. }
  cbn [set_members members] in Hout_and, Hout_or.
  rewrite Hclf_eq, Hnames, Htypes in Hout_or.
  match type of Hout_and with
  | _ = _ ++ _ ++ _ ++ _ ++ ?rows_and =>
      match type of Hout_or with
      | _ = _ ++ _ ++ _ ++ _ ++ ?rows_or => exists s_and, s_or, rows_and, rows_or
      end
  end.
  split; [rewrite (main_constructed env_and version cvsId o_and Hacc_and); exact Eand|].
  split; [rewrite (main_constructed env_or version cvsId o_or Hacc_or); exact Eor|].
  split; [exact Hout_and|]. split; [exact Hout_or|].
  apply map_sublist. unfold mb_or, mb_and. cbn [chosen m_DumpProbesetsOnly m_DumpUnion].
  rewrite Eonly, Hand, Hor. unfold selected. apply rows_sublist.
  intros p. apply wanted_and_or.
Qed.

Lemma default_run_is_part_of_or_run_witness :
  exists (s_and s_or : dumpPgf),
    main sample_env "1.0" "id" by_types = (inr tt, s_and)
    /\ main later_env "1.0" "id" by_types_or = (inr tt, s_or)
    /\ sublist (skipn 7 (m_Out (io s_and))) (skipn 7 (m_Out (io s_or)))
    /\ firstn 5 (m_Out (io s_and)) <> firstn 5 (m_Out (io s_or)).
Proof.
  destruct (default_run_is_part_of_or_run sample_env later_env "1.0" "id" by_types
              by_types_or sample_pgf ["type"; "probeset_name"] ["seq"] [] ["probeset_name"])
    as (s_and & s_or & la & lo & Ea & Eo & Ha & Ho & Hsub).
  - repeat split; reflexivity.
  - apply sample_acceptable. vm_compute. reflexivity.
  - apply (proj1 (dumpPgf_ctor_accepts later_env "1.0" "id" by_types_or (blank 77)
                    (snd (dumpPgf_ctor later_env "1.0" "id" by_types_or (blank 77))))).
    vm_compute. reflexivity.
  - reflexivity.
  - reflexivity.
  - reflexivity.
  - reflexivity.
  - reflexivity.
  - reflexivity.
  - reflexivity.
  - reflexivity.
  - simpl. intuition discriminate.
  - simpl. lia.
  - intros _. split; [reflexivity|]. split; [simpl; intuition discriminate|simpl; lia].
  - right. split; [reflexivity|]. simpl. intuition discriminate.
  - intros H. exfalso. apply H. reflexivity.
  - exact I.
  - exists s_and, s_or. split; [exact Ea|]. split; [exact Eo|].
    rewrite Ha, Ho. split; [exact Hsub|]. vm_compute. discriminate.
Defined.

(** ** The taxonomy matcher and concatenation *)

Lemma splitTypes_from_eq (inputString : string) (substrBegin : nat)
  (inputTypes : list string) :
  splitTypes_from inputString substrBegin inputTypes
  = match find inputString "->" substrBegin with
    | None =>
        if String.eqb (substr_from inputString substrBegin) "" then inputTypes
        else inputTypes ++ [substr_from inputString substrBegin]
    | Some substrEnd =>
        splitTypes_from inputString (substrEnd + 2)
          (if Nat.eqb substrEnd substrBegin then inputTypes
           else inputTypes ++ [substr inputString substrBegin (substrEnd - substrBegin)])
    end.
Proof.
  funelim (splitTypes_from inputString substrBegin inputTypes).
  - rewrite Hfind. reflexivity.
  - match goal with Hn : find _ _ _ = None |- _ => rewrite Hn end. reflexivity.
Qed.

Lemma sapp_length (a b : string) :
  String.length (a +:+ b) = (String.length a + String.length b)%nat.
Proof. induction a as [|c a IH]; [reflexivity|]. rewrite sapp_cons. simpl. rewrite IH. reflexivity. Qed.

Lemma substring_app_l (a t : string) :
  forall p n : nat,
    (p + n <= String.length a)%nat ->
    String.substring p n (a +:+ t) = String.substring p n a.
Proof.
  induction a as [|c a IH]; intros p n H.
  - simpl in H. assert (p = 0%nat) by lia. assert (n = 0%nat) by lia. subst.
    rewrite sapp_nil_l. destruct t; reflexivity.
  - rewrite sapp_cons. simpl in H. destruct p as [|p].
    + destruct n as [|n]; [reflexivity|]. cbn [String.substring]. rewrite IH by lia.
      reflexivity.
    + cbn [String.substring]. apply IH. lia.
Qed.

Lemma substring_app_r (a t : string) (p n : nat) :
  String.substring (String.length a + p) n (a +:+ t) = String.substring p n t.
Proof.
  induction a as [|c a IH]; [reflexivity|].
  rewrite sapp_cons. cbn [String.length Nat.add String.substring]. exact IH.
Qed.

Lemma index_app_r (needle a t : string) (b : nat) :
  String.index (String.length a + b) needle (a +:+ t)
  = match String.index b needle t with
    | Some e => Some (String.length a + e)%nat
    | None => None
    end.
Proof.
  induction a as [|c a IH].
  - rewrite sapp_nil_l. cbn [String.length Nat.add]. destruct (String.index b needle t); reflexivity.
  - rewrite sapp_cons. cbn [String.length Nat.add String.index]. rewrite IH.
    destruct (String.index b needle t); reflexivity.
Qed.

(** The split from a position on sees only what follows the position. *)
Lemma splitTypes_from_app_r (a t : string) :
  forall (fuel b : nat) (acc : list string),
    (S (String.length t) - b <= fuel)%nat ->
    splitTypes_from (a +:+ t) (String.length a + b) acc = splitTypes_from t b acc.
Proof.
  induction fuel as [|fuel IH]; intros b acc Hfuel.
  - rewrite (splitTypes_from_eq (a +:+ t)), (splitTypes_from_eq t).
    unfold find. rewrite index_app_r.
    destruct (String.index b "->" t) as [e|] eqn:E.
    + pose proof (find_bounds _ _ _ _ _ E) as [Hge Hle]. simpl in Hle. lia.
    + unfold substr_from. rewrite sapp_length.
      replace (String.length a + String.length t - (String.length a + b))%nat
        with (String.length t - b)%nat by lia.
      rewrite substring_app_r. reflexivity.
  - rewrite (splitTypes_from_eq (a +:+ t)), (splitTypes_from_eq t).
    unfold find. rewrite index_app_r.
    destruct (String.index b "->" t) as [e|] eqn:E.
    + pose proof (find_bounds _ _ _ _ _ E) as [Hge Hle]. simpl in Hle.
      replace (String.length a + e + 2)%nat with (String.length a + (e + 2))%nat by lia.
      rewrite IH by lia.
      replace (Nat.eqb (String.length a + e) (String.length a + b)) with (Nat.eqb e b).
      2:{ destruct (Nat.eqb e b) eqn:E1.
          - apply Nat.eqb_eq in E1. subst. symmetry. apply Nat.eqb_refl.
          - apply Nat.eqb_neq in E1. symmetry. apply Nat.eqb_neq. lia. }
      unfold substr.
      replace (String.length a + e - (String.length a + b))%nat with (e - b)%nat by lia.
      rewrite substring_app_r. reflexivity.
    + unfold substr_from. rewrite sapp_length.
      replace (String.length a + String.length t - (String.length a + b))%nat
        with (String.length t - b)%nat by lia.
      rewrite substring_app_r. reflexivity.
Qed.

(** The segments found are appended to those found before. *)
Lemma splitTypes_from_acc (s : string) :
  forall (fuel b : nat) (acc : list string),
    (S (String.length s) - b <= fuel)%nat ->
    splitTypes_from s b acc = acc ++ splitTypes_from s b [].
Proof.
  induction fuel as [|fuel IH]; intros b acc Hfuel.
  - rewrite (splitTypes_from_eq s b acc), (splitTypes_from_eq s b []).
    destruct (find s "->" b) as [e|] eqn:E.
    + pose proof (find_bounds _ _ _ _ _ E) as [Hge Hle]. simpl in Hle. lia.
    + destruct (String.eqb (substr_from s b) ""); [rewrite app_nil_r|]; reflexivity.
  - rewrite (splitTypes_from_eq s b acc), (splitTypes_from_eq s b []).
    destruct (find s "->" b) as [e|] eqn:E.
    + pose proof (find_bounds _ _ _ _ _ E) as [Hge Hle]. simpl in Hle.
      rewrite (IH (e + 2)%nat (if Nat.eqb e b then acc else _)) by lia.
      rewrite (IH (e + 2)%nat (if Nat.eqb e b then [] else _)) by lia.
      destruct (Nat.eqb e b); [reflexivity|]. rewrite <- !app_assoc. reflexivity.
    + destruct (String.eqb (substr_from s b) ""); [rewrite app_nil_r|]; reflexivity.
Qed.

Lemma prefix_nil (s : string) : String.prefix "" s = true.
Proof. destruct s; reflexivity. Qed.

Lemma prefix_cons (x : ascii) (s1 : string) (b : ascii) (s2 : string) :
  String.prefix (String x s1) (String b s2)
  = if ascii_dec x b then String.prefix s1 s2 else false.
Proof. cbn [String.prefix]. destruct (ascii_dec x b); reflexivity. Qed.

Lemma index_first_delimiter (a t : string) :
  find a "->" 0 = None -> find (a +:+ "->" +:+ t) "->" 0 = Some (String.length a).
Proof.
  unfold find. induction a as [|c a IH]; intros Hfree.
  - rewrite sapp_nil_l.
    change ("->" +:+ t) with (String "-" (String ">" t)).
    cbn [String.index]. rewrite !prefix_cons, prefix_nil. reflexivity.
  - rewrite sapp_cons. cbn [String.index String.length] in *.
    destruct (String.prefix "->" (String c a)) eqn:Ep; [discriminate|].
    destruct (String.index 0 "->" a) as [e|] eqn:Ei; [discriminate|].
    rewrite (IH eq_refl).
    assert (Ep' : String.prefix "->" (String c (a +:+ "->" +:+ t)) = false).
    { rewrite prefix_cons in *. destruct (ascii_dec "-" c) as [Hc|Hc]; [|reflexivity].
      destruct a as [|c' a'].
      - rewrite sapp_nil_l. change ("->" +:+ t) with (String "-" (String ">" t)).
        rewrite prefix_cons. reflexivity.
      - rewrite sapp_cons. rewrite prefix_cons in *.
        destruct (ascii_dec ">" c'); [|reflexivity].
        rewrite prefix_nil in Ep. discriminate. }
    rewrite Ep'. reflexivity.
Qed.

Lemma eqb_empty_length (a : string) : String.eqb a "" = Nat.eqb (String.length a) 0.
Proof. destruct a; reflexivity. Qed.

(** The split of a delimiter-free string, a delimiter and a rest. *)
Lemma splitTypes_first_segment (a t : string) :
  find a "->" 0 = None ->
  splitTypes (a +:+ "->" +:+ t) = splitTypes a ++ splitTypes t.
Proof.
  intros Hfree. unfold splitTypes at 1 2.
  rewrite (splitTypes_from_last a 0 [] Hfree).
  rewrite (splitTypes_from_eq (a +:+ "->" +:+ t)).
  rewrite (index_first_delimiter a t Hfree).
  assert (Hsub : substr (a +:+ "->" +:+ t) 0 (String.length a - 0) = a).
  { unfold substr. rewrite Nat.sub_0_r, substring_app_l by lia. apply substring_all. }
  rewrite Hsub.
  assert (Hfrom : substr_from a 0 = a).
  { unfold substr_from. rewrite Nat.sub_0_r. apply substring_all. }
  rewrite Hfrom, eqb_empty_length.
  replace (a +:+ "->" +:+ t) with ((a +:+ "->") +:+ t) by apply sapp_assoc.
  replace (String.length a + 2)%nat with (String.length (a +:+ "->") + 0)%nat
    by (rewrite sapp_length; simpl; lia).
  rewrite (splitTypes_from_app_r (a +:+ "->") t (S (String.length t))) by lia.
  rewrite (splitTypes_from_acc t (S (String.length t))) by lia.
  reflexivity.
Qed.

Lemma substring_split (s : string) :
  forall p : nat,
    (p <= String.length s)%nat ->
    s = String.substring 0 p s +:+ String.substring p (String.length s - p) s.
Proof.
  induction s as [|c s IH]; intros p Hp.
  - simpl in Hp. assert (p = 0%nat) by lia. subst. reflexivity.
  - destruct p as [|p].
    + cbn [String.substring]. rewrite sapp_nil_l, Nat.sub_0_r.
      symmetry. apply (substring_all (String c s)).
    + cbn [String.substring String.length Nat.sub]. rewrite sapp_cons.
      f_equal. apply IH. simpl in Hp. lia.
Qed.

(** A string in which the delimiter occurs is a delimiter-free string,
    the delimiter, and a shorter rest. *)
Lemma first_delimiter_split (a : string) (e : nat) :
  find a "->" 0 = Some e ->
  exists a1 a2,
    a = a1 +:+ "->" +:+ a2 /\ find a1 "->" 0 = None
    /\ (String.length a2 < String.length a)%nat.
Proof.
  intros Hfind.
  pose proof (find_bounds _ _ _ _ _ Hfind) as [_ Hle]. simpl in Hle.
  exists (String.substring 0 e a),
         (String.substring (e + 2) (String.length a - (e + 2)) a).
  split; [|split].
  - rewrite (substring_split a e) at 1 by lia. f_equal.
    set (r := String.substring e (String.length a - e) a).
    assert (Hr : String.length r = (String.length a - e)%nat)
      by (apply substring_length_exact; lia).
    rewrite (substring_split r 2) by lia. f_equal.
    + unfold r. rewrite substring_substring by lia. rewrite Nat.add_0_r.
      unfold find in Hfind. apply String.index_correct1 in Hfind. exact Hfind.
    + unfold r at 2. rewrite Hr. rewrite substring_substring by lia.
      replace (String.length a - e - 2)%nat with (String.length a - (e + 2))%nat by lia.
      reflexivity.
  - apply (piece_delimiter_free a 0 e). intros q _ Hq.
    unfold find in Hfind. apply (String.index_correct2 _ _ _ _ Hfind q); lia.
  - rewrite substring_length_exact by lia. lia.
Qed.

Lemma splitTypes_concat (fuel : nat) :
  forall a t : string,
    (String.length a <= fuel)%nat ->
    splitTypes (a +:+ "->" +:+ t) = splitTypes a ++ splitTypes t.
Proof.
  induction fuel as [|fuel IH]; intros a t Hlen.
  - destruct a; [|simpl in Hlen; lia]. apply splitTypes_first_segment. reflexivity.
  - destruct (find a "->" 0) as [e|] eqn:E.
    + destruct (first_delimiter_split a e E) as (a1 & a2 & -> & Hfree & Hshort).
      rewrite !sapp_assoc.
      rewrite (splitTypes_first_segment a1 _ Hfree).
      rewrite (splitTypes_first_segment a1 a2 Hfree).
      rewrite IH by lia. rewrite app_assoc. reflexivity.
    + apply splitTypes_first_segment. exact E.
Qed.

(** X17: [splitTypes] distributes over concatenation at a delimiter:
    the segments of a string, a delimiter and a second string are the
    segments of the first followed by those of the second, whatever the
    two strings are. *)
Theorem splitTypes_distributes_over_delimiter (a t : string) :
  splitTypes (a +:+ "->" +:+ t) = splitTypes a ++ splitTypes t.
Proof. apply (splitTypes_concat (String.length a)). lia. Qed.

Lemma splitTypes_joinTypes_valid (segs : list string) :
  Forall (fun seg => seg <> "" /\ find seg "->" 0 = None) segs ->
  splitTypes (joinTypes segs) = segs.
Proof.
  induction 1 as [|seg segs [Hne Hfree] Hrest IH]; [reflexivity|].
  assert (Hone : splitTypes seg = [seg]).
  { unfold splitTypes. rewrite (splitTypes_from_last seg 0 [] Hfree).
    unfold substr_from. rewrite Nat.sub_0_r, substring_all.
    destruct (String.eqb seg "") eqn:E; [|reflexivity].
    apply String.eqb_eq in E. contradiction. }
  destruct segs as [|seg' segs']; [exact Hone|].
  change (joinTypes (seg :: seg' :: segs'))
    with (seg +:+ "->" +:+ joinTypes (seg' :: segs')).
  rewrite (splitTypes_concat (String.length seg)) by lia.
  rewrite Hone, IH. reflexivity.
Qed.

(** X18: splitting undoes joining.  A list of non-empty segments without
    a delimiter inside, written out with "->" between them, splits back to
    the same list; and the segments of any string, written out again,
    split to themselves. *)
Theorem splitTypes_undoes_joinTypes :
  (forall segs : list string,
      Forall (fun seg => seg <> "" /\ find seg "->" 0 = None) segs ->
      splitTypes (joinTypes segs) = segs)
  /\ (forall s : string, splitTypes (joinTypes (splitTypes s)) = splitTypes s).
Proof.
  split; [exact splitTypes_joinTypes_valid|].
  intros s. apply splitTypes_joinTypes_valid.
  pose proof (splitTypes_from_nonempty s 0 [] ltac:(constructor)) as Hne.
  pose proof (splitTypes_from_delimiter_free s 0 [] ltac:(constructor)) as Hfree.
  unfold splitTypes. revert Hne Hfree.
  generalize (splitTypes_from s 0 []). intros l Hne Hfree.
  induction l as [|x l IH]; [constructor|].
  inversion Hne; subst. inversion Hfree; subst.
  constructor; [split; assumption|apply IH; assumption].
Qed.

Lemma splitTypes_undoes_joinTypes_witness :
  splitTypes (joinTypes ["main"; "rescue"; "v1"]) = ["main"; "rescue"; "v1"].
Proof.
  apply (proj1 splitTypes_undoes_joinTypes).
  repeat constructor; discriminate.
Defined.

(** ** The width of the table *)

Lemma window_length (data : list string) (from count : nat) :
  List.length (window data from count) = count.
Proof. unfold window. rewrite length_map, length_seq. reflexivity. Qed.

Lemma coordFields_length (env : Env) (mb : Members) (probeId : Z) :
  (m_ClfFileName mb <> "" -> fs_clf env (m_ClfFileName mb) <> None) ->
  List.length (coordFields (the_clf env mb) probeId)
  = List.length (if negb (str_empty (m_ClfFileName mb)) then ["x"; "y"] else []).
Proof.
  intros Hclf. unfold the_clf.
  destruct (str_empty (m_ClfFileName mb)) eqn:E; [reflexivity|].
  apply str_empty_false in E. specialize (Hclf E).
  destruct (fs_clf env (m_ClfFileName mb)) as [c|]; [|congruence].
  cbn [coordFields negb]. destruct (clf_sequential c); [reflexivity|].
  destruct (findCoords (clf_records c) probeId); reflexivity.
Qed.

Lemma rows_width (env : Env) (mb : Members) (pgf : PgfSource) (rest0 rest2 : list string)
  (p : ParentRecord) :
  pgf_cols0 pgf = "probeset_id" :: rest0 ->
  (m_DumpProbesetsOnly mb = false -> pgf_cols2 pgf = "probe_id" :: rest2) ->
  (m_ClfFileName mb <> "" -> fs_clf env (m_ClfFileName mb) <> None) ->
  Forall (fun row => List.length row = List.length (column_names mb pgf))
    (rows (m_DumpProbesetsOnly mb) (List.length rest0) (List.length (pgf_cols1 pgf))
       (List.length rest2) (the_clf env mb) p).
Proof.
  intros H0 H2 Hclf. unfold rows, column_names.
  destruct (m_DumpProbesetsOnly mb) eqn:Honly.
  - constructor; [|constructor]. unfold parentRow, fit. cbn [List.length].
    rewrite window_length, H0, app_nil_r. reflexivity.
  - rewrite (H2 eq_refl), H0. apply List.Forall_forall. intros row Hin.
    apply in_flat_map in Hin. destruct Hin as (m & _ & Hin).
    apply in_map_iff in Hin. destruct Hin as (l & <- & _).
    unfold leafRow, parentRow, fit.
    rewrite !length_app. cbn [List.length]. rewrite !length_app, !window_length.
    rewrite (coordFields_length env mb (leaf_id l) Hclf). cbn [List.length]. lia.
Qed.

Lemma tab_free_app (a b : string) :
  tab_free (a +:+ b) = tab_free a && tab_free b.
Proof.
  induction a as [|c a IH]; [reflexivity|]. rewrite sapp_cons. cbn [tab_free].
  rewrite IH, andb_assoc. reflexivity.
Qed.

Lemma fields_tab_free (a : string) : tab_free a = true -> fields a = [a].
Proof.
  induction a as [|c a IH]; [reflexivity|]. cbn [tab_free fields]. intros H.
  apply andb_prop in H. destruct H as [Hc Ha]. apply negb_true_iff in Hc.
  rewrite Hc, (IH Ha). reflexivity.
Qed.

Lemma fields_cut (a b : string) :
  tab_free a = true -> fields (a +:+ tab +:+ b) = a :: fields b.
Proof.
  induction a as [|c a IH]; intros H.
  - reflexivity.
  - cbn [tab_free] in H. apply andb_prop in H. destruct H as [Hc Ha].
    apply negb_true_iff in Hc. rewrite sapp_cons. cbn [fields]. rewrite Hc, (IH Ha).
    reflexivity.
Qed.

(** A line splits back to the fields it was joined from. *)
Lemma fields_headerLine (x : string) (l : list string) :
  Forall (fun f => tab_free f = true) (x :: l) -> fields (headerLine (x :: l)) = x :: l.
Proof.
  rewrite headerLine_cons. revert x. induction l as [|y l IH]; intros x H.
  - inversion H; subst. unfold tabJoin. cbn [fold_left]. rewrite sapp_nil_r.
    apply fields_tab_free. assumption.
  - inversion H as [|? ? Hx Hl]; subst. rewrite tabJoin_cons, fields_cut by exact Hx.
    rewrite (IH y Hl). reflexivity.
Qed.

Lemma digits_tab_free (d : Decimal.uint) :
  tab_free (NilEmpty.string_of_uint d) = true.
Proof.
  induction d; cbn [NilEmpty.string_of_uint tab_free]; [reflexivity|..];
    rewrite IHd; reflexivity.
Qed.

Lemma string_of_uint_tab_free (d : Decimal.uint) :
  tab_free (NilZero.string_of_uint d) = true.
Proof.
  unfold NilZero.string_of_uint. destruct d; try reflexivity; apply digits_tab_free.
Qed.

Lemma ToStr_tab_free (z : Z) : tab_free (ToStr z) = true.
Proof.
  unfold ToStr, NilZero.string_of_int. destruct (Z.to_int z) as [d|d].
  - apply string_of_uint_tab_free.
  - cbn [tab_free]. apply string_of_uint_tab_free.
Qed.

Lemma coordText_tab_free (z : Z) : tab_free (coordText z) = true.
Proof. unfold coordText. destruct (z >=? 0)%Z; [apply ToStr_tab_free|reflexivity]. Qed.

Lemma fit_tab_free (n : nat) (l : list string) :
  Forall (fun f => tab_free f = true) l -> Forall (fun f => tab_free f = true) (fit n l).
Proof.
  intros H. unfold fit, window. apply List.Forall_forall. intros f Hin.
  apply in_map_iff in Hin. destruct Hin as (j & <- & _). cbn [Nat.add].
  destruct (nth_in_or_default j l "") as [Hj|Hj].
  - apply (proj1 (List.Forall_forall _ _) H). exact Hj.
  - rewrite Hj. reflexivity.
Qed.

Lemma coordFields_tab_free (clf : option ClfSource) (id : Z) :
  Forall (fun f => tab_free f = true) (coordFields clf id).
Proof.
  unfold coordFields. destruct clf as [c|]; [|constructor].
  destruct (clf_sequential c).
  - repeat constructor; apply coordText_tab_free.
  - destruct (findCoords (clf_records c) id); repeat constructor; apply coordText_tab_free.
Qed.

Lemma rows_tab_free (only : bool) (n0 n1 n2 : nat) (clf : option ClfSource)
  (p : ParentRecord) :
  tabless p ->
  Forall (fun row => row <> [] /\ Forall (fun f => tab_free f = true) row)
    (rows only n0 n1 n2 clf p).
Proof.
  intros [Hp Hm].
  assert (Hrow : Forall (fun f => tab_free f = true) (parentRow n0 p)).
  { unfold parentRow. constructor; [apply ToStr_tab_free|apply fit_tab_free; exact Hp]. }
  unfold rows. destruct only.
  - constructor; [|constructor]. split; [discriminate|exact Hrow].
  - apply List.Forall_forall. intros row Hin.
    apply in_flat_map in Hin. destruct Hin as (m & Hmin & Hin).
    apply in_map_iff in Hin. destruct Hin as (l & <- & Hlin).
    destruct (proj1 (List.Forall_forall _ _) Hm m Hmin) as [Hmf Hml].
    pose proof (proj1 (List.Forall_forall _ _) Hml l Hlin) as Hlf.
    split; [unfold leafRow, parentRow; discriminate|].
    unfold leafRow. apply Forall_app. split; [exact Hrow|].
    apply Forall_app. split; [apply fit_tab_free; exact Hmf|].
    constructor; [apply ToStr_tab_free|].
    apply Forall_app. split; [apply fit_tab_free; exact Hlf|apply coordFields_tab_free].
Qed.

(** X19: the output of a run without id lists is a table.  When no
    column name and no field of the pgf file holds a tab, the header line
    splits at its tabs into the column names, and every data line splits
    into exactly as many fields as the header line has, in a parent-only
    dump and in a full dump, with and without coordinates. *)
Theorem every_line_has_the_header_width (env : Env) (version cvsId : string) (o : Options)
  (pgf : PgfSource) (rest0 rest2 pre post : list string) :
  let mb := chosen version cvsId o in
  acceptable env o ->
  m_ProbesetIdFileNames mb = [] -> m_ProbeIdFileNames mb = [] ->
  fs_pgf env (opt_pgf_file o) = Some pgf ->
  pgf_cols0 pgf = "probeset_id" :: rest0 -> ~ In "probeset_id" rest0 ->
  (Z.of_nat (List.length (pgf_cols0 pgf)) < 2 ^ 32)%Z ->
  (opt_probeset_only o = false ->
   pgf_cols2 pgf = "probe_id" :: rest2 /\ ~ In "probe_id" rest2
   /\ (Z.of_nat (List.length (pgf_cols1 pgf)) + Z.of_nat (List.length (pgf_cols2 pgf))
       < 2 ^ 32)%Z) ->
  (m_ProbesetTypes mb = [] \/ (rest0 = pre ++ "type" :: post /\ ~ In "type" post)) ->
  (opt_clf_file o <> "" -> fs_clf env (opt_clf_file o) <> None) ->
  unique_coords (the_clf env mb) ->
  Forall (fun c => tab_free c = true) (column_names mb pgf) ->
  Forall tabless (pgf_records pgf) ->
  exists (s' : dumpPgf) (body : list string),
    main env version cvsId o = (inr tt, s')
    /\ m_Out (io s')
       = preamble env (set_ExecGuid (new_guid env 0)
                         (set_members mb (blank (indeterminate env))))
         ++ copied_tags (pgf_headers pgf)
         ++ headerLine (column_names mb pgf) :: body
    /\ fields (headerLine (column_names mb pgf)) = column_names mb pgf
    /\ Forall (fun line =>
                 List.length (fields line)
                 = List.length (fields (headerLine (column_names mb pgf)))) body.
Proof.
  intros mb Hacc Hin Hpn Hfs H0 Hno0 Hsize0 Hfull Hty Hclf Hu Hcols Hrecs.
  rewrite (main_constructed env version cvsId o Hacc).
  match goal with
  | |- context [run env ?s0] =>
      destruct (run_scan_output env s0 pgf rest0 rest2 pre post
                  ltac:(repeat split; reflexivity) eq_refl eq_refl eq_refl
                  Hin Hpn Hfs H0 Hno0 Hsize0 Hfull Hty Hclf Hu)
        as (s' & E & Hout & _)
  end.
  assert (Hhead : fields (headerLine (column_names mb pgf)) = column_names mb pgf).
  { destruct (column_names mb pgf) as [|c cs] eqn:Ec.
    - exfalso. revert Ec. apply column_names_nonempty. rewrite H0. discriminate.
    - apply fields_headerLine. exact Hcols. }
  match type of Hout with
  | _ = _ ++ _ ++ _ ++ _ ++ ?t => exists s', t
  end.
  split; [exact E|]. split; [exact Hout|].
  split; [exact Hhead|].
  rewrite Hhead. apply List.Forall_forall. intros line Hline.
  apply in_map_iff in Hline. destruct Hline as (row & <- & Hrow).
  apply in_flat_map in Hrow. destruct Hrow as (p & Hp & Hrow).
  pose proof (rows_width env mb pgf rest0 rest2 p H0
                (fun Honly => proj1 (Hfull Honly)) Hclf) as Hw.
  pose proof (proj1 (List.Forall_forall _ _) Hw row Hrow) as Hlen. cbv beta in Hlen.
  assert (Hp' : In p (pgf_records pgf)).
  { unfold selected in Hp. apply filter_In in Hp. apply Hp. }
  pose proof (proj1 (List.Forall_forall _ _) Hrecs p Hp') as Hless.
  pose proof (rows_tab_free (m_DumpProbesetsOnly mb) (List.length rest0)
                (List.length (pgf_cols1 pgf)) (List.length rest2) (the_clf env mb) p Hless)
    as Hfree.
  destruct (proj1 (List.Forall_forall _ _) Hfree row Hrow) as [Hne Hall].
  destruct row as [|x row]; [congruence|].
  rewrite fields_headerLine by exact Hall. exact Hlen.
Qed.

Lemma every_line_has_the_header_width_witness :
  exists (s' : dumpPgf) (head body : list string),
    main listing_env "1.0" "id"
      (sample_options "a.pgf" "seq.clf" [""] [""] [""] false false) = (inr tt, s')
    /\ m_Out (io s')
       = head ++ headerLine ["probeset_id"; "type"; "probeset_name"; "atom_id"; "probe_id";
                             "seq"; "x"; "y"]
                :: body
    /\ List.length head = 6%nat /\ List.length body = 5%nat
    /\ Forall (fun line => List.length (fields line) = 8%nat) body.
Proof.
  destruct (every_line_has_the_header_width listing_env "1.0" "id"
              (sample_options "a.pgf" "seq.clf" [""] [""] [""] false false) sample_pgf
              ["type"; "probeset_name"] ["seq"] [] [])
    as (s' & body & E & Hout & Hhead & Hall).
  - apply listing_acceptable. vm_compute. reflexivity.
  - reflexivity.
  - reflexivity.
  - reflexivity.
  - reflexivity.
  - simpl. intuition discriminate.
  - simpl. lia.
  - intros _. split; [reflexivity|]. split; [simpl; intuition discriminate|simpl; lia].
  - left. reflexivity.
  - intros _. discriminate.
  - intros H. discriminate H.
  - repeat constructor.
  - unfold tabless. repeat constructor.
  - pose proof E as E'. vm_compute in E'.
    match type of E' with
    | (_, ?st) = _ => assert (Hs : s' = st) by congruence
    end.
    exists s', (firstn 6 (m_Out (io s'))), body.
    split; [exact E|]. rewrite Hhead in Hall.
    assert (Hb : body = skipn 7 (m_Out (io s'))).
    { rewrite Hout. vm_compute. reflexivity. }
    split; [rewrite Hout; vm_compute; reflexivity|].
    split; [rewrite Hs; vm_compute; reflexivity|].
    split; [rewrite Hb, Hs; vm_compute; reflexivity|exact Hall].
Defined.

(** ** Assertions after setup *)

Lemma same_config_refl (s : dumpPgf) : same_config s s.
Proof. split; reflexivity. Qed.

Lemma same_config_trans (s1 s2 s3 : dumpPgf) :
  same_config s1 s2 -> same_config s2 s3 -> same_config s1 s3.
Proof. intros [A1 B1] [A2 B2]. split; congruence. Qed.

Lemma coordinates_chosen_frame (s s' : dumpPgf) :
  same_config s s' -> coordinates_chosen s -> coordinates_chosen s'.
Proof. intros [Hm Hl]. unfold coordinates_chosen. rewrite Hm, Hl. auto. Qed.

Lemma asserts_nothing_ret {A : Type} (a : A) : asserts_nothing (ret a).
Proof.
  split; [apply (keeps_ret _ same_config_refl)|].
  intros s r s' _ H expr. inversion H. discriminate.
Qed.

Lemma asserts_nothing_errAbort {A : Type} (msg : string) : asserts_nothing (@errAbort A msg).
Proof.
  split; [apply (keeps_errAbort _ same_config_refl)|].
  intros s r s' _ H expr. inversion H. discriminate.
Qed.

Lemma asserts_nothing_gets {A : Type} (f : dumpPgf -> A) : asserts_nothing (gets f).
Proof.
  split; [apply (keeps_gets _ same_config_refl)|].
  intros s r s' _ H expr. inversion H. discriminate.
Qed.

Lemma asserts_nothing_modify (f : dumpPgf -> dumpPgf) :
  (forall s, same_config s (f s)) -> asserts_nothing (modify f).
Proof.
  intros Hf. split; [apply keeps_modify; exact Hf|].
  intros s r s' _ H expr. inversion H. discriminate.
Qed.

Lemma asserts_nothing_bind {A B : Type} (m : M A) (k : A -> M B) :
  asserts_nothing m -> (forall a, asserts_nothing (k a)) -> asserts_nothing (bind m k).
Proof.
  intros [Km Rm] Hk. split.
  - apply (keeps_bind _ same_config_trans); [exact Km|]. intros a. apply Hk.
  - intros s r s' HP H expr. unfold bind in H.
    destruct (m s) as [[e|a] s1] eqn:E.
    + inversion H; subst. intros Habs. inversion Habs; subst.
      apply (Rm s _ _ HP E expr). reflexivity.
    + apply (proj2 (Hk a) s1 r s'); [|exact H].
      apply (coordinates_chosen_frame s); [apply (Km s _ s1 E)|exact HP].
Qed.

Lemma asserts_nothing_when (c : bool) (m : M unit) :
  asserts_nothing m -> asserts_nothing (when c m).
Proof. intros Hm. destruct c; [exact Hm|apply asserts_nothing_ret]. Qed.

Lemma asserts_nothing_forM_ {A : Type} (l : list A) (body : A -> M unit) :
  (forall x, asserts_nothing (body x)) -> asserts_nothing (forM_ l body).
Proof.
  intros Hb. induction l as [|x l IH]; cbn [forM_]; [apply asserts_nothing_ret|].
  apply asserts_nothing_bind; [apply Hb|intros _; exact IH].
Qed.

Create HintDb unfailing.

Ltac unfailing :=
  repeat first
    [ solve [auto with unfailing nocore]
    | progress cbv zeta
    | apply asserts_nothing_ret | apply asserts_nothing_errAbort | apply asserts_nothing_gets
    | apply asserts_nothing_when
    | apply asserts_nothing_forM_; intros
    | apply asserts_nothing_modify; intros; split; reflexivity
    | apply asserts_nothing_bind; [|intros]
    | match goal with
      | |- asserts_nothing (if ?c then _ else _) => destruct c
      | |- asserts_nothing (match ?x with _ => _ end) => destruct x
      end ].

Lemma asserts_nothing_out_text (t : string) : asserts_nothing (out_text t).
Proof. unfold out_text. unfailing. Qed.
#[local] Hint Resolve asserts_nothing_out_text : unfailing.

Lemma asserts_nothing_out_endl : asserts_nothing out_endl.
Proof. unfold out_endl. unfailing. Qed.
#[local] Hint Resolve asserts_nothing_out_endl : unfailing.

Lemma asserts_nothing_cerr_line (l : string) : asserts_nothing (cerr_line l).
Proof. unfold cerr_line. unfailing. Qed.
#[local] Hint Resolve asserts_nothing_cerr_line : unfailing.

Lemma asserts_nothing_read0 (p : ParentRecord) : asserts_nothing (read0 p).
Proof. unfold read0. unfailing. Qed.
#[local] Hint Resolve asserts_nothing_read0 : unfailing.

Lemma asserts_nothing_read1 (m : MidRecord) : asserts_nothing (read1 m).
Proof. unfold read1. unfailing. Qed.
#[local] Hint Resolve asserts_nothing_read1 : unfailing.

Lemma asserts_nothing_read2 (l : LeafRecord) : asserts_nothing (read2 l).
Proof. unfold read2. unfailing. Qed.
#[local] Hint Resolve asserts_nothing_read2 : unfailing.

Lemma asserts_nothing_findBegin (src : Source) (level : nat) (col : string) (id : Z) :
  asserts_nothing (findBegin src level col id).
Proof. unfold findBegin, log_lookup. unfailing. Qed.
#[local] Hint Resolve asserts_nothing_findBegin : unfailing.

Lemma asserts_nothing_dumpCoords : asserts_nothing dumpCoords.
Proof. unfold dumpCoords. unfailing. Qed.
#[local] Hint Resolve asserts_nothing_dumpCoords : unfailing.

Lemma asserts_nothing_getCoordsByIndex (probeId : Z) :
  asserts_nothing (getCoordsByIndex probeId).
Proof. unfold getCoordsByIndex, readClf, set_ClfXY. unfailing. Qed.
#[local] Hint Resolve asserts_nothing_getCoordsByIndex : unfailing.

Lemma asserts_nothing_getCoordsBySequentialClf (probeId : Z) :
  asserts_nothing (getCoordsBySequentialClf probeId).
Proof. unfold getCoordsBySequentialClf, set_ClfXY. unfailing. Qed.
#[local] Hint Resolve asserts_nothing_getCoordsBySequentialClf : unfailing.

Lemma keeps_same_config_stable {A : Type} (m : M A) : preserves m -> keeps same_config m.
Proof. intros P s r s' H. destruct (P s r s' H) as (Hm & Hl & _). split; assumption. Qed.

(** The call through [m_GetProbeCoordinates] is made only with a clf
    file named, where the pointer is set. *)
Lemma asserts_nothing_dumpProbeData : asserts_nothing dumpProbeData.
Proof.
  split; [apply keeps_same_config_stable; apply preserves_dumpProbeData|].
  intros s r s' HP H expr. rewrite dumpProbeData_eq in H.
  destruct (str_empty (m_ClfFileName (members s))) eqn:Ec; cbn [negb when] in H.
  - erewrite bind_inr in H by reflexivity. inversion H. discriminate.
  - apply str_empty_false in Ec. destruct HP as [HP|HP]; [contradiction|].
    unfold callGetProbeCoordinates in H. rewrite !bind_assoc in H.
    erewrite bind_inr in H by reflexivity.
    change (layout (wrote (rowText s) s)) with (layout s) in H.
    assert (HP' : coordinates_chosen (wrote (rowText s) s)) by (right; exact HP).
    destruct (m_GetProbeCoordinates (layout s)) as [[|]|]; [| |congruence].
    + assert (S1 : asserts_nothing
                     (bind (getCoordsBySequentialClf (m_PgfProbeId (vars s)))
                        (fun a => bind ((fun _ : unit => dumpCoords) a)
                                    (fun _ : unit => out_endl)))) by unfailing.
      apply (proj2 S1 _ _ _ HP' H).
    + assert (S1 : asserts_nothing
                     (bind (getCoordsByIndex (m_PgfProbeId (vars s)))
                        (fun a => bind ((fun _ : unit => dumpCoords) a)
                                    (fun _ : unit => out_endl)))) by unfailing.
      apply (proj2 S1 _ _ _ HP' H).
Qed.
#[local] Hint Resolve asserts_nothing_dumpProbeData : unfailing.

Lemma asserts_nothing_dumpProbesetData : asserts_nothing dumpProbesetData.
Proof. unfold dumpProbesetData. unfailing. Qed.
#[local] Hint Resolve asserts_nothing_dumpProbesetData : unfailing.

Lemma asserts_nothing_dumpIfAnyRequested (userTypes pgfFileTypes : list string) :
  asserts_nothing (dumpIfAnyRequested userTypes pgfFileTypes).
Proof.
  destruct (dumpIfAnyRequested_cases userTypes pgfFileTypes) as [-> | ->]; unfailing.
Qed.
#[local] Hint Resolve asserts_nothing_dumpIfAnyRequested : unfailing.

Lemma asserts_nothing_seekProbe (env : Env) (r : ParentRecord * MidRecord * LeafRecord) :
  asserts_nothing (seekProbe env r).
Proof. unfold seekProbe. destruct r as [[p m] l]. unfailing. Qed.
#[local] Hint Resolve asserts_nothing_seekProbe : unfailing.

Lemma asserts_nothing_matches (env : Env) (mb : Members) :
  asserts_nothing
    (if negb (vec_empty (m_ProbesetIdFileNames mb)) then
       cerr_line "Indexing probesets in PGF file" ;;
       cerr_line "Dumping probeset info" ;;
       ids <- gets m_ProbesetIds ;;
       forM_ ids dumpProbesetById
     else if negb (vec_empty (m_ProbeIdFileNames mb)) then
       cerr_line "Indexing probes in PGF file" ;;
       cerr_line "Dumping probe info" ;;
       ids <- gets m_ProbeIds ;;
       forM_ ids (dumpProbeById env)
     else if negb (vec_empty (m_ProbesetTypes mb)) then
       cerr_line "Scanning PGF file probe for requested type(s)" ;;
       records <- gets pgf_of ;;
       if m_DumpUnion mb then forM_ records (scanOr (m_ProbesetTypes mb))
       else forM_ records (scanAnd (m_ProbesetTypes mb))
     else
       cerr_line "Dumping entire PGF file" ;;
       records <- gets pgf_of ;;
       forM_ records dumpEvery).
Proof.
  unfold dumpProbesetById, dumpProbeById, scanOr, scanAnd, dumpEvery, currentTypes.
  unfailing.
Qed.

Lemma bindProbesetColumns_names_of (cols : list string) :
  forall (i : nat) (a r : Cols),
    bindProbesetColumns i cols a = inr r -> snd (fst r) = snd (fst a) ++ cols.
Proof.
  induction cols as [|c cols IH]; intros i a r H.
  - cbn in H. inversion H. rewrite app_nil_r. reflexivity.
  - destruct a as [[[[k ft] tc] names] binds]. cbn [bindProbesetColumns] in H.
    destruct (Nat.eqb i 0 && negb (String.eqb c "probeset_id")); [discriminate|].
    destruct (negb (String.eqb c "probeset_id")).
    + destruct (String.eqb c "type"); apply IH in H; rewrite H; cbn [fst snd];
        rewrite <- app_assoc; reflexivity.
    + apply IH in H. rewrite H. cbn [fst snd]. rewrite <- app_assoc. reflexivity.
Qed.

Lemma bindProbeColumns_names_of (cols : list string) :
  forall (i : nat) (a r : nat * list string * list (nat * nat)),
    bindProbeColumns i cols a = inr r -> snd (fst r) = snd (fst a) ++ cols.
Proof.
  induction cols as [|c cols IH]; intros i a r H.
  - cbn in H. inversion H. rewrite app_nil_r. reflexivity.
  - destruct a as [[k names] binds]. cbn [bindProbeColumns] in H.
    destruct (Nat.eqb i 0 && negb (String.eqb c "probe_id")); [discriminate|].
    destruct (negb (String.eqb c "probe_id")); apply IH in H; rewrite H; cbn [fst snd];
      rewrite <- app_assoc; reflexivity.
Qed.

Lemma app_nonempty_l {A : Type} (l1 l2 : list A) : l1 <> [] -> l1 ++ l2 <> [].
Proof. destruct l1; [congruence|discriminate]. Qed.

Lemma app_nonempty_r {A : Type} (l1 l2 : list A) : l2 <> [] -> l1 ++ l2 <> [].
Proof. destruct l1; [exact (fun H => H)|discriminate]. Qed.

Lemma bindColumns_names_nonempty (mb : Members) (lay : Layout) (pgf : PgfSource)
  (cat : Catalog) :
  bindColumns mb lay pgf = inr cat -> pgf_cols0 pgf <> [] -> cat_OutputColNames cat <> [].
Proof.
  intros H Hne. unfold bindColumns in H.
  destruct (bindProbesetColumns 0 (pgf_cols0 pgf)
              (0%nat, false, m_ProbesetTypeCol lay, m_OutputColNames lay, binds0 lay))
    as [e|[[[[k ft] tc] names0] b0]] eqn:E0; [discriminate|].
  apply bindProbesetColumns_names_of in E0. cbn [fst snd] in E0.
  assert (Hn0 : names0 <> []) by (rewrite E0; apply app_nonempty_r; exact Hne).
  clear E0.
  destruct (negb (vec_empty (m_ProbesetTypes mb)) && negb ft); [discriminate|].
  destruct (m_DumpProbesetsOnly mb).
  - inversion H; subst. exact Hn0.
  - destruct (bindAtomColumns_names (pgf_cols1 pgf) 0 0 names0 (binds1 lay))
      as (k1 & b1 & E1).
    rewrite E1 in H.
    destruct (bindProbeColumns 0 (pgf_cols2 pgf) (k1, names0 ++ pgf_cols1 pgf, binds2 lay))
      as [e|[[k2 names2] b2]] eqn:E2; [discriminate|].
    apply bindProbeColumns_names_of in E2. cbn [fst snd] in E2.
    inversion H; subst. cbn [cat_OutputColNames].
    destruct (negb (str_empty (m_ClfFileName mb)));
      repeat apply app_nonempty_l; exact Hn0.
Qed.

Lemma openInputFiles_names_nonempty (env : Env) (s s' : dumpPgf) :
  openInputFiles env s = (inr tt, s') -> m_OutputColNames (layout s') <> [].
Proof.
  intros H. unfold openInputFiles in H.
  repeat (erewrite bind_inr in H by reflexivity).
  unfold openPgfFile in H. rewrite bind_assoc in H. erewrite bind_inr in H by reflexivity.
  change (members (set_io _ s)) with (members s) in H.
  destruct (tsv_open_pgf env (m_PgfFileName (members s)) (m_DumpProbesetsOnly (members s)))
    as [pgf|] eqn:Eopen; [|inversion H].
  assert (Hcols : pgf_cols0 pgf <> []).
  { unfold tsv_open_pgf in Eopen.
    destruct (fs_pgf env (m_PgfFileName (members s))) as [src|]; [|discriminate].
    destruct (std_find (pgf_cols0 src) "probeset_id") eqn:Ef; [|discriminate].
    destruct (_ || _); [|discriminate]. inversion Eopen; subst.
    apply (std_find_nonempty _ _ Ef). }
  rewrite bind_assoc in H. erewrite bind_inr in H by reflexivity. cbv beta in H.
  erewrite bind_inr in H by reflexivity.
  match type of H with
  | bind (openClfFile env) _ ?s1 = _ =>
      destruct (openClfFile env s1) as [[e|c] s2] eqn:E2;
      [erewrite bind_inl in H by exact E2; inversion H|];
      erewrite bind_inr in H by exact E2
  end.
  match type of H with
  | bind (lift_err ?x) _ _ = _ =>
      destruct x as [e|cat] eqn:Ecat;
      [unfold bind, lift_err in H; inversion H|]
  end.
  do 2 (erewrite bind_inr in H by reflexivity).
  unfold modify in H. inversion H; subst. cbn.
  apply (bindColumns_names_nonempty _ _ _ _ Ecat Hcols).
Qed.

Lemma writeOutputHeader_same_config (env : Env) : keeps same_config (writeOutputHeader env).
Proof.
  unfold writeOutputHeader, out_text, out_endl.
  repeat first
    [ apply (keeps_gets _ same_config_refl) | apply (keeps_ret _ same_config_refl)
    | apply (keeps_assert _ same_config_refl)
    | apply (keeps_when _ same_config_refl)
    | apply (keeps_forM_ _ same_config_refl same_config_trans); intros
    | apply keeps_modify; intros; split; reflexivity
    | apply (keeps_bind _ same_config_trans); [|intros] ].
Qed.

(** X20: once [openInputFiles] has succeeded, no assertion of the rest of
    the run can fail: the header has at least one column name, and the way
    to obtain coordinates is set whenever it is called.  Every failure of
    [writeOutputHeader] and [writeMatches] from there on is a fatal error
    reported with a message. *)
Theorem no_assertion_fails_after_setup (env : Env) (s s1 : dumpPgf)
  (r : Error + unit) (s' : dumpPgf) :
  openInputFiles env s = (inr tt, s1) ->
  (writeOutputHeader env ;; writeMatches env) s1 = (r, s') ->
  forall expr, r <> inl (AssertFailed expr).
Proof.
  intros Hsetup H expr.
  pose proof (openInputFiles_names_nonempty env s s1 Hsetup) as Hne.
  destruct (openInputFiles_establishes env s s1 Hsetup) as (Hm & _ & _ & Hc & _).
  assert (HP1 : coordinates_chosen s1).
  { unfold coordinates_chosen. rewrite Hm.
    destruct (str_empty (m_ClfFileName (members s))) eqn:Ec.
    - left. apply str_empty_true. exact Ec.
    - right. apply Hc. apply str_empty_false. exact Ec. }
  unfold bind in H.
  destruct (writeOutputHeader env s1) as [[e|[]] s2] eqn:E1.
  - destruct (writeOutputHeader_outcome env s1 _ s2 Hne E1) as (Habs & _). discriminate Habs.
  - assert (HP2 : coordinates_chosen s2).
    { apply (coordinates_chosen_frame s1); [|exact HP1].
      apply (writeOutputHeader_same_config env s1 _ s2 E1). }
    unfold writeMatches in H.
    do 2 (erewrite bind_inr in H by reflexivity).
    erewrite bind_inr in H.
    2:{ unfold when, assert_. destruct HP2 as [Hc2|Hc2].
        - rewrite Hc2. reflexivity.
        - destruct (m_GetProbeCoordinates (layout s2)); [|congruence].
          destruct (negb (str_empty (m_ClfFileName (members s2)))); reflexivity. }
    apply (proj2 (asserts_nothing_matches env (members s2)) s2 r s' HP2 H).
Qed.

Lemma no_assertion_fails_after_setup_witness :
  fst ((writeOutputHeader sample_env ;; writeMatches sample_env)
         (snd (openInputFiles sample_env (prepared with_coordinates))))
  <> inl (AssertFailed "m_GetProbeCoordinates").
Proof.
  assert (E : openInputFiles sample_env (prepared with_coordinates)
              = (inr tt, snd (openInputFiles sample_env (prepared with_coordinates))))
    by (vm_compute; reflexivity).
  apply (no_assertion_fails_after_setup sample_env _ _ _
           (snd ((writeOutputHeader sample_env ;; writeMatches sample_env)
                   (snd (openInputFiles sample_env (prepared with_coordinates))))) E).
  apply surjective_pairing.
Defined.

(** ** What a type query depends on *)

Lemma bool_eq_iff (a b : bool) : (a = true <-> b = true) -> a = b.
Proof.
  destruct a, b; intros [H1 H2]; try reflexivity.
  - symmetry. apply H1. reflexivity.
  - apply H2. reflexivity.
Qed.

Lemma wanted_same_set (types1 types2 : list string) (union : bool) (path : list string) :
  (forall t, In t types1 <-> In t types2) ->
  wanted types1 union path = wanted types2 union path.
Proof.
  intros Hset. unfold wanted.
  assert (Hempty : vec_empty types1 = vec_empty types2).
  { destruct types1 as [|a l1], types2 as [|b l2]; try reflexivity.
    - exfalso. apply (proj2 (Hset b)). left. reflexivity.
    - exfalso. apply (proj1 (Hset a)). left. reflexivity. }
  rewrite Hempty. destruct (vec_empty types2); [reflexivity|].
  destruct union.
  - apply bool_eq_iff. rewrite !existsb_exists. split; intros (x & Hx & Hf); exists x;
      (split; [exact Hx|]); apply std_find_In; apply std_find_In in Hf; apply Hset; exact Hf.
  - apply bool_eq_iff. rewrite !noMismatchFound_all. split; intros H t Ht; apply H;
      apply Hset; exact Ht.
Qed.

(** X21: a type query depends only on the set of requested types: two
    lists with the same elements, in whatever order and however often
    repeated, make the scan do the same on every record, by default and
    with -or. *)
Theorem selection_ignores_order_and_repetition
  (types1 types2 : list string) (union : bool) (p : ParentRecord) (s : dumpPgf) :
  (forall t, In t types1 <-> In t types2) ->
  scanBody types1 union p s = scanBody types2 union p s.
Proof.
  intros Hset. rewrite !scanBody_at.
  rewrite (wanted_same_set types1 types2 union _ Hset). reflexivity.
Qed.

Lemma selection_ignores_order_and_repetition_witness :
  scanBody ["main"; "rescue"] false (mkParent 5 ["main->rescue->v1"; "ps5"] [])
    (configured by_types)
  = scanBody ["rescue"; "main"; "rescue"] false (mkParent 5 ["main->rescue->v1"; "ps5"] [])
      (configured by_types).
Proof.
  apply selection_ignores_order_and_repetition.
  intros t. simpl. intuition.
Defined.

(** X22: a requested type that contains the delimiter "->" matches no
    record, since no segment of a type path contains it: by default, a
    query with such a type reads every record and dumps none. *)
Theorem type_with_delimiter_selects_nothing
  (types : list string) (t : string) (p : ParentRecord) (s : dumpPgf) :
  In t types -> find t "->" 0 <> None ->
  scanBody types false p s = (inr tt, at_record p s).
Proof.
  intros Hin Hdelim. rewrite scanBody_at. unfold wanted.
  destruct types as [|t0 types']; [destruct Hin|]. cbn [vec_empty].
  destruct (noMismatchFound (t0 :: types') (record_path (snd (read0 p s)))) eqn:E;
    [|reflexivity].
  exfalso. apply Hdelim.
  pose proof (proj1 (noMismatchFound_all _ _) E t Hin) as Hpath.
  unfold record_path, splitTypes in Hpath.
  match type of Hpath with
  | In t (splitTypes_from ?x 0 []) =>
      pose proof (splitTypes_from_delimiter_free x 0 [] ltac:(constructor)) as Hfree
  end.
  apply (proj1 (List.Forall_forall _ _) Hfree t Hpath).
Qed.

Lemma type_with_delimiter_selects_nothing_witness :
  scanBody ["main->rescue"] false (mkParent 5 ["main->rescue->v1"; "ps5"] [])
    (configured by_types)
  = (inr tt, at_record (mkParent 5 ["main->rescue->v1"; "ps5"] []) (configured by_types)).
Proof.
  apply (type_with_delimiter_selects_nothing ["main->rescue"] "main->rescue").
  - left. reflexivity.
  - discriminate.
Defined.

Lemma existsb_single (t : string) (path : list string) :
  existsb (std_find [t]) path = std_find path t.
Proof.
  induction path as [|x path IH]; [reflexivity|].
  cbn [existsb]. rewrite IH. cbn [std_find]. rewrite String.eqb_sym.
  destruct (String.eqb x t); reflexivity.
Qed.

(** X23: with a single requested type, -or changes nothing: the scan
    does the same on every record with it and without it. *)
Theorem single_type_ignores_or (t : string) (p : ParentRecord) (s : dumpPgf) :
  scanBody [t] true p s = scanBody [t] false p s.
Proof.
  rewrite !scanBody_at. unfold wanted. cbn [vec_empty noMismatchFound].
  rewrite existsb_single.
  destruct (std_find (record_path (snd (read0 p s))) t); reflexivity.
Qed.

(** * The selection strategies over a whole run *)

(** ** Lists cut at a first element *)

Lemma before_first_all {A : Type} (f : A -> bool) (l : list A) :
  List.find f l = None -> before_first f l = l.
Proof.
  induction l as [|x l IH]; [reflexivity|]. cbn [List.find before_first].
  destruct (f x); [discriminate|]. intros H. rewrite IH by exact H. reflexivity.
Qed.

Lemma before_first_app_none {A : Type} (f : A -> bool) (l1 l2 : list A) :
  List.find f l1 = None ->
  before_first f (l1 ++ l2) = l1 ++ before_first f l2
  /\ List.find f (l1 ++ l2) = List.find f l2.
Proof.
  induction l1 as [|x l1 IH]; [split; reflexivity|]. cbn [List.find before_first app].
  destruct (f x); [discriminate|]. intros H. destruct (IH H) as [E1 E2].
  rewrite E1, E2. split; reflexivity.
Qed.

Lemma before_first_app_some {A : Type} (f : A -> bool) (l1 l2 : list A) (x : A) :
  List.find f l1 = Some x ->
  before_first f (l1 ++ l2) = before_first f l1
  /\ List.find f (l1 ++ l2) = Some x.
Proof.
  induction l1 as [|y l1 IH]; [discriminate|]. cbn [List.find before_first app].
  destruct (f y); [intros H; split; [reflexivity|exact H]|].
  intros H. destruct (IH H) as [E1 E2]. rewrite E1, E2. split; reflexivity.
Qed.

Lemma before_first_map {A B : Type} (g : A -> B) (f : B -> bool) (l : list A) :
  before_first f (map g l) = map g (before_first (fun x => f (g x)) l).
Proof.
  induction l as [|x l IH]; [reflexivity|]. cbn [map before_first].
  destruct (f (g x)); [reflexivity|]. cbn [map]. rewrite IH. reflexivity.
Qed.

Lemma find_map {A B : Type} (g : A -> B) (f : B -> bool) (l : list A) :
  List.find f (map g l) = option_map g (List.find (fun x => f (g x)) l).
Proof.
  induction l as [|x l IH]; [reflexivity|]. cbn [map List.find].
  destruct (f (g x)); [reflexivity|exact IH].
Qed.

Lemma find_none_forall {A : Type} (f : A -> bool) (l : list A) :
  List.find f l = None <-> (forall x, In x l -> f x = false).
Proof.
  induction l as [|y l IH]; cbn [List.find In].
  - split; [intros _ x []|reflexivity].
  - destruct (f y) eqn:E.
    + split; [discriminate|]. intros H. rewrite (H y) in E by (left; reflexivity).
      discriminate.
    + rewrite IH. split.
      * intros H x [<-|Hx]; [exact E|apply H; exact Hx].
      * intros H x Hx. apply H. right. exact Hx.
Qed.

Lemma find_some_split {A : Type} (f : A -> bool) (l : list A) (x : A) :
  List.find f l = Some x ->
  exists after, l = before_first f l ++ x :: after /\ f x = true.
Proof.
  induction l as [|y l IH]; [discriminate|]. cbn [List.find before_first].
  destruct (f y) eqn:E.
  - intros H. inversion H; subst. exists l. split; [reflexivity|exact E].
  - intros H. destruct (IH H) as (after & E1 & E2). exists after.
    split; [cbn [app]; rewrite <- E1; reflexivity|exact E2].
Qed.

Lemma before_first_clear {A : Type} (f : A -> bool) (l : list A) :
  forall x, In x (before_first f l) -> f x = false.
Proof.
  induction l as [|y l IH]; intros x; cbn [before_first]; [intros []|].
  destruct (f y) eqn:E; [intros []|]. intros [<-|Hx]; [exact E|apply IH; exact Hx].
Qed.

Lemma Forall2_map_l {A B C : Type} (R : B -> C -> Prop) (g : A -> B) (l : list A)
  (l' : list C) :
  Forall2 (fun x y => R (g x) y) l l' -> Forall2 R (map g l) l'.
Proof. induction 1; cbn [map]; constructor; assumption. Qed.

(** ** How a dump of leaves ends *)

Lemma join_result_app_ok {A : Type} (clf : option ClfSource) (name : string)
  (id_of : A -> Z) (l1 l2 : list A) :
  join_result clf name id_of l1 = inr tt ->
  join_result clf name id_of (l1 ++ l2) = join_result clf name id_of l2
  /\ before_first (fun x => clashes clf (id_of x)) (l1 ++ l2)
     = l1 ++ before_first (fun x => clashes clf (id_of x)) l2.
Proof.
  unfold join_result. intros H.
  destruct (List.find (fun x => clashes clf (id_of x)) l1) as [x|] eqn:E; [discriminate|].
  destruct (before_first_app_none _ l1 l2 E) as [E1 E2]. rewrite E1, E2.
  split; reflexivity.
Qed.

Lemma join_result_app_stop {A : Type} (clf : option ClfSource) (name : string)
  (id_of : A -> Z) (l1 l2 : list A) (e : Error) :
  join_result clf name id_of l1 = inl e ->
  join_result clf name id_of (l1 ++ l2) = inl e
  /\ before_first (fun x => clashes clf (id_of x)) (l1 ++ l2)
     = before_first (fun x => clashes clf (id_of x)) l1.
Proof.
  unfold join_result. intros H.
  destruct (List.find (fun x => clashes clf (id_of x)) l1) as [x|] eqn:E; [|discriminate].
  destruct (before_first_app_some _ l1 l2 x E) as [E1 E2]. rewrite E1, E2.
  split; [exact H|reflexivity].
Qed.

Lemma join_result_map {A B : Type} (clf : option ClfSource) (name : string)
  (g : A -> B) (id_of : B -> Z) (l : list A) :
  join_result clf name id_of (map g l) = join_result clf name (fun x => id_of (g x)) l.
Proof.
  unfold join_result. rewrite find_map.
  destruct (List.find (fun x => clashes clf (id_of (g x))) l); reflexivity.
Qed.

Lemma join_result_ok {A : Type} (clf : option ClfSource) (name : string)
  (id_of : A -> Z) (l : list A) :
  join_result clf name id_of l = inr tt
  <-> (forall x, In x l -> clashes clf (id_of x) = false).
Proof.
  unfold join_result. rewrite <- find_none_forall.
  destruct (List.find (fun x => clashes clf (id_of x)) l); split; congruence.
Qed.

(** ** The outcome of a dump, with or without a clash in the clf file *)

Lemma cursor_kept_refl (s : dumpPgf) : cursor_kept s s.
Proof. unfold cursor_kept. repeat split; reflexivity. Qed.

Lemma cursor_kept_trans (s1 s2 s3 : dumpPgf) :
  cursor_kept s1 s2 -> cursor_kept s2 s3 -> cursor_kept s1 s3.
Proof.
  unfold cursor_kept. intros (A1 & B1 & C1 & D1 & E1 & F1 & G1) (A2 & B2 & C2 & D2 & E2 & F2 & G2).
  repeat split; congruence.
Qed.

Ltac kept_cursor :=
  repeat first
    [ assumption
    | progress cbv zeta
    | apply (keeps_ret _ cursor_kept_refl) | apply (keeps_errAbort _ cursor_kept_refl)
    | apply (keeps_gets _ cursor_kept_refl) | apply (keeps_lift_err _ cursor_kept_refl)
    | apply (keeps_assert _ cursor_kept_refl)
    | apply (keeps_when _ cursor_kept_refl)
    | apply keeps_modify; intros; unfold cursor_kept; simpl; repeat split; reflexivity
    | apply (keeps_bind _ cursor_kept_trans); [|intros]
    | match goal with
      | |- keeps _ (if ?c then _ else _) => destruct c
      | |- keeps _ (match ?x with _ => _ end) => destruct x
      end ].

Lemma dumpProbeData_cursor : keeps cursor_kept dumpProbeData.
Proof.
  unfold dumpProbeData, callGetProbeCoordinates, getCoordsBySequentialClf, getCoordsByIndex,
    findBegin, dumpCoords, out_text, out_endl, log_lookup, readClf, set_ClfXY.
  kept_cursor.
Qed.

Lemma clashes_joined (clf : option ClfSource) (s : dumpPgf) (id : Z) :
  joined clf s -> clashes clf id = true ->
  m_ClfFileName (members s) <> ""
  /\ m_GetProbeCoordinates (layout s) = Some getCoordsByIndex_ptr
  /\ index_defined (clf_index (layout s)) 0 "probe_id" = true
  /\ (1 < List.length (findCoords (clf_of s) id))%nat.
Proof.
  unfold joined, clashes, clf_of. destruct clf as [c|]; [|discriminate].
  intros (Hne & Htsv & Hm). destruct (clf_sequential c); [discriminate|].
  destruct Hm as [Hm Hidx]. intros H. apply Nat.ltb_lt in H. rewrite Htsv. auto.
Qed.

Lemma joined_safe_at (clf : option ClfSource) (s : dumpPgf) :
  joined clf s -> clashes clf (m_PgfProbeId (vars s)) = false ->
  exists s' suffix,
    dumpProbeData s = (inr tt, s')
    /\ m_Out (io s') = m_Out (io s) ++ [m_OutLine (io s) +:+ rowText s +:+ suffix]
    /\ m_OutLine (io s') = "".
Proof.
  intros Hj Hc. unfold joined in Hj. destruct clf as [c|].
  - destruct Hj as (Hne & Htsv & Hm). unfold clashes in Hc.
    destruct (clf_sequential c) as [f|] eqn:Eseq.
    + destruct (dumpProbeData_safe s) as (s' & suffix & E & Ho & Hl & _).
      { right. left. exact Hm. }
      exists s', suffix. auto.
    + destruct Hm as [Hm Hidx]. apply Nat.ltb_ge in Hc.
      destruct (dumpProbeData s) as [r s'] eqn:E.
      pose proof (dumpProbeData_by_index s r s' Hne Hm Hidx E) as Hix.
      unfold clf_of in Hix. rewrite Htsv in Hix.
      destruct (findCoords (clf_records c) (m_PgfProbeId (vars s))) as [|x [|y rest]].
      * destruct Hix as (-> & Ho & Hl & _). exists s', (tab +:+ tab).
        split; [reflexivity|]. split; [exact Ho|exact Hl].
      * destruct Hix as (-> & Ho & Hl & _).
        exists s', (tab +:+ coordText (clf_x x) +:+ tab +:+ coordText (clf_y x)).
        split; [reflexivity|]. split; [exact Ho|exact Hl].
      * cbn [List.length] in Hc. lia.
  - destruct (dumpProbeData_safe s) as (s' & suffix & E & Ho & Hl & _).
    { left. exact Hj. }
    exists s', suffix. auto.
Qed.

(** [dumpProbeData] on the line of a leaf: the run ends there when the
    leaf's id clashes in the clf file, else exactly one line is
    completed. *)
Lemma dumpProbeData_outcome (clf : option ClfSource) (s : dumpPgf) :
  joined clf s ->
  exists r s',
    dumpProbeData s = (r, s') /\ cursor_kept s s'
    /\ if clashes clf (m_PgfProbeId (vars s))
       then r = inl (not_unique "probe_id" (m_PgfProbeId (vars s)) "clf"
                       (m_ClfFileName (members s)))
            /\ m_Out (io s') = m_Out (io s)
       else r = inr tt
            /\ (exists suffix,
                   m_Out (io s') = m_Out (io s)
                                   ++ [m_OutLine (io s) +:+ rowText s +:+ suffix])
            /\ m_OutLine (io s') = "".
Proof.
  intros Hj. destruct (dumpProbeData s) as [r s'] eqn:E. exists r, s'.
  split; [reflexivity|]. split; [apply (dumpProbeData_cursor s r s' E)|].
  destruct (clashes clf (m_PgfProbeId (vars s))) eqn:Hc.
  - destruct (clashes_joined clf s _ Hj Hc) as (Hne & Hm & Hidx & Hlen).
    pose proof (dumpProbeData_by_index s r s' Hne Hm Hidx E) as Hix.
    destruct (findCoords (clf_of s) (m_PgfProbeId (vars s))) as [|x [|y rest]];
      cbn [List.length] in Hlen; try lia.
    destruct Hix as (-> & Ho & _). split; [reflexivity|exact Ho].
  - destruct (joined_safe_at clf s Hj Hc) as (s1 & suffix & E1 & Ho & Hl).
    rewrite E in E1. inversion E1; subst. split; [reflexivity|].
    split; [exists suffix; exact Ho|exact Hl].
Qed.

Lemma joined_kept (clf : option ClfSource) (s s' : dumpPgf) :
  cursor_kept s s' -> joined clf s -> joined clf s'.
Proof. intros (Hm & Hl & _). apply joined_frame; assumption. Qed.

(** The loop over the leaves of a mid-level record. *)
Lemma leaves_outcome (clf : option ClfSource) (leaves : list LeafRecord) :
  forall s : dumpPgf,
    joined clf s -> m_DumpProbesetsOnly (members s) = false -> m_OutLine (io s) = "" ->
    exists r s' lines,
      forM_ leaves (fun l => read2 l ;; dumpProbeData) s = (r, s')
      /\ m_Out (io s') = m_Out (io s) ++ lines
      /\ Forall2 (leaf_line (m_PgfProbesetId (vars s)))
           (before_first (fun l => clashes clf (leaf_id l)) leaves) lines
      /\ r = join_result clf (m_ClfFileName (members s)) leaf_id leaves
      /\ members s' = members s /\ layout s' = layout s
      /\ (r = inr tt ->
          m_OutLine (io s') = ""
          /\ m_PgfProbesetId (vars s') = m_PgfProbesetId (vars s)
          /\ m_ProbesetData (vars s') = m_ProbesetData (vars s)
          /\ cur_mids (vars s') = cur_mids (vars s)).
Proof.
  induction leaves as [|l leaves IH]; intros s Hj Honly Hline.
  - exists (inr tt), s, []. cbn [forM_ before_first]. rewrite app_nil_r.
    split; [reflexivity|]. split; [reflexivity|]. split; [constructor|].
    split; [reflexivity|]. split; [reflexivity|]. split; [reflexivity|].
    intros _. repeat split; try reflexivity. exact Hline.
  - set (s_r := snd (read2 l s)).
    assert (Hpid : m_PgfProbeId (vars s_r) = leaf_id l).
    { unfold s_r. simpl. rewrite Honly. reflexivity. }
    assert (Hj_r : joined clf s_r) by (eapply joined_frame; [| |exact Hj]; reflexivity).
    destruct (dumpProbeData_outcome clf s_r Hj_r) as (r1 & s1 & E1 & Hk1 & Hcase).
    rewrite Hpid in Hcase.
    assert (Estep : forM_ (l :: leaves) (fun l => read2 l ;; dumpProbeData) s
                    = match dumpProbeData s_r with
                      | (inl e, s') => (inl e, s')
                      | (inr _, s') => forM_ leaves (fun l => read2 l ;; dumpProbeData) s'
                      end).
    { cbn [forM_]. rewrite bind_assoc. erewrite bind_inr by reflexivity.
      unfold bind. reflexivity. }
    rewrite Estep, E1. clear Estep.
    destruct Hk1 as (Hm1 & Hl1 & Hps1 & Hpd1 & _ & _ & Hcm1).
    unfold join_result. cbn [before_first List.find].
    destruct (clashes clf (leaf_id l)) eqn:Hc.
    + destruct Hcase as (-> & Ho1). exists (inl (not_unique "probe_id" (leaf_id l) "clf"
                                                  (m_ClfFileName (members s)))), s1, [].
      rewrite app_nil_r.
      split; [reflexivity|]. split; [exact Ho1|]. split; [constructor|].
      split; [reflexivity|]. split; [exact Hm1|]. split; [exact Hl1|]. discriminate.
    + destruct Hcase as (-> & (suffix & Ho1) & Hline1).
      destruct (IH s1) as (r & s' & lines & E' & Ho' & Hall & Hr & Hm' & Hl' & Hok).
      { eapply joined_frame; [exact Hm1|exact Hl1|exact Hj_r]. }
      { rewrite Hm1. exact Honly. }
      { exact Hline1. }
      exists r, s', ((m_OutLine (io s_r) +:+ rowText s_r +:+ suffix) :: lines).
      split; [exact E'|]. split.
      { rewrite Ho', Ho1, <- app_assoc. reflexivity. }
      split.
      { constructor.
        - unfold leaf_line, rowText. rewrite Hpid.
          change (m_OutLine (io s_r)) with (m_OutLine (io s)). rewrite Hline.
          change (m_PgfProbesetId (vars s_r)) with (m_PgfProbesetId (vars s)).
          exists (tabbed (m_ProbesetData (vars s_r)) 0 (m_ProbesetDataCount (layout s_r))
                  +:+ tabbed (m_AtomProbeData (vars s_r)) 0 (m_AtomDataCount (layout s_r))),
                 (tabbed (m_AtomProbeData (vars s_r))
                    (Z.to_nat (m_AtomDataCount (layout s_r))) (m_ProbeDataCount (layout s_r))
                  +:+ suffix).
          rewrite sapp_nil_l, !sapp_assoc. reflexivity.
        - rewrite Hps1 in Hall. exact Hall. }
      split.
      { rewrite Hr, Hm1. reflexivity. }
      split; [rewrite Hm', Hm1; reflexivity|].
      split; [rewrite Hl', Hl1; reflexivity|].
      intros Hrok. destruct (Hok Hrok) as (A & B & C & D).
      split; [exact A|]. split; [rewrite B, Hps1; reflexivity|].
      split; [rewrite C, Hpd1; reflexivity|]. rewrite D, Hcm1. reflexivity.
Qed.

(** The loop over the mid-level records of a parent record. *)
Lemma mids_outcome (clf : option ClfSource) (mids : list MidRecord) :
  forall s : dumpPgf,
    joined clf s -> m_DumpProbesetsOnly (members s) = false -> m_OutLine (io s) = "" ->
    exists r s' lines,
      forM_ mids (fun m => read1 m ;;
                           forM_ (mid_leaves m) (fun l => read2 l ;; dumpProbeData)) s
      = (r, s')
      /\ m_Out (io s') = m_Out (io s) ++ lines
      /\ Forall2 (leaf_line (m_PgfProbesetId (vars s)))
           (before_first (fun l => clashes clf (leaf_id l)) (flat_map mid_leaves mids)) lines
      /\ r = join_result clf (m_ClfFileName (members s)) leaf_id (flat_map mid_leaves mids)
      /\ members s' = members s /\ layout s' = layout s
      /\ (r = inr tt ->
          m_OutLine (io s') = ""
          /\ m_ProbesetData (vars s') = m_ProbesetData (vars s)).
Proof.
  induction mids as [|m mids IH]; intros s Hj Honly Hline.
  - exists (inr tt), s, []. cbn [forM_ flat_map before_first]. rewrite app_nil_r.
    split; [reflexivity|]. split; [reflexivity|]. split; [constructor|].
    split; [reflexivity|]. split; [reflexivity|]. split; [reflexivity|].
    intros _. split; [exact Hline|reflexivity].
  - set (s_r := snd (read1 m s)).
    destruct (leaves_outcome clf (mid_leaves m) s_r)
      as (r1 & s1 & lines1 & E1 & Ho1 & Hall1 & Hr1 & Hm1 & Hl1 & Hok1).
    { eapply joined_frame; [| |exact Hj]; reflexivity. }
    { exact Honly. }
    { exact Hline. }
    change (m_PgfProbesetId (vars s_r)) with (m_PgfProbesetId (vars s)) in Hall1, Hok1.
    change (members s_r) with (members s) in Hr1, Hm1.
    change (layout s_r) with (layout s) in Hl1.
    change (m_Out (io s_r)) with (m_Out (io s)) in Ho1.
    change (m_ProbesetData (vars s_r)) with (m_ProbesetData (vars s)) in Hok1.
    assert (Estep : forM_ (m :: mids)
                      (fun m => read1 m ;;
                                forM_ (mid_leaves m) (fun l => read2 l ;; dumpProbeData)) s
                    = match forM_ (mid_leaves m) (fun l => read2 l ;; dumpProbeData) s_r with
                      | (inl e, s') => (inl e, s')
                      | (inr _, s') =>
                          forM_ mids
                            (fun m => read1 m ;;
                                      forM_ (mid_leaves m)
                                        (fun l => read2 l ;; dumpProbeData)) s'
                      end).
    { cbn [forM_]. rewrite bind_assoc. erewrite bind_inr by reflexivity.
      unfold bind. reflexivity. }
    rewrite Estep, E1. clear Estep. cbn [flat_map].
    destruct r1 as [e|[]].
    + symmetry in Hr1.
      destruct (join_result_app_stop clf _ leaf_id (mid_leaves m) (flat_map mid_leaves mids)
                  e Hr1) as [Ea Eb].
      exists (inl e), s1, lines1. rewrite Ea, Eb.
      split; [reflexivity|]. split; [exact Ho1|]. split; [exact Hall1|].
      split; [reflexivity|]. split; [exact Hm1|]. split; [exact Hl1|]. discriminate.
    + symmetry in Hr1.
      destruct (join_result_app_ok clf _ leaf_id (mid_leaves m) (flat_map mid_leaves mids)
                  Hr1) as [Ea Eb].
      destruct (Hok1 eq_refl) as (Hline1 & Hps1 & Hpd1 & _).
      destruct (IH s1) as (r & s' & lines & E' & Ho' & Hall & Hr & Hm' & Hl' & Hok).
      { eapply joined_frame; [exact Hm1|exact Hl1|exact Hj]. }
      { rewrite Hm1. exact Honly. }
      { exact Hline1. }
      exists r, s', (lines1 ++ lines). rewrite Ea, Eb.
      split; [exact E'|]. split.
      { rewrite Ho', Ho1, <- app_assoc. reflexivity. }
      split.
      { apply Forall2_app.
        - rewrite before_first_all in Hall1; [exact Hall1|].
          apply find_none_forall. apply (proj1 (join_result_ok _ _ _ _) Hr1).
        - rewrite Hps1 in Hall. exact Hall. }
      split; [rewrite Hr, Hm1; reflexivity|].
      split; [rewrite Hm', Hm1; reflexivity|].
      split; [rewrite Hl', Hl1; reflexivity|].
      intros Hrok. destruct (Hok Hrok) as (A & B).
      split; [exact A|]. rewrite B, Hpd1. reflexivity.
Qed.

Lemma leaves_of_one (p : ParentRecord) :
  leaves_of [p] = map (fun l => (p, l)) (flat_map mid_leaves (parent_mids p)).
Proof. unfold leaves_of. cbn [flat_map]. apply app_nil_r. Qed.

Lemma leaves_of_app (a b : list ParentRecord) :
  leaves_of (a ++ b) = leaves_of a ++ leaves_of b.
Proof. unfold leaves_of. apply flat_map_app. Qed.

(** A parent record is dumped: one line with --probeset-only, else its
    leaves one by one. *)
Lemma dumpEvery_outcome (clf : option ClfSource) (p : ParentRecord) (s : dumpPgf) :
  joined clf s -> m_OutLine (io s) = "" ->
  exists r s' lines,
    dumpEvery p s = (r, s')
    /\ m_Out (io s') = m_Out (io s) ++ lines
    /\ dump_of (m_DumpProbesetsOnly (members s)) clf (m_ClfFileName (members s)) [p] r lines
    /\ members s' = members s /\ layout s' = layout s
    /\ pgf_lookups s' = pgf_lookups s
    /\ (r = inr tt ->
        m_OutLine (io s') = ""
        /\ List.length (m_ProbesetData (vars s')) = List.length (m_ProbesetData (vars s))).
Proof.
  intros Hj Hline.
  destruct (dumpEvery p s) as [r s'] eqn:E.
  assert (Hst : stable s s') by (apply (preserves_dumpEvery p s r s' E)).
  destruct Hst as (_ & _ & Hk).
  unfold dump_of. destruct (m_DumpProbesetsOnly (members s)) eqn:Honly.
  - destruct (dumpEvery_only p s Honly Hline) as (s1 & line & E1 & Ho & Hp & Hl & Hm & Hlay).
    assert (Hrs : r = inr tt /\ s' = s1) by (split; congruence).
    destruct Hrs as [-> ->]. clear E1.
    exists (inr tt), s1, [line].
    split; [reflexivity|]. split; [exact Ho|].
    split; [split; [reflexivity|constructor; [exact Hp|constructor]]|].
    split; [exact Hm|]. split; [exact Hlay|]. split; [exact Hk|].
    intros _. split; [exact Hl|].
    rewrite dumpEvery_at, dumpProbesetData_only in E by exact Honly.
    inversion E; subst s1. simpl. apply populate_length.
  - destruct (mids_outcome clf (parent_mids p) (snd (read0 p s)))
      as (r1 & s1 & lines & E1 & Ho & Hall & Hr & Hm & Hl & Hok).
    { eapply joined_frame; [| |exact Hj]; reflexivity. }
    { exact Honly. }
    { exact Hline. }
    rewrite dumpEvery_at, dumpProbesetData_full in E by exact Honly.
    change (cur_mids (vars (snd (read0 p s)))) with (parent_mids p) in E.
    assert (Hrs : r = r1 /\ s' = s1) by (split; congruence).
    destruct Hrs as [-> ->]. clear E1.
    exists r1, s1, lines.
    split; [reflexivity|]. split; [exact Ho|].
    split.
    { rewrite leaves_of_one, join_result_map, before_first_map. cbn [fst snd].
      split; [exact Hr|]. apply Forall2_map_l. exact Hall. }
    split; [exact Hm|]. split; [exact Hl|]. split; [exact Hk|].
    intros Hrok. destruct (Hok Hrok) as (A & B). split; [exact A|].
    rewrite B. simpl. apply populate_length.
Qed.

Lemma dump_of_nil (only : bool) (clf : option ClfSource) (name : string) :
  dump_of only clf name [] (inr tt) [].
Proof. unfold dump_of. destruct only; split; try reflexivity; constructor. Qed.

Lemma dump_of_app (only : bool) (clf : option ClfSource) (name : string)
  (k1 k2 : list ParentRecord) (r : Error + unit) (l1 l2 : list string) :
  dump_of only clf name k1 (inr tt) l1 -> dump_of only clf name k2 r l2 ->
  dump_of only clf name (k1 ++ k2) r (l1 ++ l2).
Proof.
  unfold dump_of. destruct only.
  - intros [_ H1] [-> H2]. split; [reflexivity|]. apply Forall2_app; assumption.
  - intros [Hr1 H1] [Hr2 H2]. rewrite leaves_of_app. symmetry in Hr1.
    destruct (join_result_app_ok clf name (fun pl => leaf_id (snd pl))
                (leaves_of k1) (leaves_of k2) Hr1) as [Ea Eb].
    rewrite Ea, Eb. split; [exact Hr2|]. apply Forall2_app; [|exact H2].
    rewrite before_first_all in H1; [exact H1|].
    apply find_none_forall. apply (proj1 (join_result_ok _ _ _ _) Hr1).
Qed.

Lemma dump_of_stop (only : bool) (clf : option ClfSource) (name : string)
  (k1 k2 : list ParentRecord) (e : Error) (l1 : list string) :
  dump_of only clf name k1 (inl e) l1 -> dump_of only clf name (k1 ++ k2) (inl e) l1.
Proof.
  unfold dump_of. destruct only.
  - intros [H _]. discriminate.
  - intros [Hr1 H1]. rewrite leaves_of_app. symmetry in Hr1.
    destruct (join_result_app_stop clf name (fun pl => leaf_id (snd pl))
                (leaves_of k1) (leaves_of k2) e Hr1) as [Ea Eb].
    rewrite Ea, Eb. split; [reflexivity|exact H1].
Qed.

(** A scan: the records the test of the body accepts are dumped, in
    stored order, until a leaf clashes. *)
Lemma scan_outcome (clf : option ClfSource) (types : list string) (union : bool)
  (test : ParentRecord -> bool) (records : list ParentRecord) :
  forall s : dumpPgf,
    joined clf s -> m_OutLine (io s) = "" ->
    (forall s1 p,
        members s1 = members s -> layout s1 = layout s ->
        List.length (m_ProbesetData (vars s1)) = List.length (m_ProbesetData (vars s)) ->
        wanted types union (record_path (snd (read0 p s1))) = test p) ->
    exists r s' lines,
      forM_ records (scanBody types union) s = (r, s')
      /\ m_Out (io s') = m_Out (io s) ++ lines
      /\ dump_of (m_DumpProbesetsOnly (members s)) clf (m_ClfFileName (members s))
           (List.filter test records) r lines
      /\ members s' = members s /\ layout s' = layout s
      /\ pgf_lookups s' = pgf_lookups s.
Proof.
  induction records as [|p records IH]; intros s Hj Hline Htest.
  - exists (inr tt), s, []. cbn [forM_ List.filter]. rewrite app_nil_r.
    split; [reflexivity|]. split; [reflexivity|]. split; [apply dump_of_nil|].
    repeat split; reflexivity.
  - assert (Estep : forM_ (p :: records) (scanBody types union) s
                    = match scanBody types union p s with
                      | (inl e, s') => (inl e, s')
                      | (inr _, s') => forM_ records (scanBody types union) s'
                      end) by reflexivity.
    rewrite Estep, scanBody_at. clear Estep.
    rewrite (Htest s p eq_refl eq_refl eq_refl). cbn [List.filter].
    destruct (test p) eqn:Et.
    + destruct (dumpEvery_outcome clf p s Hj Hline)
        as (r1 & s1 & lines1 & E1 & Ho1 & Hd1 & Hm1 & Hl1 & Hk1 & Hok1).
      rewrite E1. destruct r1 as [e|[]].
      * exists (inl e), s1, lines1.
        split; [reflexivity|]. split; [exact Ho1|].
        split; [apply (dump_of_stop _ _ _ [p]); exact Hd1|].
        split; [exact Hm1|]. split; [exact Hl1|exact Hk1].
      * destruct (Hok1 eq_refl) as (Hline1 & Hlen1).
        destruct (IH s1) as (r & s' & lines & E' & Ho' & Hd' & Hm' & Hl' & Hk').
        { eapply joined_frame; [exact Hm1|exact Hl1|exact Hj]. }
        { exact Hline1. }
        { intros s2 q Hm2 Hl2 Hlen2. apply Htest; congruence. }
        exists r, s', (lines1 ++ lines).
        split; [exact E'|]. split; [rewrite Ho', Ho1, <- app_assoc; reflexivity|].
        split.
        { rewrite Hm1 in Hd'. apply (dump_of_app _ _ _ [p]); assumption. }
        split; [rewrite Hm', Hm1; reflexivity|]. split; [rewrite Hl', Hl1; reflexivity|].
        rewrite Hk', Hk1. reflexivity.
    + destruct (IH (snd (read0 p s))) as (r & s' & lines & E' & Ho' & Hd' & Hm' & Hl' & Hk').
      { eapply joined_frame; [| |exact Hj]; reflexivity. }
      { exact Hline. }
      { intros s2 q Hm2 Hl2 Hlen2. apply Htest; [exact Hm2|exact Hl2|].
        rewrite Hlen2. simpl. apply populate_length. }
      exists r, s', lines.
      split; [exact E'|]. split; [exact Ho'|]. split; [exact Hd'|].
      split; [exact Hm'|]. split; [exact Hl'|]. exact Hk'.
Qed.

(** ** The column the type is read from *)

Lemma populate_untouched (binds : list (nat * nat)) (cell : nat -> string) (k : nat) :
  forall data : list string,
    ~ In k (map snd binds) -> nth k (populate binds cell data) "" = nth k data "".
Proof.
  induction binds as [|b binds IH]; intros data Hk; [reflexivity|].
  rewrite populate_cons, IH by (intros H; apply Hk; right; exact H).
  apply nth_insert_ne. intros E. apply Hk. left. exact E.
Qed.

(** Reading a line leaves column [j] in the slot it is bound to, when no
    other column is bound to that slot. *)
Lemma populate_bound (binds : list (nat * nat)) (cell : nat -> string) (j k : nat) :
  forall data : list string,
    List.NoDup (map snd binds) -> In (j, k) binds -> (k < List.length data)%nat ->
    nth k (populate binds cell data) "" = cell j.
Proof.
  induction binds as [|b binds IH]; intros data Hnd Hin Hlen; [destruct Hin|].
  cbn [map] in Hnd. inversion Hnd as [|x l Hx Hnd']; subst.
  rewrite populate_cons. destruct Hin as [->|Hin].
  - cbn [fst snd] in *. rewrite populate_untouched by exact Hx.
    apply nth_insert_eq. exact Hlen.
  - apply IH; [exact Hnd'|exact Hin|]. rewrite length_insert. exact Hlen.
Qed.

Lemma type_bound_path (j : nat) (p : ParentRecord) (s : dumpPgf) :
  type_bound j s -> record_path (snd (read0 p s)) = splitTypes (parent_cell p j).
Proof.
  intros (Hin & Hnd & Hlen). unfold record_path. f_equal.
  change (m_ProbesetTypeCol (layout (snd (read0 p s)))) with (m_ProbesetTypeCol (layout s)).
  change (m_ProbesetData (vars (snd (read0 p s))))
    with (populate (binds0 (layout s)) (parent_cell p) (m_ProbesetData (vars s))).
  apply populate_bound; assumption.
Qed.

Lemma type_bound_frame (j : nat) (s s' : dumpPgf) :
  layout s' = layout s ->
  List.length (m_ProbesetData (vars s')) = List.length (m_ProbesetData (vars s)) ->
  type_bound j s -> type_bound j s'.
Proof. intros Hl Hlen. unfold type_bound. rewrite Hl, Hlen. auto. Qed.

Lemma last_named_ge (name : string) (cols : list string) :
  forall i j : nat, last_named name i cols = Some j -> (i <= j)%nat.
Proof.
  induction cols as [|c cols IH]; intros i j; cbn [last_named]; [discriminate|].
  destruct (last_named name (S i) cols) as [j'|] eqn:E.
  - intros H. inversion H; subst. apply IH in E. lia.
  - destruct (String.eqb c name); [|discriminate]. intros H. inversion H. lia.
Qed.

(** The level-0 column loop binds each column other than "probeset_id"
    to the next free slot, and leaves in [m_ProbesetTypeCol] the slot of
    the last column named "type". *)
Lemma bindProbesetColumns_bound (cols : list string) :
  forall (i k : nat) (found : bool) (tc : nat) (names : list string)
         (binds : list (nat * nat)) (k' : nat) (found' : bool) (tc' : nat)
         (names' : list string) (binds' : list (nat * nat)),
    bindProbesetColumns i cols (k, found, tc, names, binds)
    = inr (k', found', tc', names', binds') ->
    exists new,
      binds' = binds ++ new
      /\ (forall b, In b new -> (k <= snd b < k')%nat)
      /\ List.NoDup (map snd new)
      /\ (k <= k' <= k + List.length cols)%nat
      /\ match last_named "type" i cols with
         | Some j => In (j, tc') new /\ found' = true
         | None => tc' = tc /\ found' = found
         end.
Proof.
  induction cols as [|c cols IH]; intros i k found tc names binds k' found' tc' names' binds' H.
  - cbn in H. inversion H; subst. exists []. rewrite app_nil_r. cbn.
    split; [reflexivity|]. split; [intros b []|]. split; [constructor|].
    split; [lia|]. split; reflexivity.
  - cbn [bindProbesetColumns] in H.
    destruct (Nat.eqb i 0 && negb (String.eqb c "probeset_id")); [discriminate|].
    cbn [last_named List.length].
    destruct (String.eqb c "probeset_id") eqn:Eid; cbn [negb] in H.
    + destruct (IH _ _ _ _ _ _ _ _ _ _ _ H) as (new & Hb & Hr & Hnd & Hk & Hty).
      exists new. split; [exact Hb|]. split; [exact Hr|]. split; [exact Hnd|].
      split; [lia|].
      destruct (last_named "type" (S i) cols) as [j|]; [exact Hty|].
      assert (Et : String.eqb c "type" = false).
      { apply String.eqb_eq in Eid. subst c. reflexivity. }
      rewrite Et. exact Hty.
    + destruct (String.eqb c "type") eqn:Et.
      * destruct (IH _ _ _ _ _ _ _ _ _ _ _ H) as (new & Hb & Hr & Hnd & Hk & Hty).
        exists ((i, k) :: new). split; [rewrite Hb, <- app_assoc; reflexivity|].
        split.
        { intros b [<-|Hin]; [cbn; lia|]. apply Hr in Hin. lia. }
        split.
        { cbn [map snd]. constructor; [|exact Hnd].
          intros Hin. apply in_map_iff in Hin. destruct Hin as (b & Eb & Hin).
          apply Hr in Hin. lia. }
        split; [lia|].
        destruct (last_named "type" (S i) cols) as [j|].
        -- destruct Hty as [Hin Hf]. split; [right; exact Hin|exact Hf].
        -- destruct Hty as [-> ->]. split; [left; reflexivity|reflexivity].
      * destruct (IH _ _ _ _ _ _ _ _ _ _ _ H) as (new & Hb & Hr & Hnd & Hk & Hty).
        exists ((i, k) :: new). split; [rewrite Hb, <- app_assoc; reflexivity|].
        split.
        { intros b [<-|Hin]; [cbn; lia|]. apply Hr in Hin. lia. }
        split.
        { cbn [map snd]. constructor; [|exact Hnd].
          intros Hin. apply in_map_iff in Hin. destruct Hin as (b & Eb & Hin).
          apply Hr in Hin. lia. }
        split; [lia|].
        destruct (last_named "type" (S i) cols) as [j|].
        -- destruct Hty as [Hin Hf]. split; [right; exact Hin|exact Hf].
        -- exact Hty.
Qed.

(** The loop from column 0 gets through only when that column is
    "probeset_id", which takes no slot. *)
Lemma bindProbesetColumns_start (cols : list string) (tc : nat) (names : list string)
  (k' : nat) (found' : bool) (tc' : nat) (names' : list string) (binds' : list (nat * nat)) :
  cols <> [] ->
  bindProbesetColumns 0 cols (0%nat, false, tc, names, []) = inr (k', found', tc', names', binds') ->
  List.NoDup (map snd binds')
  /\ (forall b, In b binds' -> (snd b < List.length cols - 1)%nat)
  /\ match last_named "type" 0 cols with
     | Some j => In (j, tc') binds' /\ found' = true
     | None => found' = false
     end.
Proof.
  intros Hne H. destruct cols as [|c cols]; [congruence|].
  assert (Eid : String.eqb c "probeset_id" = true).
  { cbn [bindProbesetColumns] in H. destruct (String.eqb c "probeset_id"); [reflexivity|].
    discriminate. }
  destruct (bindProbesetColumns_bound _ _ _ _ _ _ _ _ _ _ _ _ H)
    as (new & Hb & Hr & Hnd & Hk & Hty).
  cbn [app] in Hb. subst binds'.
  cbn [bindProbesetColumns] in H. rewrite Eid in H. cbn [Nat.eqb andb negb] in H.
  destruct (bindProbesetColumns_bound _ _ _ _ _ _ _ _ _ _ _ _ H)
    as (new1 & Hb1 & Hr1 & _ & Hk1 & _).
  cbn [app] in Hb1. subst new1.
  split; [exact Hnd|]. split.
  { intros b Hin. apply Hr1 in Hin. cbn [List.length]. lia. }
  destruct (last_named "type" 0 (c :: cols)); [exact Hty|apply Hty].
Qed.

(** ** What a run that comes to [writeMatches] has set up *)

Lemma openInputFiles_outcome (env : Env) (s s' : dumpPgf) :
  openInputFiles env s = (inr tt, s') ->
  exists pgf cat,
    tsv_open_pgf env (m_PgfFileName (members s)) (m_DumpProbesetsOnly (members s)) = Some pgf
    /\ bindColumns (members s) (layout s) pgf = inr cat
    /\ members s' = members s
    /\ m_ProbesetIds s' = m_ProbesetIds s /\ m_ProbeIds s' = m_ProbeIds s
    /\ m_Out (io s') = m_Out (io s) /\ m_OutLine (io s') = m_OutLine (io s)
    /\ lookups (io s') = lookups (io s)
    /\ m_PgfTsv (layout s') = Some pgf
    /\ joined (the_clf env (members s)) s'
    /\ binds0 (layout s') = cat_binds0 cat
    /\ m_ProbesetTypeCol (layout s') = cat_ProbesetTypeCol cat
    /\ m_OutputColNames (layout s') = cat_OutputColNames cat
    /\ pgf_index (layout s') = pgf_index (layout s) ++ requested_index (members s)
    /\ List.length (m_ProbesetData (vars s'))
       = Z.to_nat (usub1 (Z.of_nat (List.length (pgf_cols0 pgf)))).
Proof.
  intros H. unfold openInputFiles, openPgfFile, bind in H. simpl in H.
  destruct (tsv_open_pgf env (m_PgfFileName (members s)) (m_DumpProbesetsOnly (members s)))
    as [pgf|] eqn:Hopen; [|discriminate]. simpl in H.
  unfold openClfFile, bind in H. simpl in H.
  exists pgf. unfold the_clf, joined.
  destruct (str_empty (m_ClfFileName (members s))) eqn:Ec; simpl in H.
  - unfold lift_err in H.
    destruct (bindColumns (members s) (layout s) pgf) as [e|cat] eqn:Ecat; [discriminate|].
    inversion H; subst s'. clear H. exists cat. simpl. rewrite length_resize.
    repeat (split; [reflexivity|]). split; [|repeat split; reflexivity].
    apply str_empty_true. exact Ec.
  - assert (Hne : m_ClfFileName (members s) <> "") by (apply str_empty_false; exact Ec).
    destruct (fs_clf env (m_ClfFileName (members s))) as [clf|]; [|discriminate]. simpl in H.
    destruct (clf_sequential clf) eqn:Eseq; simpl in H; unfold lift_err in H;
      destruct (bindColumns (members s) (layout s) pgf) as [e|cat] eqn:Ecat;
      try discriminate; inversion H; subst s'; clear H; exists cat; simpl;
      rewrite length_resize, ?Eseq;
      repeat (split; [reflexivity|]).
    + split; [|repeat split; reflexivity]. repeat split; try reflexivity. exact Hne.
    + split; [|repeat split; reflexivity].
      split; [exact Hne|]. split; [reflexivity|]. split; [reflexivity|].
      rewrite index_defined_app. simpl. apply orb_true_r.
Qed.

Lemma tsv_open_pgf_some (env : Env) (name : string) (only : bool) (pgf : PgfSource) :
  tsv_open_pgf env name only = Some pgf ->
  fs_pgf env name = Some pgf /\ pgf_cols0 pgf <> [].
Proof.
  unfold tsv_open_pgf. destruct (fs_pgf env name) as [src|]; [|discriminate].
  destruct (std_find (pgf_cols0 src) "probeset_id") eqn:E0; [|discriminate].
  destruct (only || std_find (pgf_cols2 src) "probe_id"); [|discriminate].
  intros H. inversion H; subst. split; [reflexivity|].
  apply (std_find_nonempty _ _ E0).
Qed.

Lemma bindColumns_type (mb : Members) (lay : Layout) (pgf : PgfSource) (cat : Catalog) :
  bindColumns mb lay pgf = inr cat -> binds0 lay = [] -> pgf_cols0 pgf <> [] ->
  List.NoDup (map snd (cat_binds0 cat))
  /\ (forall b, In b (cat_binds0 cat) -> (snd b < List.length (pgf_cols0 pgf) - 1)%nat)
  /\ match last_named "type" 0 (pgf_cols0 pgf) with
     | Some j => In (j, cat_ProbesetTypeCol cat) (cat_binds0 cat)
     | None => m_ProbesetTypes mb = []
     end.
Proof.
  intros H Hb0 Hne. unfold bindColumns in H. rewrite Hb0 in H.
  destruct (bindProbesetColumns 0 (pgf_cols0 pgf)
              (0%nat, false, m_ProbesetTypeCol lay, m_OutputColNames lay, []))
    as [e|[[[[k found] tc] names] b0]] eqn:E; [discriminate|].
  destruct (bindProbesetColumns_start _ _ _ _ _ _ _ _ Hne E) as (Hnd & Hr & Hty).
  assert (Hcat : cat_binds0 cat = b0 /\ cat_ProbesetTypeCol cat = tc
                 /\ (found = false -> m_ProbesetTypes mb = [])).
  { destruct (negb (vec_empty (m_ProbesetTypes mb)) && negb found) eqn:Et; [discriminate|].
    assert (Hf : found = false -> m_ProbesetTypes mb = []).
    { intros ->. destruct (m_ProbesetTypes mb); [reflexivity|discriminate]. }
    destruct (m_DumpProbesetsOnly mb).
    - inversion H; subst. cbn. auto.
    - destruct (bindAtomColumns 0 (pgf_cols1 pgf) (0%nat, names, binds1 lay))
        as [[k1 names1] b1].
      destruct (bindProbeColumns 0 (pgf_cols2 pgf) (k1, names1, binds2 lay))
        as [e|[[k2 names2] b2]]; [discriminate|].
      inversion H; subst. cbn. auto. }
  destruct Hcat as (-> & -> & Hf).
  split; [exact Hnd|]. split; [exact Hr|].
  destruct (last_named "type" 0 (pgf_cols0 pgf)); [apply Hty|apply Hf; exact Hty].
Qed.

Lemma writeOutputHeader_success (env : Env) (s s' : dumpPgf) :
  m_OutLine (io s) = "" -> writeOutputHeader env s = (inr tt, s') ->
  m_OutputColNames (layout s) <> []
  /\ s' = emitted (preamble env s
                   ++ copied_tags (match m_PgfTsv (layout s) with
                                   | Some pgf => pgf_headers pgf
                                   | None => []
                                   end)
                   ++ [headerLine (m_OutputColNames (layout s))]) s.
Proof.
  intros Hline H.
  destruct (m_OutputColNames (layout s)) as [|n names] eqn:En.
  - exfalso. unfold writeOutputHeader in H.
    do 3 (erewrite bind_inr in H by reflexivity).
    do 5 (rewrite emit_line_bind in H by exact Hline).
    erewrite bind_inr in H by (apply copy_headers_emitted; exact Hline).
    rewrite En in H. erewrite bind_inl in H by reflexivity. discriminate.
  - split; [discriminate|].
    rewrite writeOutputHeader_emitted in H by (try exact Hline; rewrite En; discriminate).
    rewrite En in H. inversion H. reflexivity.
Qed.

(** A run that comes to [writeMatches]: the command line was accepted,
    the id files and the input files were opened and the head of the
    output is written. *)
Lemma upto_writeMatches_reaches (env : Env) (version cvsId : string) (o : Options)
  (s : dumpPgf) :
  upto_writeMatches env version cvsId o = (inr tt, s) ->
  exists pgf cat s_b s_r,
    main env version cvsId o = writeMatches env s
    /\ acceptable env o
    /\ members s = chosen version cvsId o
    /\ fs_pgf env (opt_pgf_file o) = Some pgf /\ pgf_cols0 pgf <> []
    /\ m_PgfTsv (layout s) = Some pgf
    /\ joined (the_clf env (chosen version cvsId o)) s
    /\ m_OutLine (io s) = ""
    /\ lookups (io s) = []
    /\ pgf_index (layout s) = requested_index (chosen version cvsId o)
    /\ bindColumns (chosen version cvsId o) (layout (blank (indeterminate env))) pgf = inr cat
    /\ binds0 (layout s) = cat_binds0 cat
    /\ m_ProbesetTypeCol (layout s) = cat_ProbesetTypeCol cat
    /\ List.length (m_ProbesetData (vars s))
       = Z.to_nat (usub1 (Z.of_nat (List.length (pgf_cols0 pgf))))
    /\ members s_b = chosen version cvsId o
    /\ m_ProbesetIds s_b = [] /\ m_ProbeIds s_b = []
    /\ readIdFiles env s_b = (inr tt, s_r)
    /\ m_ProbesetIds s = m_ProbesetIds s_r /\ m_ProbeIds s = m_ProbeIds s_r.
Proof.
  intros H. unfold upto_writeMatches in H.
  destruct (dumpPgf_ctor env version cvsId o (blank (indeterminate env)))
    as [[e|[]] s_c] eqn:Ec; [erewrite bind_inl in H by exact Ec; discriminate|].
  erewrite bind_inr in H by exact Ec.
  destruct (proj1 (dumpPgf_ctor_accepts env version cvsId o _ _) Ec) as [Hacc Hs_c].
  set (s_b := snd (beginOutput env s_c)).
  assert (Eb : beginOutput env s_c = (inr tt, s_b)) by reflexivity.
  destruct (readIdFiles env s_b) as [[e|[]] s_r] eqn:Er.
  { exfalso. unfold setup in H. rewrite bind_assoc in H.
    erewrite bind_inr in H by exact Eb. rewrite bind_assoc in H.
    erewrite bind_inl in H by exact Er. discriminate. }
  destruct (openInputFiles env s_r) as [[e|[]] s_o] eqn:Eo.
  { exfalso. unfold setup in H. rewrite bind_assoc in H.
    erewrite bind_inr in H by exact Eb. rewrite bind_assoc in H.
    erewrite bind_inr in H by exact Er. erewrite bind_inl in H by exact Eo. discriminate. }
  assert (Esetup : setup env s_c = (inr tt, s_o)).
  { unfold setup. erewrite bind_inr by exact Eb. erewrite bind_inr by exact Er. exact Eo. }
  erewrite bind_inr in H by exact Esetup.
  destruct (readIdFiles_quiet env s_b _ s_r Er) as (Hm_r & Hl_r & Hv_r & _ & Ho_r & Hline_r & Hk_r).
  assert (Hm_b : members s_b = chosen version cvsId o) by (unfold s_b; rewrite Hs_c; reflexivity).
  assert (Hl_b : layout s_b = layout (blank (indeterminate env)))
    by (unfold s_b; rewrite Hs_c; reflexivity).
  assert (Hline_b : m_OutLine (io s_b) = "") by (unfold s_b; rewrite Hs_c; reflexivity).
  assert (Hk_b : lookups (io s_b) = []) by (unfold s_b; rewrite Hs_c; reflexivity).
  destruct (openInputFiles_outcome env s_r s_o Eo)
    as (pgf & cat & Hopen & Ecat & Hm_o & Hi_o & Hp_o & Ho_o & Hline_o & Hk_o & Hpgf_o & Hj_o
        & Hb0_o & Htc_o & Hn_o & Hpi_o & Hlen_o).
  rewrite Hm_r, Hm_b in Hopen, Ecat, Hm_o, Hj_o, Hpi_o. rewrite Hl_r, Hl_b in Ecat, Hpi_o.
  destruct (tsv_open_pgf_some env _ _ pgf Hopen) as [Hfs Hne].
  assert (Hline_o' : m_OutLine (io s_o) = "") by (rewrite Hline_o, Hline_r; exact Hline_b).
  destruct (writeOutputHeader_success env s_o s Hline_o' H) as [_ Hs].
  exists pgf, cat, s_b, s_r.
  split.
  { unfold main. erewrite bind_inr by exact Ec. rewrite run_setup.
    erewrite bind_inr by exact Esetup. erewrite bind_inr by exact H. reflexivity. }
  split; [exact Hacc|].
  rewrite Hs. cbn [emitted set_io members layout vars io m_OutLine lookups m_ProbesetIds
                     m_ProbeIds].
  split; [exact Hm_o|]. split; [exact Hfs|]. split; [exact Hne|]. split; [exact Hpgf_o|].
  split; [eapply joined_frame; [| |exact Hj_o]; reflexivity|].
  split; [exact Hline_o'|].
  split; [rewrite Hk_o, Hk_r; exact Hk_b|].
  split; [exact Hpi_o|]. split; [exact Ecat|]. split; [exact Hb0_o|]. split; [exact Htc_o|].
  split; [exact Hlen_o|]. split; [exact Hm_b|].
  split; [unfold s_b; rewrite Hs_c; reflexivity|].
  split; [unfold s_b; rewrite Hs_c; reflexivity|].
  split; [exact Er|]. split; [exact Hi_o|exact Hp_o].
Qed.

Lemma joined_chosen (clf : option ClfSource) (s : dumpPgf) :
  joined clf s ->
  m_ClfFileName (members s) = "" \/ m_GetProbeCoordinates (layout s) <> None.
Proof.
  unfold joined. destruct clf as [c|]; [|auto]. intros (_ & _ & Hm). right.
  destruct (clf_sequential c); [rewrite Hm; discriminate|].
  destruct Hm as [Hm _]. rewrite Hm. discriminate.
Qed.

Lemma joined_name (env : Env) (mb : Members) (s : dumpPgf) :
  members s = mb -> joined (the_clf env mb) s ->
  forall id, clashes (the_clf env mb) id = true -> m_ClfFileName mb <> "".
Proof.
  intros Hm Hj id Hc. destruct (clashes_joined _ s id Hj Hc) as (Hne & _).
  rewrite Hm in Hne. exact Hne.
Qed.

Lemma existsb_std_find (types path : list string) :
  existsb (std_find types) path = true <-> exists t, In t types /\ In t path.
Proof.
  rewrite existsb_exists. split.
  - intros (t & Hp & Ht). exists t. split; [apply std_find_In; exact Ht|exact Hp].
  - intros (t & Ht & Hp). exists t. split; [exact Hp|apply std_find_In; exact Ht].
Qed.

(** The tests of the two loops of [writeMatches] decide what the
    requested types select. *)
Lemma wanted_selects (types : list string) (union : bool) (path : list string) :
  types <> [] -> wanted types union path = true <-> selects types union path.
Proof.
  intros Hne. unfold wanted, selects. destruct types as [|t0 types]; [congruence|].
  cbn [vec_empty]. destruct union.
  - apply existsb_std_find.
  - apply noMismatchFound_all.
Qed.

Lemma before_first_at {A : Type} (f : A -> bool) (before : list A) (x : A) (after : list A) :
  (forall y, In y before -> f y = false) -> f x = true ->
  before_first f (before ++ x :: after) = before
  /\ List.find f (before ++ x :: after) = Some x.
Proof.
  intros Hb Hx. apply find_none_forall in Hb.
  destruct (before_first_app_none f before (x :: after) Hb) as [E1 E2].
  rewrite E1, E2. cbn [before_first List.find]. rewrite Hx, app_nil_r. split; reflexivity.
Qed.

(** What [dump_of] says of a full dump, case by case. *)
Lemma dump_of_full (clf : option ClfSource) (name : string) (kept : list ParentRecord)
  (r : Error + unit) (lines : list string) :
  dump_of false clf name kept r lines ->
  ((forall pl, In pl (leaves_of kept) -> clashes clf (leaf_id (snd pl)) = false) ->
   r = inr tt
   /\ Forall2 (fun pl line => leaf_line (parent_id (fst pl)) (snd pl) line)
        (leaves_of kept) lines
   /\ List.length lines = List.length (leaves_of kept))
  /\ (forall before pl after,
        leaves_of kept = before ++ pl :: after ->
        (forall x, In x before -> clashes clf (leaf_id (snd x)) = false) ->
        clashes clf (leaf_id (snd pl)) = true ->
        r = inl (not_unique "probe_id" (leaf_id (snd pl)) "clf" name)
        /\ Forall2 (fun x line => leaf_line (parent_id (fst x)) (snd x) line) before lines
        /\ List.length lines = List.length before).
Proof.
  unfold dump_of. intros [Hr Hall]. split.
  - intros Hno. apply find_none_forall in Hno.
    unfold join_result in Hr. rewrite Hno in Hr.
    rewrite before_first_all in Hall by exact Hno.
    split; [exact Hr|]. split; [exact Hall|]. symmetry. eapply Forall2_length. exact Hall.
  - intros before pl after Hsplit Hb Hc.
    destruct (before_first_at (fun x => clashes clf (leaf_id (snd x))) before pl after Hb Hc)
      as [E1 E2].
    unfold join_result in Hr. rewrite Hsplit, E2 in Hr. rewrite Hsplit, E1 in Hall.
    split; [exact Hr|]. split; [exact Hall|]. symmetry. eapply Forall2_length. exact Hall.
Qed.

Lemma usub1_length (cols : list string) :
  cols <> [] -> (Z.of_nat (List.length cols) < 2 ^ 32)%Z ->
  Z.to_nat (usub1 (Z.of_nat (List.length cols))) = (List.length cols - 1)%nat.
Proof.
  intros Hne Hsize. destruct cols as [|c cols]; [congruence|].
  cbn [List.length] in *. rewrite usub1_succ by exact Hsize. lia.
Qed.

(** C8, amended: in a run with no selection filter that gets as far as
    [writeMatches] (the files opened, the columns bound, the header
    written, the state then being [s]), [writeMatches] visits every
    parent record of the source in stored order.  With --probeset-only it
    writes exactly one line per parent record, each beginning with its
    id, and ends normally.  In a full dump it writes exactly one line per
    leaf record, in stored order, each carrying its parent's id and its
    own, and ends normally, as long as no leaf id has more than one line
    in a clf file that is looked up by index; at the first leaf whose id
    has, the run ends with the not-a-unique-index error of the clf file,
    one line having been written for each leaf before that one and none
    for it or for any leaf after it. *)
Theorem unfiltered_dump_one_line_per_record
  (env : Env) (version cvsId : string) (o : Options) (s : dumpPgf) (pgf : PgfSource) :
  upto_writeMatches env version cvsId o = (inr tt, s) ->
  nonempty_values (opt_probeset_type o) = [] ->
  nonempty_values (opt_probeset_ids o) = [] ->
  nonempty_values (opt_probe_ids o) = [] ->
  fs_pgf env (opt_pgf_file o) = Some pgf ->
  let clf := the_clf env (chosen version cvsId o) in
  let leaves := leaves_of (pgf_records pgf) in
  exists r s' lines,
    main env version cvsId o = (r, s')
    /\ (exists msg, main env version cvsId o
                    = forM_ (pgf_records pgf) dumpEvery (set_io (put_cerr msg (io s)) s))
    /\ m_Out (io s') = m_Out (io s) ++ lines
    /\ (opt_probeset_only o = true ->
        r = inr tt /\ Forall2 parent_line (pgf_records pgf) lines
        /\ List.length lines = List.length (pgf_records pgf))
    /\ (opt_probeset_only o = false ->
        (forall pl, In pl leaves -> clashes clf (leaf_id (snd pl)) = false) ->
        r = inr tt
        /\ Forall2 (fun pl line => leaf_line (parent_id (fst pl)) (snd pl) line) leaves lines
        /\ List.length lines = List.length leaves)
    /\ (opt_probeset_only o = false ->
        forall before pl after,
          leaves = before ++ pl :: after ->
          (forall x, In x before -> clashes clf (leaf_id (snd x)) = false) ->
          clashes clf (leaf_id (snd pl)) = true ->
          r = inl (not_unique "probe_id" (leaf_id (snd pl)) "clf" (opt_clf_file o))
          /\ Forall2 (fun x line => leaf_line (parent_id (fst x)) (snd x) line) before lines
          /\ List.length lines = List.length before).
Proof.
  intros Hup Hty Hin Hpn Hfs. cbv zeta.
  destruct (upto_writeMatches_reaches env version cvsId o s Hup)
    as (pgf' & cat & s_b & s_r & Emain & Hacc & Hm & Hfs' & _ & Hpgf & Hj & Hline & _).
  assert (pgf' = pgf) by congruence. subst pgf'.
  destruct (writeMatches_scanBody env s) as (msg & Ew).
  { rewrite Hm. exact Hin. }
  { rewrite Hm. exact Hpn. }
  { apply (joined_chosen _ s Hj). }
  assert (Hrec : pgf_of s = pgf_records pgf) by (unfold pgf_of; rewrite Hpgf; reflexivity).
  rewrite Hm in Ew. cbn [chosen m_ProbesetTypes m_DumpUnion] in Ew. rewrite Hty, Hrec in Ew.
  change (scanBody [] (opt_or o)) with dumpEvery in Ew.
  set (s5 := set_io (put_cerr msg (io s)) s) in *.
  destruct (scan_outcome (the_clf env (chosen version cvsId o)) [] (opt_or o)
              (fun _ => true) (pgf_records pgf) s5)
    as (r & s' & lines & E' & Ho & Hd & _).
  { eapply joined_frame; [| |exact Hj]; reflexivity. }
  { exact Hline. }
  { reflexivity. }
  change (scanBody [] (opt_or o)) with dumpEvery in E'.
  change (members s5) with (members s) in Hd. rewrite Hm in Hd.
  cbn [chosen m_DumpProbesetsOnly m_ClfFileName] in Hd.
  rewrite (forallb_filter_id (fun _ => true)) in Hd by (apply forallb_forall; reflexivity).
  exists r, s', lines.
  split; [rewrite Emain, Ew; exact E'|].
  split; [exists msg; rewrite Emain; exact Ew|].
  split; [exact Ho|].
  split; [|split].
  - intros Honly. rewrite Honly in Hd. destruct Hd as [-> Hall].
    split; [reflexivity|]. split; [exact Hall|]. symmetry. eapply Forall2_length. exact Hall.
  - intros Honly. rewrite Honly in Hd. apply (proj1 (dump_of_full _ _ _ _ _ Hd)).
  - intros Honly. rewrite Honly in Hd. apply (proj2 (dump_of_full _ _ _ _ _ Hd)).
Qed.

Lemma one_selection_types (mb : Members) :
  one_selection mb -> m_ProbesetTypes mb <> [] ->
  m_ProbesetIdFileNames mb = [] /\ m_ProbeIdFileNames mb = [].
Proof. intros [[H _]|[[H _]|[H1 H2]]] Hne; [congruence|congruence|auto]. Qed.


Lemma acceptable_one_selection (env : Env) (version cvsId : string) (o : Options) :
  acceptable env o -> one_selection (chosen version cvsId o).
Proof. intros (_ & _ & _ & _ & H & _). exact H. Qed.

(** C3: in a run that selects by type and gets as far as
    [writeMatches] (the state then being [s]), over a schema of fewer
    than 2^32 level-0 columns (the range of the source's unsigned column
    count), a parent record is accepted
    exactly when, with --or, at least one requested string equals some
    segment of the record's type field split at "->", and, by default,
    when every requested string does.  The type field is the record's
    field in the last column named "type", and accepted means dumped: the
    lines the run writes after the header are those of the accepted
    records, in stored order, one line per record with --probeset-only,
    else one line per leaf record (up to a leaf whose id clashes in the
    clf file, where the run ends); a record that is not accepted
    contributes no line. *)
Theorem type_selection_accepts_iff
  (env : Env) (version cvsId : string) (o : Options) (s : dumpPgf) (pgf : PgfSource)
  (j : nat) :
  upto_writeMatches env version cvsId o = (inr tt, s) ->
  nonempty_values (opt_probeset_type o) <> [] ->
  fs_pgf env (opt_pgf_file o) = Some pgf ->
  last_named "type" 0 (pgf_cols0 pgf) = Some j ->
  (Z.of_nat (List.length (pgf_cols0 pgf)) < 2 ^ 32)%Z ->
  let requested := nonempty_values (opt_probeset_type o) in
  exists (accepts : ParentRecord -> bool) r s' lines,
    (forall p, accepts p = true
               <-> selects requested (opt_or o) (splitTypes (parent_cell p j)))
    /\ main env version cvsId o = (r, s')
    /\ m_Out (io s') = m_Out (io s) ++ lines
    /\ dump_of (opt_probeset_only o) (the_clf env (chosen version cvsId o)) (opt_clf_file o)
         (List.filter accepts (pgf_records pgf)) r lines.
Proof.
  intros Hup Hty Hfs Hlast Hsize. cbv zeta.
  destruct (upto_writeMatches_reaches env version cvsId o s Hup)
    as (pgf' & cat & s_b & s_r & Emain & Hacc & Hm & Hfs' & Hne & Hpgf & Hj & Hline & _ & _
        & Ecat & Hb0 & Htc & Hlen & _).
  assert (pgf' = pgf) by congruence. subst pgf'.
  destruct (one_selection_types _ (acceptable_one_selection env version cvsId o Hacc) Hty)
    as [Hin Hpn].
  destruct (bindColumns_type _ _ pgf cat Ecat eq_refl Hne) as (Hnd & Hr & Hbound).
  rewrite Hlast in Hbound.
  assert (Hbd : type_bound j s).
  { unfold type_bound. rewrite Hb0, Htc, Hlen, usub1_length by assumption.
    split; [exact Hbound|]. split; [exact Hnd|]. apply (Hr _ Hbound). }
  destruct (writeMatches_scanBody env s) as (msg & Ew).
  { rewrite Hm. exact Hin. }
  { rewrite Hm. exact Hpn. }
  { apply (joined_chosen _ s Hj). }
  assert (Hrec : pgf_of s = pgf_records pgf) by (unfold pgf_of; rewrite Hpgf; reflexivity).
  rewrite Hm in Ew. cbn [chosen m_ProbesetTypes m_DumpUnion] in Ew. rewrite Hrec in Ew.
  set (requested := nonempty_values (opt_probeset_type o)) in *.
  set (s5 := set_io (put_cerr msg (io s)) s) in *.
  destruct (scan_outcome (the_clf env (chosen version cvsId o)) requested (opt_or o)
              (fun p => wanted requested (opt_or o) (splitTypes (parent_cell p j)))
              (pgf_records pgf) s5)
    as (r & s' & lines & E' & Ho & Hd & _).
  { eapply joined_frame; [| |exact Hj]; reflexivity. }
  { exact Hline. }
  { intros s1 p Hm1 Hl1 Hlen1. rewrite (type_bound_path j); [reflexivity|].
    apply (type_bound_frame j s); [exact Hl1|exact Hlen1|exact Hbd]. }
  change (members s5) with (members s) in Hd. rewrite Hm in Hd.
  cbn [chosen m_DumpProbesetsOnly m_ClfFileName] in Hd.
  exists (fun p => wanted requested (opt_or o) (splitTypes (parent_cell p j))), r, s', lines.
  split; [intros p; apply wanted_selects; exact Hty|].
  split; [rewrite Emain, Ew; exact E'|].
  split; [exact Ho|exact Hd].
Qed.

(** ** The id loops, turn by turn *)








(** ** The runs of the worked example *)

Lemma unfiltered_dump_one_line_per_record_witness :
  exists s' lines,
    main sample_env "1.0" "id" full_dump = (inr tt, s')
    /\ m_Out (io s')
       = m_Out (io (snd (upto_writeMatches sample_env "1.0" "id" full_dump))) ++ lines
    /\ List.length lines = 5%nat.
Proof.
  destruct (unfiltered_dump_one_line_per_record sample_env "1.0" "id" full_dump
              (snd (upto_writeMatches sample_env "1.0" "id" full_dump)) sample_pgf)
    as (r & s' & lines & E & _ & Hout & _ & Hfull & _).
  - vm_compute; reflexivity.
  - reflexivity.
  - reflexivity.
  - reflexivity.
  - reflexivity.
  - destruct (Hfull eq_refl) as (-> & _ & Hlen); [intros pl _; reflexivity|].
    exists s', lines. split; [exact E|]. split; [exact Hout|]. rewrite Hlen. reflexivity.
Defined.

(** An unfiltered full dump, with a clf file in which probe 104 has two
    lines: of the five leaf records of the source, the three before
    probe 104 get their line, and the run ends on the error. *)
Lemma unfiltered_dump_stops_at_clash :
  nonempty_values (opt_probeset_type with_coordinates) = []
  /\ nonempty_values (opt_probeset_ids with_coordinates) = []
  /\ nonempty_values (opt_probe_ids with_coordinates) = []
  /\ opt_probeset_only with_coordinates = false
  /\ List.length (leaves_of (pgf_records sample_pgf)) = 5%nat
  /\ fst (main sample_env "1.0" "id" with_coordinates)
     = inl (not_unique "probe_id" 104 "clf" "a.clf")
  /\ List.length (m_Out (io (snd (main sample_env "1.0" "id" with_coordinates))))
     = (List.length (m_Out (io (snd (upto_writeMatches sample_env "1.0" "id"
                                        with_coordinates)))) + 3)%nat.
Proof. vm_compute. repeat split; reflexivity. Qed.

Lemma type_selection_accepts_iff_witness :
  exists s' lines,
    main sample_env "1.0" "id" by_types = (inr tt, s')
    /\ m_Out (io s')
       = m_Out (io (snd (upto_writeMatches sample_env "1.0" "id" by_types))) ++ lines
    /\ List.length lines = 3%nat.
Proof.
  destruct (type_selection_accepts_iff sample_env "1.0" "id" by_types
              (snd (upto_writeMatches sample_env "1.0" "id" by_types)) sample_pgf 1)
    as (accepts & r & s' & lines & Hiff & E & Hout & Hd).
  - vm_compute; reflexivity.
  - vm_compute. discriminate.
  - reflexivity.
  - reflexivity.
  - vm_compute; reflexivity.
  - assert (Hno : forall p,
              ~ In "main" (splitTypes (parent_cell p 1))
              \/ ~ In "rescue" (splitTypes (parent_cell p 1)) ->
              accepts p = false).
    { intros p Hp. destruct (accepts p) eqn:Ea; [|reflexivity]. exfalso.
      apply Hiff in Ea. destruct Hp as [Hp|Hp]; apply Hp; apply Ea; vm_compute; auto. }
    assert (Hkept : List.filter accepts (pgf_records sample_pgf)
                    = [mkParent 5 ["main->rescue->v1"; "ps5"]
                         [ mkMid ["a1"] [mkLeaf 101 ["ACGT"]; mkLeaf 102 ["TTTT"]];
                           mkMid ["a2"] [mkLeaf 103 ["GG"]] ]]).
    { cbn [pgf_records sample_pgf List.filter].
      rewrite (proj2 (Hiff (mkParent 5 ["main->rescue->v1"; "ps5"]
                              [ mkMid ["a1"] [mkLeaf 101 ["ACGT"]; mkLeaf 102 ["TTTT"]];
                                mkMid ["a2"] [mkLeaf 103 ["GG"]] ])))
        by (intros t [<-|[<-|[]]]; vm_compute; auto).
      rewrite !Hno; [reflexivity| | |].
      - left. vm_compute. intuition discriminate.
      - left. vm_compute. intuition discriminate.
      - right. vm_compute. intuition discriminate. }
    rewrite Hkept in Hd.
    destruct (proj1 (dump_of_full _ _ _ _ _ Hd)) as (-> & _ & Hlen);
      [intros pl _; reflexivity|].
    exists s', lines. split; [exact E|]. split; [exact Hout|]. rewrite Hlen. reflexivity.
Defined.


